(** * NETRUNNER (hacker_game.py): a shallow embedding and its verification

    The development follows the layout of the source file:
    - [Float]: Python [float] values as IEEE-754 binary64 numbers;
    - [Py]: the few built-ins the game relies on ([int(str)], [str.strip],
      [max]/[min], exceptions);
    - the dataclasses, one module per class, fields in source order;
    - the interpreter monad [M] (game state, console input, random
      source, clock) and the methods of [GameState] and [GameInterface];
    - [Persistence]: [SaveManager.save_game] and [GameState.load_from_dict]
      over Python value trees;
    - the verified properties. *)

From Stdlib Require Import ZArith String Ascii List Bool Lia.
From Stdlib Require Import SpecFloat.
From stdpp Require Import gmap strings list fin_maps.

Local Open Scope string_scope.
Local Open Scope list_scope.
Local Open Scope Z_scope.

(** ** Python floats

    A Python [float] is an IEEE-754 binary64 number; every arithmetic
    operation rounds to nearest, ties to even.  [SpecFloat] gives these
    operations as functions on [Z], so that the rounding of the source
    (for example [int(90 * 0.7) = 62]) is part of the model. *)
Module Float.

Definition float : Type := spec_float.
Definition prec : Z := 53.
Definition emax : Z := 1024.

(** [float(n)] for an integer [n]. *)
Definition of_Z (z : Z) : float := binary_normalize prec emax z 0 false.

Definition add : float -> float -> float := SFadd prec emax.
Definition sub : float -> float -> float := SFsub prec emax.
Definition mul : float -> float -> float := SFmul prec emax.
Definition div : float -> float -> float := SFdiv prec emax.
Definition opp : float -> float := SFopp.
Definition ltb : float -> float -> bool := SFltb.
Definition leb : float -> float -> bool := SFleb.
Definition eqb : float -> float -> bool := SFeqb.
Definition gtb (x y : float) : bool := SFltb y x.
Definition geb (x y : float) : bool := SFleb y x.

(** A decimal literal [n/d] of the source text, e.g. [0.05 = dec 5 100]:
    the double nearest to the rational, as Python's parser yields. *)
Definition dec (n d : Z) : float := div (of_Z n) (of_Z d).

Definition zero : float := S754_zero false.

(** Parser of the literals written [0.05%float] below. *)
Definition of_number (n : Number.number) : option float :=
  match n with
  | Number.Decimal (Decimal.Decimal (Decimal.Pos i) f) =>
      let scale := 10 ^ Z.of_nat (Decimal.nb_digits f) in
      Some (dec (Z.of_uint i * scale + Z.of_uint f) scale)
  | Number.Decimal (Decimal.Decimal (Decimal.Neg i) f) =>
      let scale := 10 ^ Z.of_nat (Decimal.nb_digits f) in
      Some (opp (dec (Z.of_uint i * scale + Z.of_uint f) scale))
  | _ => None
  end.
Definition to_number (x : float) : option Number.number := None.

(** [x * 2^e], exact when no rounding is needed. *)
Definition ldexp (x : float) (e : Z) : float := SFldexp prec emax x e.

(** [int(x)]: truncation toward zero; [None] stands for the
    [OverflowError]/[ValueError] Python raises on infinities and NaN. *)
Definition trunc (x : float) : option Z :=
  match x with
  | S754_zero _ => Some 0
  | S754_finite s m e =>
      Some (cond_Zopp s (if 0 <=? e then Z.shiftl (Zpos m) e
                         else Z.shiftr (Zpos m) (- e)))
  | S754_infinity _ | S754_nan => None
  end.

(** [bool(x)]: a float is falsy exactly when it is a zero. *)
Definition truthy (x : float) : bool :=
  match x with S754_zero _ => false | _ => true end.

(** Python's [max(a, b)] and [min(a, b)] on two arguments: the first
    argument is kept unless the second compares strictly better. *)
Definition py_max (a b : float) : float := if gtb b a then b else a.
Definition py_min (a b : float) : float := if ltb b a then b else a.

End Float.

Abbreviation float := Float.float.

Declare Scope float_scope.
Delimit Scope float_scope with float.
Bind Scope float_scope with Float.float.
Number Notation spec_float Float.of_number Float.to_number : float_scope.
Notation "- x" := (Float.opp x) : float_scope.
Infix "+" := Float.add : float_scope.
Infix "-" := Float.sub : float_scope.
Infix "*" := Float.mul : float_scope.
Infix "/" := Float.div : float_scope.
Infix "<?" := Float.ltb : float_scope.
Infix "<=?" := Float.leb : float_scope.
Infix ">?" := Float.gtb : float_scope.
Infix ">=?" := Float.geb : float_scope.

(** ** Python built-ins used by the game *)
Module Py.

Inductive exn : Set :=
| EOFError | KeyError | IndexError | ValueError
| ZeroDivisionError | OverflowError.

Definition is_space (c : ascii) : bool :=
  let n := nat_of_ascii c in
  ((9 <=? n) && (n <=? 13))%nat || (n =? 32)%nat || ((28 <=? n) && (n <=? 31))%nat.

Fixpoint lstrip (s : string) : string :=
  match s with
  | String c s' => if is_space c then lstrip s' else s
  | EmptyString => EmptyString
  end.

Fixpoint rstrip (s : string) : string :=
  match s with
  | String c s' =>
      match rstrip s' with
      | EmptyString => if is_space c then EmptyString else String c EmptyString
      | r => String c r
      end
  | EmptyString => EmptyString
  end.

(** [s.strip()] *)
Definition strip (s : string) : string := rstrip (lstrip s).

Definition digit_of (c : ascii) : option Z :=
  let n := nat_of_ascii c in
  if ((48 <=? n) && (n <=? 57))%nat then Some (Z.of_nat (n - 48)) else None.

(** Digits of an integer literal: groups of decimal digits separated by
    single underscores.  [after_digit] tells whether the previous
    character was a digit (an underscore is only legal there, and the
    literal cannot end on one). *)
Fixpoint digits (acc : Z) (after_digit : bool) (s : string) : option Z :=
  match s with
  | EmptyString => if after_digit then Some acc else None
  | String c s' =>
      match digit_of c with
      | Some d => digits (10 * acc + d) true s'
      | None =>
          if (Ascii.eqb c "_"%char) && after_digit then
            match s' with
            | EmptyString => None
            | String c' _ =>
                match digit_of c' with
                | Some _ => digits acc false s'
                | None => None
                end
            end
          else None
      end
  end.

(** [int(s)] for a string of ASCII characters; [None] is [ValueError]. *)
Definition int_of_str (s : string) : option Z :=
  match strip s with
  | String "-"%char r => option_map Z.opp (digits 0 false r)
  | String "+"%char r => digits 0 false r
  | r => digits 0 false r
  end.

Definition digit_char (d : Z) : ascii := ascii_of_nat (48 + Z.to_nat d).

Fixpoint pos_digits (fuel : nat) (n : Z) (acc : string) : string :=
  match fuel with
  | O => acc
  | S fuel' =>
      let acc' := String (digit_char (n mod 10)) acc in
      if n <? 10 then acc' else pos_digits fuel' (n / 10) acc'
  end.

(** [str(n)] for an integer. *)
Definition str_of_int (n : Z) : string :=
  let body := pos_digits (S (Z.to_nat (Z.log2 (Z.abs n)))) (Z.abs n) "" in
  if n <? 0 then String "-"%char body else body.

Definition upper_char (c : ascii) : ascii :=
  let n := nat_of_ascii c in
  if ((97 <=? n) && (n <=? 122))%nat then ascii_of_nat (n - 32) else c.
Definition lower_char (c : ascii) : ascii :=
  let n := nat_of_ascii c in
  if ((65 <=? n) && (n <=? 90))%nat then ascii_of_nat (n + 32) else c.

Fixpoint map_string (f : ascii -> ascii) (s : string) : string :=
  match s with
  | EmptyString => EmptyString
  | String c s' => String (f c) (map_string f s')
  end.

Definition lower : string -> string := map_string lower_char.

(** [s.capitalize()] *)
Definition capitalize (s : string) : string :=
  match s with
  | EmptyString => EmptyString
  | String c s' => String (upper_char c) (lower s')
  end.

(** Two-argument [max]/[min] on integers. *)
Definition max (a b : Z) : Z := if b >? a then b else a.
Definition min (a b : Z) : Z := if b <? a then b else a.

End Py.

(** ** Enumerations

    Each [Enum] class of the source with its [.value] string. *)

Inductive NetworkType : Set :=
| CORPORATE | GOVERNMENT | FINANCIAL | RESEARCH | CRIMINAL | MILITARY | INFRASTRUCTURE.

Inductive ExploitType : Set :=
| SQL_INJECTION | BUFFER_OVERFLOW | XSS | RCE | PRIVILEGE_ESCALATION | ZERO_DAY
| SOCIAL_ENGINEERING | MAN_IN_MIDDLE | PHISHING | SUPPLY_CHAIN | CRYPTOGRAPHIC.

Inductive ToolType : Set :=
| SCANNER | EXPLOIT_FRAMEWORK | PROXY_CHAIN | CRYPTANALYSIS | BOTNET_CONTROLLER
| KEYLOGGER | ROOTKIT.

Inductive EncryptionType : Set :=
| AES_128 | AES_256 | RSA_1024 | RSA_2048 | RSA_4096 | WEAK_HASH.

Inductive HardwareType : Set := CPU | RAM | STORAGE | COOLING.

Inductive EventType : Set :=
| GLOBAL_PATCH | POLICE_CRACKDOWN | ZERO_DAY_LEAK | NETWORK_WORM.

#[global] Instance NetworkType_eq_dec : EqDecision NetworkType.
Proof. solve_decision. Defined.
#[global] Instance ExploitType_eq_dec : EqDecision ExploitType.
Proof. solve_decision. Defined.
#[global] Instance ToolType_eq_dec : EqDecision ToolType.
Proof. solve_decision. Defined.
#[global] Instance EncryptionType_eq_dec : EqDecision EncryptionType.
Proof. solve_decision. Defined.
#[global] Instance HardwareType_eq_dec : EqDecision HardwareType.
Proof. solve_decision. Defined.
#[global] Instance EventType_eq_dec : EqDecision EventType.
Proof. solve_decision. Defined.

Definition NetworkType_value (t : NetworkType) : string :=
  match t with
  | CORPORATE => "corporate" | GOVERNMENT => "government"
  | FINANCIAL => "financial" | RESEARCH => "research"
  | CRIMINAL => "criminal" | MILITARY => "military"
  | INFRASTRUCTURE => "infrastructure"
  end.

Definition ExploitType_value (t : ExploitType) : string :=
  match t with
  | SQL_INJECTION => "sql_injection" | BUFFER_OVERFLOW => "buffer_overflow"
  | XSS => "cross_site_scripting" | RCE => "remote_code_execution"
  | PRIVILEGE_ESCALATION => "privilege_escalation" | ZERO_DAY => "zero_day"
  | SOCIAL_ENGINEERING => "social_engineering"
  | MAN_IN_MIDDLE => "man_in_the_middle" | PHISHING => "phishing"
  | SUPPLY_CHAIN => "supply_chain" | CRYPTOGRAPHIC => "cryptographic_weakness"
  end.

Definition ToolType_value (t : ToolType) : string :=
  match t with
  | SCANNER => "scanner" | EXPLOIT_FRAMEWORK => "exploit_framework"
  | PROXY_CHAIN => "proxy_chain" | CRYPTANALYSIS => "cryptanalysis"
  | BOTNET_CONTROLLER => "botnet_controller" | KEYLOGGER => "keylogger"
  | ROOTKIT => "rootkit"
  end.

Definition EncryptionType_value (t : EncryptionType) : string :=
  match t with
  | AES_128 => "aes_128" | AES_256 => "aes_256" | RSA_1024 => "rsa_1024"
  | RSA_2048 => "rsa_2048" | RSA_4096 => "rsa_4096" | WEAK_HASH => "weak_hash"
  end.

Definition HardwareType_value (t : HardwareType) : string :=
  match t with
  | CPU => "processor" | RAM => "memory" | STORAGE => "storage"
  | COOLING => "cooling"
  end.

(** [htype.name]: the member's identifier, not its value. *)
Definition HardwareType_name (t : HardwareType) : string :=
  match t with
  | CPU => "CPU" | RAM => "RAM" | STORAGE => "STORAGE" | COOLING => "COOLING"
  end.

Definition EventType_value (t : EventType) : string :=
  match t with
  | GLOBAL_PATCH => "global_patch" | POLICE_CRACKDOWN => "police_crackdown"
  | ZERO_DAY_LEAK => "zero_day_leak" | NETWORK_WORM => "network_worm"
  end.

(** ** Dataclasses

    [datetime] values are microseconds since the epoch and [timedelta]
    values are microsecond counts; only their identity matters to the
    game logic.  Every record lists the fields of its dataclass in source
    order; [with_f v x] is the assignment [x.f = v]. *)

Definition datetime : Type := Z.
Definition timedelta : Type := Z.

Module HardwareComponent.
Record t := mk {
  name : string;
  htype : HardwareType;
  level : Z;
  cost : Z;
  bonus : float;
  description : string
}.
End HardwareComponent.

Module WorldEvent.
Record t := mk {
  name : string;
  etype : EventType;
  duration : Z;
  multiplier : float;
  description : string;
  target_faction : option string;
  target_network : option NetworkType
}.
Definition with_duration (v : Z) (x : t) : t :=
  {| name := name x; etype := etype x; duration := v; multiplier := multiplier x;
     description := description x; target_faction := target_faction x;
     target_network := target_network x |}.
End WorldEvent.

Module Vulnerability.
Record t := mk {
  name : string;
  exploit_type : ExploitType;
  severity : float;
  patch_level : Z;
  discovery_difficulty : float;
  firewall_damage : Z * Z;
  trace_cost : Z;
  success_rate_base : float;
  requires_tool : option string
}.
Definition with_patch_level (v : Z) (x : t) : t :=
  {| name := name x; exploit_type := exploit_type x; severity := severity x; patch_level := v;
     discovery_difficulty := discovery_difficulty x; firewall_damage := firewall_damage x;
     trace_cost := trace_cost x; success_rate_base := success_rate_base x;
     requires_tool := requires_tool x |}.
End Vulnerability.

Module EncryptedData.
Record t := mk {
  encryption_type : EncryptionType;
  data_size : Z;
  value : Z;
  difficulty : float;
  cracked : bool
}.
Definition with_cracked (v : bool) (x : t) : t :=
  {| encryption_type := encryption_type x; data_size := data_size x; value := value x;
     difficulty := difficulty x; cracked := v |}.
End EncryptedData.

Module Employee.
Record t := mk {
  name : string;
  email : string;
  department : string;
  access_level : Z;
  social_media_activity : float;
  phishing_susceptibility : float;
  compromised : bool
}.
Definition with_phishing_susceptibility (v : float) (x : t) : t :=
  {| name := name x; email := email x; department := department x;
     access_level := access_level x; social_media_activity := social_media_activity x;
     phishing_susceptibility := v; compromised := compromised x |}.
Definition with_compromised (v : bool) (x : t) : t :=
  {| name := name x; email := email x; department := department x;
     access_level := access_level x; social_media_activity := social_media_activity x;
     phishing_susceptibility := phishing_susceptibility x; compromised := v |}.
End Employee.

Module Service.
Record t := mk {
  name : string;
  version : string;
  port : Z;
  state : string;
  vulnerabilities : list Vulnerability.t;
  encryption : option EncryptedData.t;
  employees_with_access : list Employee.t
}.
Definition with_vulnerabilities (v : list Vulnerability.t) (x : t) : t :=
  {| name := name x; version := version x; port := port x; state := state x;
     vulnerabilities := v; encryption := encryption x;
     employees_with_access := employees_with_access x |}.
End Service.

Module Honeypot.
Record t := mk {
  port : Z;
  fake_service : string;
  detection_chance : float;
  trace_increase : Z
}.
End Honeypot.

Module Tool.
Record t := mk {
  name : string;
  tool_type : ToolType;
  cost : Z;
  effectiveness : float;
  description : string;
  level_requirement : Z;
  stealth_penalty : float
}.
End Tool.

Module Botnet.
Record t := mk {
  size : Z;
  quality : float;
  maintenance_cost : Z;
  ddos_power : Z;
  detected_nodes : Z
}.
Definition with_size (v : Z) (x : t) : t :=
  {| size := v; quality := quality x; maintenance_cost := maintenance_cost x;
     ddos_power := ddos_power x; detected_nodes := detected_nodes x |}.
Definition with_quality (v : float) (x : t) : t :=
  {| size := size x; quality := v; maintenance_cost := maintenance_cost x;
     ddos_power := ddos_power x; detected_nodes := detected_nodes x |}.
Definition with_maintenance_cost (v : Z) (x : t) : t :=
  {| size := size x; quality := quality x; maintenance_cost := v; ddos_power := ddos_power x;
     detected_nodes := detected_nodes x |}.
Definition with_ddos_power (v : Z) (x : t) : t :=
  {| size := size x; quality := quality x; maintenance_cost := maintenance_cost x;
     ddos_power := v; detected_nodes := detected_nodes x |}.
Definition with_detected_nodes (v : Z) (x : t) : t :=
  {| size := size x; quality := quality x; maintenance_cost := maintenance_cost x;
     ddos_power := ddos_power x; detected_nodes := v |}.
End Botnet.

Module NetworkNode.
Record t := mk {
  uid : string;
  name : string;
  ip_address : string;
  network_type : NetworkType;
  security_rating : Z;
  firewall_strength : Z;
  max_firewall : Z;
  ice_level : Z;
  services : list Service.t;
  discovered_services : gset nat;
  discovered_vulns : gset string;
  compromised : bool;
  data_value : Z;
  trace_progress : float;
  trace_speed : float;
  last_attack_time : option datetime;
  connections : list string;
  honeypots : list Honeypot.t;
  has_siem : bool;
  has_incident_response : bool;
  admin_active : bool;
  admin_skill : Z;
  backdoor_installed : bool;
  network_segment : string;
  employees : list Employee.t;
  encrypted_traffic : list EncryptedData.t
}.
Definition with_firewall_strength (v : Z) (x : t) : t :=
  {| uid := uid x; name := name x; ip_address := ip_address x; network_type := network_type x;
     security_rating := security_rating x; firewall_strength := v;
     max_firewall := max_firewall x; ice_level := ice_level x; services := services x;
     discovered_services := discovered_services x; discovered_vulns := discovered_vulns x;
     compromised := compromised x; data_value := data_value x;
     trace_progress := trace_progress x; trace_speed := trace_speed x;
     last_attack_time := last_attack_time x; connections := connections x;
     honeypots := honeypots x; has_siem := has_siem x;
     has_incident_response := has_incident_response x; admin_active := admin_active x;
     admin_skill := admin_skill x; backdoor_installed := backdoor_installed x;
     network_segment := network_segment x; employees := employees x;
     encrypted_traffic := encrypted_traffic x |}.
Definition with_services (v : list Service.t) (x : t) : t :=
  {| uid := uid x; name := name x; ip_address := ip_address x; network_type := network_type x;
     security_rating := security_rating x; firewall_strength := firewall_strength x;
     max_firewall := max_firewall x; ice_level := ice_level x; services := v;
     discovered_services := discovered_services x; discovered_vulns := discovered_vulns x;
     compromised := compromised x; data_value := data_value x;
     trace_progress := trace_progress x; trace_speed := trace_speed x;
     last_attack_time := last_attack_time x; connections := connections x;
     honeypots := honeypots x; has_siem := has_siem x;
     has_incident_response := has_incident_response x; admin_active := admin_active x;
     admin_skill := admin_skill x; backdoor_installed := backdoor_installed x;
     network_segment := network_segment x; employees := employees x;
     encrypted_traffic := encrypted_traffic x |}.
Definition with_discovered_services (v : gset nat) (x : t) : t :=
  {| uid := uid x; name := name x; ip_address := ip_address x; network_type := network_type x;
     security_rating := security_rating x; firewall_strength := firewall_strength x;
     max_firewall := max_firewall x; ice_level := ice_level x; services := services x;
     discovered_services := v; discovered_vulns := discovered_vulns x;
     compromised := compromised x; data_value := data_value x;
     trace_progress := trace_progress x; trace_speed := trace_speed x;
     last_attack_time := last_attack_time x; connections := connections x;
     honeypots := honeypots x; has_siem := has_siem x;
     has_incident_response := has_incident_response x; admin_active := admin_active x;
     admin_skill := admin_skill x; backdoor_installed := backdoor_installed x;
     network_segment := network_segment x; employees := employees x;
     encrypted_traffic := encrypted_traffic x |}.
Definition with_discovered_vulns (v : gset string) (x : t) : t :=
  {| uid := uid x; name := name x; ip_address := ip_address x; network_type := network_type x;
     security_rating := security_rating x; firewall_strength := firewall_strength x;
     max_firewall := max_firewall x; ice_level := ice_level x; services := services x;
     discovered_services := discovered_services x; discovered_vulns := v;
     compromised := compromised x; data_value := data_value x;
     trace_progress := trace_progress x; trace_speed := trace_speed x;
     last_attack_time := last_attack_time x; connections := connections x;
     honeypots := honeypots x; has_siem := has_siem x;
     has_incident_response := has_incident_response x; admin_active := admin_active x;
     admin_skill := admin_skill x; backdoor_installed := backdoor_installed x;
     network_segment := network_segment x; employees := employees x;
     encrypted_traffic := encrypted_traffic x |}.
Definition with_compromised (v : bool) (x : t) : t :=
  {| uid := uid x; name := name x; ip_address := ip_address x; network_type := network_type x;
     security_rating := security_rating x; firewall_strength := firewall_strength x;
     max_firewall := max_firewall x; ice_level := ice_level x; services := services x;
     discovered_services := discovered_services x; discovered_vulns := discovered_vulns x;
     compromised := v; data_value := data_value x; trace_progress := trace_progress x;
     trace_speed := trace_speed x; last_attack_time := last_attack_time x;
     connections := connections x; honeypots := honeypots x; has_siem := has_siem x;
     has_incident_response := has_incident_response x; admin_active := admin_active x;
     admin_skill := admin_skill x; backdoor_installed := backdoor_installed x;
     network_segment := network_segment x; employees := employees x;
     encrypted_traffic := encrypted_traffic x |}.
Definition with_data_value (v : Z) (x : t) : t :=
  {| uid := uid x; name := name x; ip_address := ip_address x; network_type := network_type x;
     security_rating := security_rating x; firewall_strength := firewall_strength x;
     max_firewall := max_firewall x; ice_level := ice_level x; services := services x;
     discovered_services := discovered_services x; discovered_vulns := discovered_vulns x;
     compromised := compromised x; data_value := v; trace_progress := trace_progress x;
     trace_speed := trace_speed x; last_attack_time := last_attack_time x;
     connections := connections x; honeypots := honeypots x; has_siem := has_siem x;
     has_incident_response := has_incident_response x; admin_active := admin_active x;
     admin_skill := admin_skill x; backdoor_installed := backdoor_installed x;
     network_segment := network_segment x; employees := employees x;
     encrypted_traffic := encrypted_traffic x |}.
Definition with_trace_progress (v : float) (x : t) : t :=
  {| uid := uid x; name := name x; ip_address := ip_address x; network_type := network_type x;
     security_rating := security_rating x; firewall_strength := firewall_strength x;
     max_firewall := max_firewall x; ice_level := ice_level x; services := services x;
     discovered_services := discovered_services x; discovered_vulns := discovered_vulns x;
     compromised := compromised x; data_value := data_value x; trace_progress := v;
     trace_speed := trace_speed x; last_attack_time := last_attack_time x;
     connections := connections x; honeypots := honeypots x; has_siem := has_siem x;
     has_incident_response := has_incident_response x; admin_active := admin_active x;
     admin_skill := admin_skill x; backdoor_installed := backdoor_installed x;
     network_segment := network_segment x; employees := employees x;
     encrypted_traffic := encrypted_traffic x |}.
Definition with_trace_speed (v : float) (x : t) : t :=
  {| uid := uid x; name := name x; ip_address := ip_address x; network_type := network_type x;
     security_rating := security_rating x; firewall_strength := firewall_strength x;
     max_firewall := max_firewall x; ice_level := ice_level x; services := services x;
     discovered_services := discovered_services x; discovered_vulns := discovered_vulns x;
     compromised := compromised x; data_value := data_value x;
     trace_progress := trace_progress x; trace_speed := v;
     last_attack_time := last_attack_time x; connections := connections x;
     honeypots := honeypots x; has_siem := has_siem x;
     has_incident_response := has_incident_response x; admin_active := admin_active x;
     admin_skill := admin_skill x; backdoor_installed := backdoor_installed x;
     network_segment := network_segment x; employees := employees x;
     encrypted_traffic := encrypted_traffic x |}.
Definition with_connections (v : list string) (x : t) : t :=
  {| uid := uid x; name := name x; ip_address := ip_address x; network_type := network_type x;
     security_rating := security_rating x; firewall_strength := firewall_strength x;
     max_firewall := max_firewall x; ice_level := ice_level x; services := services x;
     discovered_services := discovered_services x; discovered_vulns := discovered_vulns x;
     compromised := compromised x; data_value := data_value x;
     trace_progress := trace_progress x; trace_speed := trace_speed x;
     last_attack_time := last_attack_time x; connections := v; honeypots := honeypots x;
     has_siem := has_siem x; has_incident_response := has_incident_response x;
     admin_active := admin_active x; admin_skill := admin_skill x;
     backdoor_installed := backdoor_installed x; network_segment := network_segment x;
     employees := employees x; encrypted_traffic := encrypted_traffic x |}.
Definition with_admin_active (v : bool) (x : t) : t :=
  {| uid := uid x; name := name x; ip_address := ip_address x; network_type := network_type x;
     security_rating := security_rating x; firewall_strength := firewall_strength x;
     max_firewall := max_firewall x; ice_level := ice_level x; services := services x;
     discovered_services := discovered_services x; discovered_vulns := discovered_vulns x;
     compromised := compromised x; data_value := data_value x;
     trace_progress := trace_progress x; trace_speed := trace_speed x;
     last_attack_time := last_attack_time x; connections := connections x;
     honeypots := honeypots x; has_siem := has_siem x;
     has_incident_response := has_incident_response x; admin_active := v;
     admin_skill := admin_skill x; backdoor_installed := backdoor_installed x;
     network_segment := network_segment x; employees := employees x;
     encrypted_traffic := encrypted_traffic x |}.
Definition with_backdoor_installed (v : bool) (x : t) : t :=
  {| uid := uid x; name := name x; ip_address := ip_address x; network_type := network_type x;
     security_rating := security_rating x; firewall_strength := firewall_strength x;
     max_firewall := max_firewall x; ice_level := ice_level x; services := services x;
     discovered_services := discovered_services x; discovered_vulns := discovered_vulns x;
     compromised := compromised x; data_value := data_value x;
     trace_progress := trace_progress x; trace_speed := trace_speed x;
     last_attack_time := last_attack_time x; connections := connections x;
     honeypots := honeypots x; has_siem := has_siem x;
     has_incident_response := has_incident_response x; admin_active := admin_active x;
     admin_skill := admin_skill x; backdoor_installed := v;
     network_segment := network_segment x; employees := employees x;
     encrypted_traffic := encrypted_traffic x |}.
Definition with_employees (v : list Employee.t) (x : t) : t :=
  {| uid := uid x; name := name x; ip_address := ip_address x; network_type := network_type x;
     security_rating := security_rating x; firewall_strength := firewall_strength x;
     max_firewall := max_firewall x; ice_level := ice_level x; services := services x;
     discovered_services := discovered_services x; discovered_vulns := discovered_vulns x;
     compromised := compromised x; data_value := data_value x;
     trace_progress := trace_progress x; trace_speed := trace_speed x;
     last_attack_time := last_attack_time x; connections := connections x;
     honeypots := honeypots x; has_siem := has_siem x;
     has_incident_response := has_incident_response x; admin_active := admin_active x;
     admin_skill := admin_skill x; backdoor_installed := backdoor_installed x;
     network_segment := network_segment x; employees := v;
     encrypted_traffic := encrypted_traffic x |}.
Definition with_encrypted_traffic (v : list EncryptedData.t) (x : t) : t :=
  {| uid := uid x; name := name x; ip_address := ip_address x; network_type := network_type x;
     security_rating := security_rating x; firewall_strength := firewall_strength x;
     max_firewall := max_firewall x; ice_level := ice_level x; services := services x;
     discovered_services := discovered_services x; discovered_vulns := discovered_vulns x;
     compromised := compromised x; data_value := data_value x;
     trace_progress := trace_progress x; trace_speed := trace_speed x;
     last_attack_time := last_attack_time x; connections := connections x;
     honeypots := honeypots x; has_siem := has_siem x;
     has_incident_response := has_incident_response x; admin_active := admin_active x;
     admin_skill := admin_skill x; backdoor_installed := backdoor_installed x;
     network_segment := network_segment x; employees := employees x; encrypted_traffic := v |}.
End NetworkNode.

Module PlayerSkills.
Record t := mk {
  scanning : Z;
  exploitation : Z;
  stealth : Z;
  cryptanalysis : Z;
  social_engineering : Z;
  reverse_engineering : Z;
  botnet_management : Z
}.
Definition with_scanning (v : Z) (x : t) : t :=
  {| scanning := v; exploitation := exploitation x; stealth := stealth x;
     cryptanalysis := cryptanalysis x; social_engineering := social_engineering x;
     reverse_engineering := reverse_engineering x; botnet_management := botnet_management x |}.
Definition with_exploitation (v : Z) (x : t) : t :=
  {| scanning := scanning x; exploitation := v; stealth := stealth x;
     cryptanalysis := cryptanalysis x; social_engineering := social_engineering x;
     reverse_engineering := reverse_engineering x; botnet_management := botnet_management x |}.
Definition with_stealth (v : Z) (x : t) : t :=
  {| scanning := scanning x; exploitation := exploitation x; stealth := v;
     cryptanalysis := cryptanalysis x; social_engineering := social_engineering x;
     reverse_engineering := reverse_engineering x; botnet_management := botnet_management x |}.
Definition with_cryptanalysis (v : Z) (x : t) : t :=
  {| scanning := scanning x; exploitation := exploitation x; stealth := stealth x;
     cryptanalysis := v; social_engineering := social_engineering x;
     reverse_engineering := reverse_engineering x; botnet_management := botnet_management x |}.
Definition with_social_engineering (v : Z) (x : t) : t :=
  {| scanning := scanning x; exploitation := exploitation x; stealth := stealth x;
     cryptanalysis := cryptanalysis x; social_engineering := v;
     reverse_engineering := reverse_engineering x; botnet_management := botnet_management x |}.
Definition with_reverse_engineering (v : Z) (x : t) : t :=
  {| scanning := scanning x; exploitation := exploitation x; stealth := stealth x;
     cryptanalysis := cryptanalysis x; social_engineering := social_engineering x;
     reverse_engineering := v; botnet_management := botnet_management x |}.
Definition with_botnet_management (v : Z) (x : t) : t :=
  {| scanning := scanning x; exploitation := exploitation x; stealth := stealth x;
     cryptanalysis := cryptanalysis x; social_engineering := social_engineering x;
     reverse_engineering := reverse_engineering x; botnet_management := v |}.
End PlayerSkills.

Module Faction.
Record t := mk {
  name : string;
  reputation : Z;
  hostile : bool
}.
Definition with_reputation (v : Z) (x : t) : t :=
  {| name := name x; reputation := v; hostile := hostile x |}.
End Faction.

Module PlayerState.
Record t := mk {
  handle : string;
  level : Z;
  experience : Z;
  credits : Z;
  reputation : Z;
  heat_level : Z;
  skills : PlayerSkills.t;
  discovered_nodes : gset string;
  compromised_nodes : gset string;
  current_location : string;
  inventory : list Tool.t;
  active_contracts : list string;
  completed_contracts : gset string;
  game_time : datetime;
  total_playtime : float;
  botnets : list Botnet.t;
  factions : gmap string Faction.t;
  identity_heat : Z;
  known_exploits : gset string;
  proxy_chains : Z;
  safe_houses : list string;
  under_investigation : bool;
  investigation_progress : float;
  hardware : gmap string HardwareComponent.t;
  active_events : list WorldEvent.t;
  bounced_nodes : list string
}.
Definition with_level (v : Z) (x : t) : t :=
  {| handle := handle x; level := v; experience := experience x; credits := credits x;
     reputation := reputation x; heat_level := heat_level x; skills := skills x;
     discovered_nodes := discovered_nodes x; compromised_nodes := compromised_nodes x;
     current_location := current_location x; inventory := inventory x;
     active_contracts := active_contracts x; completed_contracts := completed_contracts x;
     game_time := game_time x; total_playtime := total_playtime x; botnets := botnets x;
     factions := factions x; identity_heat := identity_heat x;
     known_exploits := known_exploits x; proxy_chains := proxy_chains x;
     safe_houses := safe_houses x; under_investigation := under_investigation x;
     investigation_progress := investigation_progress x; hardware := hardware x;
     active_events := active_events x; bounced_nodes := bounced_nodes x |}.
Definition with_experience (v : Z) (x : t) : t :=
  {| handle := handle x; level := level x; experience := v; credits := credits x;
     reputation := reputation x; heat_level := heat_level x; skills := skills x;
     discovered_nodes := discovered_nodes x; compromised_nodes := compromised_nodes x;
     current_location := current_location x; inventory := inventory x;
     active_contracts := active_contracts x; completed_contracts := completed_contracts x;
     game_time := game_time x; total_playtime := total_playtime x; botnets := botnets x;
     factions := factions x; identity_heat := identity_heat x;
     known_exploits := known_exploits x; proxy_chains := proxy_chains x;
     safe_houses := safe_houses x; under_investigation := under_investigation x;
     investigation_progress := investigation_progress x; hardware := hardware x;
     active_events := active_events x; bounced_nodes := bounced_nodes x |}.
Definition with_credits (v : Z) (x : t) : t :=
  {| handle := handle x; level := level x; experience := experience x; credits := v;
     reputation := reputation x; heat_level := heat_level x; skills := skills x;
     discovered_nodes := discovered_nodes x; compromised_nodes := compromised_nodes x;
     current_location := current_location x; inventory := inventory x;
     active_contracts := active_contracts x; completed_contracts := completed_contracts x;
     game_time := game_time x; total_playtime := total_playtime x; botnets := botnets x;
     factions := factions x; identity_heat := identity_heat x;
     known_exploits := known_exploits x; proxy_chains := proxy_chains x;
     safe_houses := safe_houses x; under_investigation := under_investigation x;
     investigation_progress := investigation_progress x; hardware := hardware x;
     active_events := active_events x; bounced_nodes := bounced_nodes x |}.
Definition with_reputation (v : Z) (x : t) : t :=
  {| handle := handle x; level := level x; experience := experience x; credits := credits x;
     reputation := v; heat_level := heat_level x; skills := skills x;
     discovered_nodes := discovered_nodes x; compromised_nodes := compromised_nodes x;
     current_location := current_location x; inventory := inventory x;
     active_contracts := active_contracts x; completed_contracts := completed_contracts x;
     game_time := game_time x; total_playtime := total_playtime x; botnets := botnets x;
     factions := factions x; identity_heat := identity_heat x;
     known_exploits := known_exploits x; proxy_chains := proxy_chains x;
     safe_houses := safe_houses x; under_investigation := under_investigation x;
     investigation_progress := investigation_progress x; hardware := hardware x;
     active_events := active_events x; bounced_nodes := bounced_nodes x |}.
Definition with_heat_level (v : Z) (x : t) : t :=
  {| handle := handle x; level := level x; experience := experience x; credits := credits x;
     reputation := reputation x; heat_level := v; skills := skills x;
     discovered_nodes := discovered_nodes x; compromised_nodes := compromised_nodes x;
     current_location := current_location x; inventory := inventory x;
     active_contracts := active_contracts x; completed_contracts := completed_contracts x;
     game_time := game_time x; total_playtime := total_playtime x; botnets := botnets x;
     factions := factions x; identity_heat := identity_heat x;
     known_exploits := known_exploits x; proxy_chains := proxy_chains x;
     safe_houses := safe_houses x; under_investigation := under_investigation x;
     investigation_progress := investigation_progress x; hardware := hardware x;
     active_events := active_events x; bounced_nodes := bounced_nodes x |}.
Definition with_skills (v : PlayerSkills.t) (x : t) : t :=
  {| handle := handle x; level := level x; experience := experience x; credits := credits x;
     reputation := reputation x; heat_level := heat_level x; skills := v;
     discovered_nodes := discovered_nodes x; compromised_nodes := compromised_nodes x;
     current_location := current_location x; inventory := inventory x;
     active_contracts := active_contracts x; completed_contracts := completed_contracts x;
     game_time := game_time x; total_playtime := total_playtime x; botnets := botnets x;
     factions := factions x; identity_heat := identity_heat x;
     known_exploits := known_exploits x; proxy_chains := proxy_chains x;
     safe_houses := safe_houses x; under_investigation := under_investigation x;
     investigation_progress := investigation_progress x; hardware := hardware x;
     active_events := active_events x; bounced_nodes := bounced_nodes x |}.
Definition with_discovered_nodes (v : gset string) (x : t) : t :=
  {| handle := handle x; level := level x; experience := experience x; credits := credits x;
     reputation := reputation x; heat_level := heat_level x; skills := skills x;
     discovered_nodes := v; compromised_nodes := compromised_nodes x;
     current_location := current_location x; inventory := inventory x;
     active_contracts := active_contracts x; completed_contracts := completed_contracts x;
     game_time := game_time x; total_playtime := total_playtime x; botnets := botnets x;
     factions := factions x; identity_heat := identity_heat x;
     known_exploits := known_exploits x; proxy_chains := proxy_chains x;
     safe_houses := safe_houses x; under_investigation := under_investigation x;
     investigation_progress := investigation_progress x; hardware := hardware x;
     active_events := active_events x; bounced_nodes := bounced_nodes x |}.
Definition with_compromised_nodes (v : gset string) (x : t) : t :=
  {| handle := handle x; level := level x; experience := experience x; credits := credits x;
     reputation := reputation x; heat_level := heat_level x; skills := skills x;
     discovered_nodes := discovered_nodes x; compromised_nodes := v;
     current_location := current_location x; inventory := inventory x;
     active_contracts := active_contracts x; completed_contracts := completed_contracts x;
     game_time := game_time x; total_playtime := total_playtime x; botnets := botnets x;
     factions := factions x; identity_heat := identity_heat x;
     known_exploits := known_exploits x; proxy_chains := proxy_chains x;
     safe_houses := safe_houses x; under_investigation := under_investigation x;
     investigation_progress := investigation_progress x; hardware := hardware x;
     active_events := active_events x; bounced_nodes := bounced_nodes x |}.
Definition with_current_location (v : string) (x : t) : t :=
  {| handle := handle x; level := level x; experience := experience x; credits := credits x;
     reputation := reputation x; heat_level := heat_level x; skills := skills x;
     discovered_nodes := discovered_nodes x; compromised_nodes := compromised_nodes x;
     current_location := v; inventory := inventory x; active_contracts := active_contracts x;
     completed_contracts := completed_contracts x; game_time := game_time x;
     total_playtime := total_playtime x; botnets := botnets x; factions := factions x;
     identity_heat := identity_heat x; known_exploits := known_exploits x;
     proxy_chains := proxy_chains x; safe_houses := safe_houses x;
     under_investigation := under_investigation x;
     investigation_progress := investigation_progress x; hardware := hardware x;
     active_events := active_events x; bounced_nodes := bounced_nodes x |}.
Definition with_inventory (v : list Tool.t) (x : t) : t :=
  {| handle := handle x; level := level x; experience := experience x; credits := credits x;
     reputation := reputation x; heat_level := heat_level x; skills := skills x;
     discovered_nodes := discovered_nodes x; compromised_nodes := compromised_nodes x;
     current_location := current_location x; inventory := v;
     active_contracts := active_contracts x; completed_contracts := completed_contracts x;
     game_time := game_time x; total_playtime := total_playtime x; botnets := botnets x;
     factions := factions x; identity_heat := identity_heat x;
     known_exploits := known_exploits x; proxy_chains := proxy_chains x;
     safe_houses := safe_houses x; under_investigation := under_investigation x;
     investigation_progress := investigation_progress x; hardware := hardware x;
     active_events := active_events x; bounced_nodes := bounced_nodes x |}.
Definition with_active_contracts (v : list string) (x : t) : t :=
  {| handle := handle x; level := level x; experience := experience x; credits := credits x;
     reputation := reputation x; heat_level := heat_level x; skills := skills x;
     discovered_nodes := discovered_nodes x; compromised_nodes := compromised_nodes x;
     current_location := current_location x; inventory := inventory x; active_contracts := v;
     completed_contracts := completed_contracts x; game_time := game_time x;
     total_playtime := total_playtime x; botnets := botnets x; factions := factions x;
     identity_heat := identity_heat x; known_exploits := known_exploits x;
     proxy_chains := proxy_chains x; safe_houses := safe_houses x;
     under_investigation := under_investigation x;
     investigation_progress := investigation_progress x; hardware := hardware x;
     active_events := active_events x; bounced_nodes := bounced_nodes x |}.
Definition with_botnets (v : list Botnet.t) (x : t) : t :=
  {| handle := handle x; level := level x; experience := experience x; credits := credits x;
     reputation := reputation x; heat_level := heat_level x; skills := skills x;
     discovered_nodes := discovered_nodes x; compromised_nodes := compromised_nodes x;
     current_location := current_location x; inventory := inventory x;
     active_contracts := active_contracts x; completed_contracts := completed_contracts x;
     game_time := game_time x; total_playtime := total_playtime x; botnets := v;
     factions := factions x; identity_heat := identity_heat x;
     known_exploits := known_exploits x; proxy_chains := proxy_chains x;
     safe_houses := safe_houses x; under_investigation := under_investigation x;
     investigation_progress := investigation_progress x; hardware := hardware x;
     active_events := active_events x; bounced_nodes := bounced_nodes x |}.
Definition with_factions (v : gmap string Faction.t) (x : t) : t :=
  {| handle := handle x; level := level x; experience := experience x; credits := credits x;
     reputation := reputation x; heat_level := heat_level x; skills := skills x;
     discovered_nodes := discovered_nodes x; compromised_nodes := compromised_nodes x;
     current_location := current_location x; inventory := inventory x;
     active_contracts := active_contracts x; completed_contracts := completed_contracts x;
     game_time := game_time x; total_playtime := total_playtime x; botnets := botnets x;
     factions := v; identity_heat := identity_heat x; known_exploits := known_exploits x;
     proxy_chains := proxy_chains x; safe_houses := safe_houses x;
     under_investigation := under_investigation x;
     investigation_progress := investigation_progress x; hardware := hardware x;
     active_events := active_events x; bounced_nodes := bounced_nodes x |}.
Definition with_identity_heat (v : Z) (x : t) : t :=
  {| handle := handle x; level := level x; experience := experience x; credits := credits x;
     reputation := reputation x; heat_level := heat_level x; skills := skills x;
     discovered_nodes := discovered_nodes x; compromised_nodes := compromised_nodes x;
     current_location := current_location x; inventory := inventory x;
     active_contracts := active_contracts x; completed_contracts := completed_contracts x;
     game_time := game_time x; total_playtime := total_playtime x; botnets := botnets x;
     factions := factions x; identity_heat := v; known_exploits := known_exploits x;
     proxy_chains := proxy_chains x; safe_houses := safe_houses x;
     under_investigation := under_investigation x;
     investigation_progress := investigation_progress x; hardware := hardware x;
     active_events := active_events x; bounced_nodes := bounced_nodes x |}.
Definition with_known_exploits (v : gset string) (x : t) : t :=
  {| handle := handle x; level := level x; experience := experience x; credits := credits x;
     reputation := reputation x; heat_level := heat_level x; skills := skills x;
     discovered_nodes := discovered_nodes x; compromised_nodes := compromised_nodes x;
     current_location := current_location x; inventory := inventory x;
     active_contracts := active_contracts x; completed_contracts := completed_contracts x;
     game_time := game_time x; total_playtime := total_playtime x; botnets := botnets x;
     factions := factions x; identity_heat := identity_heat x; known_exploits := v;
     proxy_chains := proxy_chains x; safe_houses := safe_houses x;
     under_investigation := under_investigation x;
     investigation_progress := investigation_progress x; hardware := hardware x;
     active_events := active_events x; bounced_nodes := bounced_nodes x |}.
Definition with_proxy_chains (v : Z) (x : t) : t :=
  {| handle := handle x; level := level x; experience := experience x; credits := credits x;
     reputation := reputation x; heat_level := heat_level x; skills := skills x;
     discovered_nodes := discovered_nodes x; compromised_nodes := compromised_nodes x;
     current_location := current_location x; inventory := inventory x;
     active_contracts := active_contracts x; completed_contracts := completed_contracts x;
     game_time := game_time x; total_playtime := total_playtime x; botnets := botnets x;
     factions := factions x; identity_heat := identity_heat x;
     known_exploits := known_exploits x; proxy_chains := v; safe_houses := safe_houses x;
     under_investigation := under_investigation x;
     investigation_progress := investigation_progress x; hardware := hardware x;
     active_events := active_events x; bounced_nodes := bounced_nodes x |}.
Definition with_under_investigation (v : bool) (x : t) : t :=
  {| handle := handle x; level := level x; experience := experience x; credits := credits x;
     reputation := reputation x; heat_level := heat_level x; skills := skills x;
     discovered_nodes := discovered_nodes x; compromised_nodes := compromised_nodes x;
     current_location := current_location x; inventory := inventory x;
     active_contracts := active_contracts x; completed_contracts := completed_contracts x;
     game_time := game_time x; total_playtime := total_playtime x; botnets := botnets x;
     factions := factions x; identity_heat := identity_heat x;
     known_exploits := known_exploits x; proxy_chains := proxy_chains x;
     safe_houses := safe_houses x; under_investigation := v;
     investigation_progress := investigation_progress x; hardware := hardware x;
     active_events := active_events x; bounced_nodes := bounced_nodes x |}.
Definition with_investigation_progress (v : float) (x : t) : t :=
  {| handle := handle x; level := level x; experience := experience x; credits := credits x;
     reputation := reputation x; heat_level := heat_level x; skills := skills x;
     discovered_nodes := discovered_nodes x; compromised_nodes := compromised_nodes x;
     current_location := current_location x; inventory := inventory x;
     active_contracts := active_contracts x; completed_contracts := completed_contracts x;
     game_time := game_time x; total_playtime := total_playtime x; botnets := botnets x;
     factions := factions x; identity_heat := identity_heat x;
     known_exploits := known_exploits x; proxy_chains := proxy_chains x;
     safe_houses := safe_houses x; under_investigation := under_investigation x;
     investigation_progress := v; hardware := hardware x; active_events := active_events x;
     bounced_nodes := bounced_nodes x |}.
Definition with_hardware (v : gmap string HardwareComponent.t) (x : t) : t :=
  {| handle := handle x; level := level x; experience := experience x; credits := credits x;
     reputation := reputation x; heat_level := heat_level x; skills := skills x;
     discovered_nodes := discovered_nodes x; compromised_nodes := compromised_nodes x;
     current_location := current_location x; inventory := inventory x;
     active_contracts := active_contracts x; completed_contracts := completed_contracts x;
     game_time := game_time x; total_playtime := total_playtime x; botnets := botnets x;
     factions := factions x; identity_heat := identity_heat x;
     known_exploits := known_exploits x; proxy_chains := proxy_chains x;
     safe_houses := safe_houses x; under_investigation := under_investigation x;
     investigation_progress := investigation_progress x; hardware := v;
     active_events := active_events x; bounced_nodes := bounced_nodes x |}.
Definition with_active_events (v : list WorldEvent.t) (x : t) : t :=
  {| handle := handle x; level := level x; experience := experience x; credits := credits x;
     reputation := reputation x; heat_level := heat_level x; skills := skills x;
     discovered_nodes := discovered_nodes x; compromised_nodes := compromised_nodes x;
     current_location := current_location x; inventory := inventory x;
     active_contracts := active_contracts x; completed_contracts := completed_contracts x;
     game_time := game_time x; total_playtime := total_playtime x; botnets := botnets x;
     factions := factions x; identity_heat := identity_heat x;
     known_exploits := known_exploits x; proxy_chains := proxy_chains x;
     safe_houses := safe_houses x; under_investigation := under_investigation x;
     investigation_progress := investigation_progress x; hardware := hardware x;
     active_events := v; bounced_nodes := bounced_nodes x |}.
Definition with_bounced_nodes (v : list string) (x : t) : t :=
  {| handle := handle x; level := level x; experience := experience x; credits := credits x;
     reputation := reputation x; heat_level := heat_level x; skills := skills x;
     discovered_nodes := discovered_nodes x; compromised_nodes := compromised_nodes x;
     current_location := current_location x; inventory := inventory x;
     active_contracts := active_contracts x; completed_contracts := completed_contracts x;
     game_time := game_time x; total_playtime := total_playtime x; botnets := botnets x;
     factions := factions x; identity_heat := identity_heat x;
     known_exploits := known_exploits x; proxy_chains := proxy_chains x;
     safe_houses := safe_houses x; under_investigation := under_investigation x;
     investigation_progress := investigation_progress x; hardware := hardware x;
     active_events := active_events x; bounced_nodes := v |}.
End PlayerState.

Module Contract.
Record t := mk {
  uid : string;
  title : string;
  description : string;
  target_node_uid : string;
  objective : string;
  reward : Z;
  reputation_change : Z;
  time_limit : option timedelta;
  difficulty : Z;
  contractor : string;
  faction : option string;
  completed : bool;
  failed : bool;
  deadline : option datetime
}.
Definition with_completed (v : bool) (x : t) : t :=
  {| uid := uid x; title := title x; description := description x;
     target_node_uid := target_node_uid x; objective := objective x; reward := reward x;
     reputation_change := reputation_change x; time_limit := time_limit x;
     difficulty := difficulty x; contractor := contractor x; faction := faction x;
     completed := v; failed := failed x; deadline := deadline x |}.
End Contract.

Module RivalHacker.
Record t := mk {
  name : string;
  skill_level : Z;
  specialization : string;
  active_targets : list string;
  last_seen : datetime;
  hostile : bool
}.
Definition with_active_targets (v : list string) (x : t) : t :=
  {| name := name x; skill_level := skill_level x; specialization := specialization x;
     active_targets := v; last_seen := last_seen x; hostile := hostile x |}.
Definition with_last_seen (v : datetime) (x : t) : t :=
  {| name := name x; skill_level := skill_level x; specialization := specialization x;
     active_targets := active_targets x; last_seen := v; hostile := hostile x |}.
Definition with_hostile (v : bool) (x : t) : t :=
  {| name := name x; skill_level := skill_level x; specialization := specialization x;
     active_targets := active_targets x; last_seen := last_seen x; hostile := v |}.
End RivalHacker.

Module MarketExploit.
Record t := mk {
  name : string;
  type_ : string;
  cost : Z;
  effectiveness : float;
  level_req : Z
}.
End MarketExploit.

Module GameState.
Record t := mk {
  player : PlayerState.t;
  seed : Z;
  nodes : gmap string NetworkNode.t;
  contracts : list Contract.t;
  event_log : list string;
  black_market_tools : list Tool.t;
  black_market_exploits : list MarketExploit.t;
  black_market_hardware : list HardwareComponent.t;
  rival_hackers : list RivalHacker.t
}.
Definition with_player (v : PlayerState.t) (x : t) : t :=
  {| player := v; seed := seed x; nodes := nodes x; contracts := contracts x;
     event_log := event_log x; black_market_tools := black_market_tools x;
     black_market_exploits := black_market_exploits x;
     black_market_hardware := black_market_hardware x; rival_hackers := rival_hackers x |}.
Definition with_nodes (v : gmap string NetworkNode.t) (x : t) : t :=
  {| player := player x; seed := seed x; nodes := v; contracts := contracts x;
     event_log := event_log x; black_market_tools := black_market_tools x;
     black_market_exploits := black_market_exploits x;
     black_market_hardware := black_market_hardware x; rival_hackers := rival_hackers x |}.
Definition with_contracts (v : list Contract.t) (x : t) : t :=
  {| player := player x; seed := seed x; nodes := nodes x; contracts := v;
     event_log := event_log x; black_market_tools := black_market_tools x;
     black_market_exploits := black_market_exploits x;
     black_market_hardware := black_market_hardware x; rival_hackers := rival_hackers x |}.
Definition with_event_log (v : list string) (x : t) : t :=
  {| player := player x; seed := seed x; nodes := nodes x; contracts := contracts x;
     event_log := v; black_market_tools := black_market_tools x;
     black_market_exploits := black_market_exploits x;
     black_market_hardware := black_market_hardware x; rival_hackers := rival_hackers x |}.
Definition with_black_market_exploits (v : list MarketExploit.t) (x : t) : t :=
  {| player := player x; seed := seed x; nodes := nodes x; contracts := contracts x;
     event_log := event_log x; black_market_tools := black_market_tools x;
     black_market_exploits := v; black_market_hardware := black_market_hardware x;
     rival_hackers := rival_hackers x |}.
Definition with_black_market_hardware (v : list HardwareComponent.t) (x : t) : t :=
  {| player := player x; seed := seed x; nodes := nodes x; contracts := contracts x;
     event_log := event_log x; black_market_tools := black_market_tools x;
     black_market_exploits := black_market_exploits x; black_market_hardware := v;
     rival_hackers := rival_hackers x |}.
Definition with_rival_hackers (v : list RivalHacker.t) (x : t) : t :=
  {| player := player x; seed := seed x; nodes := nodes x; contracts := contracts x;
     event_log := event_log x; black_market_tools := black_market_tools x;
     black_market_exploits := black_market_exploits x;
     black_market_hardware := black_market_hardware x; rival_hackers := v |}.
End GameState.
(** Dataclass equality ([__eq__] generated by [@dataclass]): field by
    field, floats compared with [==]. *)
Definition Tool_eqb (a b : Tool.t) : bool :=
  String.eqb (Tool.name a) (Tool.name b)
  && bool_decide (Tool.tool_type a = Tool.tool_type b)
  && (Tool.cost a =? Tool.cost b)
  && Float.eqb (Tool.effectiveness a) (Tool.effectiveness b)
  && String.eqb (Tool.description a) (Tool.description b)
  && (Tool.level_requirement a =? Tool.level_requirement b)
  && Float.eqb (Tool.stealth_penalty a) (Tool.stealth_penalty b).

#[global] Instance float_eq_dec : EqDecision float.
Proof. solve_decision. Defined.
#[global] Instance Tool_eq_dec : EqDecision Tool.t.
Proof. solve_decision. Defined.

(** [x is y or x == y], the test behind [list.remove] and [in]; object
    identity is approximated by structural equality. *)
Definition Tool_same (a b : Tool.t) : bool := bool_decide (a = b) || Tool_eqb a b.

(** ** The interpreter monad

    Methods of the game mutate [self.state] in place, read lines from the
    console, draw from the global random generator, read the clock, and
    may raise.  [M A] threads the game state together with the three
    sources; a raised exception carries the state reached so far, since
    Python keeps every mutation made before the [raise].

    Console output is not modelled: [print], [clear] and [time.sleep]
    are left out, together with the expressions that are evaluated only
    to build the printed text.  Every [input] call is kept, as it
    consumes a line. *)

Record World : Type := mkWorld {
  stdin : list string;  (** lines the player will type, in order *)
  rand : list Z;        (** raw draws of the generator; 0 once exhausted *)
  clock : list Z        (** clock readings in microseconds; 0 once exhausted *)
}.

Record Sys : Type := mkSys { world : World; game : GameState.t }.

Inductive result (A : Type) : Type :=
| Ok (a : A) (s : Sys)
| Raise (e : Py.exn) (s : Sys).
Arguments Ok {A} a s.
Arguments Raise {A} e s.

Definition M (A : Type) : Type := Sys -> result A.

#[global] Instance M_ret : MRet M := fun A a s => Ok a s.
#[global] Instance M_bind : MBind M := fun A B k m s =>
  match m s with
  | Ok a s' => k a s'
  | Raise e s' => Raise e s'
  end.

Definition raise {A} (e : Py.exn) : M A := fun s => Raise e s.

(** [try: m  except E: handler] for the exceptions selected by [catches]. *)
Definition try_except {A} (m : M A) (catches : Py.exn -> bool) (handler : M A) : M A :=
  fun s =>
    match m s with
    | Ok a s' => Ok a s'
    | Raise e s' => if catches e then handler s' else Raise e s'
    end.

Definition is_ValueError (e : Py.exn) : bool :=
  match e with Py.ValueError => true | _ => false end.
Definition any_exception (e : Py.exn) : bool := true.

Definition get_game : M GameState.t := fun s => Ok (game s) s.
Definition modify_game (f : GameState.t -> GameState.t) : M unit :=
  fun s => Ok tt {| world := world s; game := f (game s) |}.
Definition get_player : M PlayerState.t := fun s => Ok (GameState.player (game s)) s.
Definition modify_player (f : PlayerState.t -> PlayerState.t) : M unit :=
  modify_game (fun g => GameState.with_player (f (GameState.player g)) g).

(** [input()]: the next console line, [EOFError] at end of input. *)
Definition input : M string := fun s =>
  match stdin (world s) with
  | line :: rest =>
      Ok line {| world := {| stdin := rest; rand := rand (world s); clock := clock (world s) |};
                 game := game s |}
  | [] => Raise Py.EOFError s
  end.

(** One raw draw of the generator. *)
Definition draw : M Z := fun s =>
  Ok (hd 0 (rand (world s)))
     {| world := {| stdin := stdin (world s); rand := tl (rand (world s)); clock := clock (world s) |};
        game := game s |}.

(** One clock reading, in microseconds. *)
Definition tick : M Z := fun s =>
  Ok (hd 0 (clock (world s)))
     {| world := {| stdin := stdin (world s); rand := rand (world s); clock := tl (clock (world s)) |};
        game := game s |}.

(** *** The [random] module

    The generator is abstracted to its stream of raw draws: every value
    the real functions can return is the image of some draw, and every
    image lies in the range the real function guarantees. *)

(** [random.random()]: a multiple of 2^-53 in [0, 1). *)
Definition random_of (k : Z) : float := Float.ldexp (Float.of_Z (k mod 2 ^ 53)) (-53).
Definition random_random : M float := k ← draw; mret (random_of k).

(** [random.uniform(a, b) = a + (b - a) * random()] *)
Definition random_uniform (a b : float) : M float :=
  r ← random_random; mret (a + (b - a) * r)%float.

(** [random.randint(a, b)]; [ValueError] on an empty range. *)
Definition random_randint (a b : Z) : M Z :=
  if b <? a then raise Py.ValueError
  else k ← draw; mret (a + k mod (b - a + 1)).

(** Index picked by [random.choice] in a sequence of length [n];
    [IndexError] on an empty one. *)
Definition random_index (n : nat) : M nat :=
  match n with
  | O => raise Py.IndexError
  | _ => k ← draw; mret (Z.to_nat (k mod Z.of_nat n))
  end.

Definition random_choice {A} (l : list A) : M A :=
  i ← random_index (length l);
  match l !! i with
  | Some x => mret x
  | None => raise Py.IndexError
  end.

(** [random.sample(l, k)]: [k] positions without replacement;
    [ValueError] when [k] exceeds the population. *)
Fixpoint sample_from {A} (l : list A) (k : nat) : M (list A) :=
  match k with
  | O => mret []
  | S k' =>
      i ← random_index (length l);
      match l !! i with
      | Some x => rest ← sample_from (delete i l) k'; mret (x :: rest)
      | None => raise Py.IndexError
      end
  end.
Definition random_sample {A} (l : list A) (k : nat) : M (list A) :=
  if (length l <? k)%nat then raise Py.ValueError else sample_from l k.

(** [time.time()] in seconds and [datetime.now()]. *)
Definition time_time : M float := t ← tick; mret (Float.of_Z t / Float.of_Z 1000000)%float.
Definition datetime_now : M datetime := tick.

(** *** Loops *)

(** [for x in l: body x] *)
Fixpoint for_each {A} (l : list A) (body : A -> M unit) : M unit :=
  match l with
  | [] => mret tt
  | x :: l' => body x;; for_each l' body
  end.

(** [for i, x in enumerate(l, start): body i x] *)
Fixpoint for_enumerate {A} (start : nat) (l : list A) (body : nat -> A -> M unit) : M unit :=
  match l with
  | [] => mret tt
  | x :: l' => body start x;; for_enumerate (S start) l' body
  end.

(** [while True: if not body(): break].  Every loop of the game reads at
    least one console line per iteration, so it cannot run longer than the
    input lasts: [while_reading] gives the loop one unit of fuel more
    than there are lines left, and the zero case is never reached. *)
Fixpoint while_loop (fuel : nat) (body : M bool) : M unit :=
  match fuel with
  | O => raise Py.EOFError
  | S fuel' => again ← body; if again : bool then while_loop fuel' body else mret tt
  end.

Definition while_reading (body : M bool) : M unit :=
  fun s => while_loop (S (length (stdin (world s)))) body s.

(** [when c: m] *)
Definition when (c : bool) (m : M unit) : M unit := if c then m else mret tt.

(** *** Accessors for the mutable objects of the world *)

(** [self.state.network.nodes[uid]] *)
Definition get_node (uid : string) : M NetworkNode.t :=
  g ← get_game;
  match GameState.nodes g !! uid with
  | Some n => mret n
  | None => raise Py.KeyError
  end.

(** In-place mutation of the node object stored under [uid]. *)
Definition modify_node (uid : string) (f : NetworkNode.t -> NetworkNode.t) : M unit :=
  modify_game (fun g => GameState.with_nodes (alter f uid (GameState.nodes g)) g).

(** [self.state.player.hardware[key]] *)
Definition get_hardware (key : string) : M HardwareComponent.t :=
  p ← get_player;
  match PlayerState.hardware p !! key with
  | Some h => mret h
  | None => raise Py.KeyError
  end.

(** [GameState.log_event].  The source renders the game time with
    [strftime]; here the time stamp is printed as its microsecond count. *)
Definition log_entry (t : datetime) (message : string) : string :=
  "[" +:+ Py.str_of_int t +:+ "] " +:+ message.
Definition log_event (message : string) : M unit :=
  modify_game (fun g =>
    GameState.with_event_log
      (GameState.event_log g ++ [log_entry (PlayerState.game_time (GameState.player g)) message]) g).

(** ** Game constants ([class GameConstants]) *)
Module GameConstants.
Definition STARTING_CREDITS : Z := 1000.
Definition STARTING_LEVEL : Z := 1.
Definition MAX_SKILL_LEVEL : Z := 10.
Definition EXP_PER_LEVEL_MULTIPLIER : Z := 100.
Definition BASE_EXPLOIT_SUCCESS_RATE : float := 0.05%float.
Definition MAX_EXPLOIT_SUCCESS_RATE : float := 0.98%float.
Definition SKILL_SUCCESS_BONUS : float := 0.05%float.
Definition TOOL_SUCCESS_BONUS : float := 0.1%float.
Definition PATCH_PENALTY : float := 0.03%float.
Definition TRACE_COMPLETE_THRESHOLD : Z := 100.
Definition TRACE_HEAT_INCREASE : Z := 15.
Definition TRACE_IDENTITY_HEAT_INCREASE : Z := 10.
Definition TRACE_PENALTY_MIN : Z := 100.
Definition TRACE_PENALTY_MAX : Z := 500.
Definition INVESTIGATION_START_THRESHOLD : Z := 50.
Definition INVESTIGATION_START_CHANCE : float := 0.3%float.
Definition STEALTH_SKILL_BONUS : float := 0.05%float.
Definition PROXY_CHAIN_BONUS : float := 0.1%float.
Definition BOUNCE_NODE_BONUS : float := 0.12%float.
Definition MAX_STEALTH_REDUCTION : float := 0.9%float.
Definition DDOS_TRACE_INCREASE : Z := 25.
Definition DDOS_HEAT_INCREASE : Z := 3.
Definition BOTNET_BUILD_COST : Z := 2000.
Definition BOTNET_BASE_SIZE_MIN : Z := 50.
Definition BOTNET_BASE_SIZE_MAX : Z := 200.
Definition BOTNET_SIZE_PER_SKILL : Z := 20.
Definition BOTNET_BASE_QUALITY : float := 0.5%float.
Definition BOTNET_QUALITY_PER_SKILL : float := 0.05%float.
Definition PROXY_BASE_COST : Z := 1000.
Definition PROXY_COST_INCREMENT : Z := 500.
Definition PHISHING_SKILL_BONUS : float := 0.08%float.
Definition PHISHING_SUCCESS_TRACE : Z := 5.
Definition PHISHING_FAIL_TRACE : Z := 15.
Definition PHISHING_FAIL_HEAT : Z := 2.
Definition INVESTIGATION_ASSET_LOSS_PERCENT : float := 0.7%float.
Definition INVESTIGATION_REP_LOSS : Z := 100.
Definition INVESTIGATION_TOOLS_LOST : nat := 3.
Definition INVESTIGATION_RESET_HEAT : Z := 20.
Definition LAUNDER_COST : Z := 2000.
Definition LAUNDER_IDENTITY_REDUCTION : Z := 15.
Definition LAUNDER_INVESTIGATION_REDUCTION : Z := 5.
Definition RIVAL_ACTIVITY_CHANCE : float := 0.1%float.
Definition RIVAL_COMPROMISE_CHANCE : float := 0.05%float.
Definition RIVAL_HACK_BASE_SUCCESS : float := 0.3%float.
Definition ADMIN_PATCH_CHANCE : float := 0.05%float.
Definition ADMIN_ACTIVATE_THRESHOLD : Z := 40.
Definition ADMIN_ACTIVATE_CHANCE : float := 0.3%float.
Definition ADMIN_TRACE_MULTIPLIER : float := 1.3%float.
Definition INITIAL_CONTRACTS : nat := 5.
Definition MIN_ACTIVE_CONTRACTS : nat := 3.
Definition MAX_ACTIVE_EVENTS : nat := 2.
Definition EVENT_TRIGGER_CHANCE : float := 0.05%float.
End GameConstants.

(** Integer operand of a mixed [int]/[float] expression. *)
Abbreviation fl := Float.of_Z.

(** ** Content generators *)

(** [BlackMarket.generate_tools] *)
Definition generate_tools : list Tool.t := [
  Tool.mk "PortScanner Pro" SCANNER 500 1.5%float "Advanced network scanner with stealth mode" 1 0.0%float;
  Tool.mk "MassiveMap" SCANNER 1500 2.0%float "Ultra-fast network mapper" 3 0.1%float;
  Tool.mk "ExploitKit v3" EXPLOIT_FRAMEWORK 2000 1.8%float "Automated exploitation framework" 2 0.2%float;
  Tool.mk "MetaSploit Pro" EXPLOIT_FRAMEWORK 5000 2.5%float "Professional penetration testing suite" 5 0.15%float;
  Tool.mk "ProxyChain Advanced" PROXY_CHAIN 1000 1.0%float "Multi-hop proxy network" 2 (- 0.3)%float;
  Tool.mk "TOR Router Pro" PROXY_CHAIN 3000 1.0%float "Enhanced anonymity routing" 4 (- 0.5)%float;
  Tool.mk "CryptoBreaker" CRYPTANALYSIS 4000 2.0%float "Advanced cryptanalysis tool" 4 0.1%float;
  Tool.mk "QuantumCrack" CRYPTANALYSIS 10000 3.0%float "Quantum-assisted decryption" 7 0.2%float;
  Tool.mk "BotCommander" BOTNET_CONTROLLER 3000 1.5%float "Manage distributed botnets" 3 0.3%float;
  Tool.mk "StealthLogger" KEYLOGGER 1500 1.3%float "Undetectable keylogging software" 2 0.0%float;
  Tool.mk "DeepRootkit" ROOTKIT 5000 2.0%float "Persistent system-level access" 5 0.1%float
].

(** [int(x)] on a float, raising as Python does on infinities and NaN. *)
Definition int_of_float (x : float) : M Z :=
  match Float.trunc x with
  | Some z => mret z
  | None => raise Py.OverflowError
  end.

(** [BlackMarket.generate_hardware] *)
Definition hardware_bases : list (string * HardwareType * float * Z * string) := [
  ("Core-i7 Hacker Edition", CPU, 2.0%float, 5000, "High-performance CPU for faster exploit execution");
  ("Quantum Processor V1", CPU, 4.0%float, 25000, "Experimental quantum chip");
  ("32GB DDR5 RAM", RAM, 1.5%float, 3000, "Increases processing time window in mini-games");
  ("64GB DDR5 X-Pro", RAM, 2.2%float, 8000, "Professional grade memory");
  ("2TB NVMe SSD", STORAGE, 1.5%float, 4000, "Faster data extraction and storage");
  ("Liquid Cooling System", COOLING, 1.3%float, 3500, "Reduces trace accumulation speed");
  ("Nitro Cooling Rig", COOLING, 2.0%float, 12000, "Extreme cooling for elite hackers")
].

Fixpoint generate_hardware_from (bases : list (string * HardwareType * float * Z * string))
    (player_level : Z) : M (list HardwareComponent.t) :=
  match bases with
  | [] => mret []
  | (name, htype, bonus, cost, desc) :: bases' =>
      lvl_req ← int_of_float (fl cost / 2000)%float;
      rest ← generate_hardware_from bases' player_level;
      mret (if lvl_req <=? player_level + 2
            then HardwareComponent.mk name htype lvl_req cost bonus desc :: rest
            else rest)
  end.
Definition generate_hardware : Z -> M (list HardwareComponent.t) :=
  generate_hardware_from hardware_bases.

(** [BlackMarket.generate_exploits] *)
Definition exploit_names : list string := [
  "EternalBlue"; "BlueKeep"; "Heartbleed"; "Shellshock"; "Dirty COW";
  "KRACK"; "Meltdown"; "Spectre"; "PrintNightmare"; "Log4Shell";
  "ProxyLogon"; "ProxyShell"; "ZeroLogon"; "SolarFlare"; "Ghost"
].
Definition all_exploit_types : list ExploitType := [
  SQL_INJECTION; BUFFER_OVERFLOW; XSS; RCE; PRIVILEGE_ESCALATION; ZERO_DAY;
  SOCIAL_ENGINEERING; MAN_IN_MIDDLE; PHISHING; SUPPLY_CHAIN; CRYPTOGRAPHIC
].

Definition generate_exploit (player_level : Z) : M MarketExploit.t :=
  level_req ← random_randint (Py.max 1 (player_level - 2)) (player_level + 3);
  base ← random_choice exploit_names;
  version ← random_randint 1 5;
  etype ← random_choice all_exploit_types;
  price ← random_randint 500 2000;
  mret (MarketExploit.mk (base +:+ " v" +:+ Py.str_of_int version)
          (ExploitType_value etype) (level_req * price)
          (0.6 + fl level_req * 0.05)%float level_req).

Fixpoint repeat_collect {A} (n : nat) (m : M A) : M (list A) :=
  match n with
  | O => mret []
  | S n' => x ← m; rest ← repeat_collect n' m; mret (x :: rest)
  end.

Definition generate_exploits (player_level : Z) : M (list MarketExploit.t) :=
  count ← random_randint 3 7;
  repeat_collect (Z.to_nat count) (generate_exploit player_level).

(** [DynamicEventManager.generate_event] *)
Definition generate_event : M WorldEvent.t :=
  d1 ← random_randint 12 48;
  d2 ← random_randint 24 72;
  d3 ← random_randint 6 24;
  d4 ← random_randint 12 36;
  random_choice [
    WorldEvent.mk "Global Security Patch" GLOBAL_PATCH d1 0.7%float
      "Major software vendors released critical patches, reducing exploit effectiveness." None None;
    WorldEvent.mk "Police Crackdown" POLICE_CRACKDOWN d2 1.5%float
      "Law enforcement is actively hunting hackers. Trace accumulation increased." None None;
    WorldEvent.mk "Zero-Day Leak" ZERO_DAY_LEAK d3 1.3%float
      "New vulnerabilities leaked online. Exploitation effectiveness increased." None None;
    WorldEvent.mk "Network Worm Outbreak" NETWORK_WORM d4 0.8%float
      "A network worm is causing chaos. Security teams are distracted." None None
  ].

(** [RivalGenerator.generate_rival] *)
Definition HACKER_HANDLES : list string := [
  "DarkPhantom"; "ZeroCool"; "CrashOverride"; "AcidBurn"; "ThePlague";
  "Cypher"; "Neo"; "Morpheus"; "Trinity"; "Ghost"; "Reaper"; "Viper";
  "Shadow"; "Nexus"; "Void"; "Raven"; "Cipher"; "Spectre"; "Wraith"
].

Definition hours (h : Z) : timedelta := h * 3600 * 1000000.

Definition generate_rival (player_level : Z) : M RivalHacker.t :=
  skill_variance ← random_randint (-2) 3;
  let skill := Py.max 1 (player_level + skill_variance) in
  name ← random_choice HACKER_HANDLES;
  specialization ← random_choice ["Exploitation"; "Social Engineering"; "Cryptanalysis";
                                  "Network Infiltration"; "Botnet Operations"];
  now ← datetime_now;
  h ← random_randint 1 72;
  mret (RivalHacker.mk name skill specialization [] (now - hours h) false).

(** The first [n] hexadecimal digits of an MD5 digest, abstracted to a
    raw draw printed in base 16. *)
Definition hex_char (d : Z) : ascii :=
  if d <? 10 then ascii_of_nat (48 + Z.to_nat d) else ascii_of_nat (87 + Z.to_nat d).
Fixpoint hex_digits (n : nat) (k : Z) (acc : string) : string :=
  match n with
  | O => acc
  | S n' => hex_digits n' (k / 16) (String (hex_char (k mod 16)) acc)
  end.
Definition md5_prefix (n : nat) : M string :=
  _ ← tick; k ← draw; mret (hex_digits n k "").

(** [ContractGenerator.generate_contract] *)
Definition objectives : list string := [
  "steal_data"; "install_backdoor"; "sabotage"; "reconnaissance";
  "destroy_evidence"; "plant_evidence"; "exfiltrate_employee_data"
].
Definition contractors : list string := [
  "Anonymous Client"; "Dark Web Broker"; "Corporate Rival";
  "Intelligence Agency"; "Hacktivist Group"; "Crime Syndicate";
  "Whistleblower"; "Competitor Corporation"; "Foreign Government"
].

Definition contract_title (objective target_name : string) : string :=
  if String.eqb objective "steal_data" then "Data Extraction: " +:+ target_name
  else if String.eqb objective "install_backdoor" then "Persistent Access: " +:+ target_name
  else if String.eqb objective "sabotage" then "System Disruption: " +:+ target_name
  else if String.eqb objective "reconnaissance" then "Network Mapping: " +:+ target_name
  else if String.eqb objective "destroy_evidence" then "Evidence Destruction: " +:+ target_name
  else if String.eqb objective "plant_evidence" then
    "Plant incriminating evidence on " +:+ target_name +:+ " systems to frame them."
  else "Steal complete employee database from " +:+ target_name +:+ " HR systems.".

Definition reward_mult (objective : string) : float :=
  if String.eqb objective "steal_data" then 1.2%float
  else if String.eqb objective "install_backdoor" then 1.5%float
  else if String.eqb objective "sabotage" then 1.3%float
  else if String.eqb objective "reconnaissance" then 0.8%float
  else if String.eqb objective "destroy_evidence" then 1.6%float
  else if String.eqb objective "plant_evidence" then 1.7%float
  else 1.4%float.

Definition contract_description (objective target_name : string) : string :=
  if String.eqb objective "steal_data" then
    "Extract sensitive data from " +:+ target_name +:+ " servers. Payment on delivery."
  else if String.eqb objective "install_backdoor" then
    "Establish persistent access to " +:+ target_name +:+ " infrastructure for future operations."
  else if String.eqb objective "sabotage" then
    "Disrupt operations at " +:+ target_name +:+ ". Must appear like system failure."
  else if String.eqb objective "reconnaissance" then
    "Map internal network structure of " +:+ target_name +:+ ". Stealth is priority."
  else if String.eqb objective "destroy_evidence" then
    "Permanently delete specific files from " +:+ target_name +:+ " without detection."
  else if String.eqb objective "plant_evidence" then
    "Infiltrate " +:+ target_name +:+ " systems and plant incriminating evidence to frame the target."
  else
    "Access HR systems of " +:+ target_name +:+ " and exfiltrate the complete employee database.".

(** [nodes.values()]: the node objects of the dictionary. *)
Definition node_values (nodes : gmap string NetworkNode.t) : list NetworkNode.t :=
  (map_to_list nodes).*2.

Definition generate_contract (network : gmap string NetworkNode.t) (player_level : Z)
    (factions : gmap string Faction.t) : M (option Contract.t) :=
  let suitable_nodes :=
    List.filter (fun n => negb (NetworkNode.compromised n)
                          && (NetworkNode.security_rating n <=? player_level + 3))
                (node_values network) in
  let suitable_nodes :=
    match suitable_nodes with
    | [] => List.filter (fun n => negb (NetworkNode.compromised n)) (node_values network)
    | _ => suitable_nodes
    end in
  match suitable_nodes with
  | [] => mret None
  | _ =>
      target ← random_choice suitable_nodes;
      objective ← random_choice objectives;
      let faction_keys := (map_to_list factions).*1 in
      pick_faction ← match faction_keys with
                     | [] => mret false
                     | _ => r ← random_random; mret (r <? 0.3)%float
                     end;
      faction_name ← (if pick_faction : bool
                      then f ← random_choice faction_keys; mret (Some f)
                      else mret None);
      uid ← md5_prefix 8;
      r ← random_random;
      let has_deadline := (r >? 0.4)%float in
      deadline ← (if has_deadline
                  then now ← datetime_now; h ← random_randint 24 168; mret (Some (now + hours h))
                  else mret None);
      reward ← int_of_float (fl (NetworkNode.data_value target) * reward_mult objective)%float;
      time_limit ← (if has_deadline
                    then h ← random_randint 24 168; mret (Some (hours h))
                    else mret None);
      contractor ← random_choice contractors;
      mret (Some (Contract.mk uid
                    (contract_title objective (NetworkNode.name target))
                    (contract_description objective (NetworkNode.name target))
                    (NetworkNode.uid target) objective reward
                    (NetworkNode.security_rating target * 5)
                    time_limit (NetworkNode.security_rating target) contractor
                    faction_name false false deadline))
  end.

(** [EmployeeGenerator.generate_employees] *)
Definition FIRST_NAMES : list string := [
  "James"; "Mary"; "John"; "Patricia"; "Robert"; "Jennifer"; "Michael"; "Linda";
  "William"; "Barbara"; "David"; "Elizabeth"; "Richard"; "Susan"; "Joseph"; "Jessica"
].
Definition LAST_NAMES : list string := [
  "Smith"; "Johnson"; "Williams"; "Brown"; "Jones"; "Garcia"; "Miller"; "Davis";
  "Rodriguez"; "Martinez"; "Hernandez"; "Lopez"; "Wilson"; "Anderson"; "Thomas"
].
Definition DEPARTMENTS : list string := [
  "IT"; "HR"; "Finance"; "Operations"; "Marketing"; "R&D"; "Legal"; "Executive"
].

Fixpoint remove_spaces (s : string) : string :=
  match s with
  | EmptyString => EmptyString
  | String c s' => if Ascii.eqb c " "%char then remove_spaces s' else String c (remove_spaces s')
  end.

(** [company_name.lower().replace(" ", "")[:15] + ".com"] *)
Definition email_domain (company_name : string) : string :=
  String.substring 0 15 (remove_spaces (Py.lower company_name)) +:+ ".com".

Definition generate_employee (domain : string) : M Employee.t :=
  first ← random_choice FIRST_NAMES;
  last ← random_choice LAST_NAMES;
  dept ← random_choice DEPARTMENTS;
  access_level ← random_randint 1 5;
  social_media_activity ← random_uniform 0.3 0.9;
  phishing_susceptibility ← random_uniform 0.2 0.8;
  mret (Employee.mk (first +:+ " " +:+ last)
          (Py.lower first +:+ "." +:+ Py.lower last +:+ "@" +:+ domain)
          dept access_level social_media_activity phishing_susceptibility false).

Definition generate_employees (count : Z) (company_name : string) : M (list Employee.t) :=
  repeat_collect (Z.to_nat count) (generate_employee (email_domain company_name)).

(** [VulnerabilityDatabase.generate_vulnerabilities] *)
Definition vulnerability_templates
  : list (string * ExploitType * float * Z * float * (Z * Z) * Z * float * option string) := [
  ("SQL Injection in login form", SQL_INJECTION, 0.7%float, 2, 0.3%float, (15, 30), 8, 0.65%float, None);
  ("Buffer overflow in packet handler", BUFFER_OVERFLOW, 0.9%float, 5, 0.7%float, (25, 50), 15, 0.45%float, Some "exploit_framework");
  ("Reflected XSS in search", XSS, 0.5%float, 1, 0.2%float, (10, 20), 5, 0.75%float, None);
  ("Remote code execution via deserialization", RCE, 0.95%float, 7, 0.8%float, (40, 80), 20, 0.35%float, Some "exploit_framework");
  ("Privilege escalation via SUID binary", PRIVILEGE_ESCALATION, 0.8%float, 4, 0.6%float, (20, 40), 12, 0.55%float, None);
  ("Unpatched zero-day exploit", ZERO_DAY, 1.0%float, 10, 0.9%float, (50, 100), 25, 0.25%float, Some "exploit_framework");
  ("Weak credentials susceptible to brute force", SOCIAL_ENGINEERING, 0.6%float, 1, 0.1%float, (15, 25), 10, 0.70%float, None);
  ("SSL stripping vulnerability", MAN_IN_MIDDLE, 0.75%float, 3, 0.5%float, (18, 35), 14, 0.50%float, Some "proxy_chain");
  ("Phishing vector via email", PHISHING, 0.65%float, 2, 0.4%float, (20, 30), 7, 0.60%float, None);
  ("Supply chain backdoor", SUPPLY_CHAIN, 0.85%float, 6, 0.75%float, (35, 70), 18, 0.40%float, None);
  ("Weak cryptographic implementation", CRYPTOGRAPHIC, 0.7%float, 4, 0.6%float, (25, 45), 13, 0.50%float, Some "cryptanalysis")
].

Fixpoint instantiate_vulnerabilities (service_name : string)
    (selected : list (string * ExploitType * float * Z * float * (Z * Z) * Z * float * option string))
  : M (list Vulnerability.t) :=
  match selected with
  | [] => mret []
  | (name, exploit_type, severity, patch, discovery, damage, trace, success, tool) :: selected' =>
      jitter ← random_uniform (- 0.1) 0.1;
      patch_jitter ← random_randint (-1) 1;
      rest ← instantiate_vulnerabilities service_name selected';
      mret (Vulnerability.mk (name +:+ " (" +:+ service_name +:+ ")") exploit_type
              (severity + jitter)%float (patch + patch_jitter) discovery damage trace
              success tool :: rest)
  end.

Definition generate_vulnerabilities (service_name version : string) (count : Z)
  : M (list Vulnerability.t) :=
  selected ← random_sample vulnerability_templates
               (Z.to_nat (Py.min count (Z.of_nat (length vulnerability_templates))));
  instantiate_vulnerabilities service_name selected.

(** [ProceduralNetwork] *)
Definition service_templates : list (string * string * Z) := [
  ("Apache HTTP Server", "2.4.41", 80); ("nginx", "1.18.0", 80);
  ("OpenSSH", "7.9p1", 22); ("MySQL", "5.7.31", 3306);
  ("PostgreSQL", "12.4", 5432); ("ProFTPD", "1.3.6", 21);
  ("Microsoft IIS", "10.0", 80); ("Tomcat", "9.0.37", 8080);
  ("Redis", "6.0.9", 6379); ("MongoDB", "4.4.1", 27017);
  ("Elasticsearch", "7.9.2", 9200); ("Exchange Server", "2019", 25);
  ("Active Directory", "2019", 389); ("VPN Gateway", "5.6", 1194)
].

Definition all_encryption_types : list EncryptionType :=
  [AES_128; AES_256; RSA_1024; RSA_2048; RSA_4096; WEAK_HASH].

Definition generate_service (used_ports : gset Z) : M (Service.t * gset Z) :=
  '(sname, sversion, sport) ← random_choice service_templates;
  sport ← (if bool_decide (sport ∈ used_ports)
           then off ← random_randint 1 1000; mret (sport + off)
           else mret sport);
  let used_ports := {[sport]} ∪ used_ports in
  state ← random_choice ["open"; "open"; "filtered"; "closed"];
  vuln_count ← (if String.eqb state "open" then random_randint 1 5 else random_randint 0 2);
  vulns ← generate_vulnerabilities sname sversion vuln_count;
  r ← random_random;
  encryption ← (if (r <? 0.4)%float
                then encryption_type ← random_choice all_encryption_types;
                     data_size ← random_randint 100 10000;
                     value ← random_randint 500 5000;
                     difficulty ← random_uniform 0.3 0.9;
                     mret (Some (EncryptedData.mk encryption_type data_size value difficulty false))
                else mret None);
  mret (Service.mk sname sversion sport state vulns encryption [], used_ports).

Fixpoint generate_services (count : nat) (used_ports : gset Z) : M (list Service.t) :=
  match count with
  | O => mret []
  | S count' =>
      '(service, used_ports) ← generate_service used_ports;
      rest ← generate_services count' used_ports;
      mret (service :: rest)
  end.

Definition generate_org_name (network_type : NetworkType) : M string :=
  match network_type with
  | GOVERNMENT =>
      a ← random_choice ["Federal"; "State"; "National"; "Regional"];
      b ← random_choice ["Bureau"; "Agency"; "Department"; "Office"];
      mret (a +:+ " " +:+ b)
  | MILITARY =>
      a ← random_choice ["NORTHCOM"; "CYBERCOM"; "STRATCOM"; "Defense"; "SIGINT"];
      n ← random_randint 1 99;
      mret (a +:+ " Node " +:+ Py.str_of_int n)
  | CRIMINAL =>
      a ← random_choice ["Net"; "Web"; "Site"; "Market"];
      n ← random_randint 1 999;
      mret ("Dark" +:+ a +:+ " " +:+ Py.str_of_int n)
  | INFRASTRUCTURE =>
      a ← random_choice ["Power"; "Water"; "Telecom"; "Transit"];
      b ← random_choice ["Grid"; "Network"; "System"];
      n ← random_randint 1 50;
      mret (a +:+ " " +:+ b +:+ " " +:+ Py.str_of_int n)
  | _ =>
      a ← random_choice ["TechCorp"; "DataSys"; "SecureNet"; "GlobalTech"; "CyberDyne";
                         "NexGen"; "Quantum"; "Infinity"; "Apex"; "Zenith"; "Vertex"; "Axiom"];
      b ← random_choice ["Industries"; "Systems"; "Solutions"; "Enterprises"; "Group";
                         "Corporation"; "Technologies"; "Networks"; "Services"; "Digital"];
      mret (a +:+ " " +:+ b)
  end.

Definition generate_honeypot : M Honeypot.t :=
  port ← random_randint 1024 65535;
  fake_service ← random_choice ["FTP"; "Telnet"; "SMB"; "RDP"];
  detection_chance ← random_uniform 0.6 0.9;
  trace_increase ← random_randint 20 40;
  mret (Honeypot.mk port fake_service detection_chance trace_increase).

Definition generate_traffic : M EncryptedData.t :=
  encryption_type ← random_choice all_encryption_types;
  data_size ← random_randint 1000 50000;
  value ← random_randint 200 3000;
  difficulty ← random_uniform 0.4 0.95;
  mret (EncryptedData.mk encryption_type data_size value difficulty false).

(** [ProceduralNetwork._create_node] *)
Definition _create_node (network_type : NetworkType) (min_sec max_sec : Z) : M NetworkNode.t :=
  uid ← md5_prefix 12;
  security ← random_randint min_sec max_sec;
  ice_drop ← random_randint 0 2;
  let ice_level := Py.max 1 (security - ice_drop) in
  ip1 ← random_randint 1 255;
  ip2 ← random_randint 0 255;
  ip3 ← random_randint 0 255;
  ip4 ← random_randint 1 254;
  let ip := Py.str_of_int ip1 +:+ "." +:+ Py.str_of_int ip2 +:+ "."
            +:+ Py.str_of_int ip3 +:+ "." +:+ Py.str_of_int ip4 in
  service_count ← random_randint 3 8;
  services ← generate_services (Z.to_nat service_count) ∅;
  org_name ← generate_org_name network_type;
  fw ← random_randint 80 150;
  let max_firewall := security * fw in
  dv ← random_randint 100 500;
  let data_value := security * dv in
  let trace_speed := (0.5 + fl security * 0.3)%float in
  honeypots ← (if 5 <=? security
               then honeypot_count ← random_randint 1 3;
                    repeat_collect (Z.to_nat honeypot_count) generate_honeypot
               else mret []);
  employee_count ← random_randint 5 30;
  employees ← generate_employees employee_count org_name;
  let segment := match Py.min 2 (security / 4) with
                 | 0 => "DMZ" | 1 => "INTERNAL" | _ => "SECURE"
                 end in
  r ← random_random;
  encrypted_traffic ← (if (r <? 0.5)%float
                       then traffic_count ← random_randint 1 5;
                            repeat_collect (Z.to_nat traffic_count) generate_traffic
                       else mret []);
  mret (NetworkNode.mk uid org_name ip network_type security max_firewall max_firewall
          ice_level services ∅ ∅ false data_value 0.0%float trace_speed None []
          honeypots (6 <=? security) (7 <=? security) false (Py.max 1 (security - 3))
          false segment employees encrypted_traffic).

(** [for x in l: acc = body x acc], for loops that update local variables. *)
Fixpoint fold_m {A S} (l : list A) (body : A -> S -> M S) (acc : S) : M S :=
  match l with
  | [] => mret acc
  | x :: l' => acc' ← body x acc; fold_m l' body acc'
  end.

(** [ProceduralNetwork._establish_connections].  The node objects are
    held in the list [all_nodes]; positions in that list stand for object
    identity. *)
Definition add_connection (a b : nat) (nodes : list NetworkNode.t) : list NetworkNode.t :=
  match nodes !! a, nodes !! b with
  | Some na, Some nb =>
      if bool_decide (NetworkNode.uid nb ∈ NetworkNode.connections na) then nodes
      else <[a := NetworkNode.with_connections
                    (NetworkNode.connections na ++ [NetworkNode.uid nb]) na]> nodes
  | _, _ => nodes
  end.

Definition connect (a b : nat) (nodes : list NetworkNode.t) : list NetworkNode.t :=
  add_connection b a (add_connection a b nodes).

(** [by_type]: positions grouped by network type, keys in order of
    first appearance. *)
Fixpoint group_insert (t : NetworkType) (i : nat) (groups : list (NetworkType * list nat))
  : list (NetworkType * list nat) :=
  match groups with
  | [] => [(t, [i])]
  | (t', members) :: groups' =>
      if bool_decide (t = t') then (t', members ++ [i]) :: groups'
      else (t', members) :: group_insert t i groups'
  end.

Fixpoint group_by_type (i : nat) (nodes : list NetworkNode.t)
    (groups : list (NetworkType * list nat)) : list (NetworkType * list nat) :=
  match nodes with
  | [] => groups
  | n :: nodes' => group_by_type (S i) nodes' (group_insert (NetworkNode.network_type n) i groups)
  end.

Definition connect_within (node_list : list nat) (a : nat) (nodes : list NetworkNode.t)
  : M (list NetworkNode.t) :=
  connection_count ← random_randint 2 5;
  match nodes !! a with
  | None => raise Py.IndexError
  | Some node =>
      let potential :=
        List.filter (fun b =>
          match nodes !! b with
          | Some n => negb (String.eqb (NetworkNode.uid n) (NetworkNode.uid node))
                      && negb (bool_decide (NetworkNode.uid n ∈ NetworkNode.connections node))
          | None => false
          end) node_list in
      connections ← random_sample potential
                      (Z.to_nat (Py.min connection_count (Z.of_nat (length potential))));
      mret (fold_left (fun nodes b => connect a b nodes) connections nodes)
  end.

Definition connect_across (type_a type_b : list nat) (nodes : list NetworkNode.t)
  : M (list NetworkNode.t) :=
  count ← random_randint 2 4;
  fold_m (seq 0 (Z.to_nat count)) (fun _ nodes =>
    a ← random_choice type_a;
    b ← random_choice type_b;
    mret (connect a b nodes)) nodes.

Fixpoint connect_pairs (groups : list (list nat)) (nodes : list NetworkNode.t)
  : M (list NetworkNode.t) :=
  match groups with
  | [] => mret nodes
  | type_a :: groups' =>
      nodes ← fold_m groups' (fun type_b nodes => connect_across type_a type_b nodes) nodes;
      connect_pairs groups' nodes
  end.

Definition _establish_connections (nodes : list NetworkNode.t) : M (list NetworkNode.t) :=
  let by_type := (group_by_type 0 nodes []).*2 in
  nodes ← fold_m by_type (fun node_list nodes =>
             fold_m node_list (connect_within node_list) nodes) nodes;
  connect_pairs by_type nodes.

(** [ProceduralNetwork.generate_network]: the dictionary keeps, for each
    uid, the last node object created under it. *)
Definition nodes_dict (all_nodes : list NetworkNode.t) : gmap string NetworkNode.t :=
  fold_left (fun m n => <[NetworkNode.uid n := n]> m) all_nodes ∅.

Definition generate_network : M (gmap string NetworkNode.t) :=
  c1 ← random_randint 20 30;
  c2 ← random_randint 12 20;
  c3 ← random_randint 10 18;
  c4 ← random_randint 8 15;
  c5 ← random_randint 6 12;
  c6 ← random_randint 4 8;
  c7 ← random_randint 5 10;
  let node_configs := [
    (CORPORATE, c1, 1, 4); (FINANCIAL, c2, 3, 6); (GOVERNMENT, c3, 4, 7);
    (RESEARCH, c4, 2, 5); (CRIMINAL, c5, 5, 8); (MILITARY, c6, 6, 10);
    (INFRASTRUCTURE, c7, 3, 6) ] in
  all_nodes ← fold_m node_configs (fun '(network_type, count, min_security, max_security) all_nodes =>
                 created ← repeat_collect (Z.to_nat count)
                             (_create_node network_type min_security max_security);
                 mret (all_nodes ++ created)) [];
  all_nodes ← _establish_connections all_nodes;
  mret (nodes_dict all_nodes).

(** [ProceduralNetwork.__init__] with [seed=None]: the seed is drawn and
    the network generated. *)
Definition ProceduralNetwork : M (Z * gmap string NetworkNode.t) :=
  seed ← random_randint 0 999999;
  nodes ← generate_network;
  mret (seed, nodes).

(** ** [class GameState] *)

Definition initial_hardware : gmap string HardwareComponent.t :=
  <["Cooling" := HardwareComponent.mk "Stock Cooler" COOLING 1 0 1.0%float "Basic air cooling"]>
  (<["Storage" := HardwareComponent.mk "500GB HDD" STORAGE 1 0 1.0%float "Mechanical hard drive"]>
  (<["RAM" := HardwareComponent.mk "8GB Memory" RAM 1 0 1.0%float "Standard DDR3 RAM"]>
  (<["CPU" := HardwareComponent.mk "Basic Processor" CPU 1 0 1.0%float "Standard 4-core CPU"]> ∅))).

Definition initial_factions : gmap string Faction.t :=
  <["Law Enforcement" := Faction.mk "Law Enforcement" (-50) true]>
  (<["Corporate Security" := Faction.mk "Corporate Security" (-20) true]>
  (<["Grey Market Traders" := Faction.mk "Grey Market Traders" 0 false]>
  (<["Black Hat Syndicate" := Faction.mk "Black Hat Syndicate" 0 false]>
  (<["White Hat Alliance" := Faction.mk "White Hat Alliance" 0 false]> ∅)))).

Definition initial_skills : PlayerSkills.t := PlayerSkills.mk 1 1 1 1 1 1 1.

Definition initial_player (now : datetime) : PlayerState.t :=
  {| PlayerState.handle := "ghost";
     PlayerState.level := GameConstants.STARTING_LEVEL;
     PlayerState.experience := 0;
     PlayerState.credits := GameConstants.STARTING_CREDITS;
     PlayerState.reputation := 0;
     PlayerState.heat_level := 0;
     PlayerState.skills := initial_skills;
     PlayerState.discovered_nodes := ∅;
     PlayerState.compromised_nodes := ∅;
     PlayerState.current_location := "";
     PlayerState.inventory := [];
     PlayerState.active_contracts := [];
     PlayerState.completed_contracts := ∅;
     PlayerState.game_time := now;
     PlayerState.total_playtime := 0.0%float;
     PlayerState.botnets := [];
     PlayerState.factions := initial_factions;
     PlayerState.identity_heat := 0;
     PlayerState.known_exploits := ∅;
     PlayerState.proxy_chains := 0;
     PlayerState.safe_houses := [];
     PlayerState.under_investigation := false;
     PlayerState.investigation_progress := 0.0%float;
     PlayerState.hardware := initial_hardware;
     PlayerState.active_events := [];
     PlayerState.bounced_nodes := [] |}.

(** [self.contracts.append(contract)] for every contract the generator
    returns, [count] times. *)
Fixpoint append_contracts (count : nat) : M unit :=
  match count with
  | O => mret tt
  | S count' =>
      g ← get_game;
      contract ← generate_contract (GameState.nodes g)
                   (PlayerState.level (GameState.player g))
                   (PlayerState.factions (GameState.player g));
      match contract with
      | Some c => modify_game (fun g => GameState.with_contracts (GameState.contracts g ++ [c]) g)
      | None => mret tt
      end;;
      append_contracts count'
  end.

(** [GameState.__init__]: builds a fresh state, replacing whatever the
    system held. *)
Definition GameState__init__ : M unit :=
  now ← datetime_now;
  let player := initial_player now in
  '(seed, nodes) ← ProceduralNetwork;
  rival_count ← random_randint 3 7;
  rivals ← repeat_collect (Z.to_nat rival_count) (generate_rival (PlayerState.level player));
  modify_game (fun _ => GameState.mk player seed nodes [] [] generate_tools [] [] rivals);;
  let entry_nodes := List.filter (fun n => NetworkNode.security_rating n <=? 2) (node_values nodes) in
  match entry_nodes with
  | [] => mret tt
  | _ =>
      start_node ← random_choice entry_nodes;
      modify_player (fun p =>
        PlayerState.with_discovered_nodes
          ({[NetworkNode.uid start_node]} ∪ PlayerState.discovered_nodes p)
          (PlayerState.with_current_location (NetworkNode.uid start_node) p))
  end;;
  append_contracts GameConstants.INITIAL_CONTRACTS;;
  g ← get_game;
  exploits ← generate_exploits (PlayerState.level (GameState.player g));
  modify_game (GameState.with_black_market_exploits exploits);;
  hardware ← generate_hardware (PlayerState.level (GameState.player g));
  modify_game (GameState.with_black_market_hardware hardware).

(** [GameState.update_dynamic_events] *)
Definition expired_indices (events : list WorldEvent.t) : list nat :=
  (List.filter (fun '(i, e) => WorldEvent.duration e <=? 0) (imap (fun i e => (i, e)) events)).*1.

Definition update_dynamic_events : M unit :=
  modify_player (fun p =>
    PlayerState.with_active_events
      ((fun e => WorldEvent.with_duration (WorldEvent.duration e - 1) e) <$> PlayerState.active_events p) p);;
  p ← get_player;
  let expired := expired_indices (PlayerState.active_events p) in
  for_each (rev expired) (fun idx =>
    p ← get_player;
    match PlayerState.active_events p !! idx with
    | None => raise Py.IndexError
    | Some e =>
        log_event ("EVENT EXPIRED: " +:+ WorldEvent.name e);;
        modify_player (fun p =>
          PlayerState.with_active_events (delete idx (PlayerState.active_events p)) p)
    end);;
  p ← get_player;
  if (length (PlayerState.active_events p) <? GameConstants.MAX_ACTIVE_EVENTS)%nat then
    r ← random_random;
    when (r <? GameConstants.EVENT_TRIGGER_CHANCE)%float (
      new_event ← generate_event;
      modify_player (fun p =>
        PlayerState.with_active_events (PlayerState.active_events p ++ [new_event]) p);;
      log_event ("NEW WORLD EVENT: " +:+ WorldEvent.name new_event +:+ " - "
                 +:+ WorldEvent.description new_event))
  else mret tt.

(** In-place mutation of the rival at position [i] and of a
    vulnerability object inside a node. *)
Definition modify_rival (i : nat) (f : RivalHacker.t -> RivalHacker.t) : M unit :=
  modify_game (fun g => GameState.with_rival_hackers (alter f i (GameState.rival_hackers g)) g).

Definition modify_vuln (uid : string) (si vi : nat) (f : Vulnerability.t -> Vulnerability.t) : M unit :=
  modify_node uid (fun n =>
    NetworkNode.with_services
      (alter (fun s => Service.with_vulnerabilities (alter f vi (Service.vulnerabilities s)) s)
             si (NetworkNode.services n)) n).

(** [GameState.update_rival_activity] *)
Definition update_rival_activity : M unit :=
  g ← get_game;
  for_enumerate 0 (GameState.rival_hackers g) (fun i rival =>
    r ← random_random;
    when (r <? GameConstants.RIVAL_ACTIVITY_CHANCE)%float (
      g ← get_game;
      let available_nodes :=
        List.filter (fun '(_, n) =>
            negb (NetworkNode.compromised n)
            && (NetworkNode.security_rating n <=? RivalHacker.skill_level rival + 2))
          (map_to_list (GameState.nodes g)) in
      match available_nodes with
      | [] => mret tt
      | _ =>
          '(key, target) ← random_choice available_nodes;
          modify_rival i (fun r =>
            RivalHacker.with_active_targets
              (RivalHacker.active_targets r ++ [NetworkNode.uid target]) r);;
          now ← datetime_now;
          modify_rival i (RivalHacker.with_last_seen now);;
          r2 ← random_random;
          when (r2 <? GameConstants.RIVAL_COMPROMISE_CHANCE)%float (
            modify_node key (NetworkNode.with_compromised true);;
            log_event ("Rival " +:+ RivalHacker.name rival +:+ " compromised "
                       +:+ NetworkNode.name target))
      end)).

(** [GameState.update_admin_response] *)
Definition update_admin_response : M unit :=
  g ← get_game;
  for_each (map_to_list (GameState.nodes g)) (fun '(key, node) =>
    when (NetworkNode.admin_active node && negb (NetworkNode.compromised node)) (
      for_enumerate 0 (NetworkNode.services node) (fun si service =>
        for_enumerate 0 (Service.vulnerabilities service) (fun vi vuln =>
          r ← random_random;
          when (r <? GameConstants.ADMIN_PATCH_CHANCE)%float (
            modify_vuln key si vi (fun v =>
              Vulnerability.with_patch_level (Vulnerability.patch_level v + 1) v);;
            log_event ("Admin patched vulnerability at " +:+ NetworkNode.name node))));;
      if (NetworkNode.trace_progress node >? 30)%float then
        r ← random_random;
        when (r <? GameConstants.ADMIN_ACTIVATE_CHANCE)%float (
          modify_node key (fun n =>
            NetworkNode.with_trace_speed (NetworkNode.trace_speed n * 1.5)%float n);;
          log_event ("Incident response activated at " +:+ NetworkNode.name node))
      else mret tt)).

(** ** [class GameInterface] *)

(** *** Leveling ([check_level_up]) *)

Definition skill_names : list string := [
  "scanning"; "exploitation"; "stealth"; "cryptanalysis";
  "social_engineering"; "reverse_engineering"; "botnet_management"
].

(** [getattr(skills, name)] and [setattr(skills, name, v)] for the seven
    attribute names above. *)
Definition getattr_skill (name : string) (sk : PlayerSkills.t) : Z :=
  if String.eqb name "scanning" then PlayerSkills.scanning sk
  else if String.eqb name "exploitation" then PlayerSkills.exploitation sk
  else if String.eqb name "stealth" then PlayerSkills.stealth sk
  else if String.eqb name "cryptanalysis" then PlayerSkills.cryptanalysis sk
  else if String.eqb name "social_engineering" then PlayerSkills.social_engineering sk
  else if String.eqb name "reverse_engineering" then PlayerSkills.reverse_engineering sk
  else PlayerSkills.botnet_management sk.

Definition setattr_skill (name : string) (v : Z) (sk : PlayerSkills.t) : PlayerSkills.t :=
  if String.eqb name "scanning" then PlayerSkills.with_scanning v sk
  else if String.eqb name "exploitation" then PlayerSkills.with_exploitation v sk
  else if String.eqb name "stealth" then PlayerSkills.with_stealth v sk
  else if String.eqb name "cryptanalysis" then PlayerSkills.with_cryptanalysis v sk
  else if String.eqb name "social_engineering" then PlayerSkills.with_social_engineering v sk
  else if String.eqb name "reverse_engineering" then PlayerSkills.with_reverse_engineering v sk
  else PlayerSkills.with_botnet_management v sk.

(** The first three statements of the loop body: pay the threshold and
    gain the level. *)
Definition level_up (p : PlayerState.t) : PlayerState.t :=
  let exp_needed := PlayerState.level p * GameConstants.EXP_PER_LEVEL_MULTIPLIER in
  PlayerState.with_level (PlayerState.level p + 1)
    (PlayerState.with_experience (PlayerState.experience p - exp_needed) p).

(** The [try] block of the loop body on the typed line: a number naming
    one of the seven skills raises that skill when it is below the cap. *)
Definition upgrade_skill (choice : string) (sk : PlayerSkills.t) : PlayerSkills.t :=
  match Py.int_of_str choice with
  | None => sk
  | Some n =>
      let idx := n - 1 in
      if (0 <=? idx) && (idx <? Z.of_nat (length skill_names)) then
        match skill_names !! Z.to_nat idx with
        | Some skill_name =>
            let current_val := getattr_skill skill_name sk in
            if current_val <? GameConstants.MAX_SKILL_LEVEL
            then setattr_skill skill_name (current_val + 1) sk
            else sk
        | None => sk
        end
      else sk
  end.

(** One turn of the [while] loop: the condition, then the body. *)
Definition level_up_turn : M bool :=
  p ← get_player;
  let exp_needed := PlayerState.level p * GameConstants.EXP_PER_LEVEL_MULTIPLIER in
  if exp_needed <=? PlayerState.experience p then
    modify_player level_up;;
    line ← input;
    let choice := Py.strip line in
    modify_player (fun p =>
      PlayerState.with_skills (upgrade_skill choice (PlayerState.skills p)) p);;
    mret true
  else mret false.

Definition check_level_up : M unit := while_reading level_up_turn.

(** *** Investigation ([handle_investigation_complete]) *)

(** [l.remove(x)]: drops the first element that is or equals [x];
    [None] is [ValueError]. *)
Fixpoint list_remove {A} (eqb : A -> A -> bool) (x : A) (l : list A) : option (list A) :=
  match l with
  | [] => None
  | y :: l' => if eqb y x then Some l' else cons y <$> list_remove eqb x l'
  end.

Definition handle_investigation_complete : M unit :=
  p ← get_player;
  asset_loss ← int_of_float
    (fl (PlayerState.credits p) * GameConstants.INVESTIGATION_ASSET_LOSS_PERCENT)%float;
  modify_player (fun p =>
    PlayerState.with_credits (Py.max 100 (PlayerState.credits p - asset_loss)) p);;
  modify_player (fun p =>
    PlayerState.with_reputation
      (Py.max 0 (PlayerState.reputation p - GameConstants.INVESTIGATION_REP_LOSS)) p);;
  p ← get_player;
  match PlayerState.inventory p with
  | [] => mret tt
  | inventory =>
      lost_tools ← random_sample inventory
                     (Nat.min (length inventory) GameConstants.INVESTIGATION_TOOLS_LOST);
      for_each lost_tools (fun tool =>
        p ← get_player;
        match list_remove Tool_same tool (PlayerState.inventory p) with
        | Some inventory' => modify_player (PlayerState.with_inventory inventory')
        | None => raise Py.ValueError
        end)
  end;;
  modify_player (PlayerState.with_botnets []);;
  modify_player (PlayerState.with_under_investigation false);;
  modify_player (PlayerState.with_investigation_progress 0.0%float);;
  modify_player (PlayerState.with_heat_level GameConstants.INVESTIGATION_RESET_HEAT);;
  log_event "IDENTITY COMPROMISED - Major assets lost";;
  _ ← input;
  mret tt.

(** *** Exploit success rate ([calculate_success_rate]) *)

Definition tool_bonus_of (inventory : list Tool.t) : float :=
  fold_left (fun tool_bonus tool =>
      if bool_decide (Tool.tool_type tool = EXPLOIT_FRAMEWORK)
      then (tool_bonus + Tool.effectiveness tool * GameConstants.TOOL_SUCCESS_BONUS)%float
      else tool_bonus)
    inventory 0.0%float.

Definition event_mult_of (events : list WorldEvent.t) : float :=
  fold_left (fun event_mult event =>
      if bool_decide (WorldEvent.etype event = GLOBAL_PATCH)
      then (event_mult * WorldEvent.multiplier event)%float
      else if bool_decide (WorldEvent.etype event = ZERO_DAY_LEAK)
      then (event_mult * WorldEvent.multiplier event)%float
      else event_mult)
    events 1.0%float.

Definition calculate_success_rate (vuln : Vulnerability.t) : M float :=
  p ← get_player;
  let base := Vulnerability.success_rate_base vuln in
  let skill_bonus :=
    (fl (PlayerSkills.exploitation (PlayerState.skills p)) * GameConstants.SKILL_SUCCESS_BONUS)%float in
  let patch_penalty := (fl (Vulnerability.patch_level vuln) * GameConstants.PATCH_PENALTY)%float in
  let tool_bonus := tool_bonus_of (PlayerState.inventory p) in
  cpu ← get_hardware "CPU";
  let cpu_bonus := ((HardwareComponent.bonus cpu - 1.0) * 0.2)%float in
  ram ← get_hardware "RAM";
  let ram_bonus := ((HardwareComponent.bonus ram - 1.0) * 0.1)%float in
  let event_mult := event_mult_of (PlayerState.active_events p) in
  mret (Float.py_max GameConstants.BASE_EXPLOIT_SUCCESS_RATE
         (Float.py_min GameConstants.MAX_EXPLOIT_SUCCESS_RATE
            ((base + skill_bonus + tool_bonus + cpu_bonus + ram_bonus) * event_mult
             - patch_penalty)%float)).

(** Small helpers for the statements that recur in the methods below. *)
Definition add_experience (n : Z) : M unit :=
  modify_player (fun p => PlayerState.with_experience (PlayerState.experience p + n) p).
Definition add_credits (n : Z) : M unit :=
  modify_player (fun p => PlayerState.with_credits (PlayerState.credits p + n) p).
Definition add_reputation (n : Z) : M unit :=
  modify_player (fun p => PlayerState.with_reputation (PlayerState.reputation p + n) p).
Definition add_heat (n : Z) : M unit :=
  modify_player (fun p => PlayerState.with_heat_level (PlayerState.heat_level p + n) p).
Definition add_trace (uid : string) (x : float) : M unit :=
  modify_node uid (fun n => NetworkNode.with_trace_progress (NetworkNode.trace_progress n + x)%float n).
Definition damage_firewall (uid : string) (damage : Z) : M unit :=
  modify_node uid (fun n =>
    NetworkNode.with_firewall_strength (NetworkNode.firewall_strength n - damage) n).

(** Sum of [effectiveness * weight] over the owned tools of one type,
    accumulated from [start] in inventory order. *)
Definition tools_bonus (ty : ToolType) (weight start : float) (inventory : list Tool.t) : float :=
  fold_left (fun acc tool =>
      if bool_decide (Tool.tool_type tool = ty)
      then (acc + Tool.effectiveness tool * weight)%float else acc)
    inventory start.

(** [f"{node.uid}_{i}_{vuln.name}"] *)
Definition vuln_id (node : NetworkNode.t) (i : nat) (vuln : Vulnerability.t) : string :=
  NetworkNode.uid node +:+ "_" +:+ Py.str_of_int (Z.of_nat i) +:+ "_" +:+ Vulnerability.name vuln.

(** *** [scan_node] *)
Definition scan_node (uid : string) : M unit :=
  p ← get_player;
  let scanner_bonus :=
    fold_left (fun acc tool =>
        if bool_decide (Tool.tool_type tool = SCANNER)
        then (acc + Tool.effectiveness tool)%float else acc)
      (PlayerState.inventory p) 0.0%float in
  let scanning := PlayerSkills.scanning (PlayerState.skills p) in
  let discovery_chance := (0.3 + fl scanning * 0.1 + scanner_bonus * 0.1)%float in
  node ← get_node uid;
  for_each (NetworkNode.honeypots node) (fun honeypot =>
    r ← random_random;
    p ← get_player;
    when (r <? Honeypot.detection_chance honeypot
               * (1.0 - fl (PlayerSkills.stealth (PlayerState.skills p)) * 0.05))%float (
      add_trace uid (fl (Honeypot.trace_increase honeypot));;
      add_heat 5));;
  for_enumerate 0 (NetworkNode.services node) (fun i service =>
    r ← random_random;
    node ← get_node uid;
    when ((r <? discovery_chance)%float || bool_decide (i ∈ NetworkNode.discovered_services node)) (
      modify_node uid (fun n =>
        NetworkNode.with_discovered_services ({[i]} ∪ NetworkNode.discovered_services n) n);;
      match Service.vulnerabilities service with
      | [] => mret tt
      | vulns =>
          r2 ← random_random;
          when (r2 <? discovery_chance * 0.7)%float (
            for_each vulns (fun vuln =>
              node ← get_node uid;
              let id := vuln_id node i vuln in
              if bool_decide (id ∈ NetworkNode.discovered_vulns node) then mret tt
              else
                r3 ← random_random;
                p ← get_player;
                when (r3 <? 1.0 - Vulnerability.discovery_difficulty vuln
                            + fl (PlayerSkills.scanning (PlayerState.skills p)) * 0.05)%float (
                  modify_node uid (fun n =>
                    NetworkNode.with_discovered_vulns ({[id]} ∪ NetworkNode.discovered_vulns n) n))))
      end));;
  node ← get_node uid;
  match NetworkNode.employees node with
  | [] => mret tt
  | employees =>
      r ← random_random;
      when (r <? discovery_chance)%float (
        _ ← random_sample employees (Nat.min 3 (length employees)); mret tt)
  end;;
  add_experience (5 * NetworkNode.security_rating node);;
  check_level_up;;
  _ ← input;
  mret tt.

(** *** [run_hacking_minigame] *)
Definition run_hacking_minigame (difficulty : float) : M bool :=
  a ← random_randint 10 50;
  b ← random_randint 10 50;
  op ← random_choice ["+"; "-"];
  let result := if String.eqb op "+" then a + b else a - b in
  start_time ← time_time;
  ram ← get_hardware "RAM";
  let timeout := ((10.0 - difficulty * 5) * HardwareComponent.bonus ram)%float in
  try_except (
    line ← input;
    let user_input := Py.strip line in
    end_time ← time_time;
    if (end_time - start_time >? timeout)%float then mret false
    else mret (String.eqb user_input (Py.str_of_int result))
  ) any_exception (mret false).

(** *** [execute_exploit]

    The vulnerability object is addressed by its service and its
    position in that service's list. *)
Definition get_vuln (uid : string) (si vi : nat) : M Vulnerability.t :=
  node ← get_node uid;
  match NetworkNode.services node !! si ≫= fun s => Service.vulnerabilities s !! vi with
  | Some v => mret v
  | None => raise Py.IndexError
  end.

Definition execute_exploit (uid : string) (si vi : nat) : M unit :=
  vuln ← get_vuln uid si vi;
  success_rate ← calculate_success_rate vuln;
  r ← random_random;
  if (r <? success_rate)%float then
    bypassed ← (if (Vulnerability.severity vuln >? 0.7)%float
                then run_hacking_minigame (Vulnerability.discovery_difficulty vuln)
                else mret true);
    if negb bypassed then add_trace uid 10%float
    else
      damage ← random_randint (Vulnerability.firewall_damage vuln).1 (Vulnerability.firewall_damage vuln).2;
      p ← get_player;
      damage ← int_of_float
        (fl damage * (fl 1 + fl (PlayerSkills.exploitation (PlayerState.skills p)) * 0.1))%float;
      cpu ← get_hardware "CPU";
      damage ← int_of_float (fl damage * HardwareComponent.bonus cpu)%float;
      damage_firewall uid damage;;
      gain ← int_of_float (fl 10 * Vulnerability.severity vuln)%float;
      add_experience gain;;
      check_level_up
  else
    add_trace uid (fl (Vulnerability.trace_cost vuln));;
    node ← get_node uid;
    if NetworkNode.admin_active node then
      r2 ← random_random;
      when (r2 <? 0.2)%float (
        modify_vuln uid si vi (fun v =>
          Vulnerability.with_patch_level (Vulnerability.patch_level v + 1) v))
    else mret tt.

(** *** [use_botnet_ddos] *)
Definition parse_int (choice : string) : M Z :=
  match Py.int_of_str choice with
  | Some n => mret n
  | None => raise Py.ValueError
  end.

Definition use_botnet_ddos (uid : string) : M unit :=
  p ← get_player;
  match PlayerState.botnets p with
  | [] => mret tt
  | botnets =>
      line ← input;
      let choice := Py.strip line in
      try_except (
        n ← parse_int choice;
        let idx := n - 1 in
        if (0 <=? idx) && (idx <? Z.of_nat (length botnets)) then
          match botnets !! Z.to_nat idx with
          | None => raise Py.IndexError
          | Some botnet =>
              damage ← int_of_float (fl (Botnet.ddos_power botnet) * Botnet.quality botnet)%float;
              damage_firewall uid damage;;
              add_trace uid (fl GameConstants.DDOS_TRACE_INCREASE);;
              add_heat GameConstants.DDOS_HEAT_INCREASE;;
              add_experience 15;;
              check_level_up
          end
        else mret tt
      ) is_ValueError (mret tt)
  end.

(** *** [clear_traces] and [clear_traces_menu] *)
Definition clear_traces (uid : string) : M unit :=
  p ← get_player;
  let effectiveness :=
    tools_bonus ROOTKIT 10%float (fl (15 + PlayerSkills.stealth (PlayerState.skills p) * 5))
      (PlayerState.inventory p) in
  modify_node uid (fun n =>
    NetworkNode.with_trace_progress
      (Float.py_max 0%float (NetworkNode.trace_progress n - effectiveness)%float) n).

Definition clear_traces_menu (uid : string) : M unit :=
  clear_traces uid;; _ ← input; mret tt.

(** *** [handle_trace_complete] *)
Definition handle_trace_complete (uid : string) : M unit :=
  add_heat GameConstants.TRACE_HEAT_INCREASE;;
  modify_player (fun p =>
    PlayerState.with_identity_heat
      (PlayerState.identity_heat p + GameConstants.TRACE_IDENTITY_HEAT_INCREASE) p);;
  penalty ← random_randint GameConstants.TRACE_PENALTY_MIN GameConstants.TRACE_PENALTY_MAX;
  modify_player (fun p => PlayerState.with_credits (Py.max 0 (PlayerState.credits p - penalty)) p);;
  p ← get_player;
  (if (PlayerState.identity_heat p >? GameConstants.INVESTIGATION_START_THRESHOLD)
      && negb (PlayerState.under_investigation p)
   then r ← random_random;
        when (r <? GameConstants.INVESTIGATION_START_CHANCE)%float
             (modify_player (PlayerState.with_under_investigation true))
   else mret tt);;
  node ← get_node uid;
  log_event ("TRACED at " +:+ NetworkNode.name node).

(** *** [compromise_node] *)
Definition completes_on_compromise (objective : string) : bool :=
  String.eqb objective "steal_data" || String.eqb objective "install_backdoor"
  || String.eqb objective "sabotage".

Definition modify_contract (i : nat) (f : Contract.t -> Contract.t) : M unit :=
  modify_game (fun g => GameState.with_contracts (alter f i (GameState.contracts g)) g).

Definition compromise_node (uid : string) : M unit :=
  modify_node uid (NetworkNode.with_compromised true);;
  node ← get_node uid;
  modify_player (fun p =>
    PlayerState.with_compromised_nodes ({[NetworkNode.uid node]} ∪ PlayerState.compromised_nodes p) p);;
  storage ← get_hardware "Storage";
  extracted_value ← int_of_float (fl (NetworkNode.data_value node) * HardwareComponent.bonus storage)%float;
  add_credits extracted_value;;
  add_experience (NetworkNode.security_rating node * 50);;
  add_reputation (NetworkNode.security_rating node * 10);;
  for_each (NetworkNode.connections node) (fun conn_uid =>
    modify_player (fun p =>
      PlayerState.with_discovered_nodes ({[conn_uid]} ∪ PlayerState.discovered_nodes p) p));;
  g ← get_game;
  for_enumerate 0 (GameState.contracts g) (fun i contract =>
    when (String.eqb (Contract.target_node_uid contract) (NetworkNode.uid node)
          && negb (Contract.completed contract)
          && completes_on_compromise (Contract.objective contract)) (
      modify_contract i (Contract.with_completed true);;
      add_credits (Contract.reward contract);;
      add_reputation (Contract.reputation_change contract)));;
  log_event ("Compromised " +:+ NetworkNode.name node);;
  check_level_up;;
  _ ← input;
  mret tt.

(** *** [attack_node] *)

(** [vulns_list]: the discovered vulnerabilities of the discovered
    services, each with the positions that identify its object. *)
Definition vulns_list_of (node : NetworkNode.t) : list (nat * nat * Vulnerability.t) :=
  concat (imap (fun i service =>
    if bool_decide (i ∈ NetworkNode.discovered_services node) then
      omap (fun '(j, vuln) =>
              if bool_decide (vuln_id node i vuln ∈ NetworkNode.discovered_vulns node)
              then Some (i, j, vuln) else None)
           (imap (fun j vuln => (j, vuln)) (Service.vulnerabilities service))
    else []) (NetworkNode.services node)).

(** [any(t.tool_type.value == vuln.requires_tool for t in inventory)] *)
Definition has_tool (required : string) (inventory : list Tool.t) : bool :=
  existsb (fun t => String.eqb (ToolType_value (Tool.tool_type t)) required) inventory.

(** Truth value of an optional string: [None] and [""] are falsy. *)
Definition str_truthy (s : option string) : option string :=
  match s with
  | Some EmptyString | None => None
  | Some r => Some r
  end.

(** How the body of the [while] loop leaves the menu part. *)
Inductive flow : Set :=
| Proceed    (** falls through to the trace accrual *)
| Continue   (** [continue] *)
| Break.     (** [break] *)

(** The menu of one loop iteration: from the prompt to the end of the
    [try] statement. *)
Definition attack_menu (uid : string) : M flow :=
  node ← get_node uid;
  if bool_decide (NetworkNode.discovered_vulns node = ∅) then
    _ ← input; mret Break
  else
    let vulns_list := vulns_list_of node in
    let n := Z.of_nat (length vulns_list) in
    line ← input;
    let choice := Py.strip line in
    try_except (
      choice_num ← parse_int choice;
      if (1 <=? choice_num) && (choice_num <=? n) then
        match vulns_list !! Z.to_nat (choice_num - 1) with
        | None => raise Py.IndexError
        | Some (si, vi, vuln) =>
            p ← get_player;
            match str_truthy (Vulnerability.requires_tool vuln) with
            | Some required =>
                if has_tool required (PlayerState.inventory p)
                then execute_exploit uid si vi;; mret Proceed
                else mret Continue
            | None => execute_exploit uid si vi;; mret Proceed
            end
        end
      else if choice_num =? n + 1 then use_botnet_ddos uid;; mret Proceed
      else if choice_num =? n + 2 then clear_traces uid;; mret Proceed
      else if choice_num =? n + 3 then mret Break
      else mret Proceed
    ) is_ValueError (mret Proceed).

(** [a / b] on floats; Python raises on a zero divisor. *)
Definition float_div (a b : float) : M float :=
  if Float.truthy b then mret (a / b)%float else raise Py.ZeroDivisionError.

(** The event loop of the trace accrual. *)
Definition trace_events (events : list WorldEvent.t) (trace_increase : float) : float :=
  fold_left (fun trace_increase event =>
      if bool_decide (WorldEvent.etype event = POLICE_CRACKDOWN)
      then (trace_increase * WorldEvent.multiplier event)%float
      else if bool_decide (WorldEvent.etype event = NETWORK_WORM)
      then (trace_increase * WorldEvent.multiplier event)%float
      else trace_increase)
    events trace_increase.

Definition stealth_bonus_of (p : PlayerState.t) : float :=
  let stealth_bonus :=
    (fl (PlayerSkills.stealth (PlayerState.skills p)) * GameConstants.STEALTH_SKILL_BONUS)%float in
  let stealth_bonus :=
    if 0 <? PlayerState.proxy_chains p
    then (stealth_bonus + fl (PlayerState.proxy_chains p) * GameConstants.PROXY_CHAIN_BONUS)%float
    else stealth_bonus in
  match PlayerState.bounced_nodes p with
  | [] => stealth_bonus
  | bounced =>
      (stealth_bonus + fl (Z.of_nat (length bounced)) * GameConstants.BOUNCE_NODE_BONUS)%float
  end.

(** The stealth discount [min(MAX_STEALTH_REDUCTION, stealth_bonus)]. *)
Definition stealth_discount (p : PlayerState.t) : float :=
  Float.py_min GameConstants.MAX_STEALTH_REDUCTION (stealth_bonus_of p).

(** The statements from [# Calculate trace increase] to
    [node.trace_progress += trace_increase]. *)
Definition trace_increase_of (p : PlayerState.t) (node : NetworkNode.t) : M float :=
  let trace_increase := NetworkNode.trace_speed node in
  cooling ← get_hardware "Cooling";
  trace_increase ← float_div trace_increase (HardwareComponent.bonus cooling);
  let trace_increase := trace_events (PlayerState.active_events p) trace_increase in
  let trace_increase :=
    if NetworkNode.has_siem node then (trace_increase * 1.5)%float else trace_increase in
  mret (trace_increase * (1.0 - stealth_discount p))%float.

Definition accrue_trace (uid : string) : M unit :=
  node ← get_node uid;
  p ← get_player;
  trace_increase ← trace_increase_of p node;
  add_trace uid trace_increase.

(** [# Admin might activate] *)
Definition admin_might_activate (uid : string) : M unit :=
  node ← get_node uid;
  if negb (NetworkNode.admin_active node)
     && (NetworkNode.trace_progress node >? fl GameConstants.ADMIN_ACTIVATE_THRESHOLD)%float
  then
    r ← random_random;
    when (r <? GameConstants.ADMIN_ACTIVATE_CHANCE)%float (
      modify_node uid (NetworkNode.with_admin_active true);;
      modify_node uid (fun n =>
        NetworkNode.with_trace_speed
          (NetworkNode.trace_speed n * GameConstants.ADMIN_TRACE_MULTIPLIER)%float n))
  else mret tt.

(** The end of an iteration, after the trace accrual: the administrator
    and the completed trace; [true] when the loop goes on. *)
Definition trace_response (uid : string) : M bool :=
  admin_might_activate uid;;
  node ← get_node uid;
  if (NetworkNode.trace_progress node >=? fl GameConstants.TRACE_COMPLETE_THRESHOLD)%float
  then handle_trace_complete uid;; mret false
  else mret true.

(** One iteration of the [while] loop; [true] when the loop goes on. *)
Definition attack_iteration (uid : string) : M bool :=
  ctl ← attack_menu uid;
  match ctl with
  | Break => mret false
  | Continue => mret true
  | Proceed => accrue_trace uid;; trace_response uid
  end.

(** The loop condition [node.firewall_strength > 0 and node.trace_progress < 100]. *)
Definition under_attack (node : NetworkNode.t) : bool :=
  (0 <? NetworkNode.firewall_strength node) && (NetworkNode.trace_progress node <? 100)%float.

Definition attack_turn (uid : string) : M bool :=
  node ← get_node uid;
  if under_attack node then attack_iteration uid else mret false.

Definition attack_node (uid : string) : M unit :=
  node ← get_node uid;
  if NetworkNode.compromised node && negb (NetworkNode.backdoor_installed node) then mret tt
  else
    while_reading (attack_turn uid);;
    node ← get_node uid;
    when (NetworkNode.firewall_strength node <=? 0) (compromise_node uid).

(** *** [navigate_bounces] *)
Definition navigate_bounces : M unit :=
  p ← get_player;
  g ← get_game;
  compromised ←
    fold_m (elements (PlayerState.compromised_nodes p)) (fun uid acc =>
      if bool_decide (uid ∈ PlayerState.bounced_nodes p) then mret acc
      else node ← get_node uid; mret (acc ++ [node])) [];
  match compromised with
  | [] => _ ← input; mret tt
  | _ =>
      let shown := take 10 compromised in
      line ← input;
      let choice := Py.strip line in
      try_except (
        n ← parse_int choice;
        let idx := n - 1 in
        if idx =? Z.of_nat (length shown) then
          modify_player (PlayerState.with_bounced_nodes [])
        else if (0 <=? idx) && (idx <? Z.of_nat (length shown)) then
          match compromised !! Z.to_nat idx with
          | None => raise Py.IndexError
          | Some node =>
              modify_player (fun p =>
                PlayerState.with_bounced_nodes (PlayerState.bounced_nodes p ++ [NetworkNode.uid node]) p)
          end
        else mret tt
      ) is_ValueError (mret tt)
  end.

(** *** [install_backdoor] *)
Definition install_backdoor (uid : string) : M unit :=
  node ← get_node uid;
  if negb (NetworkNode.compromised node) then mret tt
  else if NetworkNode.backdoor_installed node then mret tt
  else
    p ← get_player;
    let success_chance :=
      tools_bonus ROOTKIT 0.1%float
        (0.7 + fl (PlayerSkills.reverse_engineering (PlayerState.skills p)) * 0.05)%float
        (PlayerState.inventory p) in
    r ← random_random;
    if (r <? success_chance)%float then
      modify_node uid (NetworkNode.with_backdoor_installed true);;
      add_experience (NetworkNode.security_rating node * 20);;
      check_level_up
    else add_trace uid 20%float.

(** *** [navigate_network] *)
Definition navigate_network : M unit :=
  p ← get_player;
  current_node ← get_node (PlayerState.current_location p);
  match NetworkNode.connections current_node with
  | [] => mret tt
  | connections =>
      available ←
        fold_m connections (fun conn_uid acc =>
          if bool_decide (conn_uid ∈ PlayerState.discovered_nodes p)
          then conn_node ← get_node conn_uid; mret (acc ++ [conn_node])
          else mret acc) [];
      match available with
      | [] => mret tt
      | _ =>
          line ← input;
          let choice := Py.strip line in
          try_except (
            n ← parse_int choice;
            let idx := n - 1 in
            if (0 <=? idx) && (idx <? Z.of_nat (length available)) then
              match available !! Z.to_nat idx with
              | None => raise Py.IndexError
              | Some target =>
                  modify_player (PlayerState.with_current_location (NetworkNode.uid target))
              end
            else mret tt
          ) is_ValueError (mret tt)
      end
  end.

(** *** [discover_nodes] *)
Definition discover_nodes : M unit :=
  p ← get_player;
  current_node ← get_node (PlayerState.current_location p);
  for_each (NetworkNode.connections current_node) (fun conn_uid =>
    p ← get_player;
    if bool_decide (conn_uid ∈ PlayerState.discovered_nodes p) then mret tt
    else
      r ← random_random;
      when (r <? 0.5 + fl (PlayerSkills.scanning (PlayerState.skills p)) * 0.1)%float (
        modify_player (fun p =>
          PlayerState.with_discovered_nodes ({[conn_uid]} ∪ PlayerState.discovered_nodes p) p);;
        _ ← get_node conn_uid;
        mret tt)).

(** *** Social engineering

    The menu passes [nodes.get(current_location)]; each method starts
    with [if not node or not node.employees: return]. *)
Definition nodes_get (uid : string) : M (option NetworkNode.t) :=
  g ← get_game; mret (GameState.nodes g !! uid).

Definition modify_employee (uid : string) (i : nat) (f : Employee.t -> Employee.t) : M unit :=
  modify_node uid (fun n => NetworkNode.with_employees (alter f i (NetworkNode.employees n)) n).

(** Elements of a list with their positions, filtered. *)
Definition indexed_filter {A} (f : A -> bool) (l : list A) : list (nat * A) :=
  List.filter (fun '(_, x) => f x) (imap (fun i x => (i, x)) l).

Definition phishing_campaign (uid : string) : M unit :=
  node ← nodes_get uid;
  match node with
  | None => mret tt
  | Some node =>
      match NetworkNode.employees node with
      | [] => mret tt
      | employees =>
          let targets := indexed_filter (fun emp => negb (Employee.compromised emp)) employees in
          match targets with
          | [] => mret tt
          | _ =>
              '(i, target) ← random_choice targets;
              p ← get_player;
              let success_rate :=
                (Employee.phishing_susceptibility target
                 + fl (PlayerSkills.social_engineering (PlayerState.skills p))
                   * GameConstants.PHISHING_SKILL_BONUS)%float in
              r ← random_random;
              if (r <? success_rate)%float then
                modify_employee uid i (Employee.with_compromised true);;
                let damage := Employee.access_level target * 30 in
                damage_firewall uid damage;;
                add_trace uid (fl GameConstants.PHISHING_SUCCESS_TRACE);;
                add_experience (Employee.access_level target * 15);;
                check_level_up
              else
                add_trace uid (fl GameConstants.PHISHING_FAIL_TRACE);;
                add_heat GameConstants.PHISHING_FAIL_HEAT
          end
      end
  end.

Definition osint_search (uid : string) : M unit :=
  node ← nodes_get uid;
  match node with
  | None => mret tt
  | Some node =>
      match NetworkNode.employees node with
      | [] => mret tt
      | employees =>
          targets ← random_sample employees (Nat.min 5 (length employees));
          for_each targets (fun emp =>
            r ← random_random;
            when (r <? Employee.social_media_activity emp)%float (
              _ ← random_random; _ ← random_random; mret tt));;
          add_experience 10
      end
  end.

Definition social_media_recon (uid : string) : M unit :=
  node ← nodes_get uid;
  match node with
  | None => mret tt
  | Some node =>
      match NetworkNode.employees node with
      | [] => mret tt
      | employees =>
          let high_activity :=
            indexed_filter (fun emp => (Employee.social_media_activity emp >? 0.6)%float) employees in
          match high_activity with
          | [] => mret tt
          | _ =>
              '(i, target) ← random_choice high_activity;
              r ← random_random;
              when (r <? 0.4)%float (_ ← random_choice ["Slack"; "Jira"; "Salesforce"]; mret tt);;
              _ ← random_random;
              modify_employee uid i (fun e =>
                Employee.with_phishing_susceptibility
                  (Float.py_min 1.0%float (Employee.phishing_susceptibility e + 0.1)%float) e);;
              add_experience 15
          end
      end
  end.

Definition compromise_employee (uid : string) : M unit :=
  node ← nodes_get uid;
  match node with
  | None => mret tt
  | Some node =>
      match NetworkNode.employees node with
      | [] => mret tt
      | employees =>
          let compromised := List.filter Employee.compromised employees in
          match compromised with
          | [] => mret tt
          | _ =>
              line ← input;
              let choice := Py.strip line in
              try_except (
                n ← parse_int choice;
                let idx := n - 1 in
                if (0 <=? idx) && (idx <? Z.of_nat (length compromised)) then
                  match compromised !! Z.to_nat idx with
                  | None => raise Py.IndexError
                  | Some emp =>
                      let damage := Employee.access_level emp * 25 in
                      damage_firewall uid damage;;
                      modify_node uid (fun n =>
                        NetworkNode.with_trace_speed (NetworkNode.trace_speed n * 0.8)%float n);;
                      add_experience (Employee.access_level emp * 10);;
                      check_level_up
                  end
                else mret tt
              ) is_ValueError (mret tt)
          end
      end
  end.

(** *** Cryptanalysis ([analyze_encrypted_traffic] and [decrypt_data]
    only print and wait for Enter) *)
Definition modify_traffic (uid : string) (i : nat) (f : EncryptedData.t -> EncryptedData.t) : M unit :=
  modify_node uid (fun n =>
    NetworkNode.with_encrypted_traffic (alter f i (NetworkNode.encrypted_traffic n)) n).

Definition analyze_encrypted_traffic (uid : string) : M unit :=
  node ← nodes_get uid;
  match node with
  | None => mret tt
  | Some node =>
      match NetworkNode.encrypted_traffic node with
      | [] => mret tt
      | _ => _ ← input; mret tt
      end
  end.

Definition crack_encryption (uid : string) : M unit :=
  node ← nodes_get uid;
  match node with
  | None => mret tt
  | Some node =>
      match NetworkNode.encrypted_traffic node with
      | [] => mret tt
      | traffic =>
          let uncracked := indexed_filter (fun d => negb (EncryptedData.cracked d)) traffic in
          match uncracked with
          | [] => mret tt
          | _ =>
              line ← input;
              let choice := Py.strip line in
              try_except (
                n ← parse_int choice;
                let idx := n - 1 in
                if (0 <=? idx) && (idx <? Z.of_nat (length uncracked)) then
                  match uncracked !! Z.to_nat idx with
                  | None => raise Py.IndexError
                  | Some (i, data) =>
                      p ← get_player;
                      let success_rate :=
                        tools_bonus CRYPTANALYSIS 0.15%float
                          (0.4 + fl (PlayerSkills.cryptanalysis (PlayerState.skills p)) * 0.08
                           - EncryptedData.difficulty data * 0.3)%float
                          (PlayerState.inventory p) in
                      r ← random_random;
                      if (r <? success_rate)%float then
                        modify_traffic uid i (EncryptedData.with_cracked true);;
                        add_credits (EncryptedData.value data);;
                        gain ← int_of_float (EncryptedData.difficulty data * 50)%float;
                        add_experience gain;;
                        check_level_up
                      else mret tt
                  end
                else mret tt
              ) is_ValueError (mret tt)
          end
      end
  end.

Definition decrypt_data (uid : string) : M unit :=
  node ← nodes_get uid;
  match node with
  | None => mret tt
  | Some node =>
      match NetworkNode.encrypted_traffic node with
      | [] => mret tt
      | traffic =>
          match List.filter EncryptedData.cracked traffic with
          | [] => mret tt
          | _ => _ ← input; mret tt
          end
      end
  end.

(** *** Botnets *)
Definition modify_botnet (i : nat) (f : Botnet.t -> Botnet.t) : M unit :=
  modify_player (fun p => PlayerState.with_botnets (alter f i (PlayerState.botnets p)) p).

Definition build_botnet : M unit :=
  let cost := GameConstants.BOTNET_BUILD_COST in
  p ← get_player;
  if PlayerState.credits p <? cost then mret tt
  else
    base_size ← random_randint GameConstants.BOTNET_BASE_SIZE_MIN GameConstants.BOTNET_BASE_SIZE_MAX;
    let management := PlayerSkills.botnet_management (PlayerState.skills p) in
    let size := base_size + management * GameConstants.BOTNET_SIZE_PER_SKILL in
    let quality :=
      (GameConstants.BOTNET_BASE_QUALITY + fl management * GameConstants.BOTNET_QUALITY_PER_SKILL)%float in
    ddos_power ← int_of_float (fl size * quality * 0.5)%float;
    let maintenance := size * 2 in
    let botnet := Botnet.mk size quality maintenance ddos_power 0 in
    modify_player (fun p => PlayerState.with_botnets (PlayerState.botnets p ++ [botnet]) p);;
    add_credits (- cost).

Definition maintain_botnet : M unit :=
  p ← get_player;
  match PlayerState.botnets p with
  | [] => mret tt
  | botnets =>
      line ← input;
      let choice := Py.strip line in
      try_except (
        n ← parse_int choice;
        let idx := n - 1 in
        if (0 <=? idx) && (idx <? Z.of_nat (length botnets)) then
          match botnets !! Z.to_nat idx with
          | None => raise Py.IndexError
          | Some botnet =>
              if PlayerState.credits p <? Botnet.maintenance_cost botnet then mret tt
              else
                add_credits (- Botnet.maintenance_cost botnet);;
                lost ← int_of_float (fl (Botnet.size botnet) * 0.3)%float;
                modify_botnet (Z.to_nat idx) (fun b =>
                  Botnet.with_detected_nodes (Py.max 0 (Botnet.detected_nodes b - lost)) b);;
                modify_botnet (Z.to_nat idx) (fun b =>
                  Botnet.with_quality (Float.py_min 1.0%float (Botnet.quality b + 0.05)%float) b)
          end
        else mret tt
      ) is_ValueError (mret tt)
  end.

Definition expand_botnet : M unit :=
  p ← get_player;
  match PlayerState.botnets p with
  | [] => mret tt
  | botnets =>
      line ← input;
      let choice := Py.strip line in
      try_except (
        n ← parse_int choice;
        let idx := n - 1 in
        if (0 <=? idx) && (idx <? Z.of_nat (length botnets)) then
          match botnets !! Z.to_nat idx with
          | None => raise Py.IndexError
          | Some botnet =>
              let expansion_cost := Botnet.size botnet * 10 in
              if PlayerState.credits p <? expansion_cost then mret tt
              else
                grown ← random_randint 20 50;
                let new_nodes := grown + PlayerSkills.botnet_management (PlayerState.skills p) * 5 in
                let size := Botnet.size botnet + new_nodes in
                modify_botnet (Z.to_nat idx) (Botnet.with_size size);;
                ddos_power ← int_of_float (fl size * Botnet.quality botnet * 0.5)%float;
                modify_botnet (Z.to_nat idx) (Botnet.with_ddos_power ddos_power);;
                modify_botnet (Z.to_nat idx) (Botnet.with_maintenance_cost (size * 2));;
                add_credits (- expansion_cost)
          end
        else mret tt
      ) is_ValueError (mret tt)
  end.

Definition dismantle_botnet : M unit :=
  p ← get_player;
  match PlayerState.botnets p with
  | [] => mret tt
  | botnets =>
      line ← input;
      let choice := Py.strip line in
      try_except (
        n ← parse_int choice;
        let idx := n - 1 in
        if (0 <=? idx) && (idx <? Z.of_nat (length botnets)) then
          modify_player (fun p =>
            PlayerState.with_botnets (delete (Z.to_nat idx) (PlayerState.botnets p)) p)
        else mret tt
      ) is_ValueError (mret tt)
  end.

(** *** Intelligence ([intelligence_menu], [hack_rival_menu]) *)
Definition hack_rival_menu : M unit :=
  line ← input;
  let choice := Py.strip line in
  try_except (
    n ← parse_int choice;
    let idx := n - 1 in
    if (0 <=? idx) && (idx <? 5) then
      g ← get_game;
      match GameState.rival_hackers g !! Z.to_nat idx with
      | None => raise Py.IndexError
      | Some rival =>
          p ← get_player;
          let success_rate :=
            (GameConstants.RIVAL_HACK_BASE_SUCCESS
             + fl (PlayerSkills.exploitation (PlayerState.skills p)) * GameConstants.SKILL_SUCCESS_BONUS
             - fl (RivalHacker.skill_level rival) * 0.04)%float in
          r ← random_random;
          if (r <? success_rate)%float then
            let reward := RivalHacker.skill_level rival * 500 in
            add_credits reward;;
            modify_rival (Z.to_nat idx) (RivalHacker.with_hostile true)
          else
            add_heat 10;;
            modify_rival (Z.to_nat idx) (RivalHacker.with_hostile true)
      end
    else mret tt
  ) any_exception (mret tt).

Definition intelligence_menu : M unit :=
  line ← input;
  let choice := Py.strip line in
  when (String.eqb choice "1") hack_rival_menu;;
  _ ← input;
  mret tt.

(** *** Contracts ([contract_menu]) *)
Definition contract_menu_turn : M bool :=
  g ← get_game;
  when (length (GameState.contracts g) <? GameConstants.MIN_ACTIVE_CONTRACTS)%nat
       (append_contracts GameConstants.INITIAL_CONTRACTS);;
  g ← get_game;
  let active :=
    List.filter (fun c => negb (Contract.completed c) && negb (Contract.failed c))
                (GameState.contracts g) in
  line ← input;
  let choice := Py.strip line in
  if String.eqb choice "0" then mret false
  else
    try_except (
      n ← parse_int choice;
      let idx := n - 1 in
      if (0 <=? idx) && (idx <? Z.of_nat (length active)) then
        match active !! Z.to_nat idx with
        | None => raise Py.IndexError
        | Some contract =>
            _ ← get_node (Contract.target_node_uid contract);
            line ← input;
            let accept := Py.lower (Py.strip line) in
            when (String.eqb accept "y") (
              p ← get_player;
              when (negb (bool_decide (Contract.uid contract ∈ PlayerState.active_contracts p))) (
                modify_player (fun p =>
                  PlayerState.with_active_contracts
                    (PlayerState.active_contracts p ++ [Contract.uid contract]) p));;
              modify_player (fun p =>
                PlayerState.with_discovered_nodes
                  ({[Contract.target_node_uid contract]} ∪ PlayerState.discovered_nodes p) p);;
              match str_truthy (Contract.faction contract) with
              | Some faction =>
                  modify_player (fun p =>
                    PlayerState.with_factions
                      (alter (fun f => Faction.with_reputation (Faction.reputation f + 5) f)
                             faction (PlayerState.factions p)) p)
              | None => mret tt
              end)
        end
      else mret tt
    ) is_ValueError (mret tt);;
    mret true.

Definition contract_menu : M unit := while_reading contract_menu_turn.

(** *** Black market *)
Definition browse_tools : M unit :=
  line ← input;
  let choice := Py.strip line in
  try_except (
    n ← parse_int choice;
    let idx := n - 1 in
    g ← get_game;
    if (0 <=? idx) && (idx <? Z.of_nat (length (GameState.black_market_tools g))) then
      match GameState.black_market_tools g !! Z.to_nat idx with
      | None => raise Py.IndexError
      | Some tool =>
          p ← get_player;
          if existsb (fun t => Tool_same t tool) (PlayerState.inventory p) then mret tt
          else if PlayerState.level p <? Tool.level_requirement tool then mret tt
          else if PlayerState.credits p <? Tool.cost tool then mret tt
          else
            add_credits (- Tool.cost tool);;
            modify_player (fun p => PlayerState.with_inventory (PlayerState.inventory p ++ [tool]) p)
      end
    else mret tt
  ) is_ValueError (mret tt).

Definition browse_exploits : M unit :=
  r ← random_random;
  when (r <? 0.3)%float (
    p ← get_player;
    exploits ← generate_exploits (PlayerState.level p);
    modify_game (GameState.with_black_market_exploits exploits));;
  line ← input;
  let choice := Py.strip line in
  try_except (
    n ← parse_int choice;
    let idx := n - 1 in
    g ← get_game;
    if (0 <=? idx) && (idx <? Z.of_nat (length (GameState.black_market_exploits g))) then
      match GameState.black_market_exploits g !! Z.to_nat idx with
      | None => raise Py.IndexError
      | Some exploit =>
          p ← get_player;
          if bool_decide (MarketExploit.name exploit ∈ PlayerState.known_exploits p) then mret tt
          else if PlayerState.level p <? MarketExploit.level_req exploit then mret tt
          else if PlayerState.credits p <? MarketExploit.cost exploit then mret tt
          else
            add_credits (- MarketExploit.cost exploit);;
            modify_player (fun p =>
              PlayerState.with_known_exploits
                ({[MarketExploit.name exploit]} ∪ PlayerState.known_exploits p) p)
      end
    else mret tt
  ) is_ValueError (mret tt).

Definition browse_hardware : M unit :=
  line ← input;
  let choice := Py.strip line in
  try_except (
    n ← parse_int choice;
    let idx := n - 1 in
    g ← get_game;
    if (0 <=? idx) && (idx <? Z.of_nat (length (GameState.black_market_hardware g))) then
      match GameState.black_market_hardware g !! Z.to_nat idx with
      | None => raise Py.IndexError
      | Some item =>
          let key := Py.capitalize (HardwareType_name (HardwareComponent.htype item)) in
          p ← get_player;
          let installed :=
            match PlayerState.hardware p !! key with
            | Some current => String.eqb (HardwareComponent.name current) (HardwareComponent.name item)
            | None => false
            end in
          if installed then mret tt
          else if PlayerState.level p <? HardwareComponent.level item then mret tt
          else if PlayerState.credits p <? HardwareComponent.cost item then mret tt
          else
            add_credits (- HardwareComponent.cost item);;
            modify_player (fun p =>
              PlayerState.with_hardware (<[key := item]> (PlayerState.hardware p)) p)
      end
    else mret tt
  ) is_ValueError (mret tt).

Definition purchase_proxy : M unit :=
  p ← get_player;
  let cost := GameConstants.PROXY_BASE_COST
              + PlayerState.proxy_chains p * GameConstants.PROXY_COST_INCREMENT in
  if PlayerState.credits p <? cost then _ ← input; mret tt
  else
    line ← input;
    let choice := Py.lower (Py.strip line) in
    when (String.eqb choice "y") (
      add_credits (- cost);;
      modify_player (fun p => PlayerState.with_proxy_chains (PlayerState.proxy_chains p + 1) p)).

Definition sell_data : M unit :=
  p ← get_player;
  compromised_nodes ←
    fold_m (elements (PlayerState.compromised_nodes p)) (fun uid acc =>
      node ← get_node uid; mret (acc ++ [(uid, node)])) [];
  match compromised_nodes with
  | [] => mret tt
  | _ =>
      let sellable := List.filter (fun '(_, n) => 0 <? NetworkNode.data_value n) compromised_nodes in
      match sellable with
      | [] => mret tt
      | _ =>
          line ← input;
          let choice := Py.strip line in
          try_except (
            n ← parse_int choice;
            let idx := n - 1 in
            if (0 <=? idx) && (idx <? Z.of_nat (length sellable)) then
              match sellable !! Z.to_nat idx with
              | None => raise Py.IndexError
              | Some (key, node) =>
                  let value := NetworkNode.data_value node in
                  add_credits value;;
                  modify_node key (NetworkNode.with_data_value 0);;
                  add_reputation 5;;
                  add_heat 3
              end
            else mret tt
          ) is_ValueError (mret tt)
      end
  end.

Definition launder_money_menu : M unit :=
  let cost := GameConstants.LAUNDER_COST in
  line ← input;
  let choice := Py.lower (Py.strip line) in
  if String.eqb choice "y" then
    p ← get_player;
    if PlayerState.credits p <? cost then mret tt
    else
      add_credits (- cost);;
      modify_player (fun p =>
        PlayerState.with_identity_heat
          (Py.max 0 (PlayerState.identity_heat p - GameConstants.LAUNDER_IDENTITY_REDUCTION)) p);;
      modify_player (fun p =>
        PlayerState.with_investigation_progress
          (Float.py_max 0%float
             (PlayerState.investigation_progress p
              - fl GameConstants.LAUNDER_INVESTIGATION_REDUCTION)%float) p)
  else mret tt.

(** [character_menu] and [system_status] print and wait for Enter. *)
Definition character_menu : M unit := _ ← input; mret tt.
Definition system_status : M unit := _ ← input; mret tt.

(** *** Menus

    Each [while True] menu is a loop of turns; a turn reads the choice
    and dispatches on it. *)
Definition current_location : M string :=
  p ← get_player; mret (PlayerState.current_location p).

Definition network_menu_turn : M bool :=
  here ← current_location;
  _ ← get_node here;
  line ← input;
  let choice := Py.strip line in
  if String.eqb choice "1" then scan_node here;; mret true
  else if String.eqb choice "2" then attack_node here;; mret true
  else if String.eqb choice "3" then install_backdoor here;; mret true
  else if String.eqb choice "4" then navigate_network;; mret true
  else if String.eqb choice "5" then discover_nodes;; mret true
  else if String.eqb choice "6" then navigate_bounces;; mret true
  else if String.eqb choice "7" then clear_traces_menu here;; mret true
  else if String.eqb choice "8" then mret false
  else mret true.
Definition network_menu : M unit := while_reading network_menu_turn.

Definition social_engineering_menu_turn : M bool :=
  here ← current_location;
  line ← input;
  let choice := Py.strip line in
  if String.eqb choice "1" then phishing_campaign here;; mret true
  else if String.eqb choice "2" then osint_search here;; mret true
  else if String.eqb choice "3" then social_media_recon here;; mret true
  else if String.eqb choice "4" then compromise_employee here;; mret true
  else if String.eqb choice "5" then mret false
  else mret true.
Definition social_engineering_menu : M unit := while_reading social_engineering_menu_turn.

Definition cryptanalysis_menu_turn : M bool :=
  here ← current_location;
  line ← input;
  let choice := Py.strip line in
  if String.eqb choice "1" then analyze_encrypted_traffic here;; mret true
  else if String.eqb choice "2" then crack_encryption here;; mret true
  else if String.eqb choice "3" then decrypt_data here;; mret true
  else if String.eqb choice "4" then mret false
  else mret true.
Definition cryptanalysis_menu : M unit := while_reading cryptanalysis_menu_turn.

Definition botnet_menu_turn : M bool :=
  line ← input;
  let choice := Py.strip line in
  if String.eqb choice "1" then build_botnet;; mret true
  else if String.eqb choice "2" then maintain_botnet;; mret true
  else if String.eqb choice "3" then expand_botnet;; mret true
  else if String.eqb choice "4" then dismantle_botnet;; mret true
  else if String.eqb choice "5" then mret false
  else mret true.
Definition botnet_menu : M unit := while_reading botnet_menu_turn.

Definition black_market_menu_turn : M bool :=
  line ← input;
  let choice := Py.strip line in
  if String.eqb choice "1" then browse_tools;; mret true
  else if String.eqb choice "2" then browse_exploits;; mret true
  else if String.eqb choice "3" then browse_hardware;; mret true
  else if String.eqb choice "4" then purchase_proxy;; mret true
  else if String.eqb choice "5" then launder_money_menu;; mret true
  else if String.eqb choice "6" then sell_data;; mret true
  else if String.eqb choice "7" then mret false
  else mret true.
Definition black_market_menu : M unit := while_reading black_market_menu_turn.

(** The updates at the top of every [main_menu] iteration. *)
Definition background_tick : M unit :=
  update_rival_activity;;
  update_admin_response;;
  update_dynamic_events;;
  p ← get_player;
  when (PlayerState.under_investigation p) (
    step ← random_uniform 0.1 0.5;
    modify_player (fun p =>
      PlayerState.with_investigation_progress (PlayerState.investigation_progress p + step)%float p);;
    p ← get_player;
    when (PlayerState.investigation_progress p >=? fl GameConstants.TRACE_COMPLETE_THRESHOLD)%float
         handle_investigation_complete).

(** [SaveManager.save_game] leaves the game state as it is; what it
    writes is the subject of [Persistence]. *)
Definition main_menu_turn : M bool :=
  background_tick;;
  line ← input;
  let choice := Py.strip line in
  if String.eqb choice "1" then network_menu;; mret true
  else if String.eqb choice "2" then contract_menu;; mret true
  else if String.eqb choice "3" then black_market_menu;; mret true
  else if String.eqb choice "4" then social_engineering_menu;; mret true
  else if String.eqb choice "5" then cryptanalysis_menu;; mret true
  else if String.eqb choice "6" then botnet_menu;; mret true
  else if String.eqb choice "7" then intelligence_menu;; mret true
  else if String.eqb choice "8" then character_menu;; mret true
  else if String.eqb choice "9" then system_status;; mret true
  else if String.eqb choice "10" then mret true
  else if String.eqb choice "11" then mret false
  else mret true.
Definition main_menu : M unit := while_reading main_menu_turn.

(** ** Operations and reachable states

    The operations a player can trigger, with the arguments the menus
    give them: the node operations always act on the node the player is
    located at. *)
Inductive command : Set :=
| BackgroundTick
| ScanNode | AttackNode | InstallBackdoor | NavigateNetwork | DiscoverNodes
| NavigateBounces | ClearTraces
| ContractBoard
| BrowseTools | BrowseExploits | BrowseHardware | PurchaseProxy | LaunderMoney | SellData
| PhishingCampaign | OsintSearch | SocialMediaRecon | CompromiseEmployee
| AnalyzeTraffic | CrackEncryption | DecryptData
| BuildBotnet | MaintainBotnet | ExpandBotnet | DismantleBotnet
| Intelligence | CharacterSheet | SystemStatus.

Definition at_current_node (op : string -> M unit) : M unit :=
  here ← current_location; _ ← get_node here; op here.
Definition at_current_location (op : string -> M unit) : M unit :=
  here ← current_location; op here.

Definition exec (c : command) : M unit :=
  match c with
  | BackgroundTick => background_tick
  | ScanNode => at_current_node scan_node
  | AttackNode => at_current_node attack_node
  | InstallBackdoor => at_current_node install_backdoor
  | NavigateNetwork => at_current_node (fun _ => navigate_network)
  | DiscoverNodes => at_current_node (fun _ => discover_nodes)
  | NavigateBounces => at_current_node (fun _ => navigate_bounces)
  | ClearTraces => at_current_node clear_traces_menu
  | ContractBoard => contract_menu
  | BrowseTools => browse_tools
  | BrowseExploits => browse_exploits
  | BrowseHardware => browse_hardware
  | PurchaseProxy => purchase_proxy
  | LaunderMoney => launder_money_menu
  | SellData => sell_data
  | PhishingCampaign => at_current_location phishing_campaign
  | OsintSearch => at_current_location osint_search
  | SocialMediaRecon => at_current_location social_media_recon
  | CompromiseEmployee => at_current_location compromise_employee
  | AnalyzeTraffic => at_current_location analyze_encrypted_traffic
  | CrackEncryption => at_current_location crack_encryption
  | DecryptData => at_current_location decrypt_data
  | BuildBotnet => build_botnet
  | MaintainBotnet => maintain_botnet
  | ExpandBotnet => expand_botnet
  | DismantleBotnet => dismantle_botnet
  | Intelligence => intelligence_menu
  | CharacterSheet => character_menu
  | SystemStatus => system_status
  end.

(** A game state is reachable when [GameState()] produced it, or an
    operation that returned normally led to it from a reachable state,
    whatever the console input, the random draws and the clock were. *)
Inductive reachable : GameState.t -> Prop :=
| reachable_init w g0 w' g :
    GameState__init__ (mkSys w g0) = Ok tt (mkSys w' g) -> reachable g
| reachable_exec c w g w' g' :
    reachable g -> exec c (mkSys w g) = Ok tt (mkSys w' g') -> reachable g'.

(** ** Persistence ([SaveManager.save_game], [GameState.load_from_dict])

    Saving goes through [dataclasses.asdict], the local [deep_convert]
    and [json.dumps]; loading goes through [json.loads] and rebuilds the
    objects field by field.  What these functions do depends on the
    run-time type of every value (a [tuple] is not a [list], a [set] is
    not serialisable), so this part works on Python value trees. *)
Module Persistence.

#[local] Set Warnings "-register-all".
Inductive value : Type :=
| VNone
| VBool (b : bool)
| VInt (n : Z)
| VFloat (x : float)
| VStr (s : string)
| VList (l : list value)
| VTuple (l : list value)
| VSet (l : list value)                    (** members, in iteration order *)
| VDict (items : list (string * value))    (** a [str]-keyed dict, in insertion order *)
| VEnum (cls : string) (val : string)      (** an [Enum] member: its class and its [.value] *)
| VDatetime (iso : string)                 (** a [datetime], by its ISO-8601 text *)
| VTimedelta (seconds : float)             (** a [timedelta], by its [total_seconds()] *)
| VObj (cls : string) (fields : list (string * value)).
                                           (** a dataclass instance, fields in declaration order *)

Definition dict : Type := list (string * value).

(** [d.get(k)] *)
Fixpoint dict_get (k : string) (d : dict) : option value :=
  match d with
  | [] => None
  | (k', v) :: d' => if String.eqb k' k then Some v else dict_get k d'
  end.

(** [d[k] = v] *)
Fixpoint dict_set (k : string) (v : value) (d : dict) : dict :=
  match d with
  | [] => [(k, v)]
  | (k', v') :: d' => if String.eqb k' k then (k, v) :: d' else (k', v') :: dict_set k v d'
  end.

(** Python's [==] on the values above.  Numbers compare by value across
    [int], [float] and [bool]; sequences compare element by element and a
    tuple never equals a list; sets and dicts compare regardless of
    order; dataclass instances compare class and fields. *)
Definition number_of (v : value) : option float :=
  match v with
  | VBool b => Some (if b then fl 1 else fl 0)
  | VInt n => Some (fl n)
  | VFloat x => Some x
  | _ => None
  end.

Section ListEq.
Context (eq : value -> value -> bool).
Fixpoint list_eq (l1 l2 : list value) : bool :=
  match l1, l2 with
  | [], [] => true
  | x :: l1', y :: l2' => eq x y && list_eq l1' l2'
  | _, _ => false
  end.
Definition member (x : value) (l : list value) : bool := existsb (eq x) l.
Definition subset (l1 l2 : list value) : bool := forallb (fun x => member x l2) l1.
Fixpoint fields_eq (f1 f2 : list (string * value)) : bool :=
  match f1, f2 with
  | [], [] => true
  | (k1, x) :: f1', (k2, y) :: f2' => String.eqb k1 k2 && eq x y && fields_eq f1' f2'
  | _, _ => false
  end.
End ListEq.

Fixpoint py_eq (a b : value) {struct a} : bool :=
  match a, b with
  | VNone, VNone => true
  | VStr s, VStr t => String.eqb s t
  | VList l1, VList l2 => list_eq py_eq l1 l2
  | VTuple l1, VTuple l2 => list_eq py_eq l1 l2
  | VSet l1, VSet l2 =>
      forallb (fun x => existsb (py_eq x) l2) l1
      && (length l1 =? length l2)%nat
  | VDict d1, VDict d2 =>
      forallb (fun '(k, x) =>
                 match dict_get k d2 with Some y => py_eq x y | None => false end) d1
      && (length d1 =? length d2)%nat
  | VEnum c1 v1, VEnum c2 v2 => String.eqb c1 c2 && String.eqb v1 v2
  | VDatetime s, VDatetime t => String.eqb s t
  | VTimedelta x, VTimedelta y => Float.eqb x y
  | VObj c1 f1, VObj c2 f2 => String.eqb c1 c2 && fields_eq py_eq f1 f2
  | (VBool _ | VInt _ | VFloat _), (VBool _ | VInt _ | VFloat _) =>
      match number_of a, number_of b with
      | Some x, Some y => Float.eqb x y
      | _, _ => false
      end
  | _, _ => false
  end.

(** [set(l)]: the members of [l], duplicates dropped. *)
Fixpoint dedup (l : list value) : list value :=
  match l with
  | [] => []
  | x :: l' => if existsb (py_eq x) l' then dedup l' else x :: dedup l'
  end.

(** [dataclasses.asdict]: dataclass instances become dicts, lists,
    tuples and dicts are rebuilt with their own type, anything else is
    copied. *)
Fixpoint asdict (v : value) : value :=
  match v with
  | VObj _ fields => VDict (map (fun kv => (kv.1, asdict kv.2)) fields)
  | VList l => VList (map asdict l)
  | VTuple l => VTuple (map asdict l)
  | VDict items => VDict (map (fun kv => (kv.1, asdict kv.2)) items)
  | other => other
  end.

(** The local function [convert] of [save_game]. *)
Definition convert (obj : value) : value :=
  match obj with
  | VSet l => VList l
  | VEnum _ val => VStr val
  | VDatetime iso => VStr iso
  | VTimedelta seconds => VFloat seconds
  | VObj cls _ =>
      if existsb (String.eqb cls) ["PlayerSkills"; "Tool"; "Botnet"; "Faction"]
      then asdict obj else obj
  | other => other
  end.

(** The local function [deep_convert]: it descends into dicts and
    lists only. *)
Fixpoint deep_convert (d : value) : value :=
  match d with
  | VDict items => VDict (map (fun kv => (kv.1, deep_convert kv.2)) items)
  | VList l => VList (map deep_convert l)
  | other => convert other
  end.

(** [json.loads(json.dumps(v))]: what comes back from the file.  JSON
    has one array type, so tuples come back as lists; values without a
    JSON form make [dumps] raise [TypeError] ([None] here). *)
Section Traverse.
Context (f : value -> option value).
Fixpoint traverse (l : list value) : option (list value) :=
  match l with
  | [] => Some []
  | x :: l' => y ← f x; r ← traverse l'; Some (y :: r)
  end.
Fixpoint traverse_items (l : list (string * value)) : option (list (string * value)) :=
  match l with
  | [] => Some []
  | (k, x) :: l' => y ← f x; r ← traverse_items l'; Some ((k, y) :: r)
  end.
End Traverse.

Fixpoint json_roundtrip (v : value) : option value :=
  match v with
  | VNone | VBool _ | VInt _ | VFloat _ | VStr _ => Some v
  | VList l | VTuple l => VList <$> traverse json_roundtrip l
  | VDict items => VDict <$> traverse_items json_roundtrip items
  | _ => None
  end.

(** The part of a [GameState] object that is saved. *)
Record state : Type := mkState {
  player : value;
  seed : value;
  nodes : dict;                      (** [network.nodes]: uid to node object *)
  contracts : list value;
  rival_hackers : list value;
  event_log : list value;
  black_market_tools : list value
}.

(** [l[-n:]] *)
Definition last_n {A} (n : nat) (l : list A) : list A := drop (length l - n) l.

(** The dictionary [data] built by [save_game]. *)
Definition save_data (st : state) : value :=
  VDict [
    ("player", asdict (player st));
    ("nodes", VList (asdict <$> (nodes st).*2));
    ("contracts", VList (asdict <$> contracts st));
    ("rivals", VList (asdict <$> rival_hackers st));
    ("world_seed", seed st);
    ("game_events", VList (last_n 100 (event_log st)));
    ("black_market", VList (asdict <$> black_market_tools st))
  ].

(** [save_game] followed by [load_game]: the document read back from
    the save file, [None] when saving failed. *)
Definition saved_document (st : state) : option value :=
  json_roundtrip (deep_convert (save_data st)).

(** *** Rebuilding the objects *)

(** A dataclass: its fields in order, each with its default if any. *)
Definition schema : Type := list (string * option value).

(** The call [Cls] with keyword arguments unpacked from a dict: every
    keyword must name a field and every field without default must be
    given ([TypeError] otherwise). *)
Fixpoint fill (fields : schema) (kwargs : dict) : option (list (string * value)) :=
  match fields with
  | [] => Some []
  | (name, default) :: fields' =>
      v ← match dict_get name kwargs with
          | Some v => Some v
          | None => default
          end;
      rest ← fill fields' kwargs;
      Some ((name, v) :: rest)
  end.

Definition construct (cls : string) (fields : schema) (kwargs : value) : option value :=
  match kwargs with
  | VDict items =>
      if forallb (fun kv => existsb (fun f => String.eqb f.1 kv.1) fields) items
      then VObj cls <$> fill fields items
      else None
  | _ => None
  end.

Definition required (names : list string) : schema := (fun n => (n, None)) <$> names.

Definition Vulnerability_schema : schema :=
  required ["name"; "exploit_type"; "severity"; "patch_level"; "discovery_difficulty";
            "firewall_damage"; "trace_cost"; "success_rate_base"]
  ++ [("requires_tool", Some VNone)].
Definition EncryptedData_schema : schema :=
  required ["encryption_type"; "data_size"; "value"; "difficulty"] ++ [("cracked", Some (VBool false))].
Definition Employee_schema : schema :=
  required ["name"; "email"; "department"; "access_level"; "social_media_activity";
            "phishing_susceptibility"] ++ [("compromised", Some (VBool false))].
Definition Service_schema : schema :=
  required ["name"; "version"; "port"; "state"; "vulnerabilities"]
  ++ [("encryption", Some VNone); ("employees_with_access", Some (VList []))].
Definition Honeypot_schema : schema :=
  required ["port"; "fake_service"; "detection_chance"; "trace_increase"].
Definition Tool_schema : schema :=
  required ["name"; "tool_type"; "cost"; "effectiveness"; "description"; "level_requirement"]
  ++ [("stealth_penalty", Some (VFloat 0.0%float))].
Definition Botnet_schema : schema :=
  required ["size"; "quality"; "maintenance_cost"; "ddos_power"] ++ [("detected_nodes", Some (VInt 0))].
Definition NetworkNode_schema : schema :=
  required ["uid"; "name"; "ip_address"; "network_type"; "security_rating"; "firewall_strength";
            "max_firewall"; "ice_level"; "services"; "discovered_services"; "discovered_vulns";
            "compromised"; "data_value"; "trace_progress"; "trace_speed"; "last_attack_time";
            "connections"]
  ++ [("honeypots", Some (VList [])); ("has_siem", Some (VBool false));
      ("has_incident_response", Some (VBool false)); ("admin_active", Some (VBool false));
      ("admin_skill", Some (VInt 1)); ("backdoor_installed", Some (VBool false));
      ("network_segment", Some (VStr "DMZ")); ("employees", Some (VList []));
      ("encrypted_traffic", Some (VList []))].
Definition PlayerSkills_schema : schema :=
  (fun n => (n, Some (VInt 1))) <$>
    ["scanning"; "exploitation"; "stealth"; "cryptanalysis"; "social_engineering";
     "reverse_engineering"; "botnet_management"].
Definition Faction_schema : schema := required ["name"; "reputation"; "hostile"].
Definition HardwareComponent_schema : schema :=
  required ["name"; "htype"; "level"; "cost"; "bonus"; "description"].
Definition WorldEvent_schema : schema :=
  required ["name"; "etype"; "duration"; "multiplier"; "description"]
  ++ [("target_faction", Some VNone); ("target_network", Some VNone)].
Definition PlayerState_schema : schema :=
  required ["handle"; "level"; "experience"; "credits"; "reputation"; "heat_level"; "skills";
            "discovered_nodes"; "compromised_nodes"; "current_location"; "inventory";
            "active_contracts"; "completed_contracts"; "game_time"; "total_playtime"]
  ++ [("botnets", Some (VList [])); ("factions", Some (VDict [])); ("identity_heat", Some (VInt 0));
      ("known_exploits", Some (VSet [])); ("proxy_chains", Some (VInt 0));
      ("safe_houses", Some (VList [])); ("under_investigation", Some (VBool false));
      ("investigation_progress", Some (VFloat 0.0%float)); ("hardware", Some (VDict []));
      ("active_events", Some (VList [])); ("bounced_nodes", Some (VList []))].
Definition Contract_schema : schema :=
  required ["uid"; "title"; "description"; "target_node_uid"; "objective"; "reward";
            "reputation_change"; "time_limit"; "difficulty"; "contractor"]
  ++ [("faction", Some VNone); ("completed", Some (VBool false)); ("failed", Some (VBool false));
      ("deadline", Some VNone)].
Definition RivalHacker_schema : schema :=
  required ["name"; "skill_level"; "specialization"; "active_targets"; "last_seen"]
  ++ [("hostile", Some (VBool false))].

(** [EnumClass(v)]: the member whose value is [v], [ValueError] if none. *)
Definition enum (cls : string) (values : list string) (v : value) : option value :=
  match v with
  | VStr s => if existsb (String.eqb s) values then Some (VEnum cls s) else None
  | _ => None
  end.

Definition NetworkType_values : list string :=
  NetworkType_value <$> [CORPORATE; GOVERNMENT; FINANCIAL; RESEARCH; CRIMINAL; MILITARY; INFRASTRUCTURE].
Definition ExploitType_values : list string := ExploitType_value <$> all_exploit_types.
Definition ToolType_values : list string :=
  ToolType_value <$> [SCANNER; EXPLOIT_FRAMEWORK; PROXY_CHAIN; CRYPTANALYSIS; BOTNET_CONTROLLER;
                      KEYLOGGER; ROOTKIT].
Definition EncryptionType_values : list string := EncryptionType_value <$> all_encryption_types.
Definition HardwareType_values : list string := HardwareType_value <$> [CPU; RAM; STORAGE; COOLING].
Definition EventType_values : list string :=
  EventType_value <$> [GLOBAL_PATCH; POLICE_CRACKDOWN; ZERO_DAY_LEAK; NETWORK_WORM].

(** [set(v)] for a list, [datetime.fromisoformat(v)] for a string. *)
Definition to_set (v : value) : option value :=
  match v with
  | VList l | VTuple l | VSet l => Some (VSet (dedup l))
  | _ => None
  end.
Definition fromisoformat (v : value) : option value :=
  match v with
  | VStr s => Some (VDatetime s)
  | _ => None
  end.

(** Truth value of a Python object, as [if x:] tests it. *)
Definition truthy (v : value) : bool :=
  match v with
  | VNone | VBool false | VInt 0 | VStr EmptyString
  | VList [] | VTuple [] | VSet [] | VDict [] => false
  | VFloat x => Float.truthy x
  | _ => true
  end.

(** [d[k] = f(d[k])]; [KeyError] when [k] is missing. *)
Definition update (k : string) (f : value -> option value) (d : dict) : option dict :=
  v ← dict_get k d; v' ← f v; Some (dict_set k v' d).

(** Items of a list value, for [for x in v]. *)
Definition items_of (v : value) : option (list value) :=
  match v with
  | VList l | VTuple l | VSet l => Some l
  | _ => None
  end.
Definition as_dict (v : value) : option dict :=
  match v with VDict d => Some d | _ => None end.

(** The comprehension building one [Cls] object per item of a list. *)
Definition build_all (cls : string) (fields : schema) (v : value) : option value :=
  l ← items_of v; VList <$> traverse (construct cls fields) l.

(** [x[k] = Enum(x[k])], then one [Cls] object built from [x], for the
    items of a list. *)
Definition build_with_enum (cls : string) (fields : schema) (k ecls : string)
    (values : list string) (v : value) : option value :=
  l ← items_of v;
  VList <$> traverse (fun x =>
    d ← as_dict x;
    d ← update k (enum ecls values) d;
    construct cls fields (VDict d)) l.

Definition load_service (s_data : value) : option value :=
  d ← as_dict s_data;
  vulns ← dict_get "vulnerabilities" d;
  vulns ← build_with_enum "Vulnerability" Vulnerability_schema "exploit_type" "ExploitType"
             ExploitType_values vulns;
  let d := dict_set "vulnerabilities" vulns d in
  d ← match dict_get "encryption" d with
      | Some e_data =>
          if truthy e_data then
            e ← as_dict e_data;
            e ← update "encryption_type" (enum "EncryptionType" EncryptionType_values) e;
            enc ← construct "EncryptedData" EncryptedData_schema (VDict e);
            Some (dict_set "encryption" enc d)
          else Some d
      | None => Some d
      end;
  employees ← build_all "Employee" Employee_schema
                 (default (VList []) (dict_get "employees_with_access" d));
  let d := dict_set "employees_with_access" employees d in
  construct "Service" Service_schema (VDict d).

Definition load_node (n_data : value) : option value :=
  d ← as_dict n_data;
  d ← update "network_type" (enum "NetworkType" NetworkType_values) d;
  d ← update "discovered_services" to_set d;
  d ← update "discovered_vulns" to_set d;
  d ← match dict_get "last_attack_time" d with
      | Some t => if truthy t then t' ← fromisoformat t; Some (dict_set "last_attack_time" t' d)
                  else Some d
      | None => Some d
      end;
  services ← dict_get "services" d;
  services ← items_of services;
  services ← traverse load_service services;
  let d := dict_set "services" (VList services) d in
  honeypots ← build_all "Honeypot" Honeypot_schema (default (VList []) (dict_get "honeypots" d));
  let d := dict_set "honeypots" honeypots d in
  employees ← build_all "Employee" Employee_schema (default (VList []) (dict_get "employees" d));
  let d := dict_set "employees" employees d in
  traffic ← build_with_enum "EncryptedData" EncryptedData_schema "encryption_type" "EncryptionType"
              EncryptionType_values (default (VList []) (dict_get "encrypted_traffic" d));
  let d := dict_set "encrypted_traffic" traffic d in
  construct "NetworkNode" NetworkNode_schema (VDict d).

(** One [Cls] object per value of a dict, after [prepare] on its
    keyword dict. *)
Definition build_values (cls : string) (fields : schema) (prepare : dict -> option dict)
    (v : value) : option value :=
  d ← as_dict v;
  VDict <$> traverse_items (fun x =>
    xd ← as_dict x; xd ← prepare xd; construct cls fields (VDict xd)) d.

Definition load_player (p_data : value) : option value :=
  d ← as_dict p_data;
  d ← update "skills" (construct "PlayerSkills" PlayerSkills_schema) d;
  d ← update "discovered_nodes" to_set d;
  d ← update "compromised_nodes" to_set d;
  d ← update "completed_contracts" to_set d;
  d ← update "known_exploits" to_set d;
  d ← update "game_time" fromisoformat d;
  botnets ← build_all "Botnet" Botnet_schema (default (VList []) (dict_get "botnets" d));
  let d := dict_set "botnets" botnets d in
  factions ← build_values "Faction" Faction_schema Some (default (VDict []) (dict_get "factions" d));
  let d := dict_set "factions" factions d in
  inventory ← build_with_enum "Tool" Tool_schema "tool_type" "ToolType" ToolType_values
                (default (VList []) (dict_get "inventory" d));
  let d := dict_set "inventory" inventory d in
  hardware ← build_values "HardwareComponent" HardwareComponent_schema
               (update "htype" (enum "HardwareType" HardwareType_values))
               (default (VDict []) (dict_get "hardware" d));
  let d := dict_set "hardware" hardware d in
  events ← build_with_enum "WorldEvent" WorldEvent_schema "etype" "EventType" EventType_values
             (default (VList []) (dict_get "active_events" d));
  let d := dict_set "active_events" events d in
  construct "PlayerState" PlayerState_schema (VDict d).

(** [timedelta(seconds=x)] *)
Definition timedelta_of (v : value) : option value :=
  match number_of v with
  | Some x => Some (VTimedelta x)
  | None => None
  end.

Definition load_contract (c_data : value) : option value :=
  d ← as_dict c_data;
  d ← match dict_get "deadline" d with
      | Some t => if truthy t then t' ← fromisoformat t; Some (dict_set "deadline" t' d)
                  else Some d
      | None => Some d
      end;
  d ← match dict_get "time_limit" d with
      | Some VNone | None => Some d
      | Some t => t' ← timedelta_of t; Some (dict_set "time_limit" t' d)
      end;
  construct "Contract" Contract_schema (VDict d).

Definition load_rival (r_data : value) : option value :=
  d ← as_dict r_data;
  d ← update "last_seen" fromisoformat d;
  construct "RivalHacker" RivalHacker_schema (VDict d).

(** [network.nodes[node.uid] = node] *)
Definition store_node (nodes : dict) (node : value) : option dict :=
  match node with
  | VObj _ fields =>
      match dict_get "uid" fields with
      | Some (VStr uid) => Some (dict_set uid node nodes)
      | _ => None
      end
  | _ => None
  end.

Fixpoint store_nodes (nodes : dict) (l : list value) : option dict :=
  match l with
  | [] => Some nodes
  | n :: l' => nodes' ← store_node nodes n; store_nodes nodes' l'
  end.

(** [GameState.load_from_dict]; [fresh_seed] is the value of the
    default argument [random.randint(0, 999999)].  The two black-market
    lists that are regenerated at random are not part of [state]. *)
Definition load_from_dict (fresh_seed : Z) (data : value) : option state :=
  d ← as_dict data;
  let world_seed := default (VInt fresh_seed) (dict_get "world_seed" d) in
  n_list ← dict_get "nodes" d;
  n_list ← items_of n_list;
  loaded ← traverse load_node n_list;
  nodes ← store_nodes [] loaded;
  p_data ← dict_get "player" d;
  player ← load_player p_data;
  contracts ← items_of (default (VList []) (dict_get "contracts" d));
  contracts ← traverse load_contract contracts;
  rivals ← items_of (default (VList []) (dict_get "rivals" d));
  rivals ← traverse load_rival rivals;
  event_log ← items_of (default (VList []) (dict_get "game_events" d));
  market ← build_with_enum "Tool" Tool_schema "tool_type" "ToolType" ToolType_values
             (default (VList []) (dict_get "black_market" d));
  market ← items_of market;
  Some (mkState player world_seed nodes contracts rivals event_log market).

(** *** The objects of a game state as value trees

    Each record is the dataclass instance with the same fields; a
    [gset] is a [set], a [gmap] a [dict], a pair a [tuple].  A [datetime]
    stands for its ISO text, written here as the microsecond count. *)
Definition VOpt {A} (f : A -> value) (o : option A) : value :=
  match o with
  | Some a => f a
  | None => VNone
  end.
Definition VStrs (l : list string) : value := VList (VStr <$> l).
Definition VStrSet (s : gset string) : value := VSet (VStr <$> elements s).
Definition VDate (t : datetime) : value := VDatetime (Py.str_of_int t).
Definition VDelta (t : timedelta) : value := VTimedelta (fl t / fl 1000000)%float.
Definition VNetworkType (t : NetworkType) : value := VEnum "NetworkType" (NetworkType_value t).

Definition Vulnerability_obj (v : Vulnerability.t) : value :=
  VObj "Vulnerability" [
    ("name", VStr (Vulnerability.name v));
    ("exploit_type", VEnum "ExploitType" (ExploitType_value (Vulnerability.exploit_type v)));
    ("severity", VFloat (Vulnerability.severity v));
    ("patch_level", VInt (Vulnerability.patch_level v));
    ("discovery_difficulty", VFloat (Vulnerability.discovery_difficulty v));
    ("firewall_damage", VTuple [VInt (Vulnerability.firewall_damage v).1;
                                VInt (Vulnerability.firewall_damage v).2]);
    ("trace_cost", VInt (Vulnerability.trace_cost v));
    ("success_rate_base", VFloat (Vulnerability.success_rate_base v));
    ("requires_tool", VOpt VStr (Vulnerability.requires_tool v))
  ].

Definition EncryptedData_obj (e : EncryptedData.t) : value :=
  VObj "EncryptedData" [
    ("encryption_type",
       VEnum "EncryptionType" (EncryptionType_value (EncryptedData.encryption_type e)));
    ("data_size", VInt (EncryptedData.data_size e));
    ("value", VInt (EncryptedData.value e));
    ("difficulty", VFloat (EncryptedData.difficulty e));
    ("cracked", VBool (EncryptedData.cracked e))
  ].

Definition Employee_obj (e : Employee.t) : value :=
  VObj "Employee" [
    ("name", VStr (Employee.name e));
    ("email", VStr (Employee.email e));
    ("department", VStr (Employee.department e));
    ("access_level", VInt (Employee.access_level e));
    ("social_media_activity", VFloat (Employee.social_media_activity e));
    ("phishing_susceptibility", VFloat (Employee.phishing_susceptibility e));
    ("compromised", VBool (Employee.compromised e))
  ].

Definition Service_obj (s : Service.t) : value :=
  VObj "Service" [
    ("name", VStr (Service.name s));
    ("version", VStr (Service.version s));
    ("port", VInt (Service.port s));
    ("state", VStr (Service.state s));
    ("vulnerabilities", VList (Vulnerability_obj <$> Service.vulnerabilities s));
    ("encryption", VOpt EncryptedData_obj (Service.encryption s));
    ("employees_with_access", VList (Employee_obj <$> Service.employees_with_access s))
  ].

Definition Honeypot_obj (h : Honeypot.t) : value :=
  VObj "Honeypot" [
    ("port", VInt (Honeypot.port h));
    ("fake_service", VStr (Honeypot.fake_service h));
    ("detection_chance", VFloat (Honeypot.detection_chance h));
    ("trace_increase", VInt (Honeypot.trace_increase h))
  ].

Definition Tool_obj (t : Tool.t) : value :=
  VObj "Tool" [
    ("name", VStr (Tool.name t));
    ("tool_type", VEnum "ToolType" (ToolType_value (Tool.tool_type t)));
    ("cost", VInt (Tool.cost t));
    ("effectiveness", VFloat (Tool.effectiveness t));
    ("description", VStr (Tool.description t));
    ("level_requirement", VInt (Tool.level_requirement t));
    ("stealth_penalty", VFloat (Tool.stealth_penalty t))
  ].

Definition Botnet_obj (b : Botnet.t) : value :=
  VObj "Botnet" [
    ("size", VInt (Botnet.size b));
    ("quality", VFloat (Botnet.quality b));
    ("maintenance_cost", VInt (Botnet.maintenance_cost b));
    ("ddos_power", VInt (Botnet.ddos_power b));
    ("detected_nodes", VInt (Botnet.detected_nodes b))
  ].

Definition PlayerSkills_obj (s : PlayerSkills.t) : value :=
  VObj "PlayerSkills" [
    ("scanning", VInt (PlayerSkills.scanning s));
    ("exploitation", VInt (PlayerSkills.exploitation s));
    ("stealth", VInt (PlayerSkills.stealth s));
    ("cryptanalysis", VInt (PlayerSkills.cryptanalysis s));
    ("social_engineering", VInt (PlayerSkills.social_engineering s));
    ("reverse_engineering", VInt (PlayerSkills.reverse_engineering s));
    ("botnet_management", VInt (PlayerSkills.botnet_management s))
  ].

Definition Faction_obj (f : Faction.t) : value :=
  VObj "Faction" [
    ("name", VStr (Faction.name f));
    ("reputation", VInt (Faction.reputation f));
    ("hostile", VBool (Faction.hostile f))
  ].

Definition HardwareComponent_obj (h : HardwareComponent.t) : value :=
  VObj "HardwareComponent" [
    ("name", VStr (HardwareComponent.name h));
    ("htype", VEnum "HardwareType" (HardwareType_value (HardwareComponent.htype h)));
    ("level", VInt (HardwareComponent.level h));
    ("cost", VInt (HardwareComponent.cost h));
    ("bonus", VFloat (HardwareComponent.bonus h));
    ("description", VStr (HardwareComponent.description h))
  ].

Definition WorldEvent_obj (e : WorldEvent.t) : value :=
  VObj "WorldEvent" [
    ("name", VStr (WorldEvent.name e));
    ("etype", VEnum "EventType" (EventType_value (WorldEvent.etype e)));
    ("duration", VInt (WorldEvent.duration e));
    ("multiplier", VFloat (WorldEvent.multiplier e));
    ("description", VStr (WorldEvent.description e));
    ("target_faction", VOpt VStr (WorldEvent.target_faction e));
    ("target_network", VOpt VNetworkType (WorldEvent.target_network e))
  ].

Definition NetworkNode_obj (n : NetworkNode.t) : value :=
  VObj "NetworkNode" [
    ("uid", VStr (NetworkNode.uid n));
    ("name", VStr (NetworkNode.name n));
    ("ip_address", VStr (NetworkNode.ip_address n));
    ("network_type", VNetworkType (NetworkNode.network_type n));
    ("security_rating", VInt (NetworkNode.security_rating n));
    ("firewall_strength", VInt (NetworkNode.firewall_strength n));
    ("max_firewall", VInt (NetworkNode.max_firewall n));
    ("ice_level", VInt (NetworkNode.ice_level n));
    ("services", VList (Service_obj <$> NetworkNode.services n));
    ("discovered_services",
       VSet ((fun i : nat => VInt (Z.of_nat i)) <$> elements (NetworkNode.discovered_services n)));
    ("discovered_vulns", VStrSet (NetworkNode.discovered_vulns n));
    ("compromised", VBool (NetworkNode.compromised n));
    ("data_value", VInt (NetworkNode.data_value n));
    ("trace_progress", VFloat (NetworkNode.trace_progress n));
    ("trace_speed", VFloat (NetworkNode.trace_speed n));
    ("last_attack_time", VOpt VDate (NetworkNode.last_attack_time n));
    ("connections", VStrs (NetworkNode.connections n));
    ("honeypots", VList (Honeypot_obj <$> NetworkNode.honeypots n));
    ("has_siem", VBool (NetworkNode.has_siem n));
    ("has_incident_response", VBool (NetworkNode.has_incident_response n));
    ("admin_active", VBool (NetworkNode.admin_active n));
    ("admin_skill", VInt (NetworkNode.admin_skill n));
    ("backdoor_installed", VBool (NetworkNode.backdoor_installed n));
    ("network_segment", VStr (NetworkNode.network_segment n));
    ("employees", VList (Employee_obj <$> NetworkNode.employees n));
    ("encrypted_traffic", VList (EncryptedData_obj <$> NetworkNode.encrypted_traffic n))
  ].

Definition VMap {A} (f : A -> value) (m : gmap string A) : value :=
  VDict ((fun kv : string * A => (kv.1, f kv.2)) <$> map_to_list m).

Definition PlayerState_obj (p : PlayerState.t) : value :=
  VObj "PlayerState" [
    ("handle", VStr (PlayerState.handle p));
    ("level", VInt (PlayerState.level p));
    ("experience", VInt (PlayerState.experience p));
    ("credits", VInt (PlayerState.credits p));
    ("reputation", VInt (PlayerState.reputation p));
    ("heat_level", VInt (PlayerState.heat_level p));
    ("skills", PlayerSkills_obj (PlayerState.skills p));
    ("discovered_nodes", VStrSet (PlayerState.discovered_nodes p));
    ("compromised_nodes", VStrSet (PlayerState.compromised_nodes p));
    ("current_location", VStr (PlayerState.current_location p));
    ("inventory", VList (Tool_obj <$> PlayerState.inventory p));
    ("active_contracts", VStrs (PlayerState.active_contracts p));
    ("completed_contracts", VStrSet (PlayerState.completed_contracts p));
    ("game_time", VDate (PlayerState.game_time p));
    ("total_playtime", VFloat (PlayerState.total_playtime p));
    ("botnets", VList (Botnet_obj <$> PlayerState.botnets p));
    ("factions", VMap Faction_obj (PlayerState.factions p));
    ("identity_heat", VInt (PlayerState.identity_heat p));
    ("known_exploits", VStrSet (PlayerState.known_exploits p));
    ("proxy_chains", VInt (PlayerState.proxy_chains p));
    ("safe_houses", VStrs (PlayerState.safe_houses p));
    ("under_investigation", VBool (PlayerState.under_investigation p));
    ("investigation_progress", VFloat (PlayerState.investigation_progress p));
    ("hardware", VMap HardwareComponent_obj (PlayerState.hardware p));
    ("active_events", VList (WorldEvent_obj <$> PlayerState.active_events p));
    ("bounced_nodes", VStrs (PlayerState.bounced_nodes p))
  ].

Definition Contract_obj (c : Contract.t) : value :=
  VObj "Contract" [
    ("uid", VStr (Contract.uid c));
    ("title", VStr (Contract.title c));
    ("description", VStr (Contract.description c));
    ("target_node_uid", VStr (Contract.target_node_uid c));
    ("objective", VStr (Contract.objective c));
    ("reward", VInt (Contract.reward c));
    ("reputation_change", VInt (Contract.reputation_change c));
    ("time_limit", VOpt VDelta (Contract.time_limit c));
    ("difficulty", VInt (Contract.difficulty c));
    ("contractor", VStr (Contract.contractor c));
    ("faction", VOpt VStr (Contract.faction c));
    ("completed", VBool (Contract.completed c));
    ("failed", VBool (Contract.failed c));
    ("deadline", VOpt VDate (Contract.deadline c))
  ].

Definition RivalHacker_obj (r : RivalHacker.t) : value :=
  VObj "RivalHacker" [
    ("name", VStr (RivalHacker.name r));
    ("skill_level", VInt (RivalHacker.skill_level r));
    ("specialization", VStr (RivalHacker.specialization r));
    ("active_targets", VStrs (RivalHacker.active_targets r));
    ("last_seen", VDate (RivalHacker.last_seen r));
    ("hostile", VBool (RivalHacker.hostile r))
  ].

(** The saved part of a game state. *)
Definition state_of (g : GameState.t) : state :=
  {| player := PlayerState_obj (GameState.player g);
     seed := VInt (GameState.seed g);
     nodes := (fun kv : string * NetworkNode.t => (kv.1, NetworkNode_obj kv.2))
                <$> map_to_list (GameState.nodes g);
     contracts := Contract_obj <$> GameState.contracts g;
     rival_hackers := RivalHacker_obj <$> GameState.rival_hackers g;
     event_log := VStr <$> GameState.event_log g;
     black_market_tools := Tool_obj <$> GameState.black_market_tools g |}.

(** The object a path of field names and list positions leads to. *)
Inductive step : Type :=
| Field (name : string)
| Item (i : nat).

Fixpoint follow (path : list step) (v : value) : option value :=
  match path with
  | [] => Some v
  | Field name :: path' =>
      match v with
      | VObj _ fields | VDict fields => v' ← dict_get name fields; follow path' v'
      | _ => None
      end
  | Item i :: path' =>
      match v with
      | VList l | VTuple l => v' ← l !! i; follow path' v'
      | _ => None
      end
  end.

(** One vulnerability written to the save file and read back, as
    [load_from_dict] treats the items of [s_data['vulnerabilities']]. *)
Definition reload_vulnerability (v : Vulnerability.t) : option value :=
  doc ← json_roundtrip (deep_convert (asdict (Vulnerability_obj v)));
  d ← as_dict doc;
  d ← update "exploit_type" (enum "ExploitType" ExploitType_values) d;
  construct "Vulnerability" Vulnerability_schema (VDict d).

(** Saving, then loading what was saved. *)
Definition save_then_load (fresh_seed : Z) (st : state) : option state :=
  doc ← saved_document st; load_from_dict fresh_seed doc.

End Persistence.

(** * Specification-side definitions

    The definitions below are what the verified properties are stated
    with: the program logic, the formulas of the design document, the
    concrete scenarios and the state invariants. *)


(** ** A program logic for [M]

    [wp m Q E g]: from game state [g], whatever the console, the random
    draws and the clock hold, [m] either returns a value and a state
    satisfying [Q], or raises in a state satisfying [E]. *)
Definition wp {A} (m : M A) (Q : A -> GameState.t -> Prop) (E : GameState.t -> Prop)
    (g : GameState.t) : Prop :=
  forall w, match m (mkSys w g) with
            | Ok a s' => Q a (game s')
            | Raise _ s' => E (game s')
            end.

(** [m] maintains [I], also when it raises. *)
Definition preserves (I : GameState.t -> Prop) {A} (m : M A) : Prop :=
  forall g, I g -> wp m (fun _ => I) I g.

(** ** Exploit success rate *)

(** The closed formula of the success rate, every operation in binary64
    and in the order written:
    [clamp(0.05, 0.98, (base + skill*0.05 + tools + (cpu-1)*0.2 + (ram-1)*0.1) * events - patch*0.03)]. *)
Definition clamp (lo hi x : float) : float := Float.py_max lo (Float.py_min hi x).

Definition float_sum (l : list float) : float := fold_left Float.add l 0.0%float.
Definition float_product (l : list float) : float := fold_left Float.mul l 1.0%float.

(** The tool term as [calculate_success_rate] accumulates it: the sum,
    in inventory order and from 0.0, of [effectiveness * 0.1] of every
    owned exploit-framework tool, each product rounded before it is
    added. *)
Definition exploit_framework_bonus (inventory : list Tool.t) : float :=
  float_sum ((fun t => Tool.effectiveness t * 0.1)%float
             <$> List.filter (fun t => bool_decide (Tool.tool_type t = EXPLOIT_FRAMEWORK)) inventory).

(** The tool term as the specification words it, [tool_bonus * 0.1]: the
    summed effectiveness of the owned exploit-framework tools, scaled by
    0.1 once. *)
Definition stated_framework_bonus (inventory : list Tool.t) : float :=
  (float_sum (Tool.effectiveness
              <$> List.filter (fun t => bool_decide (Tool.tool_type t = EXPLOIT_FRAMEWORK)) inventory)
   * 0.1)%float.

(** The event multiplier: the product of the multipliers of the active
    GLOBAL_PATCH and ZERO_DAY_LEAK events. *)
Definition exploit_event_multiplier (events : list WorldEvent.t) : float :=
  float_product (WorldEvent.multiplier
                 <$> List.filter (fun e => bool_decide (WorldEvent.etype e = GLOBAL_PATCH)
                                           || bool_decide (WorldEvent.etype e = ZERO_DAY_LEAK)) events).

Definition success_rate_formula (base : float) (skill : Z) (tools cpu ram events : float)
    (patch : Z) : float :=
  clamp 0.05 0.98
    ((base + fl skill * 0.05 + tools + (cpu - 1.0) * 0.2 + (ram - 1.0) * 0.1) * events
     - fl patch * 0.03)%float.

(** ** Leveling: the specification's side *)

(** Experience paid to go from level [l] to level [l']: the thresholds
    [100*l + 100*(l+1) + ... + 100*(l'-1)]. *)
Definition exp_paid (l l' : Z) : Z := 50 * (l' * (l' - 1) - l * (l - 1)).

(** The skill a typed line selects: a number from 1 to 7. *)
Definition selected_skill (choice : string) : option string :=
  match Py.int_of_str choice with
  | Some n => if (1 <=? n) && (n <=? 7) then skill_names !! Z.to_nat (n - 1) else None
  | None => None
  end.

(** The player after one pass through the loop body on the line [line]. *)
Definition after_level_up (line : string) (p : PlayerState.t) : PlayerState.t :=
  let p1 := level_up p in
  PlayerState.with_skills (upgrade_skill (Py.strip line) (PlayerState.skills p1)) p1.

(** The skills after the lines [lines] were typed at successive prompts. *)
Definition skills_after (lines : list string) (sk : PlayerSkills.t) : PlayerSkills.t :=
  fold_left (fun sk line => upgrade_skill (Py.strip line) sk) lines sk.

(** Consuming [n] console lines. *)
Definition consume (n : nat) (w : World) : World :=
  {| stdin := drop n (stdin w); rand := rand w; clock := clock w |}.

(** ** The trace accrual as the design document states it *)

(** The multipliers of the active events that speed a trace up, in the
    order of the events. *)
Definition trace_multipliers (events : list WorldEvent.t) : list float :=
  WorldEvent.multiplier <$>
    filter (fun e => WorldEvent.etype e = POLICE_CRACKDOWN \/ WorldEvent.etype e = NETWORK_WORM)
      events.

(** [min(0.9, stealth*0.05 + proxy_chains*0.1 + len(bounce_chain)*0.12)] *)
Definition stealth_discount_formula (stealth proxy_chains bounces : Z) : float :=
  Float.py_min 0.9%float
    (fl stealth * 0.05 + fl proxy_chains * 0.1 + fl bounces * 0.12)%float.

Definition trace_increase_formula (trace_speed cooling : float) (events : list WorldEvent.t)
    (has_siem : bool) (d : float) : float :=
  let x := (trace_speed / cooling)%float in
  let x := fold_left Float.mul (trace_multipliers events) x in
  let x := if has_siem then (x * 1.5)%float else x in
  (x * (1.0 - d))%float.

(** A float that is neither negative nor the negative zero. *)
Definition sign_nonneg (x : float) : Prop :=
  match x with
  | S754_zero s | S754_infinity s | S754_finite s _ _ => s = false
  | S754_nan => True
  end.

(** A concrete player for the scenarios: the initial player with
    exploitation raised to 3, in a world without nodes. *)
Definition scenario_player : PlayerState.t :=
  PlayerState.with_skills (PlayerSkills.with_exploitation 3 initial_skills) (initial_player 0).
Definition scenario_vuln : Vulnerability.t :=
  Vulnerability.mk "SQL Injection in login form (nginx)" SQL_INJECTION 0.7%float 2 0.3%float
    (15, 30) 8 0.65%float None.
Definition scenario_game : GameState.t :=
  GameState.mk scenario_player 0 ∅ [] [] generate_tools [] [] [].
Definition scenario_sys : Sys := mkSys (mkWorld [] [] []) scenario_game.

(** A level-5 player with exploitation 5 who owns both exploit frameworks
    of the market, facing the zero-day template at patch level 10. *)
Definition framework_inventory : list Tool.t :=
  List.filter (fun t => bool_decide (Tool.tool_type t = EXPLOIT_FRAMEWORK)) generate_tools.
Definition framework_player : PlayerState.t :=
  PlayerState.with_inventory framework_inventory
    (PlayerState.with_level 5
       (PlayerState.with_skills (PlayerSkills.with_exploitation 5 initial_skills)
          (initial_player 0))).
Definition zero_day_vuln : Vulnerability.t :=
  Vulnerability.mk "Unpatched zero-day exploit (nginx)" ZERO_DAY 1.0%float 10 0.9%float
    (50, 100) 25 0.25%float (Some "exploit_framework").
Definition framework_sys : Sys :=
  mkSys (mkWorld [] [] []) (GameState.mk framework_player 0 ∅ [] [] generate_tools [] [] []).

(** ** An attack session on a node of security rating 5

    The node is as [_create_node] makes it for [security = 5], with one
    service whose vulnerability has been found by a scan. *)
Definition scenario_service : Service.t :=
  Service.mk "nginx" "1.18.0" 80 "open" [scenario_vuln] None [].

Definition scenario_node : NetworkNode.t :=
  NetworkNode.mk "a1b2c3d4e5f6" "Nexus Systems" "10.20.30.40" CORPORATE 5 500 500 5
    [scenario_service] {[0%nat]} {["a1b2c3d4e5f6_0_SQL Injection in login form (nginx)"]}
    false 1500 0.0%float 2.0%float None [] [] false false false 2 false "INTERNAL" [] [].

Definition attack_game : GameState.t :=
  GameState.with_nodes {["a1b2c3d4e5f6" := scenario_node]}
    (GameState.with_player
       (PlayerState.with_current_location "a1b2c3d4e5f6"
          (PlayerState.with_discovered_nodes {["a1b2c3d4e5f6"]} scenario_player))
       scenario_game).

Definition attack_sys (lines : list string) : Sys := mkSys (mkWorld lines [] []) attack_game.

(** The state a computation ends in, returned or raised. *)
Definition final_state {A} (r : result A) : Sys :=
  match r with
  | Ok _ s => s
  | Raise _ s => s
  end.

Definition node_of (uid : string) (s : Sys) : option NetworkNode.t :=
  GameState.nodes (game s) !! uid.

(** A line that selects nothing in a menu of [n] exploits followed by
    three more entries: not a number, or a number out of range. *)
Definition invalid_selection (n : Z) (line : string) : Prop :=
  match Py.int_of_str (Py.strip line) with
  | None => True
  | Some c => c < 1 \/ n + 3 < c
  end.

(** What the seizure leaves of a player, apart from the inventory. *)
Definition seized (p : PlayerState.t) (asset_loss : Z) (p' : PlayerState.t) : Prop :=
  PlayerState.credits p' = Py.max 100 (PlayerState.credits p - asset_loss)
  /\ PlayerState.reputation p' = Py.max 0 (PlayerState.reputation p - 100)
  /\ PlayerState.botnets p' = []
  /\ PlayerState.heat_level p' = 20
  /\ PlayerState.under_investigation p' = false
  /\ PlayerState.investigation_progress p' = 0.0%float.

(** The scenario of the specification: 1000 credits, reputation 40. *)
Definition investigated_sys (credits : Z) : Sys :=
  mkSys (mkWorld [""] [] [])
    (GameState.with_player
       (PlayerState.with_reputation 40 (PlayerState.with_credits credits scenario_player))
       scenario_game).

Definition after_investigation (credits : Z) : Sys :=
  match handle_investigation_complete (investigated_sys credits) with
  | Ok _ s' => s'
  | Raise _ s' => s'
  end.

(** A player at level 1 with 350 experience, to whom the lines "2",
    "abc" and "9" are typed. *)
Definition leveling_sys (lines : list string) (experience : Z) : Sys :=
  mkSys (mkWorld lines [] [])
    (GameState.with_player (PlayerState.with_experience experience (initial_player 0))
       scenario_game).

Definition after_check_level_up (s : Sys) : Sys :=
  match check_level_up s with
  | Ok _ s' => s'
  | Raise _ s' => s'
  end.

(** ** State invariants *)

(** A node stored under the key [k]. *)
Definition node_sound (k : string) (n : NetworkNode.t) : Prop :=
  NetworkNode.uid n = k
  /\ k <> ""
  /\ 0 <= NetworkNode.data_value n
  /\ Forall (fun e => 0 <= EncryptedData.value e) (NetworkNode.encrypted_traffic n)
  /\ (NetworkNode.backdoor_installed n = true -> NetworkNode.compromised n = true).

Definition hardware_sound (h : HardwareComponent.t) : Prop :=
  sign_nonneg (HardwareComponent.bonus h).

(** The [compromised] flag and the firewall strength of every node. *)
Definition flags (g : GameState.t) : gmap string bool :=
  NetworkNode.compromised <$> GameState.nodes g.
Definition firewalls (g : GameState.t) : gmap string Z :=
  NetworkNode.firewall_strength <$> GameState.nodes g.

(** Every skill lies between 1 and [MAX_SKILL_LEVEL]. *)
Definition skills_sound (sk : PlayerSkills.t) : Prop :=
  Forall (fun name => 1 <= getattr_skill name sk <= GameConstants.MAX_SKILL_LEVEL) skill_names.

(** The processor and the memory are those the game starts with; the
    storage and the cooling are present. *)
Definition hardware_steady (hw : gmap string HardwareComponent.t) : Prop :=
  hw !! "CPU" = initial_hardware !! "CPU"
  /\ hw !! "RAM" = initial_hardware !! "RAM"
  /\ is_Some (hw !! "Storage")
  /\ is_Some (hw !! "Cooling").

(** What every reachable game state satisfies. *)
Definition Sound (g : GameState.t) : Prop :=
  let p := GameState.player g in
  0 <= PlayerState.credits p
  /\ PlayerState.compromised_nodes p ⊆ PlayerState.discovered_nodes p
  /\ (PlayerState.current_location p ∈ PlayerState.discovered_nodes p
      \/ PlayerState.current_location p = "")
  /\ map_Forall node_sound (GameState.nodes g)
  /\ Forall (fun c => 0 <= Contract.reward c) (GameState.contracts g)
  /\ Forall (fun r => 0 <= RivalHacker.skill_level r) (GameState.rival_hackers g)
  /\ map_Forall (fun _ h => hardware_sound h) (PlayerState.hardware p)
  /\ Forall hardware_sound (GameState.black_market_hardware g)
  /\ 1 <= PlayerState.level p
  /\ 0 <= PlayerState.proxy_chains p
  /\ skills_sound (PlayerState.skills p)
  /\ hardware_steady (PlayerState.hardware p)
  /\ Forall (fun uid => uid ∈ PlayerState.compromised_nodes p) (PlayerState.bounced_nodes p)
  /\ set_Forall (fun uid => flags g !! uid = Some true) (PlayerState.compromised_nodes p).

Definition firewalls_are (fw : option (gmap string Z)) (g : GameState.t) : Prop :=
  match fw with
  | Some m => firewalls g = m
  | None => True
  end.

(** [Safe D fl fw]: the state is sound, the nodes of [D] are discovered,
    the flags are [fl] and, when [fw] is given, the firewalls are [fw]. *)
Definition Safe (D : gset string) (fl : gmap string bool) (fw : option (gmap string Z))
    (g : GameState.t) : Prop :=
  Sound g
  /\ D ⊆ PlayerState.discovered_nodes (GameState.player g)
  /\ flags g = fl
  /\ firewalls_are fw g.

(** Flags only ever raised with respect to [fl]. *)
Definition flags_above (fl : gmap string bool) (g : GameState.t) : Prop :=
  dom (flags g) = dom fl
  /\ forall uid, fl !! uid = Some true -> flags g !! uid = Some true.

(** [Safe] for some flags, the firewalls left out. *)
Definition SafeD (D : gset string) (g : GameState.t) : Prop := exists fl, Safe D fl None g.

(** [m] leaves the game state alone and returns a value that
    satisfies [P]. *)
Definition returns {A} (m : M A) (P : A -> Prop) : Prop :=
  forall g, wp m (fun a g' => g' = g /\ P a) (fun g' => g' = g) g.

(** [fl'] raises flags of [fl] and changes nothing else. *)
Definition above (fl fl' : gmap string bool) : Prop :=
  dom fl' = dom fl /\ forall uid, fl !! uid = Some true -> fl' !! uid = Some true.

(** The invariant of the rivals' turn: the firewalls stay as they are
    and flags are only raised. *)
Definition Rivalry (D : gset string) (fl : gmap string bool) (fw : gmap string Z)
    (g : GameState.t) : Prop :=
  exists fl', Safe D fl' (Some fw) g /\ above fl fl'.

(** A node as [_create_node] makes it, before it is stored. *)
Definition own_sound (n : NetworkNode.t) : Prop := node_sound (NetworkNode.uid n) n.

(** Whether the firewall of the node [uid] is down. *)
Definition firewall_down (uid : string) (g : GameState.t) : bool :=
  match firewalls g !! uid with
  | Some strength => strength <=? 0
  | None => false
  end.

(** A node as a new game has it: untouched, with its firewall at full
    strength, between 80 and 150 points for each point of security. *)
Definition pristine (n : NetworkNode.t) : Prop :=
  NetworkNode.compromised n = false
  /\ NetworkNode.backdoor_installed n = false
  /\ NetworkNode.firewall_strength n = NetworkNode.max_firewall n
  /\ 1 <= NetworkNode.security_rating n <= 10
  /\ 80 * NetworkNode.security_rating n <= NetworkNode.max_firewall n
     <= 150 * NetworkNode.security_rating n.
(** ** A play-through

    A new game in which the generator's ninth draw is 5 and every other
    draw is 0: the first node made is "000000000005", of security
    rating 1, and the player starts there.  The player scans the node,
    then runs the first exploit five times. *)
Definition blank_game : GameState.t :=
  GameState.mk (initial_player 0) 0 ∅ [] [] [] [] [] [].

Definition opening : Sys :=
  final_state (GameState__init__ (mkSys (mkWorld [] (replicate 8 0 ++ [5]) []) blank_game)).

(** Whether a computation returned, rather than raised. *)
Definition returned {A} (r : result A) : bool :=
  match r with
  | Ok _ _ => true
  | Raise _ _ => false
  end.

(** The system [s] with [lines] typed at the console. *)
Definition typing (lines : list string) (s : Sys) : Sys :=
  mkSys (mkWorld lines (rand (world s)) (clock (world s))) (game s).

Definition scanned : Sys := final_state (exec ScanNode (typing [""] opening)).

Definition attacked : Sys :=
  final_state (exec AttackNode (typing ["1"; "1"; "1"; "1"; "1"; ""] scanned)).

(** The rivals move first instead. *)
Definition rivals_moved : Sys := final_state (exec BackgroundTick opening).

(** The player phishes three employees of the first node instead. *)
Definition phished : Sys :=
  final_state (exec PhishingCampaign
    (final_state (exec PhishingCampaign
      (final_state (exec PhishingCampaign opening))))).

(** The system after the operation [c], run on [s] with [lines] typed. *)
Definition play (c : command) (lines : list string) (s : Sys) : Sys :=
  final_state (exec c (typing lines s)).

(** After the attack the player routes the connection through the
    compromised node, installs a backdoor on it (which brings a level and
    a point of stealth), robs the first rival three times, and buys the
    second item of the hardware market, a memory upgrade. *)
Definition bounced : Sys := play NavigateBounces ["1"] attacked.

Definition backdoored : Sys := play InstallBackdoor ["3"] bounced.

Definition funded : Sys :=
  play Intelligence ["1"; "1"; ""]
    (play Intelligence ["1"; "1"; ""] (play Intelligence ["1"; "1"; ""] backdoored)).

Definition upgraded : Sys := play BrowseHardware ["2"] funded.

(** ** A save file with only the player and the nodes

    The document saved for the attack session, with every key but
    'player' and 'nodes' taken out. *)
Definition minimal_save : Persistence.dict :=
  match Persistence.saved_document (Persistence.state_of attack_game) with
  | Some (Persistence.VDict d) =>
      List.filter (fun kv => String.eqb kv.1 "player" || String.eqb kv.1 "nodes") d
  | _ => []
  end.

(** ** The expiry loop of [update_dynamic_events]

    [pop_all idxs l]: the list after [l.pop(i)] for each [i] of [idxs] in
    turn; [None] when some index is out of range. *)
Fixpoint pop_all {A} (idxs : list nat) (l : list A) : option (list A) :=
  match idxs with
  | [] => Some l
  | i :: idxs' =>
      match l !! i with
      | Some _ => pop_all idxs' (delete i l)
      | None => None
      end
  end.

(** The events one day older, and those of them that go on. *)
Definition aged (events : list WorldEvent.t) : list WorldEvent.t :=
  (fun e => WorldEvent.with_duration (WorldEvent.duration e - 1) e) <$> events.
Definition ongoing (events : list WorldEvent.t) : list WorldEvent.t :=
  List.filter (fun e => 0 <? WorldEvent.duration e) events.

(** ** Connections that go both ways

    [mutual nodes]: whenever a node of the list names another node of
    the list among its connections, that node names it back. *)
Definition mutual (nodes : list NetworkNode.t) : Prop :=
  forall a b na nb,
    nodes !! a = Some na -> nodes !! b = Some nb ->
    NetworkNode.uid nb ∈ NetworkNode.connections na ->
    NetworkNode.uid na ∈ NetworkNode.connections nb.

(** A second node for the attack session's network. *)
Definition second_node : NetworkNode.t :=
  NetworkNode.mk "f6e5d4c3b2a1" "Nexus Systems" "10.20.30.41" CORPORATE 5 500 500 5
    [scenario_service] ∅ ∅ false 1500 0.0%float 2.0%float None [] [] false false false 2
    false "INTERNAL" [] [].

(** Operations that keep [Safe], whatever it records of the firewalls,
    and operations that keep it when the firewalls are left out. *)
Class Quiet {A} (m : M A) : Prop :=
  quiet : forall D fl fw, preserves (Safe D fl fw) m.
Class Tame {A} (m : M A) : Prop :=
  tame : forall D fl, preserves (Safe D fl None) m.

(** * Verification *)

(** ** Rules of the program logic *)

Section ProgramLogic.
Context {A B : Type}.
Implicit Types (Q : A -> GameState.t -> Prop) (E : GameState.t -> Prop) (g : GameState.t).

Lemma wp_mono (m : M A) Q Q' E E' g :
  wp m Q E g -> (forall a g', Q a g' -> Q' a g') -> (forall g', E g' -> E' g') -> wp m Q' E' g.
Proof.
  intros H HQ HE w. specialize (H w). destruct (m (mkSys w g)); auto.
Qed.

Lemma wp_ret (a : A) Q E g : Q a g -> wp (mret a) Q E g.
Proof. intros H w. exact H. Qed.

Lemma wp_bind (m : M A) (k : A -> M B) (Q : B -> GameState.t -> Prop) E g :
  wp m (fun a g' => wp (k a) Q E g') E g -> wp (m ≫= k) Q E g.
Proof.
  intros H w. specialize (H w). unfold mbind, M_bind.
  destruct (m (mkSys w g)) as [a [w' g']|e s']; [apply H | exact H].
Qed.

Lemma wp_raise (e : Py.exn) Q E g : E g -> wp (raise e) Q E g.
Proof. intros H w. exact H. Qed.

Lemma wp_try_except (m handler : M A) catches Q E g :
  wp m Q (fun g' => wp handler Q E g' /\ E g') g ->
  wp (try_except m catches handler) Q E g.
Proof.
  intros H w. specialize (H w). unfold try_except.
  destruct (m (mkSys w g)) as [a s'|e [w' g']]; [exact H|].
  destruct H as [Hh HE]. destruct (catches e); [apply Hh | exact HE].
Qed.

End ProgramLogic.

Section Primitives.
Implicit Types (E : GameState.t -> Prop) (g : GameState.t).

Lemma wp_get_game (Q : GameState.t -> GameState.t -> Prop) E g :
  Q g g -> wp get_game Q E g.
Proof. intros H w. exact H. Qed.

Lemma wp_modify_game f (Q : unit -> GameState.t -> Prop) E g :
  Q tt (f g) -> wp (modify_game f) Q E g.
Proof. intros H w. exact H. Qed.

Lemma wp_get_player (Q : PlayerState.t -> GameState.t -> Prop) E g :
  Q (GameState.player g) g -> wp get_player Q E g.
Proof. intros H w. exact H. Qed.

Lemma wp_modify_player f (Q : unit -> GameState.t -> Prop) E g :
  Q tt (GameState.with_player (f (GameState.player g)) g) -> wp (modify_player f) Q E g.
Proof. intros H w. exact H. Qed.

Lemma wp_input (Q : string -> GameState.t -> Prop) E g :
  (forall line, Q line g) -> E g -> wp input Q E g.
Proof.
  intros HQ HE w. unfold input. simpl. destruct (stdin w); [exact HE | apply HQ].
Qed.

Lemma wp_draw (Q : Z -> GameState.t -> Prop) E g : (forall k, Q k g) -> wp draw Q E g.
Proof. intros HQ w. apply HQ. Qed.

Lemma wp_tick (Q : Z -> GameState.t -> Prop) E g : (forall k, Q k g) -> wp tick Q E g.
Proof. intros HQ w. apply HQ. Qed.

End Primitives.

Section DerivedRules.
Context {A : Type}.
Implicit Types (E : GameState.t -> Prop) (g : GameState.t).

Lemma wp_random_random (Q : float -> GameState.t -> Prop) E g :
  (forall r, Q r g) -> wp random_random Q E g.
Proof. intros H. apply wp_bind, wp_draw. intros k. apply wp_ret, H. Qed.

Lemma wp_random_uniform a b (Q : float -> GameState.t -> Prop) E g :
  (forall r, Q r g) -> wp (random_uniform a b) Q E g.
Proof. intros H. apply wp_bind, wp_random_random. intros r. apply wp_ret, H. Qed.

Lemma wp_random_randint a b (Q : Z -> GameState.t -> Prop) E g :
  (forall r, a <= r <= b -> Q r g) -> E g -> wp (random_randint a b) Q E g.
Proof.
  intros HQ HE. unfold random_randint. destruct (b <? a) eqn:Hba.
  - apply wp_raise, HE.
  - apply wp_bind, wp_draw. intros k. apply wp_ret, HQ.
    apply Z.ltb_ge in Hba.
    pose proof (Z.mod_pos_bound k (b - a + 1) ltac:(lia)). lia.
Qed.

Lemma wp_random_index n (Q : nat -> GameState.t -> Prop) E g :
  (forall i, (i < n)%nat -> Q i g) -> E g -> wp (random_index n) Q E g.
Proof.
  intros HQ HE. destruct n as [|n]; [apply wp_raise, HE|].
  apply wp_bind, wp_draw. intros k. apply wp_ret, HQ.
  pose proof (Z.mod_pos_bound k (Z.of_nat (S n)) ltac:(lia)). lia.
Qed.

Lemma wp_random_choice (l : list A) (Q : A -> GameState.t -> Prop) E g :
  (forall x, x ∈ l -> Q x g) -> E g -> wp (random_choice l) Q E g.
Proof.
  intros HQ HE. apply wp_bind, wp_random_index; [|exact HE].
  intros i Hi. destruct (l !! i) as [x|] eqn:Hx.
  - apply wp_ret, HQ. apply list_elem_of_lookup. eauto.
  - apply wp_raise, HE.
Qed.

Lemma wp_sample_from (l : list A) k (Q : list A -> GameState.t -> Prop) E g :
  (forall xs, xs ⊆+ l -> length xs = k -> Q xs g) -> E g -> wp (sample_from l k) Q E g.
Proof.
  revert l Q. induction k as [|k IH]; intros l Q HQ HE; simpl.
  - apply wp_ret, HQ; [apply submseteq_nil_l | done].
  - apply wp_bind, wp_random_index; [|exact HE].
    intros i Hi. destruct (l !! i) as [x|] eqn:Hx; [|apply wp_raise, HE].
    apply wp_bind, IH; [|exact HE]. intros xs Hsub Hlen. apply wp_ret, HQ.
    + rewrite (delete_Permutation l i x Hx). by apply submseteq_skip.
    + simpl. by rewrite Hlen.
Qed.

Lemma wp_random_sample (l : list A) k (Q : list A -> GameState.t -> Prop) E g :
  (forall xs, xs ⊆+ l -> length xs = k -> Q xs g) -> E g -> wp (random_sample l k) Q E g.
Proof.
  intros HQ HE. unfold random_sample. destruct (length l <? k)%nat.
  - apply wp_raise, HE.
  - by apply wp_sample_from.
Qed.

(** Loops: [I] holds on entry, every turn keeps it, and it is all that
    is known on exit. *)
Lemma wp_for_each (l : list A) (body : A -> M unit) (I : GameState.t -> Prop)
    (Q : unit -> GameState.t -> Prop) E g :
  I g ->
  (forall x g', x ∈ l -> I g' -> wp (body x) (fun _ => I) E g') ->
  (forall g', I g' -> Q tt g') ->
  wp (for_each l body) Q E g.
Proof.
  revert g. induction l as [|x l IH]; intros g HI Hbody HQ; simpl.
  - apply wp_ret, HQ, HI.
  - apply wp_bind. eapply wp_mono; [apply Hbody; [left | exact HI] | | auto].
    intros ? g' HI'. apply IH; auto. intros y g'' Hy. apply Hbody. by right.
Qed.

(** The same with an invariant that follows the items still to come. *)
Lemma wp_for_each_rest (l : list A) (body : A -> M unit) (I : list A -> GameState.t -> Prop)
    (Q : unit -> GameState.t -> Prop) E g :
  I l g ->
  (forall x rest g', I (x :: rest) g' -> wp (body x) (fun _ => I rest) E g') ->
  (forall g', I [] g' -> Q tt g') ->
  wp (for_each l body) Q E g.
Proof.
  revert g. induction l as [|x l IH]; intros g HI Hbody HQ; simpl.
  - apply wp_ret, HQ, HI.
  - apply wp_bind. eapply wp_mono; [apply Hbody, HI | | auto].
    intros ? g' HI'. by apply IH.
Qed.

Lemma wp_for_enumerate (l : list A) (body : nat -> A -> M unit) (I : GameState.t -> Prop)
    (Q : unit -> GameState.t -> Prop) E g start :
  I g ->
  (forall i x g', l !! i = Some x -> I g' -> wp (body (start + i)%nat x) (fun _ => I) E g') ->
  (forall g', I g' -> Q tt g') ->
  wp (for_enumerate start l body) Q E g.
Proof.
  revert g start. induction l as [|x l IH]; intros g start HI Hbody HQ; simpl.
  - apply wp_ret, HQ, HI.
  - apply wp_bind. pose proof (Hbody 0%nat x g eq_refl HI) as H0.
    rewrite Nat.add_0_r in H0. eapply wp_mono; [exact H0| |auto].
    intros ? g' HI'. apply IH; auto.
    intros i y g'' Hy. replace (S start + i)%nat with (start + S i)%nat by lia.
    by apply Hbody.
Qed.

Lemma wp_fold_m {S} (l : list A) (body : A -> S -> M S) (I : S -> GameState.t -> Prop)
    (Q : S -> GameState.t -> Prop) E g acc :
  I acc g ->
  (forall x acc' g', x ∈ l -> I acc' g' -> wp (body x acc') I E g') ->
  (forall acc' g', I acc' g' -> Q acc' g') ->
  wp (fold_m l body acc) Q E g.
Proof.
  revert g acc. induction l as [|x l IH]; intros g acc HI Hbody HQ; simpl.
  - apply wp_ret, HQ, HI.
  - apply wp_bind. eapply wp_mono; [apply Hbody; [left | exact HI] | | auto].
    intros acc' g' HI'. apply IH; auto. intros y acc'' g'' Hy. apply Hbody. by right.
Qed.

Lemma wp_repeat_collect n (m : M A) (P : A -> Prop) (I : GameState.t -> Prop)
    (Q : list A -> GameState.t -> Prop) E g :
  I g ->
  (forall g', I g' -> wp m (fun x g'' => P x /\ I g'') E g') ->
  (forall xs g', Forall P xs -> length xs = n -> I g' -> Q xs g') ->
  wp (repeat_collect n m) Q E g.
Proof.
  revert g Q. induction n as [|n IH]; intros g Q HI Hm HQ; simpl.
  - apply wp_ret, HQ; auto.
  - apply wp_bind. eapply wp_mono; [apply Hm, HI| |auto].
    intros x g' [HP HI']. apply wp_bind, IH; auto.
    intros xs g'' HPs Hlen HI''. apply wp_ret, HQ; auto. simpl. by rewrite Hlen.
Qed.

End DerivedRules.

Section MoreRules.
Implicit Types (E : GameState.t -> Prop) (g : GameState.t).

Lemma wp_while_loop fuel (body : M bool) (I : GameState.t -> Prop)
    (Q : unit -> GameState.t -> Prop) E g :
  I g ->
  (forall g', I g' -> wp body (fun _ => I) E g') ->
  (forall g', I g' -> Q tt g') ->
  (forall g', I g' -> E g') ->
  wp (while_loop fuel body) Q E g.
Proof.
  revert g. induction fuel as [|fuel IH]; intros g HI Hbody HQ HE; simpl.
  - apply wp_raise, HE, HI.
  - apply wp_bind. eapply wp_mono; [apply Hbody, HI| |auto].
    intros [] g' HI'; [by apply IH | apply wp_ret, HQ, HI'].
Qed.

Lemma wp_while_reading (body : M bool) (I : GameState.t -> Prop)
    (Q : unit -> GameState.t -> Prop) E g :
  I g ->
  (forall g', I g' -> wp body (fun _ => I) E g') ->
  (forall g', I g' -> Q tt g') ->
  (forall g', I g' -> E g') ->
  wp (while_reading body) Q E g.
Proof.
  intros HI Hbody HQ HE w. unfold while_reading.
  exact (wp_while_loop _ body I Q E g HI Hbody HQ HE w).
Qed.

Lemma wp_when (c : bool) (m : M unit) (Q : unit -> GameState.t -> Prop) E g :
  (c = true -> wp m Q E g) -> (c = false -> Q tt g) -> wp (when c m) Q E g.
Proof. intros Ht Hf. destruct c; [by apply Ht | by apply wp_ret, Hf]. Qed.

Lemma wp_get_node uid (Q : NetworkNode.t -> GameState.t -> Prop) E g :
  (forall n, GameState.nodes g !! uid = Some n -> Q n g) -> E g -> wp (get_node uid) Q E g.
Proof.
  intros HQ HE. apply wp_bind, wp_get_game.
  destruct (GameState.nodes g !! uid) as [n|] eqn:Hn; [by apply wp_ret, HQ | by apply wp_raise].
Qed.

Lemma wp_nodes_get uid (Q : option NetworkNode.t -> GameState.t -> Prop) E g :
  Q (GameState.nodes g !! uid) g -> wp (nodes_get uid) Q E g.
Proof. intros HQ. apply wp_bind, wp_get_game. by apply wp_ret. Qed.

Lemma wp_modify_node uid f (Q : unit -> GameState.t -> Prop) E g :
  Q tt (GameState.with_nodes (alter f uid (GameState.nodes g)) g) -> wp (modify_node uid f) Q E g.
Proof. intros H. by apply wp_modify_game. Qed.

Lemma wp_get_hardware key (Q : HardwareComponent.t -> GameState.t -> Prop) E g :
  (forall h, PlayerState.hardware (GameState.player g) !! key = Some h -> Q h g) -> E g ->
  wp (get_hardware key) Q E g.
Proof.
  intros HQ HE. apply wp_bind, wp_get_player.
  destruct (PlayerState.hardware (GameState.player g) !! key) eqn:Hh;
    [by apply wp_ret, HQ | by apply wp_raise].
Qed.

Lemma wp_int_of_float x (Q : Z -> GameState.t -> Prop) E g :
  (forall z, Float.trunc x = Some z -> Q z g) -> E g -> wp (int_of_float x) Q E g.
Proof.
  intros HQ HE. unfold int_of_float.
  destruct (Float.trunc x); [by apply wp_ret, HQ | by apply wp_raise].
Qed.

Lemma wp_parse_int choice (Q : Z -> GameState.t -> Prop) E g :
  (forall n, Py.int_of_str choice = Some n -> Q n g) -> E g -> wp (parse_int choice) Q E g.
Proof.
  intros HQ HE. unfold parse_int.
  destruct (Py.int_of_str choice); [by apply wp_ret, HQ | by apply wp_raise].
Qed.

Lemma wp_float_div a b (Q : float -> GameState.t -> Prop) E g :
  (Float.truthy b = true -> Q (a / b)%float g) -> E g -> wp (float_div a b) Q E g.
Proof.
  intros HQ HE. unfold float_div.
  destruct (Float.truthy b); [by apply wp_ret, HQ | by apply wp_raise].
Qed.

Lemma wp_time_time (Q : float -> GameState.t -> Prop) E g :
  (forall t, Q t g) -> wp time_time Q E g.
Proof. intros H. apply wp_bind, wp_tick. intros k. apply wp_ret, H. Qed.

Lemma wp_md5_prefix n (Q : string -> GameState.t -> Prop) E g :
  (forall k, Q (hex_digits n k "") g) -> wp (md5_prefix n) Q E g.
Proof.
  intros H. apply wp_bind, wp_tick. intros _. apply wp_bind, wp_draw. intros k.
  apply wp_ret, H.
Qed.

End MoreRules.

(** Record projections applied to field assignments. *)
Ltac proj_simpl :=
  cbn [HardwareComponent.name HardwareComponent.htype HardwareComponent.level
    HardwareComponent.cost HardwareComponent.bonus HardwareComponent.description
    WorldEvent.name WorldEvent.etype WorldEvent.duration WorldEvent.multiplier
    WorldEvent.description WorldEvent.target_faction WorldEvent.target_network
    WorldEvent.with_duration Vulnerability.name Vulnerability.exploit_type
    Vulnerability.severity Vulnerability.patch_level Vulnerability.discovery_difficulty
    Vulnerability.firewall_damage Vulnerability.trace_cost Vulnerability.success_rate_base
    Vulnerability.requires_tool Vulnerability.with_patch_level EncryptedData.encryption_type
    EncryptedData.data_size EncryptedData.value EncryptedData.difficulty EncryptedData.cracked
    EncryptedData.with_cracked Employee.name Employee.email Employee.department
    Employee.access_level Employee.social_media_activity Employee.phishing_susceptibility
    Employee.compromised Employee.with_phishing_susceptibility Employee.with_compromised
    Service.name Service.version Service.port Service.state Service.vulnerabilities
    Service.encryption Service.employees_with_access Service.with_vulnerabilities Honeypot.port
    Honeypot.fake_service Honeypot.detection_chance Honeypot.trace_increase Tool.name
    Tool.tool_type Tool.cost Tool.effectiveness Tool.description Tool.level_requirement
    Tool.stealth_penalty Botnet.size Botnet.quality Botnet.maintenance_cost Botnet.ddos_power
    Botnet.detected_nodes Botnet.with_size Botnet.with_quality Botnet.with_maintenance_cost
    Botnet.with_ddos_power Botnet.with_detected_nodes NetworkNode.uid NetworkNode.name
    NetworkNode.ip_address NetworkNode.network_type NetworkNode.security_rating
    NetworkNode.firewall_strength NetworkNode.max_firewall NetworkNode.ice_level
    NetworkNode.services NetworkNode.discovered_services NetworkNode.discovered_vulns
    NetworkNode.compromised NetworkNode.data_value NetworkNode.trace_progress
    NetworkNode.trace_speed NetworkNode.last_attack_time NetworkNode.connections
    NetworkNode.honeypots NetworkNode.has_siem NetworkNode.has_incident_response
    NetworkNode.admin_active NetworkNode.admin_skill NetworkNode.backdoor_installed
    NetworkNode.network_segment NetworkNode.employees NetworkNode.encrypted_traffic
    NetworkNode.with_firewall_strength NetworkNode.with_services
    NetworkNode.with_discovered_services NetworkNode.with_discovered_vulns
    NetworkNode.with_compromised NetworkNode.with_data_value NetworkNode.with_trace_progress
    NetworkNode.with_trace_speed NetworkNode.with_connections NetworkNode.with_admin_active
    NetworkNode.with_backdoor_installed NetworkNode.with_employees
    NetworkNode.with_encrypted_traffic PlayerSkills.scanning PlayerSkills.exploitation
    PlayerSkills.stealth PlayerSkills.cryptanalysis PlayerSkills.social_engineering
    PlayerSkills.reverse_engineering PlayerSkills.botnet_management PlayerSkills.with_scanning
    PlayerSkills.with_exploitation PlayerSkills.with_stealth PlayerSkills.with_cryptanalysis
    PlayerSkills.with_social_engineering PlayerSkills.with_reverse_engineering
    PlayerSkills.with_botnet_management Faction.name Faction.reputation Faction.hostile
    Faction.with_reputation PlayerState.handle PlayerState.level PlayerState.experience
    PlayerState.credits PlayerState.reputation PlayerState.heat_level PlayerState.skills
    PlayerState.discovered_nodes PlayerState.compromised_nodes PlayerState.current_location
    PlayerState.inventory PlayerState.active_contracts PlayerState.completed_contracts
    PlayerState.game_time PlayerState.total_playtime PlayerState.botnets PlayerState.factions
    PlayerState.identity_heat PlayerState.known_exploits PlayerState.proxy_chains
    PlayerState.safe_houses PlayerState.under_investigation PlayerState.investigation_progress
    PlayerState.hardware PlayerState.active_events PlayerState.bounced_nodes
    PlayerState.with_level PlayerState.with_experience PlayerState.with_credits
    PlayerState.with_reputation PlayerState.with_heat_level PlayerState.with_skills
    PlayerState.with_discovered_nodes PlayerState.with_compromised_nodes
    PlayerState.with_current_location PlayerState.with_inventory
    PlayerState.with_active_contracts PlayerState.with_botnets PlayerState.with_factions
    PlayerState.with_identity_heat PlayerState.with_known_exploits
    PlayerState.with_proxy_chains PlayerState.with_under_investigation
    PlayerState.with_investigation_progress PlayerState.with_hardware
    PlayerState.with_active_events PlayerState.with_bounced_nodes Contract.uid Contract.title
    Contract.description Contract.target_node_uid Contract.objective Contract.reward
    Contract.reputation_change Contract.time_limit Contract.difficulty Contract.contractor
    Contract.faction Contract.completed Contract.failed Contract.deadline
    Contract.with_completed RivalHacker.name RivalHacker.skill_level RivalHacker.specialization
    RivalHacker.active_targets RivalHacker.last_seen RivalHacker.hostile
    RivalHacker.with_active_targets RivalHacker.with_last_seen RivalHacker.with_hostile
    MarketExploit.name MarketExploit.type_ MarketExploit.cost MarketExploit.effectiveness
    MarketExploit.level_req GameState.player GameState.seed GameState.nodes GameState.contracts
    GameState.event_log GameState.black_market_tools GameState.black_market_exploits
    GameState.black_market_hardware GameState.rival_hackers GameState.with_player
    GameState.with_nodes GameState.with_contracts GameState.with_event_log
    GameState.with_black_market_exploits GameState.with_black_market_hardware
    GameState.with_rival_hackers].
Ltac proj_simpl_in H :=
  cbn [HardwareComponent.name HardwareComponent.htype HardwareComponent.level
    HardwareComponent.cost HardwareComponent.bonus HardwareComponent.description
    WorldEvent.name WorldEvent.etype WorldEvent.duration WorldEvent.multiplier
    WorldEvent.description WorldEvent.target_faction WorldEvent.target_network
    WorldEvent.with_duration Vulnerability.name Vulnerability.exploit_type
    Vulnerability.severity Vulnerability.patch_level Vulnerability.discovery_difficulty
    Vulnerability.firewall_damage Vulnerability.trace_cost Vulnerability.success_rate_base
    Vulnerability.requires_tool Vulnerability.with_patch_level EncryptedData.encryption_type
    EncryptedData.data_size EncryptedData.value EncryptedData.difficulty EncryptedData.cracked
    EncryptedData.with_cracked Employee.name Employee.email Employee.department
    Employee.access_level Employee.social_media_activity Employee.phishing_susceptibility
    Employee.compromised Employee.with_phishing_susceptibility Employee.with_compromised
    Service.name Service.version Service.port Service.state Service.vulnerabilities
    Service.encryption Service.employees_with_access Service.with_vulnerabilities Honeypot.port
    Honeypot.fake_service Honeypot.detection_chance Honeypot.trace_increase Tool.name
    Tool.tool_type Tool.cost Tool.effectiveness Tool.description Tool.level_requirement
    Tool.stealth_penalty Botnet.size Botnet.quality Botnet.maintenance_cost Botnet.ddos_power
    Botnet.detected_nodes Botnet.with_size Botnet.with_quality Botnet.with_maintenance_cost
    Botnet.with_ddos_power Botnet.with_detected_nodes NetworkNode.uid NetworkNode.name
    NetworkNode.ip_address NetworkNode.network_type NetworkNode.security_rating
    NetworkNode.firewall_strength NetworkNode.max_firewall NetworkNode.ice_level
    NetworkNode.services NetworkNode.discovered_services NetworkNode.discovered_vulns
    NetworkNode.compromised NetworkNode.data_value NetworkNode.trace_progress
    NetworkNode.trace_speed NetworkNode.last_attack_time NetworkNode.connections
    NetworkNode.honeypots NetworkNode.has_siem NetworkNode.has_incident_response
    NetworkNode.admin_active NetworkNode.admin_skill NetworkNode.backdoor_installed
    NetworkNode.network_segment NetworkNode.employees NetworkNode.encrypted_traffic
    NetworkNode.with_firewall_strength NetworkNode.with_services
    NetworkNode.with_discovered_services NetworkNode.with_discovered_vulns
    NetworkNode.with_compromised NetworkNode.with_data_value NetworkNode.with_trace_progress
    NetworkNode.with_trace_speed NetworkNode.with_connections NetworkNode.with_admin_active
    NetworkNode.with_backdoor_installed NetworkNode.with_employees
    NetworkNode.with_encrypted_traffic PlayerSkills.scanning PlayerSkills.exploitation
    PlayerSkills.stealth PlayerSkills.cryptanalysis PlayerSkills.social_engineering
    PlayerSkills.reverse_engineering PlayerSkills.botnet_management PlayerSkills.with_scanning
    PlayerSkills.with_exploitation PlayerSkills.with_stealth PlayerSkills.with_cryptanalysis
    PlayerSkills.with_social_engineering PlayerSkills.with_reverse_engineering
    PlayerSkills.with_botnet_management Faction.name Faction.reputation Faction.hostile
    Faction.with_reputation PlayerState.handle PlayerState.level PlayerState.experience
    PlayerState.credits PlayerState.reputation PlayerState.heat_level PlayerState.skills
    PlayerState.discovered_nodes PlayerState.compromised_nodes PlayerState.current_location
    PlayerState.inventory PlayerState.active_contracts PlayerState.completed_contracts
    PlayerState.game_time PlayerState.total_playtime PlayerState.botnets PlayerState.factions
    PlayerState.identity_heat PlayerState.known_exploits PlayerState.proxy_chains
    PlayerState.safe_houses PlayerState.under_investigation PlayerState.investigation_progress
    PlayerState.hardware PlayerState.active_events PlayerState.bounced_nodes
    PlayerState.with_level PlayerState.with_experience PlayerState.with_credits
    PlayerState.with_reputation PlayerState.with_heat_level PlayerState.with_skills
    PlayerState.with_discovered_nodes PlayerState.with_compromised_nodes
    PlayerState.with_current_location PlayerState.with_inventory
    PlayerState.with_active_contracts PlayerState.with_botnets PlayerState.with_factions
    PlayerState.with_identity_heat PlayerState.with_known_exploits
    PlayerState.with_proxy_chains PlayerState.with_under_investigation
    PlayerState.with_investigation_progress PlayerState.with_hardware
    PlayerState.with_active_events PlayerState.with_bounced_nodes Contract.uid Contract.title
    Contract.description Contract.target_node_uid Contract.objective Contract.reward
    Contract.reputation_change Contract.time_limit Contract.difficulty Contract.contractor
    Contract.faction Contract.completed Contract.failed Contract.deadline
    Contract.with_completed RivalHacker.name RivalHacker.skill_level RivalHacker.specialization
    RivalHacker.active_targets RivalHacker.last_seen RivalHacker.hostile
    RivalHacker.with_active_targets RivalHacker.with_last_seen RivalHacker.with_hostile
    MarketExploit.name MarketExploit.type_ MarketExploit.cost MarketExploit.effectiveness
    MarketExploit.level_req GameState.player GameState.seed GameState.nodes GameState.contracts
    GameState.event_log GameState.black_market_tools GameState.black_market_exploits
    GameState.black_market_hardware GameState.rival_hackers GameState.with_player
    GameState.with_nodes GameState.with_contracts GameState.with_event_log
    GameState.with_black_market_exploits GameState.with_black_market_hardware
    GameState.with_rival_hackers] in H.

(** Symbolic execution of one statement. *)
Ltac wp_step :=
  cbv beta; proj_simpl;
  lazymatch goal with
  | |- wp (mret _) _ _ _ => apply wp_ret
  | |- wp (mbind _ _) _ _ _ => apply wp_bind
  | |- wp (raise _) _ _ _ => apply wp_raise
  | |- wp get_game _ _ _ => apply wp_get_game
  | |- wp get_player _ _ _ => apply wp_get_player
  | |- wp (modify_game _) _ _ _ => apply wp_modify_game
  | |- wp (modify_player _) _ _ _ => apply wp_modify_player
  | |- wp (modify_node _ _) _ _ _ => apply wp_modify_node
  | |- wp (modify_rival _ _) _ _ _ => apply wp_modify_game
  | |- wp (modify_vuln _ _ _ _) _ _ _ => apply wp_modify_game
  | |- wp (modify_employee _ _ _) _ _ _ => apply wp_modify_game
  | |- wp (modify_traffic _ _ _) _ _ _ => apply wp_modify_game
  | |- wp (modify_contract _ _) _ _ _ => apply wp_modify_game
  | |- wp (modify_botnet _ _) _ _ _ => apply wp_modify_player
  | |- wp (log_event _) _ _ _ => apply wp_modify_game
  | |- wp (add_experience _) _ _ _ => apply wp_modify_player
  | |- wp (add_credits _) _ _ _ => apply wp_modify_player
  | |- wp (add_reputation _) _ _ _ => apply wp_modify_player
  | |- wp (add_heat _) _ _ _ => apply wp_modify_player
  | |- wp (add_trace _ _) _ _ _ => apply wp_modify_game
  | |- wp (damage_firewall _ _) _ _ _ => apply wp_modify_game
  | |- wp current_location _ _ _ => unfold current_location
  | |- wp input _ _ _ => apply wp_input; [intros ?line|]
  | |- wp draw _ _ _ => apply wp_draw; intros ?k
  | |- wp tick _ _ _ => apply wp_tick; intros ?k
  | |- wp datetime_now _ _ _ => apply wp_tick; intros ?k
  | |- wp time_time _ _ _ => apply wp_time_time; intros ?t
  | |- wp (md5_prefix _) _ _ _ => apply wp_md5_prefix; intros ?k
  | |- wp random_random _ _ _ => apply wp_random_random; intros ?r
  | |- wp (random_uniform _ _) _ _ _ => apply wp_random_uniform; intros ?r
  | |- wp (random_randint _ _) _ _ _ => apply wp_random_randint; [intros ?r ?Hr|]
  | |- wp (random_choice _) _ _ _ => apply wp_random_choice; [intros ?x ?Hx|]
  | |- wp (random_sample _ _) _ _ _ => apply wp_random_sample; [intros ?xs ?Hxs ?Hlen|]
  | |- wp (get_node _) _ _ _ => apply wp_get_node; [intros ?n ?Hn|]
  | |- wp (nodes_get _) _ _ _ => apply wp_nodes_get
  | |- wp (get_hardware _) _ _ _ => apply wp_get_hardware; [intros ?h ?Hh|]
  | |- wp (int_of_float _) _ _ _ => apply wp_int_of_float; [intros ?z ?Hz|]
  | |- wp (parse_int _) _ _ _ => apply wp_parse_int; [intros ?n ?Hn|]
  | |- wp (float_div _ _) _ _ _ => apply wp_float_div; [intros ?Hnz|]
  | |- wp (try_except _ _ _) _ _ _ => apply wp_try_except
  | |- wp (when _ _) _ _ _ => apply wp_when; [intros ?Hc|intros ?Hc]
  | |- wp (if ?c then _ else _) _ _ _ => destruct c eqn:?
  | |- wp (match ?x with _ => _ end) _ _ _ => destruct x eqn:?
  | |- wp (let _ := _ in _) _ _ _ => cbv zeta
  end.

Ltac wp_steps := repeat (wp_step; try exact I).

(** ** Integers: Python's [max]/[min] *)
Lemma Py_max_spec a b : Py.max a b = Z.max a b.
Proof. unfold Py.max. rewrite Z.gtb_ltb. destruct (Z.ltb_spec a b); lia. Qed.

Lemma Py_min_spec a b : Py.min a b = Z.min a b.
Proof. unfold Py.min. destruct (Z.ltb_spec b a); lia. Qed.

(** ** Floats: order facts *)
Lemma float_ltb_leb (x y : float) : Float.ltb x y = true -> Float.leb x y = true.
Proof.
  unfold Float.ltb, Float.leb, SFltb, SFleb.
  destruct (SFcompare x y) as [[]|]; congruence.
Qed.

Lemma clamp_range (lo hi x : float) :
  Float.leb lo lo = true -> Float.leb lo hi = true -> Float.leb hi hi = true ->
  Float.leb lo (clamp lo hi x) = true /\ Float.leb (clamp lo hi x) hi = true.
Proof.
  intros Hll Hlh Hhh. unfold clamp, Float.py_max, Float.py_min, Float.gtb, Float.ltb.
  destruct (SFltb x hi) eqn:Hx.
  - destruct (SFltb lo x) eqn:Hl; split; auto using float_ltb_leb.
  - destruct (SFltb lo hi); split; auto.
Qed.

(** ** Exploit success rate (claim C3) *)

Lemma tool_bonus_of_sum inventory :
  tool_bonus_of inventory = exploit_framework_bonus inventory.
Proof.
  unfold tool_bonus_of, exploit_framework_bonus, float_sum.
  generalize 0.0%float. induction inventory as [|t inv IH]; intros acc; simpl; [done|].
  destruct (bool_decide (Tool.tool_type t = EXPLOIT_FRAMEWORK)); simpl; apply IH.
Qed.

Lemma event_mult_of_product events :
  event_mult_of events = exploit_event_multiplier events.
Proof.
  unfold event_mult_of, exploit_event_multiplier, float_product.
  generalize 1.0%float. induction events as [|e evs IH]; intros acc; simpl; [done|].
  destruct (bool_decide (WorldEvent.etype e = GLOBAL_PATCH)); simpl; [apply IH|].
  destruct (bool_decide (WorldEvent.etype e = ZERO_DAY_LEAK)); simpl; apply IH.
Qed.

(** C3 (amended). For every player state and vulnerability, with the CPU
    and RAM slots present, [calculate_success_rate] returns
    [clamp(0.05, 0.98, (base + skill*0.05 + tools + (cpu-1)*0.2 + (ram-1)*0.1) * events - patch*0.03)]
    computed in binary64 in the order written, where the tool term is
    the sum, in inventory order, of [effectiveness * 0.1] of each owned
    exploit framework (each product rounded before it is added, not the
    summed effectiveness scaled once) and the event term is the product
    of the multipliers of the active GLOBAL_PATCH and ZERO_DAY_LEAK
    events; the result lies in [0.05, 0.98] whatever the inputs are; and
    in the scenario base 0.65, exploitation 3, no tools, no events,
    hardware bonuses 1.0, patch level 2 it is exactly 0.74. *)
Theorem calculate_success_rate_formula (s : Sys) (vuln : Vulnerability.t)
    (cpu ram : HardwareComponent.t) :
  let p := GameState.player (game s) in
  PlayerState.hardware p !! "CPU" = Some cpu ->
  PlayerState.hardware p !! "RAM" = Some ram ->
  let rate :=
    success_rate_formula (Vulnerability.success_rate_base vuln)
      (PlayerSkills.exploitation (PlayerState.skills p))
      (exploit_framework_bonus (PlayerState.inventory p))
      (HardwareComponent.bonus cpu) (HardwareComponent.bonus ram)
      (exploit_event_multiplier (PlayerState.active_events p))
      (Vulnerability.patch_level vuln) in
  calculate_success_rate vuln s = Ok rate s
  /\ Float.leb 0.05 rate = true /\ Float.leb rate 0.98 = true
  /\ (Vulnerability.success_rate_base vuln = 0.65%float ->
      PlayerSkills.exploitation (PlayerState.skills p) = 3 ->
      PlayerState.inventory p = [] -> PlayerState.active_events p = [] ->
      HardwareComponent.bonus cpu = 1.0%float -> HardwareComponent.bonus ram = 1.0%float ->
      Vulnerability.patch_level vuln = 2 ->
      rate = 0.74%float).
Proof.
  intros p Hcpu Hram rate. subst p. split; [|split; [|split]].
  - subst rate. destruct s as [w g]. simpl in *.
    unfold calculate_success_rate, get_hardware, get_player, mbind, M_bind, mret, M_ret.
    cbn. rewrite Hcpu. cbn. rewrite Hram. cbn.
    rewrite tool_bonus_of_sum, event_mult_of_product. reflexivity.
  - apply clamp_range; reflexivity.
  - apply clamp_range; reflexivity.
  - intros Hbase Hskill Hinv Hev Hc Hr Hpatch. subst rate.
    rewrite Hbase, Hskill, Hinv, Hev, Hc, Hr, Hpatch. vm_compute. reflexivity.
Qed.

Lemma calculate_success_rate_scenario :
  calculate_success_rate scenario_vuln scenario_sys = Ok 0.74%float scenario_sys.
Proof.
  destruct (calculate_success_rate_formula scenario_sys scenario_vuln
              (HardwareComponent.mk "Basic Processor" CPU 1 0 1.0%float "Standard 4-core CPU")
              (HardwareComponent.mk "8GB Memory" RAM 1 0 1.0%float "Standard DDR3 RAM")
              ltac:(vm_compute; reflexivity) ltac:(vm_compute; reflexivity))
    as (Hrun & _ & _ & Hval).
  rewrite Hrun, (Hval eq_refl eq_refl eq_refl eq_refl eq_refl eq_refl eq_refl). reflexivity.
Defined.

(** The claim as first stated fails once two exploit frameworks are
    owned: scaling each effectiveness before adding, as the code does,
    gives 0.18 + 0.25 = 0.43000000000000005, while the summed
    effectiveness 4.3 scaled once gives 0.43, and the two rates differ
    in the last place. *)
Lemma framework_bonus_counterexample :
  calculate_success_rate zero_day_vuln framework_sys = Ok 0.6300000000000001%float framework_sys
  /\ success_rate_formula (Vulnerability.success_rate_base zero_day_vuln)
       (PlayerSkills.exploitation (PlayerState.skills framework_player))
       (stated_framework_bonus (PlayerState.inventory framework_player))
       1.0 1.0 (exploit_event_multiplier (PlayerState.active_events framework_player))
       (Vulnerability.patch_level zero_day_vuln)
     = 0.6299999999999999%float
  /\ Float.eqb 0.6300000000000001 0.6299999999999999 = false
  /\ 0.6300000000000001%float <> 0.6299999999999999%float.
Proof.
  split; [vm_compute; reflexivity|]. split; [vm_compute; reflexivity|].
  split; [vm_compute; reflexivity|]. vm_compute. discriminate.
Qed.

(** ** Investigation complete (claim C5) *)

Lemma list_remove_length {A} (eqb : A -> A -> bool) x (l l' : list A) :
  list_remove eqb x l = Some l' -> length l = S (length l') /\ l' ⊆+ l.
Proof.
  revert l'. induction l as [|y l IH]; intros l' H; simpl in H; [done|].
  destruct (eqb y x).
  - injection H as <-. split; [done | by apply submseteq_cons].
  - destruct (list_remove eqb x l) as [r|] eqn:Hr; [|done].
    injection H as <-. destruct (IH r eq_refl) as [Hlen Hsub].
    split; [simpl; by rewrite Hlen | by apply submseteq_skip].
Qed.

Lemma handle_investigation_complete_wp g :
  wp handle_investigation_complete
     (fun _ g' =>
        let p := GameState.player g in
        let p' := GameState.player g' in
        exists asset_loss,
          Float.trunc (fl (PlayerState.credits p) * 0.7)%float = Some asset_loss
          /\ seized p asset_loss p'
          /\ (length (PlayerState.inventory p')
              + Nat.min (length (PlayerState.inventory p)) 3)%nat
             = length (PlayerState.inventory p)
          /\ PlayerState.inventory p' ⊆+ PlayerState.inventory p)
     (fun _ => True) g.
Proof.
  unfold handle_investigation_complete.
  wp_steps.
  - exists z. proj_simpl. rewrite Heql. repeat split; try done.
  - set (inv0 := t :: l) in *.
    set (k := Nat.min (length inv0) 3) in *.
    apply (wp_for_each_rest _ _ (fun rest g' =>
      PlayerState.credits (GameState.player g')
        = Py.max 100 (PlayerState.credits (GameState.player g) - z)
      /\ PlayerState.reputation (GameState.player g')
        = Py.max 0 (PlayerState.reputation (GameState.player g) - 100)
      /\ PlayerState.inventory (GameState.player g') ⊆+ inv0
      /\ (length (PlayerState.inventory (GameState.player g')) + k
          = length inv0 + length rest)%nat)).
    + proj_simpl. rewrite Heql. repeat split; [done | ]. by rewrite Hlen.
    + intros tool rest g' (Hc & Hr & Hsub & Hcount). wp_steps.
      destruct (list_remove_length _ _ _ _ Heqo) as [Hl Hs].
      proj_simpl. repeat split; [done | done | by etrans |].
      change (length (tool :: rest)) with (S (length rest)) in Hcount. lia.
    + intros g' (Hc & Hr & Hsub & Hcount). wp_steps.
      exists z. proj_simpl. repeat split; try done.
      change (length (@nil Tool.t)) with 0%nat in Hcount. unfold k in Hcount. lia.
Qed.

Lemma wp_run {A} (m : M A) Q E (s : Sys) :
  wp m Q E (game s) ->
  match m s with Ok a s' => Q a (game s') | Raise _ s' => E (game s') end.
Proof. intros H. destruct s as [w g]. apply H. Qed.

(** C5 (as amended). When the investigation completes, the player is
    left with [max(100, c - int(0.7*c))] credits, which is
    [c - int(0.7*c)] whenever that is at least 100; loses 100 reputation,
    floored at 0; loses [min(3, n)] of the [n] tools owned; loses all
    botnets; has [heat_level] reset to 20 and the investigation state
    cleared.  With 1000 credits the loss is 700 and 300 credits remain. *)
Theorem investigation_complete_effects (s s' : Sys) :
  handle_investigation_complete s = Ok tt s' ->
  let p := GameState.player (game s) in
  let p' := GameState.player (game s') in
  exists asset_loss,
    Float.trunc (fl (PlayerState.credits p) * 0.7)%float = Some asset_loss
    /\ PlayerState.credits p' = Py.max 100 (PlayerState.credits p - asset_loss)
    /\ (100 <= PlayerState.credits p - asset_loss ->
        PlayerState.credits p' = PlayerState.credits p - asset_loss)
    /\ PlayerState.reputation p' = Py.max 0 (PlayerState.reputation p - 100)
    /\ 0 <= PlayerState.reputation p'
    /\ (length (PlayerState.inventory p') + Nat.min (length (PlayerState.inventory p)) 3)%nat
       = length (PlayerState.inventory p)
    /\ PlayerState.inventory p' ⊆+ PlayerState.inventory p
    /\ PlayerState.botnets p' = []
    /\ PlayerState.heat_level p' = 20
    /\ PlayerState.under_investigation p' = false
    /\ PlayerState.investigation_progress p' = 0.0%float
    /\ (PlayerState.credits p = 1000 -> asset_loss = 700 /\ PlayerState.credits p' = 300).
Proof.
  intros Hrun p p'.
  pose proof (wp_run _ _ _ s (handle_investigation_complete_wp (game s))) as H.
  rewrite Hrun in H. simpl in H.
  destruct H as (loss & Hloss & (Hc & Hr & Hb & Hh & Hu & Hp) & Hlen & Hsub).
  exists loss. fold p p' in Hloss, Hc, Hr, Hb, Hh, Hu, Hp, Hlen, Hsub.
  repeat split; try done.
  - intros Hge. rewrite Hc, Py_max_spec. lia.
  - rewrite Hr, Py_max_spec. lia.
  - match goal with Hk : PlayerState.credits p = 1000 |- _ =>
      rewrite Hk in Hloss end.
    vm_compute in Hloss. congruence.
  - match goal with Hk : PlayerState.credits p = 1000 |- _ =>
      rewrite Hk in Hloss, Hc end.
    vm_compute in Hloss. injection Hloss as <-. rewrite Hc. reflexivity.
Qed.

Lemma investigation_complete_scenario :
  PlayerState.credits (GameState.player (game (after_investigation 1000))) = 300
  /\ PlayerState.reputation (GameState.player (game (after_investigation 1000))) = 0.
Proof.
  assert (Hrun : handle_investigation_complete (investigated_sys 1000)
                 = Ok tt (after_investigation 1000)) by (vm_compute; reflexivity).
  destruct (investigation_complete_effects _ _ Hrun)
    as (loss & _ & _ & _ & Hrep & _ & _ & _ & _ & _ & _ & _ & Hex).
  split; [apply Hex; reflexivity | rewrite Hrep; reflexivity].
Defined.

(** The claim as first stated fails below the floor: with 100 credits,
    [int(0.7*100) = 70], yet 100 credits remain, not 30. *)
Lemma investigation_floor_counterexample :
  handle_investigation_complete (investigated_sys 100) = Ok tt (after_investigation 100)
  /\ PlayerState.credits (GameState.player (game (investigated_sys 100))) = 100
  /\ Float.trunc (fl 100 * 0.7)%float = Some 70
  /\ PlayerState.credits (GameState.player (game (after_investigation 100))) = 100
  /\ PlayerState.credits (GameState.player (game (after_investigation 100))) <> 100 - 70.
Proof.
  split; [vm_compute; reflexivity|]. split; [vm_compute; reflexivity|].
  split; [vm_compute; reflexivity|]. split; [vm_compute; reflexivity|].
  vm_compute. discriminate.
Qed.

(** ** Leveling (claims C6 and C10) *)

Lemma level_up_turn_run w g :
  let p := GameState.player g in
  level_up_turn (mkSys w g) =
    if PlayerState.level p * 100 <=? PlayerState.experience p then
      match stdin w with
      | [] => Raise Py.EOFError (mkSys w (GameState.with_player (level_up p) g))
      | line :: rest =>
          Ok true (mkSys (consume 1 w) (GameState.with_player (after_level_up line p) g))
      end
    else Ok false (mkSys w g).
Proof.
  intros p. unfold level_up_turn, mbind, M_bind, get_player, modify_player, modify_game,
    input, mret, M_ret. simpl. fold p.
  change GameConstants.EXP_PER_LEVEL_MULTIPLIER with 100.
  destruct (PlayerState.level p * 100 <=? PlayerState.experience p); [|done].
  simpl. destruct w as [[|line rest] rnd clk]; simpl; [done|].
  unfold consume. simpl. rewrite drop_0. reflexivity.
Qed.

Lemma exp_paid_refl l : exp_paid l l = 0.
Proof. unfold exp_paid. lia. Qed.

Lemma exp_paid_step l l' : exp_paid l (l' + 1) = exp_paid l l' + l' * 100.
Proof. unfold exp_paid. lia. Qed.

Lemma exp_paid_first l l' : exp_paid l l' = l * 100 + exp_paid (l + 1) l'.
Proof. unfold exp_paid. lia. Qed.

(** The loop, run with enough fuel and enough input: [k] bounds the
    number of turns still possible. *)
Lemma level_up_loop (k : nat) : forall fuel w g,
  let p := GameState.player g in
  1 <= PlayerState.level p -> 0 <= PlayerState.experience p ->
  PlayerState.experience p < 100 * Z.of_nat k ->
  (k <= S (length (stdin w)))%nat -> (k <= fuel)%nat ->
  exists n : nat,
    let lines := take n (stdin w) in
    let l' := PlayerState.level p + Z.of_nat n in
    let e' := PlayerState.experience p - exp_paid (PlayerState.level p) l' in
    (S n <= k)%nat /\ (n <= length (stdin w))%nat
    /\ 0 <= e' < l' * 100
    /\ (forall j, (j < n)%nat ->
          (PlayerState.level p + Z.of_nat j) * 100
          <= PlayerState.experience p
             - exp_paid (PlayerState.level p) (PlayerState.level p + Z.of_nat j))
    /\ while_loop fuel level_up_turn (mkSys w g)
       = Ok tt (mkSys (consume n w)
                  (GameState.with_player
                     (PlayerState.with_skills (skills_after lines (PlayerState.skills p))
                        (PlayerState.with_level l'
                           (PlayerState.with_experience e' p))) g)).
Proof.
  induction k as [|k IH]; intros fuel w g p Hl He Hk Hin Hfuel; [lia|].
  destruct fuel as [|fuel]; [lia|]. simpl.
  unfold mbind, M_bind. rewrite level_up_turn_run. fold p.
  destruct (PlayerState.level p * 100 <=? PlayerState.experience p) eqn:Hguard.
  - apply Z.leb_le in Hguard.
    destruct w as [[|line rest] rnd clk]; cbn [stdin length] in *; [exfalso; lia|].
    set (p1 := after_level_up line p).
    destruct (IH fuel (consume 1 (mkWorld (line :: rest) rnd clk))
                (GameState.with_player p1 g))
      as (n & Hn & Hlen & He' & Hthr & Hrun).
    + proj_simpl. subst p1. unfold after_level_up, level_up. proj_simpl. lia.
    + proj_simpl. subst p1. unfold after_level_up, level_up. proj_simpl.
      change GameConstants.EXP_PER_LEVEL_MULTIPLIER with 100. lia.
    + proj_simpl. subst p1. unfold after_level_up, level_up. proj_simpl.
      change GameConstants.EXP_PER_LEVEL_MULTIPLIER with 100. lia.
    + unfold consume. cbn [stdin drop]. rewrite ?drop_0. lia.
    + lia.
    + exists (S n). clear IH.
      assert (Hl1 : PlayerState.level p1 = PlayerState.level p + 1) by reflexivity.
      assert (He1 : PlayerState.experience p1
                    = PlayerState.experience p - PlayerState.level p * 100) by reflexivity.
      cbn [GameState.player GameState.with_player] in He', Hthr, Hrun.
      rewrite Hl1, He1 in He', Hthr.
      assert (Hpaid : forall m : nat,
                PlayerState.experience p - PlayerState.level p * 100
                - exp_paid (PlayerState.level p + 1) (PlayerState.level p + 1 + Z.of_nat m)
                = PlayerState.experience p
                  - exp_paid (PlayerState.level p) (PlayerState.level p + Z.of_nat (S m))).
      { intros m. rewrite (exp_paid_first (PlayerState.level p)).
        replace (PlayerState.level p + Z.of_nat (S m))
          with (PlayerState.level p + 1 + Z.of_nat m) by lia. lia. }
      rewrite Hpaid in He'.
      unfold consume in Hlen. cbn [stdin drop] in Hlen. rewrite ?drop_0 in Hlen.
      split; [lia|]. split; [lia|]. split; [lia|]. split.
      * intros [|j] Hj.
        -- rewrite Z.add_0_r, exp_paid_refl. lia.
        -- specialize (Hthr j ltac:(lia)). rewrite Hpaid in Hthr. lia.
      * rewrite Hrun. apply f_equal. apply (f_equal2 mkSys).
        -- unfold consume. cbn [stdin rand clock]. by rewrite drop_drop.
        -- rewrite Hl1, He1, Hpaid.
           replace (PlayerState.level p + 1 + Z.of_nat n)
             with (PlayerState.level p + Z.of_nat (S n)) by lia.
           unfold consume. cbn [stdin drop]. rewrite drop_0.
           reflexivity.
  - apply Z.leb_gt in Hguard. exists 0%nat. simpl.
    rewrite Z.add_0_r, exp_paid_refl, Z.sub_0_r.
    split; [lia|]. split; [lia|]. split; [lia|]. split; [lia|].
    unfold consume. rewrite drop_0. destruct w, g, player; reflexivity.
Qed.

Lemma while_loop_level_up_fuel fuel1 : forall fuel2 s,
  (length (stdin (world s)) < fuel1)%nat -> (length (stdin (world s)) < fuel2)%nat ->
  while_loop fuel1 level_up_turn s = while_loop fuel2 level_up_turn s.
Proof.
  induction fuel1 as [|fuel1 IH]; intros fuel2 [w g] H1 H2; [lia|].
  destruct fuel2 as [|fuel2]; [lia|]. simpl in *.
  unfold mbind, M_bind. rewrite level_up_turn_run.
  destruct (_ <=? _); [|done].
  destruct w as [[|line rest] rnd clk]; [done|]. simpl in *.
  apply IH; simpl; rewrite drop_0; lia.
Qed.

Ltac skill_cases H :=
  unfold skill_names in H;
  repeat (apply elem_of_cons in H as [->|H]); [..|by apply elem_of_nil in H].

Lemma getattr_setattr_same q v sk :
  q ∈ skill_names -> getattr_skill q (setattr_skill q v sk) = v.
Proof. intros Hq. skill_cases Hq; reflexivity. Qed.

Lemma getattr_setattr_other q name v sk :
  q ∈ skill_names -> name ∈ skill_names -> name <> q ->
  getattr_skill q (setattr_skill name v sk) = getattr_skill q sk.
Proof.
  intros Hq Hname Hne. skill_cases Hq; skill_cases Hname; try congruence; reflexivity.
Qed.

Lemma upgrade_skill_selected choice sk :
  upgrade_skill choice sk =
    match selected_skill choice with
    | Some name =>
        if getattr_skill name sk <? 10
        then setattr_skill name (getattr_skill name sk + 1) sk else sk
    | None => sk
    end.
Proof.
  unfold upgrade_skill, selected_skill.
  destruct (Py.int_of_str choice) as [n|]; [|done].
  change (Z.of_nat (length skill_names)) with 7.
  replace ((0 <=? n - 1) && (n - 1 <? 7)) with ((1 <=? n) && (n <=? 7)).
  - destruct ((1 <=? n) && (n <=? 7)); [|done].
    destruct (skill_names !! Z.to_nat (n - 1)); done.
  - destruct (Z.leb_spec 1 n), (Z.leb_spec n 7), (Z.leb_spec 0 (n - 1)),
      (Z.ltb_spec (n - 1) 7); simpl; try reflexivity; lia.
Qed.

Lemma selected_skill_name choice name :
  selected_skill choice = Some name -> name ∈ skill_names.
Proof.
  unfold selected_skill. destruct (Py.int_of_str choice) as [n|]; [|done].
  destruct (_ && _); [|done]. intros H. apply list_elem_of_lookup. eauto.
Qed.

(** The effect of a typed line on each of the seven skills. *)
Lemma upgrade_skill_spec choice sk q :
  q ∈ skill_names ->
  getattr_skill q (upgrade_skill choice sk) =
    if bool_decide (selected_skill choice = Some q) && (getattr_skill q sk <? 10)
    then getattr_skill q sk + 1 else getattr_skill q sk.
Proof.
  intros Hq. rewrite upgrade_skill_selected.
  destruct (selected_skill choice) as [name|] eqn:Hsel;
    [|by rewrite bool_decide_eq_false_2].
  pose proof (selected_skill_name _ _ Hsel) as Hname.
  destruct (decide (name = q)) as [->|Hne].
  - rewrite bool_decide_eq_true_2 by done. simpl.
    destruct (getattr_skill q sk <? 10); [by rewrite getattr_setattr_same | done].
  - rewrite bool_decide_eq_false_2 by congruence. simpl.
    destruct (getattr_skill name sk <? 10); [by rewrite getattr_setattr_other | done].
Qed.

Lemma check_level_up_run (s : Sys) :
  let p := GameState.player (game s) in
  1 <= PlayerState.level p -> 0 <= PlayerState.experience p ->
  PlayerState.experience p / 100 <= Z.of_nat (length (stdin (world s))) ->
  exists n : nat,
    let lines := take n (stdin (world s)) in
    let l' := PlayerState.level p + Z.of_nat n in
    let e' := PlayerState.experience p - exp_paid (PlayerState.level p) l' in
    Z.of_nat n <= PlayerState.experience p / 100
    /\ 0 <= e' < l' * 100
    /\ (forall j, (j < n)%nat ->
          (PlayerState.level p + Z.of_nat j) * 100
          <= PlayerState.experience p
             - exp_paid (PlayerState.level p) (PlayerState.level p + Z.of_nat j))
    /\ check_level_up s
       = Ok tt (mkSys (consume n (world s))
                  (GameState.with_player
                     (PlayerState.with_skills (skills_after lines (PlayerState.skills p))
                        (PlayerState.with_level l'
                           (PlayerState.with_experience e' p))) (game s))).
Proof.
  destruct s as [w g]. cbv zeta. cbn [world game]. intros Hl He Hin.
  set (e := PlayerState.experience (GameState.player g)) in *.
  assert (Hq : 0 <= e / 100) by (apply Z.div_pos; lia).
  assert (Hlt : e < 100 * Z.succ (e / 100)) by (apply Z.mul_succ_div_gt; lia).
  assert (Hk : e < 100 * Z.of_nat (S (Z.to_nat (e / 100)))) by lia.
  assert (Hlen : (S (Z.to_nat (e / 100)) <= S (length (stdin w)))%nat) by lia.
  destruct (level_up_loop (S (Z.to_nat (e / 100)))
              (S (length (stdin w))) w g Hl He Hk Hlen Hlen)
    as (n & Hn & _ & He' & Hthr & Hrun).
  exists n. split; [lia|]. split; [exact He'|]. split; [exact Hthr|]. exact Hrun.
Qed.

(** C6 (as amended). For a player at level at least 1 with
    non-negative experience, and enough typed lines, [check_level_up]
    gains one level per threshold crossed ([100*l] to leave level [l]),
    carries the excess over (the leftover is the experience minus the
    thresholds paid, and is below the next threshold), and prompts once
    per level gained.  At each prompt at most one skill changes: the one
    named by a typed number from 1 to 7 grows by 1 if it is below 10; any
    other line, or a skill already at 10, changes no skill. *)
Theorem check_level_up_levels (s : Sys) :
  let p := GameState.player (game s) in
  1 <= PlayerState.level p -> 0 <= PlayerState.experience p ->
  PlayerState.experience p / 100 <= Z.of_nat (length (stdin (world s))) ->
  exists (n : nat) (s' : Sys),
    let p' := GameState.player (game s') in
    check_level_up s = Ok tt s'
    /\ PlayerState.level p' = PlayerState.level p + Z.of_nat n
    /\ PlayerState.experience p'
       = PlayerState.experience p - exp_paid (PlayerState.level p) (PlayerState.level p')
    /\ 0 <= PlayerState.experience p' < PlayerState.level p' * 100
    /\ (forall j, (j < n)%nat ->
          (PlayerState.level p + Z.of_nat j) * 100
          <= PlayerState.experience p
             - exp_paid (PlayerState.level p) (PlayerState.level p + Z.of_nat j))
    /\ stdin (world s') = drop n (stdin (world s))
    /\ PlayerState.skills p' = skills_after (take n (stdin (world s))) (PlayerState.skills p)
    /\ (forall line sk q, q ∈ skill_names ->
          getattr_skill q (upgrade_skill (Py.strip line) sk) =
            if bool_decide (selected_skill (Py.strip line) = Some q) && (getattr_skill q sk <? 10)
            then getattr_skill q sk + 1 else getattr_skill q sk).
Proof.
  intros p Hl He Hin.
  destruct (check_level_up_run s Hl He Hin) as (n & _ & He' & Hthr & Hrun).
  eexists n, _. split; [exact Hrun|]. cbn [game world stdin consume]. proj_simpl.
  split; [done|]. split; [done|]. split; [exact He'|]. split; [exact Hthr|].
  split; [done|]. split; [done|]. intros line sk q. apply upgrade_skill_spec.
Qed.

Lemma level_up_loop_total fuel : forall s,
  (length (stdin (world s)) < fuel)%nat ->
  (exists s', while_loop fuel level_up_turn s = Ok tt s'
     /\ PlayerState.experience (GameState.player (game s'))
        < PlayerState.level (GameState.player (game s')) * 100)
  \/ (exists s', while_loop fuel level_up_turn s = Raise Py.EOFError s'
        /\ stdin (world s') = []).
Proof.
  induction fuel as [|fuel IH]; intros [w g] Hfuel; [lia|].
  simpl in *. unfold mbind, M_bind. rewrite level_up_turn_run.
  destruct (_ <=? _) eqn:Hguard.
  - destruct w as [[|line rest] rnd clk]; [right; eexists; split; reflexivity|].
    simpl in *. apply IH. simpl. rewrite drop_0. lia.
  - left. eexists. split; [reflexivity|]. apply Z.leb_gt in Hguard. exact Hguard.
Qed.

(** C10. From a positive level and non-negative experience, every turn
    of the loop lowers the experience by the current threshold, which is
    at least 100, and raises the threshold; so the loop condition fails
    after at most [experience / 100] turns, and [check_level_up] returns
    once that many lines have been typed.  The loop never outruns its
    fuel: any supply above the number of lines left gives the same run,
    which either returns below the threshold or ends in [EOFError] with
    the input used up. *)
Theorem check_level_up_terminates (s : Sys) :
  let p := GameState.player (game s) in
  1 <= PlayerState.level p -> 0 <= PlayerState.experience p ->
  (forall p0, 1 <= PlayerState.level p0 ->
     PlayerState.level p0 * 100 <= PlayerState.experience p0 ->
     PlayerState.experience (level_up p0)
       = PlayerState.experience p0 - PlayerState.level p0 * 100
     /\ PlayerState.experience (level_up p0) <= PlayerState.experience p0 - 100
     /\ 0 <= PlayerState.experience (level_up p0)
     /\ PlayerState.level p0 * 100 < PlayerState.level (level_up p0) * 100)
  /\ (PlayerState.experience p / 100 <= Z.of_nat (length (stdin (world s))) ->
      exists (n : nat) (s' : Sys),
        Z.of_nat n <= PlayerState.experience p / 100
        /\ check_level_up s = Ok tt s'
        /\ stdin (world s') = drop n (stdin (world s))
        /\ PlayerState.experience (GameState.player (game s'))
           < PlayerState.level (GameState.player (game s')) * 100)
  /\ (forall fuel, (length (stdin (world s)) < fuel)%nat ->
        while_loop fuel level_up_turn s = check_level_up s)
  /\ ((exists s', check_level_up s = Ok tt s'
         /\ PlayerState.experience (GameState.player (game s'))
            < PlayerState.level (GameState.player (game s')) * 100)
      \/ (exists s', check_level_up s = Raise Py.EOFError s'
            /\ stdin (world s') = [])).
Proof.
  intros p Hl He. split; [|split; [|split]]; cycle 3.
  { unfold check_level_up, while_reading. apply level_up_loop_total. lia. }
  - intros p0 Hl0 Hg. unfold level_up. proj_simpl.
    change GameConstants.EXP_PER_LEVEL_MULTIPLIER with 100. lia.
  - intros Hin. destruct (check_level_up_run s Hl He Hin) as (n & Hn & He' & _ & Hrun).
    eexists n, _. split; [exact Hn|]. split; [exact Hrun|].
    cbn [game world stdin consume]. proj_simpl. split; [done|]. cbv zeta in He'. lia.
  - intros fuel Hfuel. unfold check_level_up, while_reading.
    apply while_loop_level_up_fuel; lia.
Qed.

Lemma check_level_up_levels_witness :
  exists (n : nat) (s' : Sys),
    check_level_up (leveling_sys ["2"; "abc"; "9"] 350) = Ok tt s'
    /\ PlayerState.level (GameState.player (game s')) = 1 + Z.of_nat n
    /\ 0 <= PlayerState.experience (GameState.player (game s'))
       < PlayerState.level (GameState.player (game s')) * 100.
Proof.
  destruct (check_level_up_levels (leveling_sys ["2"; "abc"; "9"] 350)
              ltac:(vm_compute; discriminate) ltac:(vm_compute; discriminate)
              ltac:(vm_compute; discriminate))
    as (n & s' & Hrun & Hlevel & _ & Hexp & _).
  exists n, s'. split; [exact Hrun|]. split; [exact Hlevel | exact Hexp].
Defined.

Lemma check_level_up_terminates_witness :
  exists (n : nat) (s' : Sys),
    Z.of_nat n <= 3 /\ check_level_up (leveling_sys ["2"; "abc"; "9"] 350) = Ok tt s'.
Proof.
  destruct (check_level_up_terminates (leveling_sys ["2"; "abc"; "9"] 350)
              ltac:(vm_compute; discriminate) ltac:(vm_compute; discriminate))
    as (_ & Hrun & _).
  destruct (Hrun ltac:(vm_compute; discriminate)) as (n & s' & Hn & Hok & _).
  exists n, s'. split; [exact Hn | exact Hok].
Defined.

(** The claim as first stated fails on a line that names no skill: one
    level is gained and no skill changes. *)
Lemma level_without_skill_counterexample :
  let s := leveling_sys ["abc"] 100 in
  let s' := after_check_level_up s in
  check_level_up s = Ok tt s'
  /\ PlayerState.level (GameState.player (game s)) = 1
  /\ PlayerState.level (GameState.player (game s')) = 2
  /\ PlayerState.experience (GameState.player (game s')) = 0
  /\ stdin (world s') = []
  /\ PlayerState.skills (GameState.player (game s'))
     = PlayerState.skills (GameState.player (game s)).
Proof.
  cbv zeta.
  split; [vm_compute; reflexivity|]. split; [vm_compute; reflexivity|].
  split; [vm_compute; reflexivity|]. split; [vm_compute; reflexivity|].
  split; vm_compute; reflexivity.
Qed.

(** ** Signs of float operations *)

Lemma binary_round_aux_sign mx ex lx :
  sign_nonneg (binary_round_aux Float.prec Float.emax false mx ex lx).
Proof.
  unfold binary_round_aux.
  destruct (shr_fexp _ _ mx ex lx) as [mrs' e'].
  destruct (shr_fexp _ _ _ e' loc_Exact) as [mrs'' e''].
  destruct (shr_m mrs''); [done| |done]. by destruct (_ <=? _).
Qed.

Lemma binary_round_sign m e : sign_nonneg (binary_round Float.prec Float.emax false m e).
Proof.
  unfold binary_round. destruct (shl_align _ _ _) as [mz ez]. apply binary_round_aux_sign.
Qed.

Lemma binary_normalize_sign z e :
  0 <= z -> sign_nonneg (binary_normalize Float.prec Float.emax z e false).
Proof. destruct z; [done| |lia]. intros _. apply binary_round_sign. Qed.

Lemma of_Z_sign z : 0 <= z -> sign_nonneg (fl z).
Proof. apply binary_normalize_sign. Qed.

Lemma mul_sign (x y : float) : sign_nonneg x -> sign_nonneg y -> sign_nonneg (x * y)%float.
Proof.
  destruct x as [sx|sx| |sx mx ex], y as [sy|sy| |sy my ey]; simpl;
    try done; try (by intros -> ->).
  intros -> ->. apply binary_round_aux_sign.
Qed.

Lemma add_sign (x y : float) : sign_nonneg x -> sign_nonneg y -> sign_nonneg (x + y)%float.
Proof.
  destruct x as [sx|sx| |sx mx ex], y as [sy|sy| |sy my ey]; simpl;
    try done; try (by intros -> ->).
  intros -> ->. apply binary_normalize_sign. simpl. lia.
Qed.

Lemma add_zero_r (x : float) : sign_nonneg x -> (x + S754_zero false)%float = x.
Proof. destruct x as [sx|sx| |sx mx ex]; simpl; try done. by intros ->. Qed.

(** ** The trace accrual of an attack session *)

Lemma trace_events_multipliers events x :
  trace_events events x = fold_left Float.mul (trace_multipliers events) x.
Proof.
  unfold trace_events, trace_multipliers. revert x.
  induction events as [|e events IH]; intros x; [done|].
  rewrite filter_cons. simpl.
  destruct (decide (WorldEvent.etype e = POLICE_CRACKDOWN \/ WorldEvent.etype e = NETWORK_WORM))
    as [Hsel|Hsel].
  - simpl. rewrite <- IH. f_equal.
    destruct (bool_decide (WorldEvent.etype e = POLICE_CRACKDOWN)) eqn:Hpolice; [done|].
    destruct (bool_decide (WorldEvent.etype e = NETWORK_WORM)) eqn:Hworm; [done|].
    apply bool_decide_eq_false in Hpolice, Hworm. tauto.
  - rewrite <- IH. f_equal.
    rewrite !bool_decide_eq_false_2; [done|tauto|tauto].
Qed.

Lemma stealth_bonus_formula (p : PlayerState.t) :
  0 <= PlayerSkills.stealth (PlayerState.skills p) -> 0 <= PlayerState.proxy_chains p ->
  stealth_bonus_of p
  = (fl (PlayerSkills.stealth (PlayerState.skills p)) * 0.05
     + fl (PlayerState.proxy_chains p) * 0.1
     + fl (Z.of_nat (length (PlayerState.bounced_nodes p))) * 0.12)%float.
Proof.
  intros Hstealth Hproxy. unfold stealth_bonus_of.
  change GameConstants.STEALTH_SKILL_BONUS with 0.05%float.
  change GameConstants.PROXY_CHAIN_BONUS with 0.1%float.
  change GameConstants.BOUNCE_NODE_BONUS with 0.12%float.
  set (x := (fl (PlayerSkills.stealth (PlayerState.skills p)) * 0.05)%float).
  assert (Hx : sign_nonneg x) by (apply mul_sign; [by apply of_Z_sign | done]).
  set (y := (x + fl (PlayerState.proxy_chains p) * 0.1)%float).
  assert (Hy : sign_nonneg y).
  { apply add_sign; [done|]. apply mul_sign; [by apply of_Z_sign | done]. }
  assert (Hxy : (if 0 <? PlayerState.proxy_chains p then y else x) = y).
  { destruct (0 <? PlayerState.proxy_chains p) eqn:Hp; [done|].
    apply Z.ltb_ge in Hp. subst y.
    replace (PlayerState.proxy_chains p) with 0 by lia.
    symmetry. apply (add_zero_r x Hx). }
  fold y. rewrite Hxy.
  destruct (PlayerState.bounced_nodes p) as [|b bs]; [|done].
  symmetry. apply (add_zero_r y Hy).
Qed.

Lemma py_min_le (hi x : float) :
  Float.leb hi hi = true -> Float.leb (Float.py_min hi x) hi = true.
Proof.
  intros Hhi. unfold Float.py_min. destruct (Float.ltb x hi) eqn:Hx; [|done].
  by apply float_ltb_leb.
Qed.

Lemma accrue_trace_run (uid : string) (s : Sys) (node : NetworkNode.t)
    (cooling : HardwareComponent.t) :
  GameState.nodes (game s) !! uid = Some node ->
  PlayerState.hardware (GameState.player (game s)) !! "Cooling" = Some cooling ->
  Float.truthy (HardwareComponent.bonus cooling) = true ->
  accrue_trace uid s
  = Ok tt (mkSys (world s)
             (GameState.with_nodes
                (<[uid := NetworkNode.with_trace_progress
                     (NetworkNode.trace_progress node
                      + trace_increase_formula (NetworkNode.trace_speed node)
                          (HardwareComponent.bonus cooling)
                          (PlayerState.active_events (GameState.player (game s)))
                          (NetworkNode.has_siem node)
                          (stealth_discount (GameState.player (game s))))%float node]>
                   (GameState.nodes (game s)))
                (game s))).
Proof.
  intros Hnode Hcool Hbonus. destruct s as [w g]. cbn [world game] in *.
  unfold accrue_trace, get_node, get_game, get_player, trace_increase_of, get_hardware,
    float_div, add_trace, modify_node, modify_game, mbind, M_bind, mret, M_ret.
  cbn [world game]. rewrite Hnode. cbn [world game]. unfold get_player.
  cbn [world game]. rewrite Hcool. unfold raise. cbn [world game].
  rewrite Hbonus. cbn [world game].
  rewrite trace_events_multipliers.
  unfold trace_increase_formula. do 3 f_equal. apply map_eq. intros k.
  destruct (decide (k = uid)) as [->|Hk].
  - rewrite lookup_alter_eq, lookup_insert_eq, Hnode. done.
  - rewrite lookup_alter_ne, lookup_insert_ne by done. done.
Qed.

(** A turn of the menu that does not go on to the trace accrual attempted
    nothing: the game is as it was. *)
Lemma attack_menu_flow (uid : string) (s0 s1 : Sys) (ctl : flow) :
  attack_menu uid s0 = Ok ctl s1 -> ctl <> Proceed -> game s1 = game s0.
Proof.
  destruct s0 as [w g].
  cbv [attack_menu get_node get_game input parse_int get_player try_except
       mbind M_bind mret M_ret raise world game stdin].
  destruct (GameState.nodes g !! uid) as [node|]; [|done].
  destruct (bool_decide (NetworkNode.discovered_vulns node = ∅)).
  { destruct w as [[|line rest] rnd clk]; [done|]. by intros [= <- <-]. }
  destruct w as [[|line rest] rnd clk]; [done|].
  destruct (Py.int_of_str (Py.strip line)) as [c|]; [|by intros [= <- <-]].
  assert (Hthen : forall (m : M unit) (s : Sys),
            match match m s with Ok _ s' => Ok Proceed s' | Raise e s' => Raise e s' end with
            | Ok a s' => Ok a s'
            | Raise e s' => if is_ValueError e then Ok Proceed s' else Raise e s'
            end = Ok ctl s1 -> ctl <> Proceed -> game s1 = game s).
  { intros m s. destruct (m s) as [a s'|e s']; [by intros [= <- <-]|].
    destruct (is_ValueError e); [by intros [= <- <-]|done]. }
  destruct ((1 <=? c) && (c <=? _)).
  { destruct (_ !! _) as [[[si vi] vuln]|]; [|done].
    destruct (str_truthy (Vulnerability.requires_tool vuln)) as [required|].
    - destruct (has_tool required _); [apply Hthen|]. by intros [= <- <-].
    - apply Hthen. }
  destruct (c =? _); [apply Hthen|].
  destruct (c =? _); [apply Hthen|].
  destruct (c =? _); by intros [= <- <-].
Qed.

(** C7. Every turn of an attack session that attempts anything goes on
    to the trace accrual (a turn that skips it leaves the game as it
    was), and the accrual adds to the node's [trace_progress] exactly
    [trace_speed] divided by the cooling bonus, times the multipliers of
    the active POLICE_CRACKDOWN and NETWORK_WORM events, times 1.5 on a
    node with SIEM, times [1 - d], where
    [d = min(0.9, stealth*0.05 + proxy_chains*0.1 + len(bounced_nodes)*0.12)];
    [d] never exceeds 0.9, whatever the skill, the number of proxy chains
    and the length of the bounce chain. *)
Theorem trace_accrual_formula (uid : string) (s : Sys) (node : NetworkNode.t)
    (cooling : HardwareComponent.t) :
  let p := GameState.player (game s) in
  GameState.nodes (game s) !! uid = Some node ->
  PlayerState.hardware p !! "Cooling" = Some cooling ->
  Float.truthy (HardwareComponent.bonus cooling) = true ->
  0 <= PlayerSkills.stealth (PlayerState.skills p) ->
  0 <= PlayerState.proxy_chains p ->
  let d := stealth_discount_formula (PlayerSkills.stealth (PlayerState.skills p))
             (PlayerState.proxy_chains p) (Z.of_nat (length (PlayerState.bounced_nodes p))) in
  let increase := trace_increase_formula (NetworkNode.trace_speed node)
                    (HardwareComponent.bonus cooling) (PlayerState.active_events p)
                    (NetworkNode.has_siem node) d in
  let accrued :=
    mkSys (world s)
      (GameState.with_nodes
         (<[uid := NetworkNode.with_trace_progress
                     (NetworkNode.trace_progress node + increase)%float node]>
            (GameState.nodes (game s)))
         (game s)) in
  accrue_trace uid s = Ok tt accrued
  /\ (forall s0, attack_menu uid s0 = Ok Proceed s ->
        attack_iteration uid s0 = trace_response uid accrued)
  /\ (forall s0 s1 ctl, attack_menu uid s0 = Ok ctl s1 -> ctl <> Proceed ->
        game s1 = game s0)
  /\ Float.leb d 0.9 = true
  /\ (forall stealth proxy_chains bounces,
        Float.leb (stealth_discount_formula stealth proxy_chains bounces) 0.9 = true)
  /\ (forall p', Float.leb (stealth_discount p') 0.9 = true).
Proof.
  intros p Hnode Hcool Hbonus Hstealth Hproxy d increase accrued.
  assert (Hrun : accrue_trace uid s = Ok tt accrued).
  { rewrite (accrue_trace_run uid s node cooling Hnode Hcool Hbonus).
    unfold accrued, increase, d, stealth_discount_formula, stealth_discount.
    fold p. rewrite (stealth_bonus_formula p Hstealth Hproxy). done. }
  split; [exact Hrun|]. split.
  { intros s0 Hmenu. unfold attack_iteration.
    unfold mbind at 1, M_bind at 1. rewrite Hmenu.
    unfold mbind, M_bind. by rewrite Hrun. }
  split; [intros s0 s1 ctl; apply attack_menu_flow|].
  split; [by apply py_min_le|]. split; intros; by apply py_min_le.
Qed.

(** In the scenario the discount is 0.05 and the trace grows by
    [2.0 / 1.0 * (1 - 0.05) = 1.9]. *)
Lemma trace_accrual_scenario :
  accrue_trace "a1b2c3d4e5f6" (attack_sys [])
  = Ok tt
      (mkSys (mkWorld [] [] [])
         (GameState.with_nodes
            {["a1b2c3d4e5f6" := NetworkNode.with_trace_progress 1.9%float scenario_node]}
            attack_game))
  /\ stealth_discount_formula 1 0 0 = 0.05%float.
Proof.
  destruct (trace_accrual_formula "a1b2c3d4e5f6" (attack_sys []) scenario_node
              (HardwareComponent.mk "Stock Cooler" COOLING 1 0 1.0%float "Basic air cooling")
              ltac:(vm_compute; reflexivity) ltac:(vm_compute; reflexivity)
              ltac:(vm_compute; reflexivity) ltac:(vm_compute; discriminate)
              ltac:(vm_compute; discriminate)) as [Hrun _].
  split; [|vm_compute; reflexivity].
  rewrite Hrun. vm_compute. reflexivity.
Defined.

(** ** Maintaining the invariants *)

Lemma fmap_alter_proj {A B} (proj : A -> B) (f : A -> A) (k : string) (m : gmap string A) :
  (forall x, m !! k = Some x -> proj (f x) = proj x) ->
  proj <$> alter f k m = proj <$> m.
Proof.
  intros Hf. apply map_eq. intros j. rewrite !lookup_fmap.
  destruct (decide (j = k)) as [->|Hj].
  - rewrite lookup_alter_eq. destruct (m !! k) as [x|] eqn:Hx; [|done].
    simpl. f_equal. by apply Hf.
  - by rewrite lookup_alter_ne.
Qed.

Lemma map_Forall_alter {A} (P : string -> A -> Prop) (f : A -> A) (k : string)
    (m : gmap string A) :
  map_Forall P m ->
  (forall x, m !! k = Some x -> P k x -> P k (f x)) ->
  map_Forall P (alter f k m).
Proof.
  intros Hm Hf j y. destruct (decide (j = k)) as [->|Hj].
  - rewrite lookup_alter_eq. destruct (m !! k) as [x|] eqn:Hx; [|done].
    intros [= <-]. apply Hf; [done | by apply Hm].
  - rewrite lookup_alter_ne by done. apply Hm.
Qed.

Lemma trunc_sign (x : float) (z : Z) : sign_nonneg x -> Float.trunc x = Some z -> 0 <= z.
Proof.
  destruct x as [s|s| |s m e]; simpl; try done.
  - intros _ [= <-]. lia.
  - intros -> [= <-]. simpl. destruct (0 <=? e).
    + apply Z.shiftl_nonneg. lia.
    + apply Z.shiftr_nonneg. lia.
Qed.

Lemma trunc_mul_sign (n : Z) (x : float) (z : Z) :
  0 <= n -> sign_nonneg x -> Float.trunc (fl n * x)%float = Some z -> 0 <= z.
Proof.
  intros Hn Hx. apply trunc_sign, mul_sign; [by apply of_Z_sign | done].
Qed.

#[global] Instance Quiet_Tame {A} (m : M A) : Quiet m -> Tame m.
Proof. intros H D fl. apply H. Qed.

Lemma wp_call {A B} (m : M A) (k : A -> M B) (I : GameState.t -> Prop)
    (Q : B -> GameState.t -> Prop) E g :
  preserves I m -> I g ->
  (forall a g', I g' -> wp (k a) Q E g') ->
  (forall g', I g' -> E g') ->
  wp (m ≫= k) Q E g.
Proof.
  intros Hm HI Hk HE. apply wp_bind.
  eapply wp_mono; [apply Hm, HI | exact Hk | exact HE].
Qed.

Lemma wp_call_last {A} (m : M A) (I : GameState.t -> Prop)
    (Q : A -> GameState.t -> Prop) E g :
  preserves I m -> I g ->
  (forall a g', I g' -> Q a g') ->
  (forall g', I g' -> E g') ->
  wp m Q E g.
Proof.
  intros Hm HI HQ HE. eapply wp_mono; [apply Hm, HI | exact HQ | exact HE].
Qed.

#[global] Instance while_reading_quiet (body : M bool) : Quiet body -> Quiet (while_reading body).
Proof.
  intros Hb D fl fw g HS.
  apply (wp_while_reading body (Safe D fl fw)); auto. intros g' HS'. by apply Hb.
Qed.

#[global] Instance while_reading_tame (body : M bool) : Tame body -> Tame (while_reading body).
Proof.
  intros Hb D fl g HS.
  apply (wp_while_reading body (Safe D fl None)); auto. intros g' HS'. by apply Hb.
Qed.

Lemma safe_node D fl fw g uid n :
  Safe D fl fw g -> GameState.nodes g !! uid = Some n -> node_sound uid n.
Proof. intros (Hs & _) Hn. destruct Hs as (_ & _ & _ & Hnodes & _). by apply Hnodes. Qed.

Lemma safe_hardware D fl fw g key h :
  Safe D fl fw g -> PlayerState.hardware (GameState.player g) !! key = Some h ->
  hardware_sound h.
Proof.
  intros (Hs & _) Hh. destruct Hs as (_ & _ & _ & _ & _ & _ & Hhw & _). by apply (Hhw key).
Qed.

Lemma safe_credits D fl fw g : Safe D fl fw g -> 0 <= PlayerState.credits (GameState.player g).
Proof. by intros ((H & _) & _). Qed.

Lemma safe_discovered D fl fw g uid :
  Safe D fl fw g -> uid ∈ D -> uid ∈ PlayerState.discovered_nodes (GameState.player g).
Proof. intros (_ & HD & _) Hin. by apply HD. Qed.

(** The components of [Safe] after an update of the state. *)
Ltac arith_component :=
  first [ assumption | rewrite ?Py_max_spec, ?Py_min_spec; lia | idtac ].

Ltac node_component :=
  intros ?n ?Hn (?Hu & ?Hne & ?Hdv & ?Htr & ?Hbd); unfold node_sound; proj_simpl;
  split_and!;
  first [ assumption | lia | done
        | apply Forall_alter; [assumption | intros; proj_simpl; first [assumption | lia]]
        | intros _;
          match goal with
          | H1 : ?m !! ?k = Some ?a, H2 : ?m !! ?k = Some ?b
            |- NetworkNode.compromised ?b = true =>
              assert (b = a) as -> by congruence;
              by destruct (NetworkNode.compromised a)
          end
        | idtac ].

Ltac nodes_rec :=
  first [ assumption | apply map_Forall_alter; [nodes_rec | node_component] ].
Ltac nodes_component := first [ nodes_rec | idtac ].

Ltac list_rec :=
  first [ assumption
        | apply Forall_alter; [list_rec | intros; proj_simpl; first [assumption | lia]] ].
Ltac list_component := first [ list_rec | idtac ].

Ltac proj_rec :=
  first [ assumption
        | rewrite fmap_alter_proj by (intros; proj_simpl; reflexivity); proj_rec ].
Ltac proj_component := first [ proj_rec | idtac ].

Ltac subset_component H :=
  first [ assumption | solve [clear - H; set_solver] | idtac ].

(** The components that concern the player's level, skills, hardware
    and bounce chain, and the flags of the compromised nodes. *)
Lemma upgrade_skill_sound choice sk : skills_sound sk -> skills_sound (upgrade_skill choice sk).
Proof.
  intros Hs. unfold upgrade_skill.
  destruct (Py.int_of_str choice) as [n|]; [|done].
  destruct (_ && _); [|done].
  destruct (skill_names !! _) as [name|] eqn:Hname; [|done].
  cbv zeta. destruct (_ <? _) eqn:Hlt; [|done].
  apply Z.ltb_lt in Hlt.
  apply list_elem_of_lookup_2 in Hname.
  unfold skills_sound, skill_names, GameConstants.MAX_SKILL_LEVEL in *.
  repeat (apply Forall_cons in Hs as [? Hs]).
  repeat (apply elem_of_cons in Hname as [->|Hname];
          [repeat constructor; cbn in *; proj_simpl; lia |]).
  by apply elem_of_nil in Hname.
Qed.

Lemma hardware_steady_insert item hw :
  hardware_steady hw ->
  hardware_steady
    (<[Py.capitalize (HardwareType_name (HardwareComponent.htype item)) := item]> hw).
Proof.
  intros (Hcpu & Hram & Hst & Hco). unfold hardware_steady.
  destruct (HardwareComponent.htype item); cbn;
    rewrite ?lookup_insert_eq, ?lookup_insert_ne by done; by split_and!.
Qed.

Lemma marked_raise (C : gset string) k (m : gmap string NetworkNode.t) :
  set_Forall (fun uid => (NetworkNode.compromised <$> m) !! uid = Some true) C ->
  set_Forall
    (fun uid =>
       (NetworkNode.compromised <$> alter (NetworkNode.with_compromised true) k m) !! uid
       = Some true) C.
Proof.
  intros Hm uid Hin. specialize (Hm uid Hin). cbv beta in Hm |- *.
  rewrite lookup_fmap in Hm |- *.
  destruct (decide (uid = k)) as [->|Hne].
  - rewrite lookup_alter_eq. by destruct (m !! k).
  - by rewrite lookup_alter_ne.
Qed.

Ltac level_component :=
  first [ assumption | unfold level_up; proj_simpl; lia | idtac ].
Ltac skills_component :=
  first [ assumption | apply upgrade_skill_sound; assumption | idtac ].
Ltac steady_component :=
  first [ assumption | apply hardware_steady_insert; assumption | idtac ].
Ltac bounce_component :=
  first [ assumption
        | apply Forall_nil_2
        | eapply Forall_impl;
          [eassumption | intros ? ?; apply elem_of_union_r; assumption]
        | idtac ].
Ltac marked_rec :=
  first [ assumption
        | rewrite fmap_alter_proj by (intros; proj_simpl; reflexivity); marked_rec
        | apply marked_raise; marked_rec
        | apply set_Forall_union; [apply set_Forall_singleton | marked_rec] ].
Ltac marked_component := first [ marked_rec | idtac ].

(** [Safe] of an updated state from [Safe] of the state before. *)
Ltac safe_update H :=
  let H' := fresh in
  let Hcr := fresh "Hcr" in let Hsub := fresh "Hsub" in let Hhome := fresh "Hhome" in
  let Hnodes := fresh "Hnodes" in let Hcon := fresh "Hcon" in let Hriv := fresh "Hriv" in
  let Hhw := fresh "Hhw" in let Hmkt := fresh "Hmkt" in let Hdis := fresh "Hdis" in
  let Hfl := fresh "Hfl" in let Hfw := fresh "Hfw" in
  let Hlvl := fresh "Hlvl" in let Hprx := fresh "Hprx" in let Hsk := fresh "Hsk" in
  let Hsteady := fresh "Hsteady" in let Hbnc := fresh "Hbnc" in let Hmrk := fresh "Hmrk" in
  pose proof H as H';
  unfold Safe, Sound, flags, firewalls_are, firewalls in H' |- *;
  proj_simpl_in H'; proj_simpl;
  destruct H' as ((Hcr & Hsub & Hhome & Hnodes & Hcon & Hriv & Hhw & Hmkt
                   & Hlvl & Hprx & Hsk & Hsteady & Hbnc & Hmrk)
                  & Hdis & Hfl & Hfw);
  split_and!;
  [ arith_component
  | subset_component Hsub
  | first [ assumption
          | left; assumption
          | destruct Hhome as [Hhome|Hhome];
            [left; solve [clear - Hhome; set_solver] | right; assumption]
          | idtac ]
  | nodes_component
  | list_component
  | list_component
  | first [assumption | apply map_Forall_insert_2; assumption | idtac]
  | first [assumption | idtac]
  | level_component
  | arith_component
  | skills_component
  | steady_component
  | bounce_component
  | marked_component
  | subset_component Hdis
  | proj_component
  | lazymatch goal with
    | |- match ?fw with Some _ => _ | None => True end =>
        first [ exact I
              | destruct fw; [proj_component | exact I] ]
    | |- True => exact I
    | |- _ => proj_component
    end ].

(** The state the goal is about satisfies [Safe]: known, or derived
    from the state before. *)
Ltac ensure_safe :=
  lazymatch goal with
  | |- wp _ _ _ ?g' =>
      lazymatch goal with
      | H : Safe _ _ _ g' |- _ => idtac
      | _ =>
          match goal with
          | H : Safe ?D ?fl ?fw _ |- _ =>
              let Hs := fresh "HS" in
              assert (Hs : Safe D fl fw g'); [safe_update H|]
          end
      end
  | |- _ => idtac
  end.

Lemma safe_contract D fl fw g i c :
  Safe D fl fw g -> GameState.contracts g !! i = Some c -> 0 <= Contract.reward c.
Proof.
  intros (Hs & _) Hc. destruct Hs as (_ & _ & _ & _ & Hcon & _).
  by apply (Forall_lookup_1 _ _ _ _ Hcon Hc).
Qed.

Lemma safe_rival D fl fw g i r :
  Safe D fl fw g -> GameState.rival_hackers g !! i = Some r -> 0 <= RivalHacker.skill_level r.
Proof.
  intros (Hs & _) Hr. destruct Hs as (_ & _ & _ & _ & _ & Hriv & _).
  by apply (Forall_lookup_1 _ _ _ _ Hriv Hr).
Qed.

Lemma safe_market D fl fw g i h :
  Safe D fl fw g -> GameState.black_market_hardware g !! i = Some h -> hardware_sound h.
Proof.
  intros (Hs & _) Hh. destruct Hs as (_ & _ & _ & _ & _ & _ & _ & Hmkt & _).
  by apply (Forall_lookup_1 _ _ _ _ Hmkt Hh).
Qed.

(** Facts about what was read from a state that satisfies [Safe]. *)
Ltac safe_facts :=
  repeat match goal with
  | H : Safe _ _ _ ?g, Hn : GameState.nodes ?g !! ?u = Some ?n |- _ =>
      lazymatch goal with
      | _ : NetworkNode.uid n = u |- _ => fail
      | _ => destruct (safe_node _ _ _ _ _ _ H Hn) as (?Hu & ?Hne & ?Hdv & ?Htr & ?Hbd)
      end
  | H : Safe _ _ _ ?g, Hh : PlayerState.hardware (GameState.player ?g) !! ?k = Some ?h |- _ =>
      lazymatch goal with
      | _ : hardware_sound h |- _ => fail
      | _ => pose proof (safe_hardware _ _ _ _ _ _ H Hh)
      end
  | H : Safe _ _ _ ?g, Hm : GameState.black_market_hardware ?g !! _ = Some ?h |- _ =>
      lazymatch goal with
      | _ : hardware_sound h |- _ => fail
      | _ => pose proof (safe_market _ _ _ _ _ _ H Hm)
      end
  | H : Safe _ _ _ ?g, Hc : GameState.contracts ?g !! _ = Some ?c |- _ =>
      lazymatch goal with
      | _ : 0 <= Contract.reward c |- _ => fail
      | _ => pose proof (safe_contract _ _ _ _ _ _ H Hc)
      end
  | H : Safe _ _ _ ?g, Hr : GameState.rival_hackers ?g !! _ = Some ?r |- _ =>
      lazymatch goal with
      | _ : 0 <= RivalHacker.skill_level r |- _ => fail
      | _ => pose proof (safe_rival _ _ _ _ _ _ H Hr)
      end
  | Hz : Float.trunc (Float.mul (fl ?a) ?b) = Some ?z |- _ =>
      lazymatch goal with
      | _ : 0 <= z |- _ => fail
      | _ =>
          let Ha := fresh in
          assert (Ha : 0 <= a) by first [assumption | lia];
          let Hb := fresh in
          assert (Hb : sign_nonneg b) by first [assumption | done];
          pose proof (trunc_mul_sign a b z Ha Hb Hz); clear Ha Hb
      end
  end.

Ltac call_known :=
  lazymatch goal with
  | H : Safe ?D ?fl ?fw ?st |- wp (mbind ?k ?m) _ _ ?st =>
      apply (wp_call m k (Safe D fl fw));
      [ first [ apply quiet; typeclasses eauto | apply tame; typeclasses eauto ]
      | exact H
      | intros ? ?g ?HS
      | intros ?g ?HS ]
  | H : Safe ?D ?fl ?fw ?st |- wp ?m _ _ ?st =>
      apply (wp_call_last m (Safe D fl fw));
      [ first [ apply quiet; typeclasses eauto | apply tame; typeclasses eauto ]
      | exact H
      | intros ? ?g ?HS
      | intros ?g ?HS ]
  end.

Ltac inv_loop :=
  lazymatch goal with
  | H : Safe ?D ?fl ?fw ?st |- wp (for_each ?l ?body) _ _ ?st =>
      apply (wp_for_each l body (Safe D fl fw));
      [ exact H | intros ?x ?g ?Hin ?HS | intros ?g ?HS ]
  | H : Safe ?D ?fl ?fw ?st |- wp (for_enumerate ?start ?l ?body) _ _ ?st =>
      apply (wp_for_enumerate l body (Safe D fl fw));
      [ exact H | intros ?i ?x ?g ?Hin ?HS | intros ?g ?HS ]
  | H : Safe ?D ?fl ?fw ?st |- wp (while_reading ?body) _ _ ?st =>
      apply (wp_while_reading body (Safe D fl fw));
      [ exact H | intros ?g ?HS | intros ?g ?HS | intros ?g ?HS ]
  | H : Safe ?D ?fl ?fw ?st |- wp (while_loop ?fuel ?body) _ _ ?st =>
      apply (wp_while_loop fuel body (Safe D fl fw));
      [ exact H | intros ?g ?HS | intros ?g ?HS | intros ?g ?HS ]
  | H : Safe ?D ?fl ?fw ?st |- wp (fold_m ?l ?body _) _ _ ?st =>
      apply (wp_fold_m l body (fun _ => Safe D fl fw));
      [ exact H | intros ?x ?acc ?g ?Hin ?HS | intros ?acc ?g ?HS ]
  | H : Safe ?D ?fl ?fw ?st |- wp (repeat_collect ?n ?m) _ _ ?st =>
      apply (wp_repeat_collect n m (fun _ => True) (Safe D fl fw));
      [ exact H | intros ?g ?HS | intros ?xs ?g ?Hxs ?Hlen ?HS ]
  end.

Ltac inv_step :=
  cbv beta; proj_simpl; ensure_safe;
  lazymatch goal with
  | |- wp _ _ _ _ /\ _ => split
  | |- Safe _ _ _ _ /\ _ => split
  | |- True /\ _ => split
  | |- Safe _ _ _ ?g' =>
      first [ assumption
            | match goal with H : Safe _ _ _ _ |- _ => safe_update H end ]
  | |- wp (for_each _ _) _ _ _ => inv_loop; safe_facts
  | |- wp (for_enumerate _ _ _) _ _ _ => inv_loop; safe_facts
  | |- wp (while_reading _) _ _ _ => inv_loop
  | |- wp (while_loop _ _) _ _ _ => inv_loop
  | |- wp (repeat_collect _ _) _ _ _ => inv_loop
  | |- wp (fold_m _ _ _) _ _ _ => inv_loop
  | |- wp _ _ _ _ => first [ call_known | wp_step; safe_facts ]
  | |- _ => idtac
  end.

Ltac inv_steps := repeat (inv_step; try exact I).

#[global] Instance check_level_up_quiet : Quiet check_level_up.
Proof.
  intros D fl fw g HS. unfold check_level_up, level_up_turn. inv_steps.
Qed.

#[global] Instance calculate_success_rate_quiet vuln : Quiet (calculate_success_rate vuln).
Proof.
  intros D fl fw g HS. unfold calculate_success_rate. inv_steps.
Qed.

#[global] Instance run_hacking_minigame_quiet d : Quiet (run_hacking_minigame d).
Proof.
  intros D fl fw g HS. unfold run_hacking_minigame. inv_steps.
Qed.

#[global] Instance scan_node_quiet uid : Quiet (scan_node uid).
Proof.
  intros D fl fw g HS. unfold scan_node. inv_steps.
Qed.

#[global] Instance get_vuln_quiet uid si vi : Quiet (get_vuln uid si vi).
Proof.
  intros D fl fw g HS. unfold get_vuln. inv_steps.
Qed.

#[global] Instance execute_exploit_tame uid si vi : Tame (execute_exploit uid si vi).
Proof.
  intros D fl g HS. unfold execute_exploit. inv_steps.
Qed.

#[global] Instance use_botnet_ddos_tame uid : Tame (use_botnet_ddos uid).
Proof.
  intros D fl g HS. unfold use_botnet_ddos. inv_steps.
Qed.

#[global] Instance clear_traces_quiet uid : Quiet (clear_traces uid).
Proof.
  intros D fl fw g HS. unfold clear_traces. inv_steps.
Qed.

#[global] Instance clear_traces_menu_quiet uid : Quiet (clear_traces_menu uid).
Proof.
  intros D fl fw g HS. unfold clear_traces_menu. inv_steps.
Qed.

#[global] Instance handle_trace_complete_quiet uid : Quiet (handle_trace_complete uid).
Proof.
  intros D fl fw g HS. unfold handle_trace_complete. inv_steps.
Qed.

#[global] Instance update_dynamic_events_quiet : Quiet update_dynamic_events.
Proof.
  intros D fl fw g HS. unfold update_dynamic_events, generate_event. inv_steps.
Qed.

#[global] Instance update_admin_response_quiet : Quiet update_admin_response.
Proof.
  intros D fl fw g HS. unfold update_admin_response. inv_steps.
Qed.

#[global] Instance handle_investigation_complete_quiet : Quiet handle_investigation_complete.
Proof.
  intros D fl fw g HS. unfold handle_investigation_complete. inv_steps.
Qed.

#[global] Instance accrue_trace_quiet uid : Quiet (accrue_trace uid).
Proof.
  intros D fl fw g HS. unfold accrue_trace, trace_increase_of. inv_steps.
Qed.

#[global] Instance admin_might_activate_quiet uid : Quiet (admin_might_activate uid).
Proof.
  intros D fl fw g HS. unfold admin_might_activate. inv_steps.
Qed.

#[global] Instance trace_response_quiet uid : Quiet (trace_response uid).
Proof.
  intros D fl fw g HS. unfold trace_response. inv_steps.
Qed.

#[global] Instance clear_traces_tame uid : Tame (clear_traces uid).
Proof. apply _. Qed.

#[global] Instance attack_menu_tame uid : Tame (attack_menu uid).
Proof.
  intros D fl g HS. unfold attack_menu. inv_steps.
Qed.

#[global] Instance attack_iteration_tame uid : Tame (attack_iteration uid).
Proof.
  intros D fl g HS. unfold attack_iteration. inv_steps.
Qed.

#[global] Instance attack_turn_tame uid : Tame (attack_turn uid).
Proof.
  intros D fl g HS. unfold attack_turn. inv_steps.
Qed.

#[global] Instance navigate_bounces_quiet : Quiet navigate_bounces.
Proof.
  intros D fl fw g HS. unfold navigate_bounces.
  apply wp_bind, wp_get_player. apply wp_bind, wp_get_game. apply wp_bind.
  apply (wp_fold_m _ _ (fun acc g' =>
    g' = g
    /\ Forall (fun n => NetworkNode.uid n ∈ PlayerState.compromised_nodes (GameState.player g))
         acc)).
  - split; [done | constructor].
  - intros x acc g' Hx [-> Hacc].
    destruct (bool_decide _); [by apply wp_ret|].
    apply wp_bind, wp_get_node; [intros n Hn | done].
    apply wp_ret. split; [done|]. apply Forall_app. split; [done|].
    constructor; [|constructor].
    destruct (safe_node _ _ _ _ _ _ HS Hn) as (-> & _).
    by apply elem_of_elements in Hx.
  - intros acc g' [-> Hacc].
    destruct acc as [|a acc']; [inv_steps|].
    set (compromised := a :: acc') in *.
    inv_steps.
    apply Forall_app. split; [done|]. constructor; [|constructor].
    by apply (Forall_lookup_1 _ _ _ _ Hacc Heqo).
Qed.

#[global] Instance install_backdoor_quiet uid : Quiet (install_backdoor uid).
Proof.
  intros D fl fw g HS. unfold install_backdoor. inv_steps.
Qed.

#[global] Instance discover_nodes_quiet : Quiet discover_nodes.
Proof.
  intros D fl fw g HS. unfold discover_nodes. inv_steps.
Qed.

Lemma flags_alter_compromised uid (g : GameState.t) :
  NetworkNode.compromised <$> alter (NetworkNode.with_compromised true) uid (GameState.nodes g)
  = alter (fun _ => true) uid (flags g).
Proof. unfold flags. apply fmap_alter. intros; reflexivity. Qed.

(** [compromise_node] raises the flag of its node and keeps the rest. *)
Lemma compromise_node_safe uid D fl fw g :
  Safe D fl fw g -> uid ∈ D ->
  wp (compromise_node uid) (fun _ => Safe D (alter (fun _ => true) uid fl) fw)
     (Safe D (alter (fun _ => true) uid fl) fw) g.
Proof.
  intros HS HD. unfold compromise_node.
  apply wp_bind, wp_modify_node.
  assert (HS' : Safe D (alter (fun _ => true) uid fl) fw
                  (GameState.with_nodes
                     (alter (NetworkNode.with_compromised true) uid (GameState.nodes g)) g)).
  { safe_update HS. rewrite <- Hfl. apply fmap_alter. by intros. }
  inv_steps.
  - rewrite Hu. apply union_least; [|assumption].
    apply singleton_subseteq_l. by apply Hdis.
  - rewrite Hu, lookup_fmap. proj_simpl_in Hn. rewrite Hn. simpl. f_equal.
    apply lookup_alter_Some in Hn as [(_ & n' & _ & ->)|(Hne' & _)]; done.
Qed.

Lemma attack_node_safe uid D g :
  SafeD D g -> uid ∈ D -> wp (attack_node uid) (fun _ => SafeD D) (SafeD D) g.
Proof.
  intros [fl HS] HD. unfold attack_node.
  apply wp_bind, wp_get_node; [intros n Hn | by exists fl].
  destruct (_ && _); [apply wp_ret; by exists fl|].
  apply (wp_call _ _ (Safe D fl None)); [apply tame; apply _ | exact HS | | intros; by exists fl].
  intros _ g1 HS1.
  apply wp_bind, wp_get_node; [intros n1 Hn1 | by exists fl].
  apply wp_when; [intros Hc | intros; by exists fl].
  eapply wp_mono; [apply (compromise_node_safe uid D fl None g1 HS1 HD) | |].
  - intros ? g2 HS2. eexists. exact HS2.
  - intros g2 HS2. eexists. exact HS2.
Qed.

(** [navigate_network] moves the player to a discovered node. *)
#[global] Instance navigate_network_quiet : Quiet navigate_network.
Proof.
  intros D fl fw g HS. unfold navigate_network.
  apply wp_bind, wp_get_player. apply wp_bind, wp_get_node; [intros cur Hcur | done].
  destruct (NetworkNode.connections cur) as [|c cs]; [by apply wp_ret|].
  apply wp_bind.
  apply (wp_fold_m _ _ (fun acc g' =>
    g' = g
    /\ Forall (fun n => NetworkNode.uid n ∈ PlayerState.discovered_nodes (GameState.player g))
         acc)).
  - split; [done | constructor].
  - intros x acc g' _ [-> Hacc].
    destruct (bool_decide _) eqn:Hx; [|by apply wp_ret].
    apply bool_decide_eq_true in Hx.
    apply wp_bind, wp_get_node; [intros n Hn | done].
    apply wp_ret. split; [done|]. apply Forall_app. split; [done|].
    constructor; [|constructor].
    by destruct (safe_node _ _ _ _ _ _ HS Hn) as (-> & _).
  - intros acc g' [-> Hacc].
    destruct acc as [|a acc']; [by apply wp_ret|].
    set (available := a :: acc') in *.
    inv_steps.
    left. by apply (Forall_lookup_1 _ _ _ _ Hacc Heqo).
Qed.


#[global] Instance phishing_campaign_tame uid : Tame (phishing_campaign uid).
Proof.
  intros D fl g HS. unfold phishing_campaign. inv_steps.
Qed.

#[global] Instance osint_search_quiet uid : Quiet (osint_search uid).
Proof.
  intros D fl fw g HS. unfold osint_search. inv_steps.
Qed.

#[global] Instance social_media_recon_quiet uid : Quiet (social_media_recon uid).
Proof.
  intros D fl fw g HS. unfold social_media_recon. inv_steps.
Qed.

#[global] Instance compromise_employee_tame uid : Tame (compromise_employee uid).
Proof.
  intros D fl g HS. unfold compromise_employee. inv_steps.
Qed.

#[global] Instance analyze_encrypted_traffic_quiet uid : Quiet (analyze_encrypted_traffic uid).
Proof.
  intros D fl fw g HS. unfold analyze_encrypted_traffic. inv_steps.
Qed.

Lemma indexed_filter_lookup {A} (f : A -> bool) (l : list A) (k i : nat) (x : A) :
  indexed_filter f l !! k = Some (i, x) -> l !! i = Some x /\ f x = true.
Proof.
  intros Hk. apply list_elem_of_lookup_2, list_elem_of_In in Hk.
  unfold indexed_filter in Hk. apply filter_In in Hk as [Hin Hf].
  apply list_elem_of_In, elem_of_lookup_imap in Hin as (j & y & [= -> ->] & Hj). done.
Qed.

#[global] Instance crack_encryption_quiet uid : Quiet (crack_encryption uid).
Proof.
  intros D fl fw g HS. unfold crack_encryption. inv_steps.
  match goal with
  | Hf : Forall _ ?tr, Hi : indexed_filter _ ?tr = ?u, Hl : ?u !! _ = Some _ |- _ =>
      rewrite <- Hi in Hl; apply indexed_filter_lookup in Hl as [Hlk _];
      pose proof (Forall_lookup_1 _ _ _ _ Hf Hlk) as Hval; simpl in Hval
  end.
  lia.
Qed.

#[global] Instance decrypt_data_quiet uid : Quiet (decrypt_data uid).
Proof.
  intros D fl fw g HS. unfold decrypt_data. inv_steps.
Qed.

#[global] Instance build_botnet_quiet : Quiet build_botnet.
Proof.
  intros D fl fw g HS. unfold build_botnet. inv_steps.
Qed.

#[global] Instance maintain_botnet_quiet : Quiet maintain_botnet.
Proof.
  intros D fl fw g HS. unfold maintain_botnet. inv_steps.
Qed.

#[global] Instance expand_botnet_quiet : Quiet expand_botnet.
Proof.
  intros D fl fw g HS. unfold expand_botnet. inv_steps.
Qed.

#[global] Instance dismantle_botnet_quiet : Quiet dismantle_botnet.
Proof.
  intros D fl fw g HS. unfold dismantle_botnet. inv_steps.
Qed.

#[global] Instance hack_rival_menu_quiet : Quiet hack_rival_menu.
Proof.
  intros D fl fw g HS. unfold hack_rival_menu. inv_steps.
Qed.

#[global] Instance intelligence_menu_quiet : Quiet intelligence_menu.
Proof.
  intros D fl fw g HS. unfold intelligence_menu. inv_steps.
Qed.

#[global] Instance browse_tools_quiet : Quiet browse_tools.
Proof.
  intros D fl fw g HS. unfold browse_tools. inv_steps.
Qed.

#[global] Instance browse_hardware_quiet : Quiet browse_hardware.
Proof.
  intros D fl fw g HS. unfold browse_hardware. inv_steps.
Qed.

#[global] Instance purchase_proxy_quiet : Quiet purchase_proxy.
Proof.
  intros D fl fw g HS. unfold purchase_proxy. inv_steps.
Qed.

#[global] Instance sell_data_quiet : Quiet sell_data.
Proof.
  intros D fl fw g HS. unfold sell_data. inv_steps.
  match goal with
  | Hf : List.filter _ _ = ?u, Hl : ?u !! _ = Some _ |- _ =>
      rewrite <- Hf in Hl; apply list_elem_of_lookup_2, list_elem_of_In, filter_In in Hl as [_ Hl]
  end.
  lia.
Qed.

#[global] Instance launder_money_menu_quiet : Quiet launder_money_menu.
Proof.
  intros D fl fw g HS. unfold launder_money_menu. inv_steps.
Qed.

#[global] Instance character_menu_quiet : Quiet character_menu.
Proof.
  intros D fl fw g HS. unfold character_menu. inv_steps.
Qed.

#[global] Instance system_status_quiet : Quiet system_status.
Proof.
  intros D fl fw g HS. unfold system_status. inv_steps.
Qed.

(** ** Generators *)

Lemma wp_returns {A B} (m : M A) (P : A -> Prop) (k : A -> M B)
    (Q : B -> GameState.t -> Prop) E g :
  returns m P -> (forall a, P a -> wp (k a) Q E g) -> E g -> wp (m ≫= k) Q E g.
Proof.
  intros Hm Hk HE. apply wp_bind. eapply wp_mono; [apply Hm | |].
  - intros a g' [-> Ha]. by apply Hk.
  - by intros g' ->.
Qed.

Lemma returns_preserves {A} (m : M A) (P : A -> Prop) (I : GameState.t -> Prop) :
  returns m P -> preserves I m.
Proof.
  intros Hm g HI. eapply wp_mono; [apply Hm | |]; cbn.
  - by intros a g' [-> _].
  - by intros g' ->.
Qed.

Lemma reward_mult_sign objective : sign_nonneg (reward_mult objective).
Proof. unfold reward_mult. repeat destruct (String.eqb _ _); done. Qed.

Lemma node_values_sound (network : gmap string NetworkNode.t) (n : NetworkNode.t) :
  map_Forall node_sound network -> n ∈ node_values network -> 0 <= NetworkNode.data_value n.
Proof.
  intros Hs Hn. unfold node_values in Hn.
  apply list_elem_of_fmap in Hn as ([k n'] & -> & Hin).
  apply elem_of_map_to_list in Hin. by destruct (Hs k n' Hin) as (_ & _ & Hdv & _).
Qed.

Lemma generate_contract_returns network level factions :
  map_Forall node_sound network ->
  returns (generate_contract network level factions)
    (fun c => forall c', c = Some c' -> 0 <= Contract.reward c').
Proof.
  intros Hs g. unfold generate_contract.
  set (suitable := match List.filter _ _ with [] => _ | _ => _ end).
  assert (Hsub : forall n, n ∈ suitable -> n ∈ node_values network).
  { intros n. unfold suitable.
    destruct (List.filter _ _) eqn:Hf.
    - intros Hn. by apply list_elem_of_In, filter_In in Hn as [Hn%list_elem_of_In _].
    - rewrite <- Hf. intros Hn.
      by apply list_elem_of_In, filter_In in Hn as [Hn%list_elem_of_In _]. }
  destruct suitable as [|s0 ss] eqn:Hsuit; [apply wp_ret; by split|].
  wp_steps; try done.
  all: split; [done|]; intros c' [= <-]; proj_simpl.
  all: match goal with
       | Hz : Float.trunc _ = Some ?z |- 0 <= ?z =>
           apply (trunc_mul_sign _ _ _ (node_values_sound _ _ Hs (Hsub _ ltac:(eassumption)))
                    (reward_mult_sign _) Hz)
       end.
Qed.

#[global] Instance append_contracts_quiet count : Quiet (append_contracts count).
Proof.
  intros D fl fw. induction count as [|count IH]; intros g HS; simpl; [by apply wp_ret|].
  apply wp_bind, wp_get_game.
  apply (wp_returns _ _ _ _ _ _
           (generate_contract_returns _ _ _ ltac:(by destruct HS as ((_ & _ & _ & ? & _) & _))));
    [|done].
  intros [c|] Hc.
  - apply wp_bind, wp_modify_game.
    apply IH. pose proof (Hc c eq_refl).
    safe_update HS. apply Forall_app. split; [done | by constructor].
  - apply wp_bind, wp_ret. by apply IH.
Qed.

Lemma returns_any {A} (m : M A) :
  (forall g, wp m (fun _ g' => g' = g) (fun g' => g' = g) g) -> returns m (fun _ => True).
Proof. intros H g. eapply wp_mono; [apply H | |]; cbn; auto. Qed.

Lemma repeat_collect_returns {A} n (m : M A) (P : A -> Prop) :
  returns m P -> returns (repeat_collect n m) (Forall P).
Proof.
  intros Hm g.
  apply (wp_repeat_collect n m P (fun g' => g' = g)); [done | |].
  - intros g' ->. eapply wp_mono; [apply Hm | |]; cbn; [|done].
    by intros a g' [-> Ha].
  - by intros xs g' Hxs _ ->.
Qed.

Lemma generate_exploit_returns level : returns (generate_exploit level) (fun _ => True).
Proof. apply returns_any. intros g. unfold generate_exploit. wp_steps; done. Qed.

#[global] Instance generate_exploits_quiet level : Quiet (generate_exploits level).
Proof.
  intros D fl fw. apply (returns_preserves _ (fun _ => True)).
  apply returns_any. intros g. unfold generate_exploits.
  apply wp_bind, wp_random_randint; [intros r Hr | done].
  eapply wp_mono; [apply (repeat_collect_returns _ _ _ (generate_exploit_returns level)) | |];
    cbn; [by intros ? ? [-> _] | done].
Qed.

#[global] Instance browse_exploits_quiet : Quiet browse_exploits.
Proof.
  intros D fl fw g HS. unfold browse_exploits. inv_steps.
Qed.

#[global] Instance contract_menu_turn_quiet : Quiet contract_menu_turn.
Proof.
  intros D fl fw g HS. unfold contract_menu_turn. inv_steps.
Qed.

#[global] Instance contract_menu_quiet : Quiet contract_menu.
Proof. apply _. Qed.

Lemma above_refl fl : above fl fl.
Proof. by split. Qed.

Lemma above_raise fl fl' uid : above fl fl' -> above fl (alter (fun _ => true) uid fl').
Proof.
  intros [Hdom Hup]. split.
  - by rewrite dom_alter_L.
  - intros k Hk. destruct (decide (k = uid)) as [->|Hne].
    + rewrite lookup_alter_eq. by rewrite (Hup _ Hk).
    + rewrite lookup_alter_ne by done. by apply Hup.
Qed.

Lemma update_rival_activity_rivalry D fl fw :
  preserves (Rivalry D fl fw) update_rival_activity.
Proof.
  intros g HR. unfold update_rival_activity.
  apply wp_bind, wp_get_game.
  apply (wp_for_enumerate _ _ (Rivalry D fl fw)); [done | | done].
  intros i rival g' Hi (fl' & HS & Habove).
  assert (HE : Rivalry D fl fw g') by (by exists fl').
  wp_steps; try done.
  - exists (alter (fun _ => true) s fl'). split; [|by apply above_raise].
    safe_update HS. rewrite <- Hfl. apply fmap_alter. by intros.
  - exists fl'. split; [|done]. safe_update HS.
Qed.

(** ** World generation *)

Create HintDb gens.

Ltac gen_step :=
  cbv beta; proj_simpl;
  lazymatch goal with
  | |- wp (mbind _ _) _ _ _ =>
      first [ eapply wp_returns; [solve [eauto with gens] | intros ? ? | ]
            | wp_step ]
  | |- wp (random_choice _) _ _ _ => wp_step
  | |- wp (mret _) _ _ _ => wp_step
  | |- wp (raise _) _ _ _ => wp_step
  | |- wp (if _ then _ else _) _ _ _ => wp_step
  | |- wp (match _ with _ => _ end) _ _ _ => wp_step
  | |- wp (let _ := _ in _) _ _ _ => wp_step
  | |- wp (random_randint _ _) _ _ _ => wp_step
  | |- wp (random_uniform _ _) _ _ _ => wp_step
  | |- wp random_random _ _ _ => wp_step
  | |- wp draw _ _ _ => wp_step
  | |- wp tick _ _ _ => wp_step
  | |- wp time_time _ _ _ => wp_step
  | |- wp (random_sample _ _) _ _ _ => wp_step
  | |- wp (md5_prefix _) _ _ _ => wp_step
  | |- wp datetime_now _ _ _ => wp_step
  | |- wp (int_of_float _) _ _ _ => wp_step
  | |- wp ?m _ _ _ =>
      let H := fresh in
      eassert (H : returns m _) by eauto with gens;
      eapply wp_mono; [apply H | cbv beta; intros ? ? [-> ?] | cbv beta; intros ? ->]
  end.
Ltac gen_steps := repeat (gen_step; try done).

Lemma fold_m_returns {A S} (l : list A) (body : A -> S -> M S) (P : S -> Prop) acc :
  P acc -> (forall x a, x ∈ l -> P a -> returns (body x a) P) ->
  returns (fold_m l body acc) P.
Proof.
  intros Hacc Hbody g.
  apply (wp_fold_m l body (fun a g' => g' = g /\ P a)); [done | |done].
  intros x a g' Hx [-> Ha]. eapply wp_mono; [by apply Hbody | |]; cbn; done.
Qed.

Lemma instantiate_vulnerabilities_returns name selected :
  returns (instantiate_vulnerabilities name selected) (fun _ => True).
Proof.
  induction selected as [|[[[[[[[[? ?] ?] ?] ?] ?] ?] ?] ?] selected IH]; intros g; simpl.
  - by apply wp_ret.
  - apply wp_bind, wp_random_uniform. intros r.
    apply wp_bind, wp_random_randint; [intros j Hj | done].
    apply (wp_returns _ _ _ _ _ _ IH); [|done]. intros rest _. by apply wp_ret.
Qed.
#[global] Hint Resolve instantiate_vulnerabilities_returns : gens.

Lemma generate_vulnerabilities_returns name version count :
  returns (generate_vulnerabilities name version count) (fun _ => True).
Proof. intros g. unfold generate_vulnerabilities. gen_steps. Qed.
#[global] Hint Resolve generate_vulnerabilities_returns : gens.

Lemma generate_service_returns ports : returns (generate_service ports) (fun _ => True).
Proof. intros g. unfold generate_service. gen_steps. Qed.
#[global] Hint Resolve generate_service_returns : gens.

Lemma generate_services_returns count : forall ports,
  returns (generate_services count ports) (fun _ => True).
Proof.
  induction count as [|count IH]; intros ports g; simpl; [by apply wp_ret|].
  apply (wp_returns _ _ _ _ _ _ (generate_service_returns ports)); [|done].
  intros [service ports'] _.
  apply (wp_returns _ _ _ _ _ _ (IH ports')); [|done]. intros rest _. by apply wp_ret.
Qed.
#[global] Hint Resolve generate_services_returns : gens.

Lemma generate_org_name_returns ty : returns (generate_org_name ty) (fun _ => True).
Proof. intros g. unfold generate_org_name. destruct ty; gen_steps. Qed.
#[global] Hint Resolve generate_org_name_returns : gens.

Lemma generate_honeypot_returns : returns generate_honeypot (fun _ => True).
Proof. intros g. unfold generate_honeypot. gen_steps. Qed.
#[global] Hint Resolve generate_honeypot_returns : gens.

Lemma generate_traffic_returns :
  returns generate_traffic (fun e => 0 <= EncryptedData.value e).
Proof. intros g. unfold generate_traffic. gen_steps. split; [done|]. proj_simpl. lia. Qed.
#[global] Hint Resolve generate_traffic_returns : gens.

Lemma generate_employee_returns domain : returns (generate_employee domain) (fun _ => True).
Proof. intros g. unfold generate_employee. gen_steps. Qed.
#[global] Hint Resolve generate_employee_returns : gens.

Lemma generate_employees_returns count name :
  returns (generate_employees count name) (fun _ => True).
Proof.
  intros g. unfold generate_employees.
  eapply wp_mono; [apply repeat_collect_returns, generate_employee_returns | |]; cbn; [|done].
  by intros ? ? [-> _].
Qed.
#[global] Hint Resolve generate_employees_returns : gens.

Lemma hex_digits_nonempty n : forall k acc, acc <> "" -> hex_digits n k acc <> "".
Proof. induction n as [|n IH]; intros k acc Hacc; simpl; [done|]. by apply IH. Qed.

Lemma md5_prefix_nonempty n k : hex_digits (S n) k "" <> "".
Proof. simpl. by apply hex_digits_nonempty. Qed.

Lemma repeat_collect_traffic n :
  returns (repeat_collect n generate_traffic) (Forall (fun e => 0 <= EncryptedData.value e)).
Proof. apply repeat_collect_returns, generate_traffic_returns. Qed.
#[global] Hint Resolve repeat_collect_traffic : gens.

Lemma repeat_collect_honeypot n :
  returns (repeat_collect n generate_honeypot) (Forall (fun _ => True)).
Proof. apply repeat_collect_returns, generate_honeypot_returns. Qed.
#[global] Hint Resolve repeat_collect_honeypot : gens.

Lemma _create_node_returns ty min_sec max_sec :
  1 <= min_sec -> max_sec <= 10 ->
  returns (_create_node ty min_sec max_sec) (fun n => own_sound n /\ pristine n).
Proof.
  intros Hmin Hmax g. unfold _create_node. gen_steps.
  all: split; [done|]; unfold own_sound, node_sound, pristine; proj_simpl.
  all: split_and!; try done; try lia; try nia; try apply md5_prefix_nonempty.
  all: done || constructor.
Qed.
(** ** The generated network *)

(** [_establish_connections] changes the [connections] of the nodes and
    nothing else. *)
Lemma connect_keeps (P : NetworkNode.t -> Prop) a b nodes :
  (forall n connections, P n -> P (NetworkNode.with_connections connections n)) ->
  Forall P nodes -> Forall P (connect a b nodes).
Proof.
  intros HP.
  assert (Hadd : forall a b nodes, Forall P nodes -> Forall P (add_connection a b nodes)).
  { clear a b nodes. intros a b nodes Hs. unfold add_connection.
    destruct (nodes !! a) as [na|] eqn:Ha; [|done].
    destruct (nodes !! b) as [nb|]; [|done].
    case_bool_decide; [done|].
    apply Forall_insert; [done|].
    apply HP. exact (Forall_lookup_1 _ _ _ _ Hs Ha). }
  intros Hs. by apply Hadd, Hadd.
Qed.

(** What every [connect] keeps, [_establish_connections] keeps. *)
Section Connections.
Variable L : list NetworkNode.t -> Prop.
Hypothesis L_connect : forall a b nodes, L nodes -> L (connect a b nodes).

Lemma connect_all_keeps a bs : forall nodes,
  L nodes -> L (fold_left (fun nodes b => connect a b nodes) bs nodes).
Proof. induction bs as [|b bs IH]; intros nodes Hs; simpl; [done|]. by apply IH, L_connect. Qed.

Lemma connect_within_returns node_list a nodes :
  L nodes -> returns (connect_within node_list a nodes) L.
Proof.
  intros Hs g. unfold connect_within. gen_steps.
  split; [done|]. by apply connect_all_keeps.
Qed.

Lemma connect_across_returns type_a type_b nodes :
  L nodes -> returns (connect_across type_a type_b nodes) L.
Proof.
  intros Hs g. unfold connect_across.
  apply wp_bind, wp_random_randint; [intros count Hc | done].
  apply fold_m_returns; [done|].
  intros _ acc _ Hacc g'. gen_steps. split; [done|]. by apply L_connect.
Qed.

Lemma connect_pairs_returns groups : forall nodes,
  L nodes -> returns (connect_pairs groups nodes) L.
Proof.
  induction groups as [|type_a groups IH]; intros nodes Hs g; simpl; [by apply wp_ret|].
  eapply wp_returns; [|intros nodes' Hs'; by apply IH | done].
  apply fold_m_returns; [done|]. intros type_b acc _ Hacc. by apply connect_across_returns.
Qed.

Lemma _establish_connections_returns nodes :
  L nodes -> returns (_establish_connections nodes) L.
Proof.
  intros Hs g. unfold _establish_connections. cbv zeta.
  eapply wp_returns; [|intros nodes' Hs'; by apply connect_pairs_returns | done].
  apply fold_m_returns; [done|]. intros node_list acc _ Hacc.
  apply fold_m_returns; [done|]. intros a acc' _ Hacc'. by apply connect_within_returns.
Qed.

End Connections.

Lemma nodes_dict_sound all_nodes :
  Forall (fun n => own_sound n /\ pristine n) all_nodes ->
  map_Forall (fun k n => node_sound k n /\ pristine n) (nodes_dict all_nodes).
Proof.
  unfold nodes_dict.
  assert (H : forall m : gmap string NetworkNode.t,
            map_Forall (fun k n => node_sound k n /\ pristine n) m ->
            Forall (fun n => own_sound n /\ pristine n) all_nodes ->
            map_Forall (fun k n => node_sound k n /\ pristine n)
              (fold_left (fun m n => <[NetworkNode.uid n := n]> m) all_nodes m)).
  { induction all_nodes as [|n l IH]; intros m Hm Hl; simpl; [done|].
    inversion Hl; subst. apply IH; [|done]. by apply map_Forall_insert_2. }
  intros Hl. apply H; [|done]. apply map_Forall_empty.
Qed.

Lemma generate_network_returns :
  returns generate_network (map_Forall (fun k n => node_sound k n /\ pristine n)).
Proof.
  intros g. unfold generate_network.
  do 7 (apply wp_bind, wp_random_randint; [intros ? ? | done]).
  cbv zeta.
  eapply wp_returns; [| |done].
  - apply (fold_m_returns _ _ (Forall (fun n => own_sound n /\ pristine n))); [done|].
    intros [[[ty count] min_sec] max_sec] acc Hin Hacc g'.
    assert (Hmin : 1 <= min_sec /\ max_sec <= 10).
    { repeat (apply elem_of_cons in Hin as [Heq|Hin]; [injection Heq as ? ? ? ?; lia|]).
      by inversion Hin. }
    eapply wp_returns;
      [apply repeat_collect_returns, (_create_node_returns ty _ _ (proj1 Hmin) (proj2 Hmin))
      | |done].
    intros created Hcr. apply wp_ret. split; [done|]. by apply Forall_app.
  - intros all_nodes Hall.
    eapply wp_returns;
      [apply (_establish_connections_returns (Forall (fun n => own_sound n /\ pristine n)));
       [|exact Hall] | |done].
    + intros a b nodes. apply connect_keeps. by intros n connections [Hown Hpr].
    + intros all_nodes' Hall'. apply wp_ret. split; [done|]. by apply nodes_dict_sound.
Qed.

Lemma ProceduralNetwork_returns :
  returns ProceduralNetwork
    (fun '(_, nodes) => map_Forall (fun k n => node_sound k n /\ pristine n) nodes).
Proof.
  intros g. unfold ProceduralNetwork.
  apply wp_bind, wp_random_randint; [intros seed Hs | done].
  eapply wp_returns; [apply generate_network_returns | |done].
  intros nodes Hn. by apply wp_ret.
Qed.

Lemma generate_rival_returns level :
  returns (generate_rival level) (fun r => 0 <= RivalHacker.skill_level r).
Proof.
  intros g. unfold generate_rival. gen_steps.
  all: split; [done|]; proj_simpl; rewrite Py_max_spec; lia.
Qed.

Lemma hardware_bases_sound :
  Forall (fun '(_, _, bonus, _, _) => sign_nonneg bonus) hardware_bases.
Proof. repeat constructor. Qed.

Lemma generate_hardware_from_returns bases level :
  Forall (fun '(_, _, bonus, _, _) => sign_nonneg bonus) bases ->
  returns (generate_hardware_from bases level) (Forall hardware_sound).
Proof.
  induction bases as [|[[[[name htype] bonus] cost] desc] bases IH]; intros Hb g; simpl.
  - by apply wp_ret.
  - inversion Hb; subst.
    apply wp_bind, wp_int_of_float; [intros z Hz | done].
    eapply wp_returns; [by apply IH | |done].
    intros rest Hrest. apply wp_ret. split; [done|].
    destruct (z <=? level + 2); [|done]. by constructor.
Qed.

Lemma generate_hardware_returns level :
  returns (generate_hardware level) (Forall hardware_sound).
Proof. apply generate_hardware_from_returns, hardware_bases_sound. Qed.
(** ** The initial state *)

Lemma sound_safe g : Sound g -> Safe ∅ (flags g) None g.
Proof. intros Hs. split_and!; [done | set_solver | done | done]. Qed.

Lemma safe_sound D fl fw g : Safe D fl fw g -> Sound g.
Proof. by intros (Hs & _). Qed.

Lemma market_hardware_sound hardware g :
  Sound g -> Forall hardware_sound hardware ->
  Sound (GameState.with_black_market_hardware hardware g).
Proof.
  unfold Sound, flags. proj_simpl.
  intros (? & ? & ? & ? & ? & ? & ? & ? & ? & ? & ? & ? & ? & ?) Hh. by split_and!.
Qed.

Lemma GameState__init___sound g :
  wp GameState__init__ (fun _ => Sound) (fun _ => True) g.
Proof.
  unfold GameState__init__.
  apply wp_bind, wp_tick. intros now. cbv zeta.
  eapply wp_returns; [apply ProceduralNetwork_returns | | done].
  intros [seed nodes] Hmade.
  assert (Hn : map_Forall node_sound nodes) by (intros k n Hk; by destruct (Hmade k n Hk)).
  apply wp_bind, wp_random_randint; [intros rc Hrc | done].
  eapply wp_returns; [apply repeat_collect_returns, generate_rival_returns | | done].
  intros rivals Hriv.
  apply wp_bind, wp_modify_game.
  match goal with |- wp _ _ _ ?g1 => assert (HS : Safe ∅ (flags g1) None g1) end.
  { apply sound_safe. unfold Sound. proj_simpl. split_and!; try done.
    - by right.
    - unfold initial_player, initial_hardware; proj_simpl.
      repeat (apply map_Forall_insert_2; [done|]). apply map_Forall_empty.
    - unfold skills_sound, skill_names.
      repeat (constructor; [by cbn|]). constructor. }
  eapply wp_mono; [| intros ? ? HS'; apply HS' | done].
  inv_steps.
  all: try (left; apply elem_of_union_l, elem_of_singleton; reflexivity).
  all: eapply wp_mono; [apply generate_hardware_returns | | done]; cbv beta.
  all: intros hw ? [-> Hhw]; apply wp_modify_game.
  all: apply market_hardware_sound; [|done].
  all: eapply safe_sound; eassumption.
Qed.
(** ** What an operation does to the flags and to the firewalls *)

Lemma wp_ok {A} (m : M A) Q E g w a w' g' :
  wp m Q E g -> m (mkSys w g) = Ok a (mkSys w' g') -> Q a g'.
Proof. intros Hwp Hrun. specialize (Hwp w). by rewrite Hrun in Hwp. Qed.

Lemma quiet_rivalry {A} (m : M A) D fl fw : Quiet m -> preserves (Rivalry D fl fw) m.
Proof.
  intros Hm g (fl' & HS & Ha). eapply wp_mono; [apply (Hm D fl' (Some fw) g HS) | |].
  - intros ? g' HS'. by exists fl'.
  - intros g' HS'. by exists fl'.
Qed.

Lemma background_tick_rivalry D fl fw : preserves (Rivalry D fl fw) background_tick.
Proof.
  intros g HR. unfold background_tick.
  apply (wp_call _ _ (Rivalry D fl fw)); [apply update_rival_activity_rivalry | done | | done].
  intros ? g1 (fl' & HS & Ha).
  eapply wp_mono with (Q := fun _ => Safe D fl' (Some fw)) (E := Safe D fl' (Some fw)).
  - inv_steps.
  - intros ? g2 HS2. by exists fl'.
  - intros g2 HS2. by exists fl'.
Qed.

#[global] Instance at_current_node_quiet (op : string -> M unit) :
  (forall uid, Quiet (op uid)) -> Quiet (at_current_node op).
Proof.
  intros Hop D fl fw g HS. unfold at_current_node, current_location.
  apply wp_bind, wp_bind, wp_get_player, wp_ret. apply wp_bind, wp_get_node; [intros n Hn | done].
  by apply Hop.
Qed.

#[global] Instance at_current_node_tame (op : string -> M unit) :
  (forall uid, Tame (op uid)) -> Tame (at_current_node op).
Proof.
  intros Hop D fl g HS. unfold at_current_node, current_location.
  apply wp_bind, wp_bind, wp_get_player, wp_ret. apply wp_bind, wp_get_node; [intros n Hn | done].
  by apply Hop.
Qed.

#[global] Instance at_current_location_quiet (op : string -> M unit) :
  (forall uid, Quiet (op uid)) -> Quiet (at_current_location op).
Proof.
  intros Hop D fl fw g HS. unfold at_current_location, current_location.
  apply wp_bind, wp_bind, wp_get_player, wp_ret. by apply Hop.
Qed.

#[global] Instance at_current_location_tame (op : string -> M unit) :
  (forall uid, Tame (op uid)) -> Tame (at_current_location op).
Proof.
  intros Hop D fl g HS. unfold at_current_location, current_location.
  apply wp_bind, wp_bind, wp_get_player, wp_ret. by apply Hop.
Qed.

Lemma alter_raised (fl : gmap string bool) uid :
  fl !! uid = Some true -> alter (fun _ => true) uid fl = fl.
Proof.
  intros Hfl. apply map_eq. intros k. destruct (decide (k = uid)) as [->|Hne].
  - by rewrite lookup_alter_eq, Hfl.
  - by rewrite lookup_alter_ne.
Qed.

(** [attack_node] raises the flag of its node exactly when it leaves the
    firewall down, and touches no other flag. *)
Lemma attack_node_flags uid D fl g :
  Safe D fl None g -> uid ∈ D ->
  wp (attack_node uid)
     (fun _ g' =>
        Safe D (if firewall_down uid g' then alter (fun _ => true) uid fl else fl) None g')
     (SafeD D) g.
Proof.
  intros HS HD. unfold attack_node.
  apply wp_bind, wp_get_node; [intros n Hn | by exists fl].
  destruct (_ && _) eqn:Hc.
  - apply wp_ret. apply andb_true_iff in Hc as [Hc _].
    destruct (firewall_down uid g); [|done].
    rewrite alter_raised; [done|].
    destruct HS as (_ & _ & <- & _). unfold flags. by rewrite lookup_fmap, Hn; simpl; rewrite Hc.
  - apply (wp_call _ _ (Safe D fl None)); [apply tame; apply _ | exact HS | | intros; by exists fl].
    intros ? g1 HS1.
    apply wp_bind, wp_get_node; [intros n1 Hn1 | by exists fl].
    assert (Hfw : firewall_down uid g1 = (NetworkNode.firewall_strength n1 <=? 0)).
    { unfold firewall_down, firewalls. by rewrite lookup_fmap, Hn1. }
    apply wp_when; intros Hdown.
    + assert (HS1' : Safe D fl (Some (firewalls g1)) g1).
      { destruct HS1 as (? & ? & ? & _). by split_and!. }
      eapply wp_mono; [apply (compromise_node_safe uid D fl _ g1 HS1' HD) | |].
      * intros ? g2 (Hs2 & Hd2 & Hfl2 & Hfw2). simpl in Hfw2.
        unfold firewall_down. rewrite Hfw2. fold (firewall_down uid g1).
        rewrite Hfw, Hdown. by split_and!.
      * intros g2 (Hs2 & Hd2 & Hfl2 & _). eexists. by split_and!.
    + by rewrite Hfw, Hdown.
Qed.

Lemma sound_home g n :
  Sound g ->
  GameState.nodes g !! PlayerState.current_location (GameState.player g) = Some n ->
  PlayerState.current_location (GameState.player g)
  ∈ PlayerState.discovered_nodes (GameState.player g).
Proof.
  intros (_ & _ & [Hhome|Hhome] & Hnodes & _) Hn; [done|].
  destruct (Hnodes _ _ Hn) as (_ & Hne & _). by rewrite Hhome in Hne.
Qed.

(** The attack on the node the player is located at. *)
Lemma attack_here_flags g :
  Sound g ->
  let here := PlayerState.current_location (GameState.player g) in
  wp (exec AttackNode)
     (fun _ g' =>
        Sound g'
        /\ flags g' = if firewall_down here g' then alter (fun _ => true) here (flags g)
                      else flags g)
     Sound g.
Proof.
  intros Hs here. simpl. unfold at_current_node, current_location.
  apply wp_bind, wp_bind, wp_get_player, wp_ret. apply wp_bind, wp_get_node; [intros n Hn | done].
  fold here in Hn |- *.
  assert (HS : Safe {[here]} (flags g) None g).
  { split_and!; [done | | done | done].
    apply singleton_subseteq_l. by apply (sound_home g n). }
  eapply wp_mono; [apply (attack_node_flags here _ _ g HS); set_solver | |].
  - intros ? g' (Hs' & _ & Hfl & _). by split.
  - by intros g' (fl & Hs' & _).
Qed.

(** The rivals' turn and the other background updates. *)
Lemma background_tick_flags g :
  Sound g ->
  wp (exec BackgroundTick)
     (fun _ g' => Sound g' /\ above (flags g) (flags g') /\ firewalls g' = firewalls g)
     Sound g.
Proof.
  intros Hs. simpl.
  eapply wp_mono; [apply (background_tick_rivalry ∅ (flags g) (firewalls g)) | |].
  - exists (flags g). split; [|apply above_refl]. split_and!; [done | set_solver | done | done].
  - intros ? g' (fl' & (Hs' & _ & <- & Hfw) & Ha). by split_and!.
  - by intros g' (fl' & (Hs' & _) & _).
Qed.

(** Operations that leave every flag as it is. *)
Lemma tame_flags (m : M unit) g :
  Tame m -> Sound g -> wp m (fun _ g' => Sound g' /\ flags g' = flags g) Sound g.
Proof.
  intros Hm Hs.
  eapply wp_mono; [apply (Hm ∅ (flags g) g (sound_safe g Hs)) | |].
  - by intros ? g' (Hs' & _ & Hfl & _).
  - by intros g' (Hs' & _).
Qed.

(** Operations that leave every flag and every firewall as they are. *)
Lemma quiet_flags (m : M unit) g :
  Quiet m -> Sound g ->
  wp m (fun _ g' => Sound g' /\ flags g' = flags g /\ firewalls g' = firewalls g) Sound g.
Proof.
  intros Hm Hs.
  eapply wp_mono; [apply (Hm ∅ (flags g) (Some (firewalls g)) g) | |].
  - split_and!; [done | set_solver | done | done].
  - by intros ? g' (Hs' & _ & Hfl & Hfw).
  - by intros g' (Hs' & _).
Qed.

Lemma exec_sound c : preserves Sound (exec c).
Proof.
  intros g Hs.
  destruct c;
    try (eapply wp_mono; [apply (tame_flags _ g); [simpl; apply _ | done] | |];
         [by intros ? g' (Hs' & _) | done]).
  - eapply wp_mono; [by apply background_tick_flags | |]; [by intros ? g' (Hs' & _) | done].
  - eapply wp_mono; [by apply attack_here_flags | |]; [by intros ? g' (Hs' & _) | done].
Qed.

Lemma reachable_sound g : reachable g -> Sound g.
Proof.
  induction 1 as [w g0 w' g Hinit | c w g w' g' Hg IH Hrun].
  - exact (wp_ok _ _ _ _ _ _ _ _ (GameState__init___sound g0) Hinit).
  - exact (wp_ok _ _ _ _ _ _ _ _ (exec_sound c g IH) Hrun).
Qed.
(** ** Reachable states *)

Lemma quiet_run (m : M unit) w g w' g' :
  Quiet m -> Sound g -> m (mkSys w g) = Ok tt (mkSys w' g') ->
  flags g' = flags g /\ firewalls g' = firewalls g.
Proof.
  intros Hm Hs Hrun. by destruct (wp_ok _ _ _ _ _ _ _ _ (quiet_flags m g Hm Hs) Hrun) as (_ & ? & ?).
Qed.

Lemma tame_run (m : M unit) w g w' g' :
  Tame m -> Sound g -> m (mkSys w g) = Ok tt (mkSys w' g') -> flags g' = flags g.
Proof.
  intros Hm Hs Hrun. by destruct (wp_ok _ _ _ _ _ _ _ _ (tame_flags m g Hm Hs) Hrun) as (_ & ?).
Qed.

(** A computation that returned, in terms of the state it ended in. *)
Lemma returned_run (r : result unit) :
  returned r = true ->
  r = Ok tt (mkSys (world (final_state r)) (game (final_state r))).
Proof. by destruct r as [[] [w g]|]. Qed.

Lemma reachable_start w g0 :
  returned (GameState__init__ (mkSys w g0)) = true ->
  reachable (game (final_state (GameState__init__ (mkSys w g0)))).
Proof. intros Hr. exact (reachable_init w g0 _ _ (returned_run _ Hr)). Qed.

Lemma reachable_next c lines s :
  reachable (game s) ->
  returned (exec c (typing lines s)) = true ->
  reachable (game (final_state (exec c (typing lines s)))).
Proof. intros Hs Hr. exact (reachable_exec c _ _ _ _ Hs (returned_run _ Hr)). Qed.

(** The play-through is made of reachable states. *)
Ltac from_opening := apply reachable_start; vm_compute; reflexivity.
Ltac from_scanned :=
  apply (reachable_next ScanNode [""] opening); [from_opening | vm_compute; reflexivity].
Ltac from_attacked :=
  apply (reachable_next AttackNode ["1"; "1"; "1"; "1"; "1"; ""] scanned);
  [from_scanned | vm_compute; reflexivity].

(** C8.  In every reachable game state, that is after [GameState()] and
    after every operation that follows, the nodes the player has
    compromised are among the nodes the player has discovered. *)
Theorem compromised_nodes_discovered g :
  reachable g ->
  PlayerState.compromised_nodes (GameState.player g)
  ⊆ PlayerState.discovered_nodes (GameState.player g).
Proof. intros Hg. by destruct (reachable_sound g Hg) as (_ & Hsub & _). Qed.

Lemma compromised_nodes_discovered_witness :
  reachable (game attacked)
  /\ PlayerState.compromised_nodes (GameState.player (game attacked)) = {["000000000005"]}
  /\ PlayerState.compromised_nodes (GameState.player (game attacked))
     ⊆ PlayerState.discovered_nodes (GameState.player (game attacked)).
Proof.
  assert (H : reachable (game attacked)) by from_attacked.
  split; [exact H|]. split; [vm_compute; reflexivity|].
  exact (compromised_nodes_discovered (game attacked) H).
Defined.

(** C9.  In every reachable game state the player's credits are not
    negative: no purchase, penalty or seizure takes them below zero. *)
Theorem credits_never_negative g :
  reachable g -> 0 <= PlayerState.credits (GameState.player g).
Proof. intros Hg. by destruct (reachable_sound g Hg) as (Hcr & _). Qed.

Lemma credits_never_negative_witness :
  reachable (game attacked)
  /\ PlayerState.credits (GameState.player (game attacked)) = 1700
  /\ 0 <= PlayerState.credits (GameState.player (game attacked)).
Proof.
  assert (H : reachable (game attacked)) by from_attacked.
  split; [exact H|]. split; [vm_compute; reflexivity|].
  exact (credits_never_negative (game attacked) H).
Defined.

(** C2, as the code has it.  From a reachable state, an operation that
    returns changes the [compromised] flags as follows.  The attack on
    the node the player is at raises the flag of that node exactly when
    it leaves the node's firewall at 0 or below, and changes no other
    flag.  The background updates, in which the rivals move, only raise
    flags, and change no firewall.  Phishing and the use of a
    compromised employee change no flag, whatever they do to the
    firewall.  Every other operation changes no flag and no firewall. *)
Theorem compromised_flag_changes c w g w' g' :
  reachable g ->
  exec c (mkSys w g) = Ok tt (mkSys w' g') ->
  let here := PlayerState.current_location (GameState.player g) in
  match c with
  | AttackNode =>
      flags g' = if firewall_down here g' then alter (fun _ => true) here (flags g)
                 else flags g
  | BackgroundTick => above (flags g) (flags g') /\ firewalls g' = firewalls g
  | PhishingCampaign | CompromiseEmployee => flags g' = flags g
  | _ => flags g' = flags g /\ firewalls g' = firewalls g
  end.
Proof.
  intros Hg Hrun here. apply reachable_sound in Hg.
  destruct c;
    first
      [ refine (quiet_run (exec _) w g w' g' _ Hg Hrun); simpl; apply _
      | refine (tame_run (exec _) w g w' g' _ Hg Hrun); simpl; apply _
      | idtac ].
  - by destruct (wp_ok _ _ _ _ _ _ _ _ (background_tick_flags g Hg) Hrun) as (_ & ? & ?).
  - by destruct (wp_ok _ _ _ _ _ _ _ _ (attack_here_flags g Hg) Hrun) as (_ & ?).
Qed.

Lemma compromised_flag_changes_witness :
  reachable (game scanned)
  /\ returned (exec AttackNode (typing ["1"; "1"; "1"; "1"; "1"; ""] scanned)) = true
  /\ firewall_down "000000000005" (game attacked) = true
  /\ flags (game attacked) = alter (fun _ => true) "000000000005" (flags (game scanned)).
Proof.
  assert (H : reachable (game scanned)) by from_scanned.
  assert (Hrun : exec AttackNode (typing ["1"; "1"; "1"; "1"; "1"; ""] scanned)
                 = Ok tt (mkSys (world attacked) (game attacked)))
    by (apply returned_run; vm_compute; reflexivity).
  assert (Hdown : firewall_down "000000000005" (game attacked) = true)
    by (vm_compute; reflexivity).
  split; [exact H|]. split; [vm_compute; reflexivity|]. split; [exact Hdown|].
  pose proof (compromised_flag_changes AttackNode _ _ _ _ H Hrun) as Hfl.
  cbv zeta in Hfl.
  change (PlayerState.current_location (GameState.player (game scanned)))
    with "000000000005" in Hfl.
  rewrite Hdown in Hfl. exact Hfl.
Defined.

(** The claim as first stated fails on the rivals' turn: in the new
    game, both nodes end up compromised with their firewalls intact, and
    neither is among the player's compromised nodes.  It fails also the
    other way round: three phished employees bring the firewall of the
    first node to -10 and its flag stays down. *)
Lemma rival_compromise_counterexample :
  reachable (game opening)
  /\ returned (exec BackgroundTick opening) = true
  /\ flags (game opening) = {["000000000005" := false; "000000000000" := false]}
  /\ flags (game rivals_moved) = {["000000000005" := true; "000000000000" := true]}
  /\ firewalls (game rivals_moved) = {["000000000005" := 80; "000000000000" := 240]}
  /\ PlayerState.compromised_nodes (GameState.player (game rivals_moved)) = ∅
  /\ flags (game phished) = {["000000000005" := false; "000000000000" := false]}
  /\ firewalls (game phished) = {["000000000005" := -10; "000000000000" := 240]}.
Proof.
  split; [from_opening|].
  split_and!; vm_compute; reflexivity.
Qed.
(** ** More on reachable states *)

Lemma attacked_reachable : reachable (game attacked).
Proof. from_attacked. Qed.

Lemma upgraded_reachable : reachable (game upgraded).
Proof.
  do 6 (apply reachable_next; [|vm_compute; reflexivity]).
  apply attacked_reachable.
Qed.

(** X1.  In every reachable state the player's level is at least 1, the
    number of proxy chains is not negative, and each of the seven skills
    lies between 1 and [MAX_SKILL_LEVEL]. *)
Theorem level_and_skills_in_range g :
  reachable g ->
  let p := GameState.player g in
  1 <= PlayerState.level p
  /\ 0 <= PlayerState.proxy_chains p
  /\ forall name, name ∈ skill_names ->
       1 <= getattr_skill name (PlayerState.skills p) <= GameConstants.MAX_SKILL_LEVEL.
Proof.
  intros Hg. destruct (reachable_sound g Hg) as (_ & _ & _ & _ & _ & _ & _ & _ & Hl & Hp & Hs & _).
  split_and!; [done | done |]. intros name Hname.
  unfold skills_sound in Hs. rewrite Forall_forall in Hs. by apply Hs.
Qed.

Lemma level_and_skills_in_range_witness :
  reachable (game upgraded)
  /\ 1 <= PlayerState.level (GameState.player (game upgraded))
  /\ 0 <= PlayerState.proxy_chains (GameState.player (game upgraded))
  /\ forall name, name ∈ skill_names ->
       1 <= getattr_skill name (PlayerState.skills (GameState.player (game upgraded)))
         <= GameConstants.MAX_SKILL_LEVEL.
Proof.
  split; [exact upgraded_reachable|].
  exact (level_and_skills_in_range (game upgraded) upgraded_reachable).
Defined.

(** X2.  Whatever the player buys, [hardware["CPU"]] and
    [hardware["RAM"]] stay the components the game starts with: a
    component bought in [browse_hardware] is stored under the capitalised
    name of its type, so a processor goes under "Cpu" and a memory under
    "Ram", which nothing reads.  [hardware["Storage"]] and
    [hardware["Cooling"]] are always present. *)
Theorem cpu_and_ram_stay_stock g :
  reachable g ->
  let hw := PlayerState.hardware (GameState.player g) in
  hw !! "CPU" = Some (HardwareComponent.mk "Basic Processor" CPU 1 0 1.0%float "Standard 4-core CPU")
  /\ hw !! "RAM" = Some (HardwareComponent.mk "8GB Memory" RAM 1 0 1.0%float "Standard DDR3 RAM")
  /\ is_Some (hw !! "Storage")
  /\ is_Some (hw !! "Cooling").
Proof.
  intros Hg.
  destruct (reachable_sound g Hg) as (_ & _ & _ & _ & _ & _ & _ & _ & _ & _ & _ & Hhw & _).
  exact Hhw.
Qed.

Lemma cpu_and_ram_stay_stock_witness :
  reachable (game upgraded)
  /\ (HardwareComponent.name <$> PlayerState.hardware (GameState.player (game upgraded)) !! "Ram")
     = Some "32GB DDR5 RAM"
  /\ (let hw := PlayerState.hardware (GameState.player (game upgraded)) in
      hw !! "CPU"
      = Some (HardwareComponent.mk "Basic Processor" CPU 1 0 1.0%float "Standard 4-core CPU")
      /\ hw !! "RAM"
         = Some (HardwareComponent.mk "8GB Memory" RAM 1 0 1.0%float "Standard DDR3 RAM")
      /\ is_Some (hw !! "Storage")
      /\ is_Some (hw !! "Cooling")).
Proof.
  split; [exact upgraded_reachable|]. split; [vm_compute; reflexivity|].
  exact (cpu_and_ram_stay_stock (game upgraded) upgraded_reachable).
Defined.

(** X3.  In every reachable state the bounce chain runs through nodes
    the player has compromised. *)
Theorem bounce_chain_compromised g :
  reachable g ->
  forall uid, uid ∈ PlayerState.bounced_nodes (GameState.player g) ->
    uid ∈ PlayerState.compromised_nodes (GameState.player g).
Proof.
  intros Hg.
  destruct (reachable_sound g Hg) as (_ & _ & _ & _ & _ & _ & _ & _ & _ & _ & _ & _ & Hb & _).
  rewrite Forall_forall in Hb. exact Hb.
Qed.

Lemma bounce_chain_compromised_witness :
  reachable (game upgraded)
  /\ PlayerState.bounced_nodes (GameState.player (game upgraded)) = ["000000000005"]
  /\ forall uid, uid ∈ PlayerState.bounced_nodes (GameState.player (game upgraded)) ->
       uid ∈ PlayerState.compromised_nodes (GameState.player (game upgraded)).
Proof.
  split; [exact upgraded_reachable|]. split; [vm_compute; reflexivity|].
  exact (bounce_chain_compromised (game upgraded) upgraded_reachable).
Defined.


(** X4.  In every reachable state each node the player has compromised
    exists in the network and carries the [compromised] flag. *)
Theorem compromised_nodes_flagged g :
  reachable g ->
  forall uid, uid ∈ PlayerState.compromised_nodes (GameState.player g) ->
    exists n, GameState.nodes g !! uid = Some n /\ NetworkNode.compromised n = true.
Proof.
  intros Hg uid Hin.
  destruct (reachable_sound g Hg) as (_ & _ & _ & _ & _ & _ & _ & _ & _ & _ & _ & _ & _ & Hm).
  specialize (Hm uid Hin). unfold flags in Hm. cbv beta in Hm. rewrite lookup_fmap in Hm.
  destruct (GameState.nodes g !! uid) as [n|]; [|done].
  exists n. split; [done|]. by injection Hm.
Qed.

Lemma compromised_nodes_flagged_witness :
  reachable (game upgraded)
  /\ "000000000005" ∈ PlayerState.compromised_nodes (GameState.player (game upgraded))
  /\ exists n, GameState.nodes (game upgraded) !! "000000000005" = Some n
               /\ NetworkNode.compromised n = true.
Proof.
  assert (Hin : "000000000005" ∈ PlayerState.compromised_nodes (GameState.player (game upgraded)))
    by (apply (bool_decide_eq_true_1 _); vm_compute; reflexivity).
  split; [exact upgraded_reachable|]. split; [exact Hin|].
  exact (compromised_nodes_flagged (game upgraded) upgraded_reachable "000000000005" Hin).
Defined.


(** X5.  In every reachable state a node with a backdoor is a
    compromised node: [install_backdoor] refuses any other. *)
Theorem backdoor_only_on_compromised g :
  reachable g ->
  forall uid n, GameState.nodes g !! uid = Some n ->
    NetworkNode.backdoor_installed n = true -> NetworkNode.compromised n = true.
Proof.
  intros Hg uid n Hn.
  destruct (reachable_sound g Hg) as (_ & _ & _ & Hnodes & _).
  by destruct (Hnodes uid n Hn) as (_ & _ & _ & _ & Hbd).
Qed.

Lemma backdoor_only_on_compromised_witness :
  reachable (game upgraded)
  /\ exists n, GameState.nodes (game upgraded) !! "000000000005" = Some n
               /\ NetworkNode.backdoor_installed n = true
               /\ NetworkNode.compromised n = true.
Proof.
  split; [exact upgraded_reachable|].
  destruct (GameState.nodes (game upgraded) !! "000000000005") as [n|] eqn:Hn;
    [|vm_compute in Hn; discriminate].
  assert (Hbd : NetworkNode.backdoor_installed n = true).
  { apply (f_equal (fmap NetworkNode.backdoor_installed)) in Hn.
    vm_compute in Hn. by injection Hn. }
  exists n. split; [done|]. split; [exact Hbd|].
  exact (backdoor_only_on_compromised (game upgraded) upgraded_reachable "000000000005" n Hn Hbd).
Defined.


(** X6.  In every reachable state each node is stored under its own
    uid, which is not the empty string, and the value of its data and of
    each piece of its encrypted traffic is not negative. *)
Theorem nodes_keyed_by_uid g :
  reachable g ->
  forall uid n, GameState.nodes g !! uid = Some n ->
    NetworkNode.uid n = uid /\ uid <> ""
    /\ 0 <= NetworkNode.data_value n
    /\ forall e, e ∈ NetworkNode.encrypted_traffic n -> 0 <= EncryptedData.value e.
Proof.
  intros Hg uid n Hn.
  destruct (reachable_sound g Hg) as (_ & _ & _ & Hnodes & _).
  destruct (Hnodes uid n Hn) as (Hu & Hne & Hdv & Htr & _).
  rewrite Forall_forall in Htr. by split_and!.
Qed.

Lemma nodes_keyed_by_uid_witness :
  reachable (game upgraded)
  /\ exists n, GameState.nodes (game upgraded) !! "000000000000" = Some n
               /\ NetworkNode.uid n = "000000000000" /\ "000000000000" <> ""
               /\ 0 <= NetworkNode.data_value n
               /\ forall e, e ∈ NetworkNode.encrypted_traffic n -> 0 <= EncryptedData.value e.
Proof.
  split; [exact upgraded_reachable|].
  destruct (GameState.nodes (game upgraded) !! "000000000000") as [n|] eqn:Hn;
    [|vm_compute in Hn; discriminate].
  exists n. split; [done|].
  exact (nodes_keyed_by_uid (game upgraded) upgraded_reachable "000000000000" n Hn).
Defined.


(** X7.  In every reachable state the player is at a discovered node,
    or nowhere: [current_location] is the empty string only when the
    generated network had no node of security rating 2 or less to start
    at.  When the location names a node, that node is discovered. *)
Theorem location_is_discovered g :
  reachable g ->
  let p := GameState.player g in
  (PlayerState.current_location p ∈ PlayerState.discovered_nodes p
   \/ PlayerState.current_location p = "")
  /\ (is_Some (GameState.nodes g !! PlayerState.current_location p) ->
      PlayerState.current_location p ∈ PlayerState.discovered_nodes p).
Proof.
  intros Hg p. pose proof (reachable_sound g Hg) as Hs.
  split; [by destruct Hs as (_ & _ & Hh & _)|].
  intros [n Hn]. by apply (sound_home g n).
Qed.

Lemma location_is_discovered_witness :
  reachable (game upgraded)
  /\ PlayerState.current_location (GameState.player (game upgraded)) = "000000000005"
  /\ (let p := GameState.player (game upgraded) in
      (PlayerState.current_location p ∈ PlayerState.discovered_nodes p
       \/ PlayerState.current_location p = "")
      /\ (is_Some (GameState.nodes (game upgraded) !! PlayerState.current_location p) ->
          PlayerState.current_location p ∈ PlayerState.discovered_nodes p)).
Proof.
  split; [exact upgraded_reachable|]. split; [vm_compute; reflexivity|].
  exact (location_is_discovered (game upgraded) upgraded_reachable).
Defined.


(** X8.  In every reachable state each contract on the board pays a
    reward that is not negative. *)
Theorem contract_rewards_nonneg g :
  reachable g ->
  forall c, c ∈ GameState.contracts g -> 0 <= Contract.reward c.
Proof.
  intros Hg.
  destruct (reachable_sound g Hg) as (_ & _ & _ & _ & Hc & _).
  rewrite Forall_forall in Hc. exact Hc.
Qed.

Lemma contract_rewards_nonneg_witness :
  reachable (game upgraded)
  /\ length (GameState.contracts (game upgraded)) = 5%nat
  /\ forall c, c ∈ GameState.contracts (game upgraded) -> 0 <= Contract.reward c.
Proof.
  split; [exact upgraded_reachable|]. split; [vm_compute; reflexivity|].
  exact (contract_rewards_nonneg (game upgraded) upgraded_reachable).
Defined.

(** ** What no operation undoes *)

Lemma exec_keeps_discovered c g :
  Sound g ->
  wp (exec c)
     (fun _ g' => PlayerState.discovered_nodes (GameState.player g)
                  ⊆ PlayerState.discovered_nodes (GameState.player g'))
     (fun _ => True) g.
Proof.
  intros Hs.
  set (D := PlayerState.discovered_nodes (GameState.player g)).
  assert (HS : Safe D (flags g) None g) by (by split_and!).
  destruct c;
    try (eapply wp_mono;
         [apply (tame D (flags g) g HS) | by intros ? g' (_ & Hd & _) | done]).
  - eapply wp_mono; [apply (background_tick_rivalry D (flags g) (firewalls g)) | |].
    + exists (flags g). split; [by split_and! | apply above_refl].
    + by intros ? g' (fl' & (_ & Hd & _) & _).
    + done.
  - simpl. unfold at_current_node, current_location.
    apply wp_bind, wp_bind, wp_get_player, wp_ret.
    apply wp_bind, wp_get_node; [intros n Hn | done].
    eapply wp_mono;
      [apply (attack_node_flags _ D (flags g) g HS); by apply (sound_home g n) | |].
    + by intros ? g' (_ & Hd & _).
    + done.
Qed.

Lemma exec_raises_flags c g :
  Sound g -> wp (exec c) (fun _ g' => above (flags g) (flags g')) (fun _ => True) g.
Proof.
  intros Hs.
  destruct c;
    try (eapply wp_mono;
         [apply (tame_flags _ g); [simpl; apply _ | done]
         | intros ? g' (_ & ->); apply above_refl | done]).
  - eapply wp_mono; [by apply background_tick_flags | by intros ? g' (_ & ? & _) | done].
  - eapply wp_mono; [by apply attack_here_flags | | done].
    intros ? g' (_ & ->). cbv zeta.
    destruct (firewall_down _ _); [apply above_raise|]; apply above_refl.
Qed.

(** X9.  No operation makes the player forget a node: after an
    operation that returns, every node that was discovered before is
    discovered still. *)
Theorem discovered_nodes_only_grow c w g w' g' :
  reachable g ->
  exec c (mkSys w g) = Ok tt (mkSys w' g') ->
  PlayerState.discovered_nodes (GameState.player g)
  ⊆ PlayerState.discovered_nodes (GameState.player g').
Proof.
  intros Hg Hrun.
  exact (wp_ok _ _ _ _ _ _ _ _ (exec_keeps_discovered c g (reachable_sound g Hg)) Hrun).
Qed.

Lemma discovered_nodes_only_grow_witness :
  reachable (game scanned)
  /\ returned (exec AttackNode (typing ["1"; "1"; "1"; "1"; "1"; ""] scanned)) = true
  /\ PlayerState.discovered_nodes (GameState.player (game scanned)) = {["000000000005"]}
  /\ PlayerState.discovered_nodes (GameState.player (game attacked))
     = {["000000000005"; "000000000000"]}
  /\ PlayerState.discovered_nodes (GameState.player (game scanned))
     ⊆ PlayerState.discovered_nodes (GameState.player (game attacked)).
Proof.
  assert (H : reachable (game scanned)) by from_scanned.
  assert (Hr : returned (exec AttackNode (typing ["1"; "1"; "1"; "1"; "1"; ""] scanned)) = true)
    by (vm_compute; reflexivity).
  split; [exact H|]. split; [exact Hr|].
  split; [vm_compute; reflexivity|]. split; [vm_compute; reflexivity|].
  exact (discovered_nodes_only_grow AttackNode _ _ _ _ H (returned_run _ Hr)).
Defined.

(** X10.  No operation adds a node to the network or removes one, and
    no operation clears a [compromised] flag: a node that was
    compromised before an operation is compromised after it. *)
Theorem compromised_flag_never_cleared c w g w' g' :
  reachable g ->
  exec c (mkSys w g) = Ok tt (mkSys w' g') ->
  dom (GameState.nodes g') = dom (GameState.nodes g)
  /\ forall uid n, GameState.nodes g !! uid = Some n -> NetworkNode.compromised n = true ->
       exists n', GameState.nodes g' !! uid = Some n' /\ NetworkNode.compromised n' = true.
Proof.
  intros Hg Hrun.
  destruct (wp_ok _ _ _ _ _ _ _ _ (exec_raises_flags c g (reachable_sound g Hg)) Hrun)
    as [Hdom Hup].
  unfold flags in Hdom, Hup. rewrite !dom_fmap_L in Hdom. split; [done|].
  intros uid n Hn Hc. specialize (Hup uid). rewrite !lookup_fmap, Hn in Hup. simpl in Hup.
  rewrite Hc in Hup. specialize (Hup eq_refl).
  destruct (GameState.nodes g' !! uid) as [n'|]; [|done].
  exists n'. split; [done|]. by injection Hup.
Qed.

Lemma compromised_flag_never_cleared_witness :
  reachable (game upgraded)
  /\ returned (exec BackgroundTick (typing [] upgraded)) = true
  /\ dom (GameState.nodes (game (play BackgroundTick [] upgraded)))
     = dom (GameState.nodes (game upgraded))
  /\ forall uid n, GameState.nodes (game upgraded) !! uid = Some n ->
       NetworkNode.compromised n = true ->
       exists n', GameState.nodes (game (play BackgroundTick [] upgraded)) !! uid = Some n'
                  /\ NetworkNode.compromised n' = true.
Proof.
  assert (Hr : returned (exec BackgroundTick (typing [] upgraded)) = true)
    by (vm_compute; reflexivity).
  split; [exact upgraded_reachable|]. split; [exact Hr|].
  exact (compromised_flag_never_cleared BackgroundTick _ _ _ _
           upgraded_reachable (returned_run _ Hr)).
Defined.
(** ** What the purchases and the penalties do *)

(** X11.  [purchase_proxy] reads exactly one line.  At the end of the
    input it raises [EOFError] and changes nothing.  Otherwise it takes
    the price of the next proxy chain, [PROXY_BASE_COST] plus
    [PROXY_COST_INCREMENT] for each chain already owned, and adds one
    chain exactly when the credits cover the price and the line,
    stripped and in lower case, is "y"; on any other answer, and on any
    answer when the credits fall short, the game is unchanged. *)
Theorem purchase_proxy_effect (s : Sys) :
  let p := GameState.player (game s) in
  let cost := GameConstants.PROXY_BASE_COST
              + PlayerState.proxy_chains p * GameConstants.PROXY_COST_INCREMENT in
  match stdin (world s) with
  | [] => purchase_proxy s = Raise Py.EOFError s
  | line :: rest =>
      purchase_proxy s
      = Ok tt
          (mkSys (mkWorld rest (rand (world s)) (clock (world s)))
             (if decide (cost <= PlayerState.credits p /\ Py.lower (Py.strip line) = "y")
              then GameState.with_player
                     (PlayerState.with_proxy_chains (PlayerState.proxy_chains p + 1)
                        (PlayerState.with_credits (PlayerState.credits p - cost) p))
                     (game s)
              else game s))
  end.
Proof.
  intros p cost. destruct s as [[lines r c] g]. subst p cost. cbn [world game stdin rand clock].
  unfold purchase_proxy, mbind, M_bind, get_player. cbn [game world].
  destruct (Z.ltb_spec (PlayerState.credits (GameState.player g))
              (GameConstants.PROXY_BASE_COST
               + PlayerState.proxy_chains (GameState.player g)
                 * GameConstants.PROXY_COST_INCREMENT)) as [Hlt|Hge].
  - unfold input. cbn [world game stdin rand clock]. destruct lines as [|line rest]; [done|].
    rewrite decide_False by lia. done.
  - unfold input. cbn [world game stdin rand clock]. destruct lines as [|line rest]; [done|].
    destruct (String.eqb_spec (Py.lower (Py.strip line)) "y") as [Hy|Hn].
    + rewrite decide_True by done.
      reflexivity.
    + rewrite decide_False by (intros [_ ?]; done). reflexivity.
Qed.

(** X12.  [launder_money_menu] either changes nothing, or takes
    [LAUNDER_COST] from credits that cover it, lowers the identity heat
    by [LAUNDER_IDENTITY_REDUCTION] and the investigation progress by
    [LAUNDER_INVESTIGATION_REDUCTION], neither below zero. *)
Theorem launder_money_effect g :
  let p := GameState.player g in
  wp launder_money_menu
     (fun _ g' =>
        g' = g
        \/ (GameConstants.LAUNDER_COST <= PlayerState.credits p
            /\ g' = GameState.with_player
                      (PlayerState.with_investigation_progress
                         (Float.py_max 0%float
                            (PlayerState.investigation_progress p
                             - fl GameConstants.LAUNDER_INVESTIGATION_REDUCTION)%float)
                         (PlayerState.with_identity_heat
                            (Py.max 0 (PlayerState.identity_heat p
                                       - GameConstants.LAUNDER_IDENTITY_REDUCTION))
                            (PlayerState.with_credits
                               (PlayerState.credits p - GameConstants.LAUNDER_COST) p))) g))
     (fun g' => g' = g) g.
Proof.
  intros p. unfold launder_money_menu. wp_steps; try done; try (by left).
  right. split; [|reflexivity]. apply Z.ltb_ge in Heqb0. exact Heqb0.
Qed.

(** X13.  [browse_tools] either changes nothing, or sells one tool of
    the market that the player does not own yet, whose level requirement
    the player meets and whose cost the credits cover: the cost is taken
    and the tool is added to the inventory. *)
Theorem browse_tools_effect g :
  let p := GameState.player g in
  wp browse_tools
     (fun _ g' =>
        g' = g
        \/ exists tool,
             tool ∈ GameState.black_market_tools g
             /\ existsb (fun t => Tool_same t tool) (PlayerState.inventory p) = false
             /\ Tool.level_requirement tool <= PlayerState.level p
             /\ Tool.cost tool <= PlayerState.credits p
             /\ g' = GameState.with_player
                       (PlayerState.with_inventory (PlayerState.inventory p ++ [tool])
                          (PlayerState.with_credits (PlayerState.credits p - Tool.cost tool) p))
                       g)
     (fun g' => g' = g) g.
Proof.
  intros p. unfold browse_tools. wp_steps; try done; try (by left).
  all: try (split; [apply wp_ret; by left | done]).
  right. exists t. split_and!.
  - by eapply list_elem_of_lookup_2.
  - done.
  - by apply Z.ltb_ge.
  - by apply Z.ltb_ge.
  - reflexivity.
Qed.

(** X14.  [sell_data] either changes nothing, or sells the data of one
    compromised node whose [data_value] is positive: the credits grow
    by that value, the reputation by 5 and the heat by 3, and the node's
    [data_value] becomes 0, so the same data is not sold again. *)
Theorem sell_data_effect g :
  let p := GameState.player g in
  wp sell_data
     (fun _ g' =>
        g' = g
        \/ exists key node,
             key ∈ PlayerState.compromised_nodes p
             /\ GameState.nodes g !! key = Some node
             /\ 0 < NetworkNode.data_value node
             /\ g' = GameState.with_player
                       (PlayerState.with_heat_level (PlayerState.heat_level p + 3)
                          (PlayerState.with_reputation (PlayerState.reputation p + 5)
                             (PlayerState.with_credits
                                (PlayerState.credits p + NetworkNode.data_value node) p)))
                       (GameState.with_nodes
                          (alter (NetworkNode.with_data_value 0) key (GameState.nodes g)) g))
     (fun g' => g' = g) g.
Proof.
  intros p. unfold sell_data.
  apply wp_bind, wp_get_player. apply wp_bind.
  apply (wp_fold_m _ _ (fun acc g' =>
    g' = g
    /\ Forall (fun '(uid, node) =>
                 uid ∈ PlayerState.compromised_nodes p /\ GameState.nodes g !! uid = Some node)
         acc)).
  - split; [done | constructor].
  - intros uid acc g' Hin [-> Hacc].
    apply wp_bind, wp_get_node; [intros n Hn | done].
    apply wp_ret. split; [done|]. apply Forall_app. split; [done|].
    constructor; [|constructor]. split; [by apply elem_of_elements in Hin | done].
  - intros acc g' [-> Hacc].
    destruct acc as [|a acc']; [apply wp_ret; by left|].
    set (compromised_nodes := a :: acc') in *.
    destruct (List.filter _ compromised_nodes) as [|b sellable'] eqn:Hf;
      [apply wp_ret; by left|].
    set (sellable := b :: sellable') in *.
    wp_steps; try done; try (by left).
    all: try (split; [apply wp_ret; by left | done]).
    right.
    match goal with Hl : sellable !! _ = Some (?k, ?n) |- _ =>
      rename Hl into Hsel; rename k into key; rename n into node
    end.
    rewrite <- Hf in Hsel.
    apply list_elem_of_lookup_2, list_elem_of_In, filter_In in Hsel as [Hsel Hpos].
    apply list_elem_of_In in Hsel. rewrite Forall_forall in Hacc.
    destruct (Hacc _ Hsel) as [Hkey Hnode].
    exists key, node. split_and!; [done | done | by apply Z.ltb_lt | reflexivity].
Qed.

Lemma wp_random_randint_ok a b (Q : Z -> GameState.t -> Prop) E g :
  a <= b -> (forall r, a <= r <= b -> Q r g) -> wp (random_randint a b) Q E g.
Proof.
  intros Hab HQ. unfold random_randint.
  destruct (b <? a) eqn:Hba; [apply Z.ltb_lt in Hba; lia|].
  apply wp_bind, wp_draw. intros k. apply wp_ret, HQ.
  pose proof (Z.mod_pos_bound k (b - a + 1) ltac:(lia)). lia.
Qed.

Lemma wp_get_node_ok uid n (Q : NetworkNode.t -> GameState.t -> Prop) E g :
  GameState.nodes g !! uid = Some n -> Q n g -> wp (get_node uid) Q E g.
Proof.
  intros Hn HQ. apply wp_bind, wp_get_game. rewrite Hn. by apply wp_ret.
Qed.

(** X15.  [handle_trace_complete] on a node of the network always
    returns, and charges the player as follows: the heat grows by
    [TRACE_HEAT_INCREASE], the identity heat by
    [TRACE_IDENTITY_HEAT_INCREASE], the credits lose a penalty between
    [TRACE_PENALTY_MIN] and [TRACE_PENALTY_MAX] but do not go below
    zero, and an investigation can start only when the identity heat
    has passed [INVESTIGATION_START_THRESHOLD].  No node is touched. *)
Theorem trace_complete_penalty uid g :
  is_Some (GameState.nodes g !! uid) ->
  let p := GameState.player g in
  wp (handle_trace_complete uid)
     (fun _ g' =>
        let p' := GameState.player g' in
        PlayerState.heat_level p' = PlayerState.heat_level p + GameConstants.TRACE_HEAT_INCREASE
        /\ PlayerState.identity_heat p'
           = PlayerState.identity_heat p + GameConstants.TRACE_IDENTITY_HEAT_INCREASE
        /\ (exists penalty,
              GameConstants.TRACE_PENALTY_MIN <= penalty <= GameConstants.TRACE_PENALTY_MAX
              /\ PlayerState.credits p' = Py.max 0 (PlayerState.credits p - penalty))
        /\ (PlayerState.under_investigation p' = PlayerState.under_investigation p
            \/ (PlayerState.under_investigation p' = true
                /\ GameConstants.INVESTIGATION_START_THRESHOLD < PlayerState.identity_heat p'))
        /\ GameState.nodes g' = GameState.nodes g)
     (fun _ => False) g.
Proof.
  intros [n Hn] p. unfold handle_trace_complete.
  apply wp_bind, wp_modify_player. apply wp_bind, wp_modify_player.
  apply wp_bind, wp_random_randint_ok; [done|]. intros penalty Hp.
  repeat first [ apply (wp_get_node_ok _ n); [proj_simpl; exact Hn|] | wp_step ].
  all: cbv zeta; proj_simpl; split_and!; try done; try (by eexists).
  - right. split; [done|]. apply andb_true_iff in Heqb as [Hgt _].
    by apply Z.gtb_lt in Hgt.
  - by left.
  - by left.
Qed.

Lemma trace_complete_penalty_witness :
  is_Some (GameState.nodes (game attacked) !! "000000000005")
  /\ wp (handle_trace_complete "000000000005")
       (fun _ g' =>
          let p := GameState.player (game attacked) in
          let p' := GameState.player g' in
          PlayerState.heat_level p' = PlayerState.heat_level p + GameConstants.TRACE_HEAT_INCREASE
          /\ PlayerState.identity_heat p'
             = PlayerState.identity_heat p + GameConstants.TRACE_IDENTITY_HEAT_INCREASE
          /\ (exists penalty,
                GameConstants.TRACE_PENALTY_MIN <= penalty <= GameConstants.TRACE_PENALTY_MAX
                /\ PlayerState.credits p' = Py.max 0 (PlayerState.credits p - penalty))
          /\ (PlayerState.under_investigation p' = PlayerState.under_investigation p
              \/ (PlayerState.under_investigation p' = true
                  /\ GameConstants.INVESTIGATION_START_THRESHOLD
                     < PlayerState.identity_heat p'))
          /\ GameState.nodes g' = GameState.nodes (game attacked))
       (fun _ => False) (game attacked).
Proof.
  assert (H : is_Some (GameState.nodes (game attacked) !! "000000000005"))
    by (apply (bool_decide_eq_true_1 _); vm_compute; reflexivity).
  split; [exact H|].
  exact (trace_complete_penalty "000000000005" (game attacked) H).
Defined.

Lemma check_level_up_keeps (P : GameState.t -> Prop) :
  (forall g, P g -> P (GameState.with_player (level_up (GameState.player g)) g)) ->
  (forall g choice, P g ->
     P (GameState.with_player
          (PlayerState.with_skills
             (upgrade_skill choice (PlayerState.skills (GameState.player g)))
             (GameState.player g)) g)) ->
  preserves P check_level_up.
Proof.
  intros Hl Hs g HP. unfold check_level_up.
  apply (wp_while_reading _ P); auto.
  intros g' HP'. unfold level_up_turn. wp_steps; try done.
  - by apply (Hs (GameState.with_player (level_up (GameState.player g')) g') (Py.strip line)), Hl.
  - by apply Hl.
Qed.

(** X16.  [compromise_node] on a node of a reachable state: when it
    returns, the node is among the player's compromised nodes and
    carries the flag, every node it is connected to is discovered, and
    the player's credits have not gone down: the data taken and the
    rewards of the contracts completed are not negative. *)
Theorem compromise_node_effect uid n g :
  reachable g ->
  GameState.nodes g !! uid = Some n ->
  wp (compromise_node uid)
     (fun _ g' =>
        let p' := GameState.player g' in
        uid ∈ PlayerState.compromised_nodes p'
        /\ (forall c, c ∈ NetworkNode.connections n -> c ∈ PlayerState.discovered_nodes p')
        /\ PlayerState.credits (GameState.player g) <= PlayerState.credits p'
        /\ (NetworkNode.compromised <$> GameState.nodes g' !! uid) = Some true)
     (fun _ => True) g.
Proof.
  intros Hs%reachable_sound Hn. unfold compromise_node.
  destruct (Hs) as (Hcr & _ & _ & Hnodes & Hcon & _ & Hhw & _).
  destruct (Hnodes uid n Hn) as (Hu & _ & Hdv & _).
  set (K := fun g' : GameState.t =>
    uid ∈ PlayerState.compromised_nodes (GameState.player g')
    /\ PlayerState.credits (GameState.player g) <= PlayerState.credits (GameState.player g')
    /\ (NetworkNode.compromised <$> GameState.nodes g' !! uid) = Some true
    /\ Forall (fun c => 0 <= Contract.reward c) (GameState.contracts g')).
  apply wp_bind, wp_modify_node.
  apply wp_bind, (wp_get_node_ok _ (NetworkNode.with_compromised true n)).
  { proj_simpl. by rewrite lookup_alter_eq, Hn. }
  apply wp_bind, wp_modify_player.
  apply wp_bind, wp_get_hardware; [intros storage Hst | done].
  apply wp_bind, wp_int_of_float; [intros extracted Hex | done].
  assert (0 <= extracted).
  { proj_simpl_in Hex. eapply trunc_mul_sign; [exact Hdv | | exact Hex].
    proj_simpl_in Hst. by apply (Hhw "Storage"). }
  apply wp_bind, wp_modify_player. apply wp_bind, wp_modify_player.
  apply wp_bind, wp_modify_player.
  apply wp_bind.
  apply (wp_for_each_rest _ _ (fun rest g' =>
    K g' /\ forall c, c ∈ NetworkNode.connections n ->
              c ∈ PlayerState.discovered_nodes (GameState.player g') \/ c ∈ rest)).
  - unfold K. proj_simpl. split_and!.
    + rewrite Hu. set_solver.
    + lia.
    + by rewrite lookup_alter_eq, Hn.
    + done.
    + intros c Hc. by right.
  - intros c rest g' (HK & Hrest). apply wp_modify_player. split.
    + done.
    + intros c' Hc'. proj_simpl. destruct (Hrest c' Hc') as [Hd|Hr].
      * left. set_solver.
      * apply elem_of_cons in Hr as [->|Hr]; [left; set_solver | by right].
  - intros g' (HK & Hrest).
    set (L := fun g'' : GameState.t =>
      K g'' /\ forall c, c ∈ NetworkNode.connections n ->
                 c ∈ PlayerState.discovered_nodes (GameState.player g'')).
    assert (HL : L g').
    { split; [done|]. intros c Hc. destruct (Hrest c Hc) as [|Hnil]; [done|].
      by apply elem_of_nil in Hnil. }
    apply wp_bind, wp_get_game.
    apply wp_bind.
    apply (wp_for_enumerate _ _ L); [done | |].
    + intros i contract g'' Hi ((Hin & Hle & Hfl & Hrw) & Hdisc).
      assert (0 <= Contract.reward contract)
        by (destruct HL as ((_ & _ & _ & Hrw') & _); by apply (Forall_lookup_1 _ _ _ _ Hrw' Hi)).
      wp_steps; try done.
      unfold L, K. proj_simpl. split_and!; try done; [lia|].
      apply Forall_alter; [done|]. by intros.
    + intros g'' HL''. apply wp_bind, wp_modify_game.
      apply (wp_call _ _ L); [| done | |done].
      * apply check_level_up_keeps; intros; done.
      * intros _ g3 ((Hin & Hle & Hfl & _) & Hdisc).
        apply wp_bind, wp_input; [intros line|done]. by apply wp_ret.
Qed.

Lemma compromise_node_effect_witness :
  reachable (game scanned)
  /\ exists n,
       GameState.nodes (game scanned) !! "000000000005" = Some n
       /\ NetworkNode.connections n = ["000000000000"]
       /\ wp (compromise_node "000000000005")
            (fun _ g' =>
               let p' := GameState.player g' in
               "000000000005" ∈ PlayerState.compromised_nodes p'
               /\ (forall c, c ∈ NetworkNode.connections n ->
                     c ∈ PlayerState.discovered_nodes p')
               /\ PlayerState.credits (GameState.player (game scanned))
                  <= PlayerState.credits p'
               /\ (NetworkNode.compromised <$> GameState.nodes g' !! "000000000005")
                  = Some true)
            (fun _ => True) (game scanned).
Proof.
  assert (H : reachable (game scanned)) by from_scanned.
  split; [exact H|].
  destruct (GameState.nodes (game scanned) !! "000000000005") as [n|] eqn:Hn;
    [|vm_compute in Hn; discriminate].
  exists n. split; [done|]. split.
  - apply (f_equal (fmap NetworkNode.connections)) in Hn. vm_compute in Hn. by injection Hn.
  - exact (compromise_node_effect "000000000005" n (game scanned) H Hn).
Defined.
(** ** The new game *)

Lemma append_contracts_frame count : forall g,
  map_Forall node_sound (GameState.nodes g) ->
  wp (append_contracts count)
     (fun _ g' =>
        GameState.player g' = GameState.player g /\ GameState.nodes g' = GameState.nodes g
        /\ GameState.rival_hackers g' = GameState.rival_hackers g)
     (fun _ => True) g.
Proof.
  induction count as [|count IH]; intros g Hn; simpl; [by apply wp_ret|].
  apply wp_bind, wp_get_game.
  apply (wp_returns _ _ _ _ _ _ (generate_contract_returns _ _ _ Hn)); [|done].
  intros [c|] _.
  - apply wp_bind, wp_modify_game.
    eapply wp_mono; [apply IH; by proj_simpl | | done].
    intros _ g' (Hp & Hnodes & Hr). by rewrite Hp, Hnodes, Hr.
  - apply wp_bind, wp_ret. by apply IH.
Qed.

(** X17.  What [GameState()] makes, when it returns: the player has
    [STARTING_CREDITS] credits, is at [STARTING_LEVEL] and has
    compromised nothing; every node of the network is untouched, its
    firewall at full strength, which is 80 to 150 points for each point
    of its security rating, itself between 1 and 10; the player has
    discovered exactly the node the game starts at, of security rating
    2 or less, or, when the network has no such node, is nowhere and has
    discovered nothing; three to seven rivals are around. *)
Theorem new_game_state g0 :
  wp GameState__init__
     (fun _ g =>
        let p := GameState.player g in
        PlayerState.credits p = GameConstants.STARTING_CREDITS
        /\ PlayerState.level p = GameConstants.STARTING_LEVEL
        /\ PlayerState.compromised_nodes p = ∅
        /\ map_Forall (fun _ n => pristine n) (GameState.nodes g)
        /\ ((exists n,
               GameState.nodes g !! PlayerState.current_location p = Some n
               /\ NetworkNode.security_rating n <= 2
               /\ PlayerState.discovered_nodes p = {[PlayerState.current_location p]})
            \/ (PlayerState.current_location p = ""
                /\ PlayerState.discovered_nodes p = ∅
                /\ map_Forall (fun _ n => 2 < NetworkNode.security_rating n)
                     (GameState.nodes g)))
        /\ (3 <= length (GameState.rival_hackers g) <= 7)%nat)
     (fun _ => True) g0.
Proof.
  unfold GameState__init__.
  apply wp_bind, wp_tick. intros now. cbv zeta.
  eapply wp_returns; [apply ProceduralNetwork_returns | | done].
  intros [seed nodes] Hmade.
  assert (Hn : map_Forall node_sound nodes) by (intros k n Hk; by destruct (Hmade k n Hk)).
  assert (Hpr : map_Forall (fun _ n => pristine n) nodes)
    by (intros k n Hk; by destruct (Hmade k n Hk)).
  apply wp_bind, wp_random_randint; [intros rc Hrc | done].
  apply wp_bind.
  apply (wp_repeat_collect _ _ (fun _ => True) (fun g' => True)); [done | | ].
  { intros g' _. eapply wp_mono; [apply (generate_rival_returns _ g') | |]; cbn; done. }
  intros rivals g1 _ Hlen _.
  apply wp_bind, wp_modify_game.
  set (entry_nodes := List.filter _ (node_values nodes)).
  set (Q := fun g : GameState.t =>
    let p := GameState.player g in
    PlayerState.credits p = GameConstants.STARTING_CREDITS
    /\ PlayerState.level p = GameConstants.STARTING_LEVEL
    /\ PlayerState.compromised_nodes p = ∅
    /\ GameState.nodes g = nodes
    /\ ((exists n,
           nodes !! PlayerState.current_location p = Some n
           /\ NetworkNode.security_rating n <= 2
           /\ PlayerState.discovered_nodes p = {[PlayerState.current_location p]})
        \/ (PlayerState.current_location p = ""
            /\ PlayerState.discovered_nodes p = ∅
            /\ map_Forall (fun _ n => 2 < NetworkNode.security_rating n) nodes))
    /\ length (GameState.rival_hackers g) = Z.to_nat rc).
  assert (Htail : forall g, Q g ->
    wp (append_contracts GameConstants.INITIAL_CONTRACTS;;
        g ← get_game;
        exploits ← generate_exploits (PlayerState.level (GameState.player g));
        modify_game (GameState.with_black_market_exploits exploits);;
        hardware ← generate_hardware (PlayerState.level (GameState.player g));
        modify_game (GameState.with_black_market_hardware hardware))
       (fun _ => Q) (fun _ => True) g).
  { intros g (Hc & Hl & Hcomp & Hnodes & Hloc & Hriv).
    apply wp_bind.
    eapply wp_mono; [apply append_contracts_frame; by rewrite Hnodes | | done].
    intros _ g' (Hp & Hnodes' & Hriv').
    assert (HQ : Q g').
    { unfold Q. cbv zeta. rewrite Hp, Hnodes', Hriv'. split_and!; assumption. }
    apply wp_bind, wp_get_game.
    apply wp_bind, wp_bind, wp_random_randint; [intros count Hcount | done].
    eapply wp_mono;
      [apply (repeat_collect_returns _ _ _ (generate_exploit_returns _))
      | | intros ? ->; exact I].
    intros exploits ? [-> _].
    apply wp_bind, wp_modify_game.
    apply (wp_returns _ _ _ _ _ _ (generate_hardware_returns _)); [|exact I].
    intros hardware _. apply wp_modify_game. exact HQ. }
  assert (Hfin : forall g, Q g ->
    let p := GameState.player g in
    PlayerState.credits p = GameConstants.STARTING_CREDITS
    /\ PlayerState.level p = GameConstants.STARTING_LEVEL
    /\ PlayerState.compromised_nodes p = ∅
    /\ map_Forall (fun _ n => pristine n) (GameState.nodes g)
    /\ ((exists n,
           GameState.nodes g !! PlayerState.current_location p = Some n
           /\ NetworkNode.security_rating n <= 2
           /\ PlayerState.discovered_nodes p = {[PlayerState.current_location p]})
        \/ (PlayerState.current_location p = ""
            /\ PlayerState.discovered_nodes p = ∅
            /\ map_Forall (fun _ n => 2 < NetworkNode.security_rating n)
                 (GameState.nodes g)))
    /\ (3 <= length (GameState.rival_hackers g) <= 7)%nat).
  { intros g (Hc & Hl & Hcomp & Hnodes & Hloc & Hriv). cbv zeta.
    rewrite Hnodes. split_and!; try done; lia. }
  destruct entry_nodes as [|e0 es] eqn:Hentry.
  - apply wp_bind, wp_ret.
    eapply wp_mono; [apply Htail | intros ? g; apply Hfin | done].
    unfold Q. proj_simpl. split_and!; try done. right. split_and!; try done.
    intros k n Hk. apply Z.nle_gt. intros Hle.
    assert (Hin : n ∈ List.filter (fun n => NetworkNode.security_rating n <=? 2)
                        (node_values nodes)).
    { apply list_elem_of_In, filter_In. split; [|by apply Z.leb_le].
      apply list_elem_of_In. unfold node_values.
      apply list_elem_of_fmap. exists (k, n). split; [done|].
      by apply elem_of_map_to_list. }
    fold entry_nodes in Hin. rewrite Hentry in Hin. by apply elem_of_nil in Hin.
  - rewrite <- Hentry.
    apply wp_bind, wp_bind, wp_random_choice; [intros start_node Hstart | done].
    apply wp_modify_player.
    eapply wp_mono; [apply Htail | intros ? g; apply Hfin | done].
    unfold Q. proj_simpl. split_and!; try done. left.
    apply list_elem_of_In, filter_In in Hstart as [Hin Hsec].
    apply list_elem_of_In in Hin. unfold node_values in Hin.
    apply list_elem_of_fmap in Hin as ([k n] & -> & Hin).
    apply elem_of_map_to_list in Hin. simpl.
    destruct (Hn k n Hin) as (Hu & _).
    exists n. split_and!.
    + by rewrite Hu.
    + by apply Z.leb_le.
    + unfold initial_player. proj_simpl. set_solver.
Qed.
(** ** World events *)

Lemma expired_indices_snoc l x :
  expired_indices (l ++ [x])
  = expired_indices l ++ (if WorldEvent.duration x <=? 0 then [length l] else []).
Proof.
  unfold expired_indices. rewrite imap_app, List.filter_app, fmap_app. f_equal.
  simpl. rewrite Nat.add_0_r. by destruct (_ <=? _).
Qed.

Lemma pop_all_app {A} (i1 i2 : list nat) (l : list A) :
  pop_all (i1 ++ i2) l = pop_all i1 l ≫= pop_all i2.
Proof.
  revert l. induction i1 as [|i i1 IH]; intros l; simpl; [done|].
  destruct (l !! i); [apply IH | done].
Qed.

Lemma pop_all_expired l : forall t,
  pop_all (rev (expired_indices l)) (l ++ t) = Some (ongoing l ++ t).
Proof.
  induction l as [|x l IH] using rev_ind; intros t; [done|].
  rewrite expired_indices_snoc, rev_app_distr, pop_all_app.
  unfold ongoing. rewrite List.filter_app. simpl.
  destruct (WorldEvent.duration x <=? 0) eqn:Hx.
  - assert (Hpos : (0 <? WorldEvent.duration x) = false) by lia.
    rewrite Hpos, app_nil_r. simpl.
    rewrite <- app_assoc. simpl.
    rewrite list_lookup_middle by done.
    replace (delete (length l) (l ++ x :: t)) with (l ++ t).
    + simpl. apply IH.
    + rewrite delete_middle; done.
  - assert (Hpos : (0 <? WorldEvent.duration x) = true) by lia.
    rewrite Hpos. simpl. rewrite <- !app_assoc. simpl. apply IH.
Qed.

Lemma wp_random_choice_ok {A} (l : list A) (Q : A -> GameState.t -> Prop) E g :
  l <> [] -> (forall x, x ∈ l -> Q x g) -> wp (random_choice l) Q E g.
Proof.
  intros Hl HQ. unfold random_choice, random_index.
  destruct l as [|x0 l']; [done|]. set (l := x0 :: l') in *.
  apply wp_bind. change (length l) with (S (length l')).
  apply wp_bind, wp_draw. intros k. apply wp_ret.
  pose proof (Z.mod_pos_bound k (Z.of_nat (S (length l'))) ltac:(lia)) as Hk.
  destruct (l !! Z.to_nat (k `mod` Z.of_nat (S (length l')))) as [x|] eqn:Hx.
  - apply wp_ret, HQ. by eapply list_elem_of_lookup_2.
  - apply lookup_ge_None in Hx. unfold l in Hx. simpl in Hx. lia.
Qed.

Lemma generate_event_lasts g :
  wp generate_event (fun e g' => g' = g /\ 6 <= WorldEvent.duration e) (fun _ => False) g.
Proof.
  unfold generate_event.
  do 4 (apply wp_bind, wp_random_randint_ok; [done|]; intros ? ?).
  apply wp_random_choice_ok; [done|]. intros e He. split; [done|].
  repeat (apply elem_of_cons in He as [->|He]; [proj_simpl; lia|]).
  by apply elem_of_nil in He.
Qed.

(** X19.  [update_dynamic_events] always returns.  It makes every
    active event one day older and removes those whose duration has
    reached 0, keeping the others in order; when fewer than
    [MAX_ACTIVE_EVENTS] go on, one new event, lasting at least 6 days,
    may be added at the end. *)
Theorem update_dynamic_events_effect g :
  let kept := ongoing (aged (PlayerState.active_events (GameState.player g))) in
  wp update_dynamic_events
     (fun _ g' =>
        let events := PlayerState.active_events (GameState.player g') in
        events = kept
        \/ ((length kept < GameConstants.MAX_ACTIVE_EVENTS)%nat
            /\ exists e, 6 <= WorldEvent.duration e /\ events = kept ++ [e]))
     (fun _ => False) g.
Proof.
  intros kept. unfold update_dynamic_events.
  apply wp_bind, wp_modify_player. apply wp_bind, wp_get_player. cbv zeta. proj_simpl.
  fold (aged (PlayerState.active_events (GameState.player g))).
  set (old := aged (PlayerState.active_events (GameState.player g))) in *.
  apply wp_bind.
  apply (wp_for_each_rest _ _ (fun rest g' =>
           pop_all rest (PlayerState.active_events (GameState.player g')) = Some kept)).
  - proj_simpl. fold (aged (PlayerState.active_events (GameState.player g))). fold old.
    pose proof (pop_all_expired old []) as H. by rewrite !app_nil_r in H.
  - intros idx rest g' Hpop. simpl in Hpop.
    apply wp_bind, wp_get_player.
    destruct (PlayerState.active_events (GameState.player g') !! idx) as [e|]; [|done].
    apply wp_bind, wp_modify_game. apply wp_modify_player. by proj_simpl.
  - intros g' Hpop. simpl in Hpop. injection Hpop as Hkept.
    apply wp_bind, wp_get_player.
    destruct (_ <? _)%nat eqn:Hlen; [|apply wp_ret; by left].
    apply wp_bind, wp_random_random. intros r.
    apply wp_when; [intros _ | by left].
    apply wp_bind. eapply wp_mono; [apply generate_event_lasts | | done].
    intros e ? [-> He]. apply wp_bind, wp_modify_player. apply wp_modify_game.
    proj_simpl. right. rewrite Hkept in *. split; [by apply Nat.ltb_lt in Hlen|].
    by exists e.
Qed.
(** ** The rivals' turn *)

(** X20.  [update_rival_activity] always returns.  It leaves the player
    and the contracts as they are, and a node either as it is or with
    its [compromised] flag raised and nothing else changed; the flag is
    raised only on a node that was not compromised and whose security
    rating is at most the skill level of one of the rivals plus 2. *)
Theorem rivals_turn_effect g :
  wp update_rival_activity
     (fun _ g' =>
        GameState.player g' = GameState.player g
        /\ GameState.contracts g' = GameState.contracts g
        /\ forall uid,
             GameState.nodes g' !! uid = GameState.nodes g !! uid
             \/ exists n r,
                  GameState.nodes g !! uid = Some n
                  /\ GameState.nodes g' !! uid = Some (NetworkNode.with_compromised true n)
                  /\ NetworkNode.compromised n = false
                  /\ r ∈ GameState.rival_hackers g
                  /\ NetworkNode.security_rating n <= RivalHacker.skill_level r + 2)
     (fun _ => False) g.
Proof.
  unfold update_rival_activity. apply wp_bind, wp_get_game.
  set (I := fun g' : GameState.t =>
    GameState.player g' = GameState.player g
    /\ GameState.contracts g' = GameState.contracts g
    /\ forall uid,
         GameState.nodes g' !! uid = GameState.nodes g !! uid
         \/ exists n r,
              GameState.nodes g !! uid = Some n
              /\ GameState.nodes g' !! uid = Some (NetworkNode.with_compromised true n)
              /\ NetworkNode.compromised n = false
              /\ r ∈ GameState.rival_hackers g
              /\ NetworkNode.security_rating n <= RivalHacker.skill_level r + 2).
  apply (wp_for_enumerate _ _ I); [by split_and!; [..|left] | | done].
  intros i rival g' Hi (Hp & Hc & Hnodes).
  apply wp_bind, wp_random_random. intros r.
  apply wp_when; [intros _ | done].
  apply wp_bind, wp_get_game. cbv zeta.
  destruct (List.filter _ (map_to_list (GameState.nodes g'))) as [|a available'] eqn:Hav;
    [by apply wp_ret|].
  rewrite <- Hav.
  apply wp_bind, wp_random_choice_ok; [by rewrite Hav|].
  intros [key target] Hin.
  apply list_elem_of_In, filter_In in Hin as [Hin Hok].
  apply list_elem_of_In, elem_of_map_to_list in Hin.
  apply andb_true_iff in Hok as [Hfresh Hsec].
  apply negb_true_iff in Hfresh. apply Z.leb_le in Hsec.
  apply wp_bind, wp_modify_game. apply wp_bind, wp_tick. intros now.
  apply wp_bind, wp_modify_game. apply wp_bind, wp_random_random. intros r2.
  apply wp_when; [intros _ | by intros _; unfold I; proj_simpl].
  apply wp_bind, wp_modify_node. apply wp_modify_game.
  unfold I. proj_simpl. split_and!; [done | done |].
  intros uid. destruct (decide (uid = key)) as [->|Hne].
  - right. rewrite lookup_alter_eq, Hin. simpl.
    destruct (Hnodes key) as [Hsame|(n & r' & _ & Hflag & _)].
    + exists target, rival. rewrite <- Hsame. split_and!; try done.
      by eapply list_elem_of_lookup_2.
    + rewrite Hin in Hflag. injection Hflag as ->. done.
  - rewrite lookup_alter_ne by done. apply Hnodes.
Qed.
(** ** The connections of the generated network *)

Lemma add_connection_lookup a b nodes na nb i ni' :
  nodes !! a = Some na -> nodes !! b = Some nb ->
  add_connection a b nodes !! i = Some ni' ->
  exists ni,
    nodes !! i = Some ni
    /\ NetworkNode.uid ni' = NetworkNode.uid ni
    /\ forall u, u ∈ NetworkNode.connections ni'
                 <-> u ∈ NetworkNode.connections ni \/ (i = a /\ u = NetworkNode.uid nb).
Proof.
  intros Ha Hb. unfold add_connection. rewrite Ha, Hb.
  case_bool_decide as Hin.
  - intros Hi. exists ni'. split_and!; [done | done |].
    intros u. split; [by left|]. intros [Hu|[-> ->]]; [done|].
    rewrite Ha in Hi. by injection Hi as <-.
  - destruct (decide (i = a)) as [->|Hne].
    + rewrite list_lookup_insert_eq by (by eapply lookup_lt_Some).
      intros [= <-]. exists na. split_and!; [done | done |].
      intros u. proj_simpl. rewrite elem_of_app, list_elem_of_singleton. naive_solver.
    + rewrite list_lookup_insert_ne by done.
      intros Hi. exists ni'. split_and!; [done | done |]. naive_solver.
Qed.

Lemma add_connection_uids a b nodes :
  NetworkNode.uid <$> add_connection a b nodes = NetworkNode.uid <$> nodes.
Proof.
  unfold add_connection.
  destruct (nodes !! a) as [na|] eqn:Ha; [|done].
  destruct (nodes !! b) as [nb|]; [|done].
  case_bool_decide; [done|].
  rewrite list_fmap_insert. proj_simpl.
  apply list_insert_id. by rewrite list_lookup_fmap, Ha.
Qed.

Lemma connect_uids a b nodes :
  NetworkNode.uid <$> connect a b nodes = NetworkNode.uid <$> nodes.
Proof. unfold connect. by rewrite !add_connection_uids. Qed.

Lemma uid_position nodes i j ni nj :
  NoDup (NetworkNode.uid <$> nodes) ->
  nodes !! i = Some ni -> nodes !! j = Some nj ->
  NetworkNode.uid ni = NetworkNode.uid nj -> i = j.
Proof.
  intros Hnd Hi Hj Hu.
  apply (NoDup_lookup _ i j (NetworkNode.uid ni) Hnd); rewrite list_lookup_fmap.
  - by rewrite Hi.
  - by rewrite Hj, Hu.
Qed.

Lemma connect_mutual a b nodes :
  NoDup (NetworkNode.uid <$> nodes) -> mutual nodes -> mutual (connect a b nodes).
Proof.
  intros Hnd Hm. unfold connect.
  destruct (nodes !! a) as [na|] eqn:Ha;
    [|unfold add_connection at 2; rewrite Ha; unfold add_connection;
      destruct (nodes !! b); by rewrite ?Ha].
  destruct (nodes !! b) as [nb|] eqn:Hb;
    [|unfold add_connection at 2; rewrite Ha, Hb; unfold add_connection; by rewrite Hb].
  set (nodes1 := add_connection a b nodes).
  assert (Hb1 : exists nb1, nodes1 !! b = Some nb1).
  { apply lookup_lt_is_Some. rewrite <- (length_fmap NetworkNode.uid).
    unfold nodes1. rewrite add_connection_uids, length_fmap. by eapply lookup_lt_Some. }
  assert (Ha1 : exists na1, nodes1 !! a = Some na1).
  { apply lookup_lt_is_Some. rewrite <- (length_fmap NetworkNode.uid).
    unfold nodes1. rewrite add_connection_uids, length_fmap. by eapply lookup_lt_Some. }
  destruct Hb1 as [nb1 Hb1], Ha1 as [na1 Ha1].
  destruct (add_connection_lookup a b nodes na nb a na1 Ha Hb Ha1) as (na' & Ha' & Hua & _).
  rewrite Ha in Ha'. injection Ha' as <-.
  assert (Hch : forall i ni2, add_connection b a nodes1 !! i = Some ni2 ->
            exists ni, nodes !! i = Some ni
              /\ NetworkNode.uid ni2 = NetworkNode.uid ni
              /\ forall u, u ∈ NetworkNode.connections ni2
                   <-> u ∈ NetworkNode.connections ni
                       \/ (i = a /\ u = NetworkNode.uid nb)
                       \/ (i = b /\ u = NetworkNode.uid na)).
  { intros i ni2 Hi2.
    destruct (add_connection_lookup b a nodes1 nb1 na1 i ni2 Hb1 Ha1 Hi2)
      as (ni1 & Hi1 & Hu21 & Hc21).
    destruct (add_connection_lookup a b nodes na nb i ni1 Ha Hb Hi1)
      as (ni & Hi & Hu1 & Hc1).
    exists ni. split_and!; [done | congruence |].
    intros u. rewrite Hc21, Hc1, Hua. naive_solver. }
  intros i j ni2 nj2 Hi2 Hj2 Hin.
  destruct (Hch i ni2 Hi2) as (ni & Hi & Hui & Hci).
  destruct (Hch j nj2 Hj2) as (nj & Hj & Huj & Hcj).
  rewrite Hui, Hcj. rewrite Huj, Hci in Hin.
  destruct Hin as [Hin|[[-> Hu]|[-> Hu]]].
  - left. by apply (Hm i j ni nj).
  - right. right. rewrite Ha in Hi. injection Hi as <-. split; [|done].
    by apply (uid_position nodes j b nj nb).
  - right. left. rewrite Hb in Hi. injection Hi as <-. split; [|done].
    by apply (uid_position nodes j a nj na).
Qed.

(** X21.  The connections that [_establish_connections] makes go both
    ways: on nodes with distinct uids whose connections are mutual, as
    they are when none has any, what it returns are the same nodes, in
    the same order, with mutual connections. *)
Theorem connections_are_mutual nodes :
  NoDup (NetworkNode.uid <$> nodes) ->
  mutual nodes ->
  returns (_establish_connections nodes)
    (fun nodes' => NetworkNode.uid <$> nodes' = NetworkNode.uid <$> nodes /\ mutual nodes').
Proof.
  intros Hnd Hm.
  apply (_establish_connections_returns
           (fun nodes' => NetworkNode.uid <$> nodes' = NetworkNode.uid <$> nodes
                          /\ mutual nodes')); [|done].
  intros a b nodes' [Hu Hm']. split.
  - by rewrite connect_uids.
  - apply connect_mutual; [by rewrite Hu | done].
Qed.

Lemma connections_are_mutual_witness :
  NoDup (NetworkNode.uid <$> [scenario_node; second_node])
  /\ mutual [scenario_node; second_node]
  /\ returns (_establish_connections [scenario_node; second_node])
       (fun nodes' =>
          NetworkNode.uid <$> nodes' = NetworkNode.uid <$> [scenario_node; second_node]
          /\ mutual nodes').
Proof.
  assert (Hnd : NoDup (NetworkNode.uid <$> [scenario_node; second_node])).
  { apply (bool_decide_eq_true_1 _). vm_compute. reflexivity. }
  assert (Hm : mutual [scenario_node; second_node]).
  { intros a b na nb Ha Hb Hin.
    destruct a as [|[|a]]; simpl in Ha; [| |done]; injection Ha as <-;
      by apply elem_of_nil in Hin. }
  split; [exact Hnd|]. split; [exact Hm|].
  exact (connections_are_mutual [scenario_node; second_node] Hnd Hm).
Defined.
(** ** More operations *)

Lemma wp_try_except_any {A} (m handler : M A) Q E g :
  wp m Q (fun g' => wp handler Q E g') g ->
  wp (try_except m any_exception handler) Q E g.
Proof.
  intros H w. specialize (H w). unfold try_except.
  destruct (m (mkSys w g)) as [a s'|e [w' g']]; [exact H|]. apply H.
Qed.

Lemma wp_get_hardware_ok key h (Q : HardwareComponent.t -> GameState.t -> Prop) E g :
  PlayerState.hardware (GameState.player g) !! key = Some h -> Q h g ->
  wp (get_hardware key) Q E g.
Proof.
  intros Hh HQ. unfold get_hardware. apply wp_bind, wp_get_player. rewrite Hh.
  by apply wp_ret.
Qed.

(** X22.  [run_hacking_minigame] always gives a verdict and never
    changes the game, provided [hardware["RAM"]] exists, as it does in
    every reachable state: whatever goes wrong at the prompt, the end of
    the input included, is caught and counts as a failed bypass. *)
Theorem minigame_always_answers difficulty g :
  is_Some (PlayerState.hardware (GameState.player g) !! "RAM") ->
  wp (run_hacking_minigame difficulty) (fun _ g' => g' = g) (fun _ => False) g.
Proof.
  intros [ram Hram]. unfold run_hacking_minigame.
  do 2 (apply wp_bind, wp_random_randint_ok; [done|]; intros ? ?).
  apply wp_bind, wp_random_choice_ok; [done|]. intros op Hop.
  apply wp_bind, wp_time_time. intros start_time.
  apply wp_bind, (wp_get_hardware_ok _ ram); [done|].
  apply wp_try_except_any. wp_steps; try done.
  all: by apply wp_ret.
Qed.

Lemma minigame_always_answers_witness :
  is_Some (PlayerState.hardware (GameState.player (game attacked)) !! "RAM")
  /\ wp (run_hacking_minigame 0.5%float) (fun _ g' => g' = game attacked) (fun _ => False)
       (game attacked).
Proof.
  assert (H : is_Some (PlayerState.hardware (GameState.player (game attacked)) !! "RAM"))
    by (apply (bool_decide_eq_true_1 _); vm_compute; reflexivity).
  split; [exact H|].
  exact (minigame_always_answers 0.5%float (game attacked) H).
Defined.

(** X23.  [hack_rival_menu] either changes nothing, or turns one rival
    hostile, and then either pays 500 credits for each point of the
    rival's skill level or, when the attempt fails, costs 10 points of
    heat; at the end of the input the state is unchanged. *)
Theorem hack_rival_effect g :
  let p := GameState.player g in
  wp hack_rival_menu
     (fun _ g' =>
        g' = g
        \/ exists i rival,
             GameState.rival_hackers g !! i = Some rival
             /\ (i < 5)%nat
             /\ let rivals' := alter (RivalHacker.with_hostile true) i (GameState.rival_hackers g) in
                g' = GameState.with_rival_hackers rivals'
                       (GameState.with_player
                          (PlayerState.with_credits
                             (PlayerState.credits p + RivalHacker.skill_level rival * 500) p) g)
                \/ g' = GameState.with_rival_hackers rivals'
                          (GameState.with_player
                             (PlayerState.with_heat_level (PlayerState.heat_level p + 10) p) g))
     (fun g' => g' = g) g.
Proof.
  intros p. unfold hack_rival_menu.
  apply wp_bind, wp_input; [intros line | done].
  apply wp_try_except_any. wp_steps; try done; try (by apply wp_ret; left); try (by left).
  - right. exists (Z.to_nat (n - 1)), t. split_and!; [done | lia | by left].
  - right. exists (Z.to_nat (n - 1)), t. split_and!; [done | lia | by right].
Qed.

(** The power of a new botnet is always defined: for a management skill
    of 1 to 10 and a base size of 50 to 200 the product converted by
    [int] is finite. *)
Lemma botnet_power_defined (management base_size : Z) :
  1 <= management <= GameConstants.MAX_SKILL_LEVEL ->
  GameConstants.BOTNET_BASE_SIZE_MIN <= base_size <= GameConstants.BOTNET_BASE_SIZE_MAX ->
  is_Some (Float.trunc
             (fl (base_size + management * GameConstants.BOTNET_SIZE_PER_SKILL)
              * (GameConstants.BOTNET_BASE_QUALITY
                 + fl management * GameConstants.BOTNET_QUALITY_PER_SKILL) * 0.5)%float).
Proof.
  intros Hm Hb.
  assert (Hall : Forall (fun m => Forall (fun b =>
            is_Some (Float.trunc
                       (fl (b + m * GameConstants.BOTNET_SIZE_PER_SKILL)
                        * (GameConstants.BOTNET_BASE_QUALITY
                           + fl m * GameConstants.BOTNET_QUALITY_PER_SKILL) * 0.5)%float))
            (seqZ 50 151)) (seqZ 1 10)).
  { apply (bool_decide_eq_true_1 _). vm_compute. reflexivity. }
  rewrite Forall_forall in Hall.
  specialize (Hall management). rewrite Forall_forall in Hall. apply Hall.
  - apply elem_of_seqZ. unfold GameConstants.MAX_SKILL_LEVEL in Hm. lia.
  - apply elem_of_seqZ.
    unfold GameConstants.BOTNET_BASE_SIZE_MIN, GameConstants.BOTNET_BASE_SIZE_MAX in Hb. lia.
Qed.

(** X24.  In a reachable state [build_botnet] never raises.  With credits
    below [BOTNET_BUILD_COST] it changes nothing; otherwise it always
    builds: it takes [BOTNET_BUILD_COST] and adds one botnet at the end
    of the list, of 50 to 200 nodes plus 20 for each point of botnet
    management, of quality 0.5 plus 0.05 for each point, with the power
    [int(size * quality * 0.5)], a maintenance cost of twice its size
    and no detected node. *)
Theorem build_botnet_effect g :
  reachable g ->
  let p := GameState.player g in
  let management := PlayerSkills.botnet_management (PlayerState.skills p) in
  wp build_botnet
     (fun _ g' =>
        if PlayerState.credits p <? GameConstants.BOTNET_BUILD_COST then g' = g
        else exists botnet,
               (GameConstants.BOTNET_BASE_SIZE_MIN
                <= Botnet.size botnet - management * GameConstants.BOTNET_SIZE_PER_SKILL
                <= GameConstants.BOTNET_BASE_SIZE_MAX)
               /\ Botnet.quality botnet
                  = (GameConstants.BOTNET_BASE_QUALITY
                     + fl management * GameConstants.BOTNET_QUALITY_PER_SKILL)%float
               /\ Float.trunc (fl (Botnet.size botnet) * Botnet.quality botnet * 0.5)%float
                  = Some (Botnet.ddos_power botnet)
               /\ Botnet.maintenance_cost botnet = Botnet.size botnet * 2
               /\ Botnet.detected_nodes botnet = 0
               /\ g' = GameState.with_player
                         (PlayerState.with_credits
                            (PlayerState.credits p - GameConstants.BOTNET_BUILD_COST)
                            (PlayerState.with_botnets (PlayerState.botnets p ++ [botnet]) p))
                         g)
     (fun _ => False) g.
Proof.
  intros Hg p management.
  destruct (reachable_sound g Hg) as (_ & _ & _ & _ & _ & _ & _ & _ & _ & _ & Hs & _).
  assert (Hm : 1 <= management <= GameConstants.MAX_SKILL_LEVEL).
  { unfold skills_sound in Hs. rewrite Forall_forall in Hs.
    apply (Hs "botnet_management"). set_solver. }
  unfold build_botnet. apply wp_bind, wp_get_player.
  fold p. destruct (PlayerState.credits p <? GameConstants.BOTNET_BUILD_COST) eqn:Hc.
  { by apply wp_ret. }
  apply wp_bind, wp_random_randint_ok; [done|]. intros base_size Hb.
  fold management.
  destruct (botnet_power_defined management base_size Hm Hb) as [power Hpower].
  apply wp_bind. unfold int_of_float. rewrite Hpower. apply wp_ret.
  wp_steps.
  eexists. split_and!; [| | | | | |reflexivity]; proj_simpl;
    [lia | lia | reflexivity | exact Hpower | reflexivity | reflexivity].
Qed.

(** The funded state of the play-through is reachable. *)
Lemma funded_reachable : reachable (game funded).
Proof.
  do 5 (apply reachable_next; [|vm_compute; reflexivity]).
  apply attacked_reachable.
Qed.

Lemma build_botnet_effect_witness :
  reachable (game funded)
  /\ (PlayerState.credits (GameState.player (game funded))
      <? GameConstants.BOTNET_BUILD_COST) = false
  /\ let p := GameState.player (game funded) in
     let management := PlayerSkills.botnet_management (PlayerState.skills p) in
     wp build_botnet
       (fun _ g' =>
          if PlayerState.credits p <? GameConstants.BOTNET_BUILD_COST then g' = game funded
          else exists botnet,
                 (GameConstants.BOTNET_BASE_SIZE_MIN
                  <= Botnet.size botnet - management * GameConstants.BOTNET_SIZE_PER_SKILL
                  <= GameConstants.BOTNET_BASE_SIZE_MAX)
                 /\ Botnet.quality botnet
                    = (GameConstants.BOTNET_BASE_QUALITY
                       + fl management * GameConstants.BOTNET_QUALITY_PER_SKILL)%float
                 /\ Float.trunc (fl (Botnet.size botnet) * Botnet.quality botnet * 0.5)%float
                    = Some (Botnet.ddos_power botnet)
                 /\ Botnet.maintenance_cost botnet = Botnet.size botnet * 2
                 /\ Botnet.detected_nodes botnet = 0
                 /\ g' = GameState.with_player
                           (PlayerState.with_credits
                              (PlayerState.credits p - GameConstants.BOTNET_BUILD_COST)
                              (PlayerState.with_botnets (PlayerState.botnets p ++ [botnet]) p))
                           (game funded))
       (fun _ => False) (game funded).
Proof.
  split; [exact funded_reachable|]. split; [vm_compute; reflexivity|].
  exact (build_botnet_effect (game funded) funded_reachable).
Defined.


(** ** Invalid selections in an attack session *)

Lemma attack_menu_invalid (uid : string) (s : Sys) (node : NetworkNode.t) (line : string)
    (rest : list string) :
  stdin (world s) = line :: rest ->
  GameState.nodes (game s) !! uid = Some node ->
  NetworkNode.discovered_vulns node <> ∅ ->
  invalid_selection (Z.of_nat (length (vulns_list_of node))) line ->
  attack_menu uid s = Ok Proceed (mkSys (consume 1 (world s)) (game s)).
Proof.
  destruct s as [[lines rnd clk] g]. cbn [world game stdin].
  intros -> Hnode Hvulns Hline. unfold invalid_selection in Hline.
  cbv [attack_menu get_node get_game input parse_int get_player try_except
       mbind M_bind mret M_ret raise world game stdin consume rand clock].
  rewrite Hnode, bool_decide_eq_false_2 by done.
  change (drop 1 (line :: rest)) with (drop 0 rest). rewrite drop_0.
  destruct (Py.int_of_str (Py.strip line)) as [c|]; [|done].
  set (n := Z.of_nat (length (vulns_list_of node))) in *.
  assert (Hrange : (1 <=? c) && (c <=? n) = false) by (apply andb_false_iff; lia).
  rewrite Hrange.
  assert (H1 : (c =? n + 1) = false) by lia. assert (H2 : (c =? n + 2) = false) by lia.
  assert (H3 : (c =? n + 3) = false) by lia. by rewrite H1, H2, H3.
Qed.

(** C4. An invalid selection in an attack session is not without
    effect: a line that is not a number, or a number outside the menu,
    falls through the [try] statement into the trace accrual, so the
    node's [trace_progress] grows by the trace increase of the turn, and
    the turn goes on to the administrator's response and to the
    completed trace.  The selection of an exploit whose tool is missing,
    by contrast, goes back to the prompt with the game unchanged. *)
Theorem invalid_choice_accrues_trace (uid : string) (s : Sys) (node : NetworkNode.t)
    (cooling : HardwareComponent.t) (line : string) (rest : list string) :
  let p := GameState.player (game s) in
  stdin (world s) = line :: rest ->
  GameState.nodes (game s) !! uid = Some node ->
  NetworkNode.discovered_vulns node <> ∅ ->
  invalid_selection (Z.of_nat (length (vulns_list_of node))) line ->
  PlayerState.hardware p !! "Cooling" = Some cooling ->
  Float.truthy (HardwareComponent.bonus cooling) = true ->
  let increase := trace_increase_formula (NetworkNode.trace_speed node)
                    (HardwareComponent.bonus cooling) (PlayerState.active_events p)
                    (NetworkNode.has_siem node) (stealth_discount p) in
  attack_iteration uid s
  = trace_response uid
      (mkSys (consume 1 (world s))
         (GameState.with_nodes
            (<[uid := NetworkNode.with_trace_progress
                        (NetworkNode.trace_progress node + increase)%float node]>
               (GameState.nodes (game s)))
            (game s)))
  /\ (forall s0 s1, attack_menu uid s0 = Ok Continue s1 ->
        attack_iteration uid s0 = Ok true s1 /\ game s1 = game s0).
Proof.
  intros p Hline Hnode Hvulns Hinvalid Hcool Hbonus increase. split.
  - unfold attack_iteration. unfold mbind at 1, M_bind at 1.
    rewrite (attack_menu_invalid uid s node line rest Hline Hnode Hvulns Hinvalid).
    unfold mbind, M_bind.
    by rewrite (accrue_trace_run uid (mkSys (consume 1 (world s)) (game s)) node cooling
                  Hnode Hcool Hbonus).
  - intros s0 s1 Hmenu. split; [|by apply (attack_menu_flow uid s0 s1 Continue)].
    unfold attack_iteration, mbind, M_bind. by rewrite Hmenu.
Qed.

(** The line "abc" typed in the session on the scenario node: the trace
    goes from 0 to 1.9 and the session prompts again. *)
Lemma invalid_choice_scenario :
  attack_iteration "a1b2c3d4e5f6" (attack_sys ["abc"])
  = Ok true
      (mkSys (mkWorld [] [] [])
         (GameState.with_nodes
            {["a1b2c3d4e5f6" := NetworkNode.with_trace_progress 1.9%float scenario_node]}
            attack_game))
  /\ NetworkNode.trace_progress scenario_node = 0.0%float.
Proof.
  split; [|reflexivity].
  destruct (invalid_choice_accrues_trace "a1b2c3d4e5f6" (attack_sys ["abc"]) scenario_node
              (HardwareComponent.mk "Stock Cooler" COOLING 1 0 1.0%float "Basic air cooling")
              "abc" []
              ltac:(reflexivity) ltac:(vm_compute; reflexivity)
              ltac:(apply (bool_decide_eq_false_1 _); vm_compute; reflexivity)
              ltac:(vm_compute; exact I)
              ltac:(vm_compute; reflexivity) ltac:(vm_compute; reflexivity)) as [Hrun _].
  rewrite Hrun. vm_compute. reflexivity.
Defined.

(** The same line typed when the trace stands at 99: the trace is
    completed, and the player pays for it in heat and credits. *)
Lemma invalid_choice_completes_trace :
  let traced := NetworkNode.with_trace_progress 99.0%float scenario_node in
  let s := mkSys (mkWorld ["abc"] [] [])
             (GameState.with_nodes {["a1b2c3d4e5f6" := traced]} attack_game) in
  let s' := final_state (attack_iteration "a1b2c3d4e5f6" s) in
  attack_iteration "a1b2c3d4e5f6" s = Ok false s'
  /\ PlayerState.heat_level (GameState.player (game s)) = 0
  /\ PlayerState.heat_level (GameState.player (game s')) = 15
  /\ PlayerState.credits (GameState.player (game s)) = 1000
  /\ PlayerState.credits (GameState.player (game s')) = 900.
Proof.
  cbv zeta.
  split; [vm_compute; reflexivity|]. split; [vm_compute; reflexivity|].
  split; [vm_compute; reflexivity|]. split; vm_compute; reflexivity.
Qed.

(** ** Saving and loading *)

Import Persistence.

Lemma fields_eq_differ (eq : value -> value -> bool) (k : string) (x y : value) :
  eq x y = false ->
  forall pre1 pre2 rest1 rest2, length pre1 = length pre2 ->
  fields_eq eq (pre1 ++ (k, x) :: rest1) (pre2 ++ (k, y) :: rest2) = false.
Proof.
  intros Hxy pre1. induction pre1 as [|[k1 v1] pre1 IH]; intros [|[k2 v2] pre2] rest1 rest2 Hlen;
    try done; simpl.
  - by rewrite Hxy, andb_false_r.
  - rewrite IH by (simpl in Hlen; lia). by rewrite andb_false_r.
Qed.

(** C1. A vulnerability does not come back from a save file as it was
    written: its [firewall_damage] is written as a JSON array and
    [load_from_dict] leaves it a list, so the loaded object differs from
    the saved one, whose [firewall_damage] is a tuple.  Hence a node with
    a vulnerability is not restored to an equal node; in the scenario
    the player comes back equal and the node does not. *)
Theorem firewall_damage_not_restored :
  (forall v : Vulnerability.t,
     exists v' : value,
       reload_vulnerability v = Some v'
       /\ follow [Field "firewall_damage"] (Vulnerability_obj v)
          = Some (VTuple [VInt (Vulnerability.firewall_damage v).1;
                          VInt (Vulnerability.firewall_damage v).2])
       /\ follow [Field "firewall_damage"] v'
          = Some (VList [VInt (Vulnerability.firewall_damage v).1;
                         VInt (Vulnerability.firewall_damage v).2])
       /\ py_eq (Vulnerability_obj v) v' = false)
  /\ (exists (st' : state) (node' : value),
        save_then_load 0 (state_of attack_game) = Some st'
        /\ py_eq (player (state_of attack_game)) (player st') = true
        /\ dict_get "a1b2c3d4e5f6" (nodes st') = Some node'
        /\ follow [Field "services"; Item 0%nat; Field "vulnerabilities"; Item 0%nat;
                   Field "firewall_damage"] (NetworkNode_obj scenario_node)
           = Some (VTuple [VInt 15; VInt 30])
        /\ follow [Field "services"; Item 0%nat; Field "vulnerabilities"; Item 0%nat;
                   Field "firewall_damage"] node'
           = Some (VList [VInt 15; VInt 30])
        /\ py_eq (NetworkNode_obj scenario_node) node' = false).
Proof.
  split.
  - intros [name et severity patch difficulty [lo hi] cost base tool].
    cbn [Vulnerability.firewall_damage fst snd Vulnerability_obj follow dict_get String.eqb
         Ascii.eqb Bool.eqb mbind option_bind].
    exists (VObj "Vulnerability" [
      ("name", VStr name);
      ("exploit_type", VEnum "ExploitType" (ExploitType_value et));
      ("severity", VFloat severity);
      ("patch_level", VInt patch);
      ("discovery_difficulty", VFloat difficulty);
      ("firewall_damage", VList [VInt lo; VInt hi]);
      ("trace_cost", VInt cost);
      ("success_rate_base", VFloat base);
      ("requires_tool", VOpt VStr tool)]).
    split; [destruct tool, et; lazy; reflexivity|].
    split; [reflexivity|]. split; [reflexivity|].
    cbn [py_eq]. apply andb_false_iff. right.
    apply (fields_eq_differ py_eq "firewall_damage" (VTuple [VInt lo; VInt hi])
             (VList [VInt lo; VInt hi]) eq_refl
             [_; _; _; _; _] [_; _; _; _; _] [_; _; _] [_; _; _] eq_refl).
  - eexists _, _. split; [vm_compute; reflexivity|].
    split; [vm_compute; reflexivity|]. split; [vm_compute; reflexivity|].
    split; [vm_compute; reflexivity|]. split; vm_compute; reflexivity.
Qed.
(** ** Loading a save file with keys missing *)

(** X18.  [load_from_dict] reads [data['nodes']] and [data['player']]
    and fails when either key is missing; the other keys are read with
    [data.get]: a missing 'world_seed' gives a freshly drawn seed, and
    missing 'contracts', 'rivals', 'game_events' or 'black_market' give
    empty lists. *)
Theorem load_from_dict_keys (fresh_seed : Z) (d : dict) :
  (dict_get "nodes" d = None \/ dict_get "player" d = None ->
   load_from_dict fresh_seed (VDict d) = None)
  /\ forall st, load_from_dict fresh_seed (VDict d) = Some st ->
       (dict_get "world_seed" d = None -> seed st = VInt fresh_seed)
       /\ (dict_get "contracts" d = None -> contracts st = [])
       /\ (dict_get "rivals" d = None -> rival_hackers st = [])
       /\ (dict_get "game_events" d = None -> event_log st = [])
       /\ (dict_get "black_market" d = None -> black_market_tools st = []).
Proof.
  unfold load_from_dict. simpl. split.
  - intros [H|H].
    + by rewrite H.
    + destruct (dict_get "nodes" d) as [n_list|]; [simpl|done].
      destruct (items_of n_list) as [l|]; [simpl|done].
      destruct (traverse load_node l) as [loaded|]; [simpl|done].
      destruct (store_nodes [] loaded); [simpl|done].
      by rewrite H.
  - intros st Hload.
    destruct (dict_get "nodes" d) as [n_list|]; [simpl in Hload|done].
    destruct (items_of n_list) as [l|]; [simpl in Hload|done].
    destruct (traverse load_node l) as [loaded|]; [simpl in Hload|done].
    destruct (store_nodes [] loaded) as [nodes|]; [simpl in Hload|done].
    destruct (dict_get "player" d) as [p_data|]; [simpl in Hload|done].
    destruct (load_player p_data) as [player|]; [simpl in Hload|done].
    destruct (items_of (default (VList []) (dict_get "contracts" d))) as [cs|] eqn:Hcs;
      [simpl in Hload|done].
    destruct (traverse load_contract cs) as [cs'|] eqn:Hcs'; [simpl in Hload|done].
    destruct (items_of (default (VList []) (dict_get "rivals" d))) as [rs|] eqn:Hrs;
      [simpl in Hload|done].
    destruct (traverse load_rival rs) as [rs'|] eqn:Hrs'; [simpl in Hload|done].
    destruct (items_of (default (VList []) (dict_get "game_events" d))) as [ev|] eqn:Hev;
      [simpl in Hload|done].
    destruct (build_with_enum _ _ _ _ _ (default (VList []) (dict_get "black_market" d)))
      as [market|] eqn:Hm; [simpl in Hload|done].
    destruct (items_of market) as [tools|] eqn:Htools; [simpl in Hload|done].
    injection Hload as <-. simpl. split_and!; intros Hnone; rewrite Hnone in *; simpl in *.
    + done.
    + injection Hcs as <-. simpl in Hcs'. by injection Hcs' as <-.
    + injection Hrs as <-. simpl in Hrs'. by injection Hrs' as <-.
    + by injection Hev as <-.
    + injection Hm as <-. by injection Htools as <-.
Qed.

Lemma load_from_dict_keys_witness :
  load_from_dict 7 (VDict []) = None
  /\ dict_get "world_seed" minimal_save = None
  /\ exists st,
       load_from_dict 7 (VDict minimal_save) = Some st
       /\ seed st = VInt 7
       /\ contracts st = [] /\ rival_hackers st = [] /\ event_log st = []
       /\ black_market_tools st = [].
Proof.
  split; [exact (proj1 (load_from_dict_keys 7 []) (or_introl eq_refl))|].
  split; [vm_compute; reflexivity|].
  destruct (load_from_dict 7 (VDict minimal_save)) as [st|] eqn:Hload;
    [|vm_compute in Hload; discriminate].
  exists st. split; [done|].
  destruct (proj2 (load_from_dict_keys 7 minimal_save) st Hload) as (H1 & H2 & H3 & H4 & H5).
  split_and!;
    [apply H1 | apply H2 | apply H3 | apply H4 | apply H5]; vm_compute; reflexivity.
Defined.
